(** * CuttleFS: a shallow embedding of the block manager, the page cache,
      the fsync policies and the data path of the filesystem facade.

    Python objects that are mutated in place and reachable through more than
    one name (pages, fault sequences, the in-memory inodes, the block
    manager) live in explicit stores; every operation is a state transformer
    that also says how the call ended: it returned a value, or it raised.
    What was mutated before an exception stays mutated, as in Python. *)

From Stdlib Require Import ZArith Lia List Ascii String.
From Stdlib.Strings Require Import Byte.
From stdpp Require Import base tactics option list gmap sets strings.

Open Scope Z_scope.

(** ** Python values used by the code *)

(** [constants.py] is imported by every module. *)
(** Modelled from the spec: the module [cuttlefs/constants.py] (the values of
    [PAGE_SZ] and [SECTOR_SZ]); the spec fixes PAGE_SIZE = 4096 bytes and
    SECTOR_SIZE = 512 bytes. *)
Definition PAGE_SZ : Z := 4096.
Definition SECTOR_SZ : Z := 512.

(** [errno.EIO] *)
Definition EIO : Z := 5.

Abbreviation bytes := (list byte).

(** [bytearray(n)] and [b'\0' * n] *)
Definition zeros (n : Z) : bytes := repeat x00 (Z.to_nat n).

(** [b[lo:hi]] for indices that are not negative. *)
Definition slice {A} (b : list A) (lo hi : Z) : list A :=
  take (Z.to_nat (hi - lo)) (drop (Z.to_nat lo) b).

(** [b[lo:hi] = v] on a bytearray, for indices that are not negative: the
    slice is cut out and [v] put in its place, whatever its length. *)
Definition slice_assign {A} (b : list A) (lo hi : Z) (v : list A) : list A :=
  take (Z.to_nat lo) b ++ v ++ drop (Z.to_nat (Z.max lo hi)) b.

(** The exceptions the modelled code can raise. *)
Inductive exn :=
  | AttributeError
  | NameError
  | KeyError
  | IndexError
  | TypeError
  | ValueError
  | AssertionError
  | FileNotFoundError
  | OSError.

(** How a call ended.  [Diverged] is a loop whose state no longer changes
    and whose guard stays true; [OutOfFuel] is the embedding's bound on a
    loop, never reached (see [write_loop_fuel], [read_loop_fuel]).
    [NoObject] is a reference that names no object in the store: Python has
    no such reference, and no state built by the operations has one. *)
Inductive outcome (A : Type) :=
  | Returned (a : A)
  | Raised (e : exn)
  | Diverged
  | OutOfFuel
  | NoObject.
Arguments Returned {A} a.
Arguments Raised {A} e.
Arguments Diverged {A}.
Arguments OutOfFuel {A}.
Arguments NoObject {A}.

(** State transformers with an outcome. *)
Definition M (S A : Type) : Type := S → S * outcome A.

Definition ret {S A} (a : A) : M S A := λ s, (s, Returned a).
Definition raise {S A} (e : exn) : M S A := λ s, (s, Raised e).
Definition bind {S A B} (c : M S A) (k : A → M S B) : M S B :=
  λ s, match c s with
       | (s', Returned a) => k a s'
       | (s', Raised e) => (s', Raised e)
       | (s', Diverged) => (s', Diverged)
       | (s', OutOfFuel) => (s', OutOfFuel)
       | (s', NoObject) => (s', NoObject)
       end.
Definition gets {S A} (f : S → A) : M S A := λ s, (s, Returned (f s)).
Definition modify {S} (f : S → S) : M S unit := λ s, (f s, Returned tt).
Definition assert {S} (b : bool) : M S unit :=
  if b then ret tt else raise AssertionError.
Definition when {S} (b : bool) (c : M S unit) : M S unit :=
  if b then c else ret tt.

Notation "'let!' x ':=' c 'in' k" := (bind c (λ x, k))
  (at level 10, x pattern, c at level 100, k at level 200).
Notation "c ';;;' k" := (bind c (λ _, k))
  (at level 100, k at level 200, right associativity).

(** A Python [dict] with integer keys, in insertion order (iteration over
    [values()] follows it). *)
Module PyDict.
Definition t (V : Type) : Type := list (Z * V).

Fixpoint get {V} (k : Z) (d : t V) : option V :=
  match d with
  | [] => None
  | (k', v) :: d' => if k =? k' then Some v else get k d'
  end.

(** [d[k] = v]: an existing key keeps its place. *)
Fixpoint set {V} (k : Z) (v : V) (d : t V) : t V :=
  match d with
  | [] => [(k, v)]
  | (k', v') :: d' => if k =? k' then (k, v) :: d' else (k', v') :: set k v d'
  end.

(** [d.pop(k, None)], the value dropped. *)
Definition pop {V} (k : Z) (d : t V) : t V :=
  List.filter (λ kv, negb (k =? kv.1)) d.

Definition values {V} (d : t V) : list V := map snd d.
Definition keys {V} (d : t V) : list Z := map fst d.
End PyDict.

(** ** failseq.py *)
Module FailSequence.
Record t := mk {
  idx : Z;
  seq : string;
  end_idx : Z;
  termchar : ascii;
}.

Definition len (s : string) : Z := Z.of_nat (String.length s).

(** [s[i]] on a [str], negative indices counting from the end. *)
Definition index (s : string) (i : Z) : option ascii :=
  if i <? 0
  then (if len s + i <? 0 then None else String.get (Z.to_nat (len s + i)) s)
  else String.get (Z.to_nat i) s.

(** [c.lower()] *)
Definition lower (c : ascii) : ascii :=
  let n := N_of_ascii c in
  if ((65 <=? n) && (n <=? 90))%N then ascii_of_N (n + 32) else c.

Definition allowed (c : ascii) : bool :=
  existsb (Ascii.eqb c) ["x"; "w"; "W"; "X"]%char.
Definition allowed_lower (c : ascii) : bool :=
  existsb (Ascii.eqb c) ["x"; "w"]%char.

(** [s[:-1]] *)
Definition but_last (s : string) : list ascii :=
  removelast (list_ascii_of_string s).

(** [_validate_seq].  The first check reports through
    [errors.append(fmt, unknown)], a call of [list.append] with two
    arguments, which raises [TypeError]. *)
Definition _validate_seq {S} (s : string) : M S unit :=
  if negb (forallb allowed (list_ascii_of_string s)) then raise TypeError
  else
    let errors1 := negb (forallb allowed_lower (but_last s)) in
    match index s (-1) with
    | None => raise IndexError
    | Some last =>
        let errors2 := negb (existsb (Ascii.eqb last) ["X"; "W"]%char) in
        if errors1 || errors2 then raise ValueError else ret tt
    end.

(** [FailSequence(seq)] *)
Definition init {S} (s : string) : M S t :=
  _validate_seq s ;;;
  match index s (-1) with
  | None => raise IndexError
  | Some last =>
      ret {| idx := -1; seq := s; termchar := lower last; end_idx := len s - 1 |}
  end.

(** [copy]: the sequence is validated again, the position is kept. *)
Definition copy {S} (f : t) : M S t :=
  let! c := init (seq f) in
  ret {| idx := idx f; seq := seq c; end_idx := end_idx c; termchar := termchar c |}.

(** [next]: the advanced object and what the call gives back. *)
Definition next (f : t) : t * outcome ascii :=
  let f' := {| idx := idx f + 1; seq := seq f; end_idx := end_idx f;
               termchar := termchar f |} in
  if idx f' >=? end_idx f' then (f', Returned (termchar f'))
  else match index (seq f') (idx f') with
       | Some c => (f', Returned c)
       | None => (f', Raised IndexError)
       end.
End FailSequence.

(** ** block_manager.py *)
Module BlockManager.
(** The message of a [BWRITE] log line. *)
Record bwrite_msg := mk_msg {
  msg_block : Z;
  msg_path : string;
  msg_offset : Z;
  bio_success : bool;
}.

(** [fp] is the content of the backing file; [log] the [BWRITE] lines
    written so far (the other log lines are not modelled). *)
Record t := mk {
  size : Z;
  free_list : list Z;
  largest_block_num : Z;
  faulty_paths : gmap string (gmap Z FailSequence.t);
  fp : bytes;
  log : list bwrite_msg;
}.

Definition set_faulty_paths (f : gmap string (gmap Z FailSequence.t)) (b : t) : t :=
  {| size := size b; free_list := free_list b;
     largest_block_num := largest_block_num b; faulty_paths := f;
     fp := fp b; log := log b |}.
Definition set_fp (c : bytes) (b : t) : t :=
  {| size := size b; free_list := free_list b;
     largest_block_num := largest_block_num b; faulty_paths := faulty_paths b;
     fp := c; log := log b |}.
Definition set_size (n : Z) (b : t) : t :=
  {| size := n; free_list := free_list b;
     largest_block_num := largest_block_num b; faulty_paths := faulty_paths b;
     fp := fp b; log := log b |}.
Definition set_free_list (l : list Z) (b : t) : t :=
  {| size := size b; free_list := l;
     largest_block_num := largest_block_num b; faulty_paths := faulty_paths b;
     fp := fp b; log := log b |}.
Definition set_largest_block_num (n : Z) (b : t) : t :=
  {| size := size b; free_list := free_list b;
     largest_block_num := n; faulty_paths := faulty_paths b;
     fp := fp b; log := log b |}.
Definition add_log (m : bwrite_msg) (b : t) : t :=
  {| size := size b; free_list := free_list b;
     largest_block_num := largest_block_num b; faulty_paths := faulty_paths b;
     fp := fp b; log := log b ++ [m] |}.

(** [os.pread(fd, n, offset)]: short at the end of the file. *)
Definition pread (file : bytes) (n offset : Z) : bytes :=
  take (Z.to_nat n) (drop (Z.to_nat offset) file).

(** [os.pwrite(fd, data, offset)]: a write past the end leaves a hole of
    zero bytes. *)
Definition pwrite (file : bytes) (data : bytes) (offset : Z) : bytes :=
  take (Z.to_nat offset) (file ++ zeros (offset - Z.of_nat (length file)))
    ++ data ++ drop (Z.to_nat offset + length data) file.

Definition bread (bnum : Z) : M t bytes :=
  let offset := bnum * PAGE_SZ in
  let! sz := gets size in
  assert (offset <? sz) ;;;
  if offset <? 0 then raise OSError
  else let! file := gets fp in ret (pread file PAGE_SZ offset).

(** The sector offsets [enable_failures_on] installs a sequence at. *)
Definition failure_offsets (idx : Z) (is_block : bool) : list Z :=
  if is_block
  then map (λ i, idx * PAGE_SZ + Z.of_nat i * SECTOR_SZ)
           (seq 0 (Z.to_nat (PAGE_SZ / SECTOR_SZ)))
  else [idx * SECTOR_SZ].

Fixpoint install (path : string) (s : FailSequence.t) (offsets : list Z) : M t unit :=
  match offsets with
  | [] => ret tt
  | offset :: rest =>
      let! fpaths := gets faulty_paths in
      let offset_seq_map := default ∅ (fpaths !! path) in
      assert (bool_decide (offset_seq_map !! offset = None)) ;;;
      let! c := FailSequence.copy s in
      modify (set_faulty_paths (<[path := <[offset := c]> offset_seq_map]> fpaths)) ;;;
      install path s rest
  end.

(** [enable_failures_on(path, seq, idx, is_block)], [seq] given as a
    string as the fault list has it. *)
Definition enable_failures_on (path : string) (s : string) (idx : Z)
    (is_block : bool) : M t unit :=
  let! s := FailSequence.init s in
  let! fpaths := gets faulty_paths in
  modify (set_faulty_paths (<[path := default ∅ (fpaths !! path)]> fpaths)) ;;;
  let offsets := failure_offsets idx is_block in
  assert (forallb (λ i, i mod SECTOR_SZ =? 0) offsets) ;;;
  install path s offsets.

(** One round of the sector loop of [bwrite]; [i] is the loop variable,
    the other locals are passed along. *)
Definition bwrite_sector (path : string) (data : bytes) (i : Z)
    (locals : bool * Z * Z) : M t (bool * Z * Z) :=
  let '(success, bfile_offset, file_offset) := locals in
  let! fpaths := gets faulty_paths in
  let offset_seq_map := default ∅ (fpaths !! path) in
  let! failed :=
    match offset_seq_map !! file_offset with
    | None => ret false
    | Some s =>
        let! c := (λ b, (set_faulty_paths
                           (<[path := <[file_offset := (FailSequence.next s).1]>
                                        offset_seq_map]> fpaths) b,
                         (FailSequence.next s).2)) in
        ret (Ascii.eqb c "x")
    end in
  let write_sector := negb failed in
  let success := success && negb failed in
  (if write_sector
   then if bfile_offset <? 0 then raise OSError
        else let! file := gets fp in
             modify (set_fp (pwrite file (slice data (i * 512) ((i + 1) * 512)) bfile_offset))
   else ret tt) ;;;
  ret (success, bfile_offset + 512, file_offset + 512).

Fixpoint bwrite_loop (path : string) (data : bytes) (sectors : list Z)
    (locals : bool * Z * Z) : M t (bool * Z * Z) :=
  match sectors with
  | [] => ret locals
  | i :: rest =>
      let! locals := bwrite_sector path data i locals in
      bwrite_loop path data rest locals
  end.

(** [range(n)] *)
Definition range (n : Z) : list Z := map Z.of_nat (seq 0 (Z.to_nat n)).

Definition bwrite (bnum : Z) (data : bytes) (ref : string * Z) : M t bool :=
  assert (Z.of_nat (length data) =? PAGE_SZ) ;;;
  let '(path, offset) := ref in
  let! (success, bfile_offset, file_offset) :=
    bwrite_loop path data (range (PAGE_SZ / SECTOR_SZ)) (true, bnum * PAGE_SZ, offset) in
  modify (add_log {| msg_block := bnum; msg_path := path; msg_offset := offset;
                     bio_success := success |}) ;;;
  let! sz := gets size in
  when (bfile_offset >=? sz) (modify (set_size bfile_offset)) ;;;
  ret success.

Definition alloc_block : M t Z :=
  let! fl := gets free_list in
  if 0 <? Z.of_nat (length fl)
  then match last fl with
       | Some block => modify (set_free_list (removelast fl)) ;;; ret block
       | None => raise IndexError
       end
  else
    let! block := gets largest_block_num in
    modify (set_largest_block_num (block + 1)) ;;;
    ret block.

Definition dealloc_block (block : Z) : M t unit :=
  let! fl := gets free_list in
  modify (set_free_list (fl ++ [block])).
End BlockManager.

(** ** page.py *)

(** References to [Page] objects. *)
Abbreviation loc := positive.

Module Page.
Record t := mk {
  inode : Z;
  offset : Z;
  content : bytes;
  flag_dirty : bool;
}.

(** [Page(inode, offset)] *)
Definition init (inode offset : Z) : t :=
  {| inode := inode; offset := offset; content := zeros PAGE_SZ; flag_dirty := false |}.

Definition set_content (c : bytes) (p : t) : t :=
  {| inode := inode p; offset := offset p; content := c; flag_dirty := flag_dirty p |}.
Definition set_flag_dirty (b : bool) (p : t) : t :=
  {| inode := inode p; offset := offset p; content := content p; flag_dirty := b |}.
End Page.

(** The per-file metadata record, the JSON text of the file at [realpath].
    Times are the values of [time.time()]; the code only copies them. *)
Module Meta.
Record t := mk {
  offset_to_block : PyDict.t Z;
  size : Z;
  atime : Z;
  mtime : Z;
}.
End Meta.

(** A file of the underlying file system: its inode number and its text. *)
Module Host.
Record file := mk {
  st_ino : Z;
  text : Meta.t;
}.
End Host.

Module MemInode.
Record t := mk {
  inode : Z;
  path : string;
  realpath : string;
  offset_to_block : PyDict.t Z;
  atime : Z;
  mtime : Z;
  size : Z;
  offset_to_page : PyDict.t loc;
}.

Definition set_realpath (r : string) (m : t) : t :=
  {| inode := inode m; path := path m; realpath := r;
     offset_to_block := offset_to_block m; atime := atime m; mtime := mtime m;
     size := size m; offset_to_page := offset_to_page m |}.
Definition set_offset_to_block (d : PyDict.t Z) (m : t) : t :=
  {| inode := inode m; path := path m; realpath := realpath m;
     offset_to_block := d; atime := atime m; mtime := mtime m;
     size := size m; offset_to_page := offset_to_page m |}.
Definition set_atime (a : Z) (m : t) : t :=
  {| inode := inode m; path := path m; realpath := realpath m;
     offset_to_block := offset_to_block m; atime := a; mtime := mtime m;
     size := size m; offset_to_page := offset_to_page m |}.
Definition set_mtime (a : Z) (m : t) : t :=
  {| inode := inode m; path := path m; realpath := realpath m;
     offset_to_block := offset_to_block m; atime := atime m; mtime := a;
     size := size m; offset_to_page := offset_to_page m |}.
Definition set_size (n : Z) (m : t) : t :=
  {| inode := inode m; path := path m; realpath := realpath m;
     offset_to_block := offset_to_block m; atime := atime m; mtime := mtime m;
     size := n; offset_to_page := offset_to_page m |}.
Definition set_offset_to_page (d : PyDict.t loc) (m : t) : t :=
  {| inode := inode m; path := path m; realpath := realpath m;
     offset_to_block := offset_to_block m; atime := atime m; mtime := mtime m;
     size := size m; offset_to_page := d |}.
End MemInode.

(** ** The state of a mounted file system *)

Inductive fsync_class := Ext4Ordered | XFS | Ext4Data | Btrfs.

(** [FDInfo] *)
Record FDInfo := mkFDInfo {
  fd_inode : Z;
  fd_path : string;
}.

(** The [CuttleFS] object with everything it reaches: the block manager, the
    page cache ([minode_map]; a [MemInode] object is named by the inode
    number it is stored under, its only reference that outlives a call),
    the [Page] objects ([pages]), the fd tables, the policy object
    ([fsync_cls] and its [failed_inodes_fd_map]), and the files under
    [root] and [metadir] in the underlying file system ([host]). *)
Record World := mkWorld {
  block_manager : BlockManager.t;
  minode_map : gmap Z MemInode.t;
  pages : gmap loc Page.t;
  host : gmap string Host.file;
  root : string;
  to_be_deleted : string;
  last_fd_alloced : Z;
  fd_info_map : gmap Z FDInfo;
  inode_to_open_fds_map : gmap Z (gset Z);
  sync_fds : gset Z;
  fsync_cls : fsync_class;
  failed_inodes_fd_map : gmap Z (gset Z);
}.

Definition set_block_manager (b : BlockManager.t) (w : World) : World :=
  {| block_manager := b; minode_map := minode_map w; pages := pages w;
     host := host w; root := root w; to_be_deleted := to_be_deleted w;
     last_fd_alloced := last_fd_alloced w; fd_info_map := fd_info_map w;
     inode_to_open_fds_map := inode_to_open_fds_map w; sync_fds := sync_fds w;
     fsync_cls := fsync_cls w; failed_inodes_fd_map := failed_inodes_fd_map w |}.
Definition set_minode_map (m : gmap Z MemInode.t) (w : World) : World :=
  {| block_manager := block_manager w; minode_map := m; pages := pages w;
     host := host w; root := root w; to_be_deleted := to_be_deleted w;
     last_fd_alloced := last_fd_alloced w; fd_info_map := fd_info_map w;
     inode_to_open_fds_map := inode_to_open_fds_map w; sync_fds := sync_fds w;
     fsync_cls := fsync_cls w; failed_inodes_fd_map := failed_inodes_fd_map w |}.
Definition set_pages (p : gmap loc Page.t) (w : World) : World :=
  {| block_manager := block_manager w; minode_map := minode_map w; pages := p;
     host := host w; root := root w; to_be_deleted := to_be_deleted w;
     last_fd_alloced := last_fd_alloced w; fd_info_map := fd_info_map w;
     inode_to_open_fds_map := inode_to_open_fds_map w; sync_fds := sync_fds w;
     fsync_cls := fsync_cls w; failed_inodes_fd_map := failed_inodes_fd_map w |}.
Definition set_host (h : gmap string Host.file) (w : World) : World :=
  {| block_manager := block_manager w; minode_map := minode_map w; pages := pages w;
     host := h; root := root w; to_be_deleted := to_be_deleted w;
     last_fd_alloced := last_fd_alloced w; fd_info_map := fd_info_map w;
     inode_to_open_fds_map := inode_to_open_fds_map w; sync_fds := sync_fds w;
     fsync_cls := fsync_cls w; failed_inodes_fd_map := failed_inodes_fd_map w |}.
Definition set_last_fd_alloced (n : Z) (w : World) : World :=
  {| block_manager := block_manager w; minode_map := minode_map w; pages := pages w;
     host := host w; root := root w; to_be_deleted := to_be_deleted w;
     last_fd_alloced := n; fd_info_map := fd_info_map w;
     inode_to_open_fds_map := inode_to_open_fds_map w; sync_fds := sync_fds w;
     fsync_cls := fsync_cls w; failed_inodes_fd_map := failed_inodes_fd_map w |}.
Definition set_fd_info_map (m : gmap Z FDInfo) (w : World) : World :=
  {| block_manager := block_manager w; minode_map := minode_map w; pages := pages w;
     host := host w; root := root w; to_be_deleted := to_be_deleted w;
     last_fd_alloced := last_fd_alloced w; fd_info_map := m;
     inode_to_open_fds_map := inode_to_open_fds_map w; sync_fds := sync_fds w;
     fsync_cls := fsync_cls w; failed_inodes_fd_map := failed_inodes_fd_map w |}.
Definition set_inode_to_open_fds_map (m : gmap Z (gset Z)) (w : World) : World :=
  {| block_manager := block_manager w; minode_map := minode_map w; pages := pages w;
     host := host w; root := root w; to_be_deleted := to_be_deleted w;
     last_fd_alloced := last_fd_alloced w; fd_info_map := fd_info_map w;
     inode_to_open_fds_map := m; sync_fds := sync_fds w;
     fsync_cls := fsync_cls w; failed_inodes_fd_map := failed_inodes_fd_map w |}.
Definition set_sync_fds (s : gset Z) (w : World) : World :=
  {| block_manager := block_manager w; minode_map := minode_map w; pages := pages w;
     host := host w; root := root w; to_be_deleted := to_be_deleted w;
     last_fd_alloced := last_fd_alloced w; fd_info_map := fd_info_map w;
     inode_to_open_fds_map := inode_to_open_fds_map w; sync_fds := s;
     fsync_cls := fsync_cls w; failed_inodes_fd_map := failed_inodes_fd_map w |}.
Definition set_failed_inodes_fd_map (m : gmap Z (gset Z)) (w : World) : World :=
  {| block_manager := block_manager w; minode_map := minode_map w; pages := pages w;
     host := host w; root := root w; to_be_deleted := to_be_deleted w;
     last_fd_alloced := last_fd_alloced w; fd_info_map := fd_info_map w;
     inode_to_open_fds_map := inode_to_open_fds_map w; sync_fds := sync_fds w;
     fsync_cls := fsync_cls w; failed_inodes_fd_map := m |}.

(** A method of [self.block_manager] called from the facade or a policy. *)
Definition on_block_manager {A} (c : M BlockManager.t A) : M World A :=
  λ w, let '(b, o) := c (block_manager w) in (set_block_manager b w, o).

(** Reading and writing through a reference to a [MemInode] object. *)
Definition get_minode (minode : Z) : M World MemInode.t :=
  λ w, match minode_map w !! minode with
       | Some m => (w, Returned m)
       | None => (w, NoObject)
       end.
Definition update_minode (minode : Z) (f : MemInode.t → MemInode.t) : M World unit :=
  modify (λ w, set_minode_map (alter f minode (minode_map w)) w).

(** Reading and writing through a reference to a [Page] object, and the
    creation of one. *)
Definition get_page (page : loc) : M World Page.t :=
  λ w, match pages w !! page with
       | Some p => (w, Returned p)
       | None => (w, NoObject)
       end.
Definition update_page (page : loc) (f : Page.t → Page.t) : M World unit :=
  modify (λ w, set_pages (alter f page (pages w)) w).
Definition new_page (p : Page.t) : M World loc :=
  λ w, let l := fresh (dom (pages w)) in
       (set_pages (<[l := p]> (pages w)) w, Returned l).

(** [open(realpath, 'r')] and [json.load] *)
Definition read_meta (realpath : string) : M World Meta.t :=
  λ w, match host w !! realpath with
       | Some f => (w, Returned (Host.text f))
       | None => (w, Raised FileNotFoundError)
       end.

(** [open(realpath, 'w')] and [json.dump]: the file is created when it is
    not there, with an inode number no other file has. *)
Definition write_meta (realpath : string) (meta : Meta.t) : M World unit :=
  modify (λ w,
    let ino := match host w !! realpath with
               | Some f => Host.st_ino f
               | None => fresh (list_to_set (C := gset Z)
                                  ((Host.st_ino ∘ snd) <$> map_to_list (host w)))
               end in
    set_host (<[realpath := {| Host.st_ino := ino; Host.text := meta |}]> (host w)) w).

(** [MemInode(inode, path, realpath)] *)
Definition MemInode_init (inode : Z) (path realpath : string) : M World MemInode.t :=
  let! data := read_meta realpath in
  ret {| MemInode.inode := inode; MemInode.path := path;
         MemInode.realpath := realpath;
         MemInode.offset_to_block := Meta.offset_to_block data;
         MemInode.atime := Meta.atime data; MemInode.mtime := Meta.mtime data;
         MemInode.size := Meta.size data; MemInode.offset_to_page := [] |}.

(** [minode.get_dirty_pages()] *)
Fixpoint filter_dirty (ps : list loc) : M World (list loc) :=
  match ps with
  | [] => ret []
  | p :: rest =>
      let! pg := get_page p in
      let! rest' := filter_dirty rest in
      ret (if Page.flag_dirty pg then p :: rest' else rest')
  end.
Definition get_dirty_pages (minode : Z) : M World (list loc) :=
  let! m := get_minode minode in
  filter_dirty (PyDict.values (MemInode.offset_to_page m)).

(** [PageCache] *)
Definition page_cache_get (inode : Z) : M World (option Z) :=
  let! mm := gets minode_map in
  ret (match mm !! inode with Some _ => Some inode | None => None end).
Definition page_cache_put (inode : Z) (minode : MemInode.t) : M World unit :=
  modify (λ w, set_minode_map (<[inode := minode]> (minode_map w)) w).
Definition page_cache_contains (inode : Z) : M World bool :=
  let! mm := gets minode_map in ret (bool_decide (is_Some (mm !! inode))).
Definition page_cache_remove (inode : Z) : M World unit :=
  modify (λ w, set_minode_map (delete inode (minode_map w)) w).

(** ** fsyncs.py *)

(** What a policy method is handed where it expects a [MemInode]. *)
Inductive pyobj :=
  | PyInt (n : Z)
  | PyMemInode (minode : Z).

Module GenericFsync.
Definition _should_notify_fd (fd inode : Z) : M World bool :=
  let! failed := gets failed_inodes_fd_map in
  match failed !! inode with
  | None => ret false
  | Some failed_fds =>
      if (size failed_fds =? 0)%nat then ret true
      else ret (bool_decide (fd ∈ failed_fds))
  end.

Definition _add_fds_to_notify (inode : Z) : M World unit :=
  let! open_fds := gets inode_to_open_fds_map in
  let all_open_fds := default ∅ (open_fds !! inode) in
  modify (λ w,
    let fd_set := default ∅ (failed_inodes_fd_map w !! inode) in
    set_failed_inodes_fd_map
      (<[inode := fd_set ∪ all_open_fds]> (failed_inodes_fd_map w)) w).

Definition _mark_fd_notified (fd inode : Z) : M World unit :=
  modify (λ w,
    match failed_inodes_fd_map w !! inode with
    | None => w
    | Some failed_fds =>
        let failed_fds := failed_fds ∖ {[fd]} in
        if (size failed_fds =? 0)%nat
        then set_failed_inodes_fd_map (delete inode (failed_inodes_fd_map w)) w
        else set_failed_inodes_fd_map (<[inode := failed_fds]> (failed_inodes_fd_map w)) w
    end).

Definition on_close_fd (fd inode : Z) : M World unit :=
  modify (λ w,
    match failed_inodes_fd_map w !! inode with
    | None => w
    | Some failed_fds =>
        set_failed_inodes_fd_map
          (<[inode := failed_fds ∖ {[fd]}]> (failed_inodes_fd_map w)) w
    end).

(** The body of the loop of [sync_pages] up to the call of [bwrite]: the
    block is looked up or allocated, then the flag is cleared. *)
Definition sync_page_prepare (minode : Z) (dirty_page : loc) : M World Z :=
  let! pg := get_page dirty_page in
  let! m := get_minode minode in
  let! block :=
    match PyDict.get (Page.offset pg) (MemInode.offset_to_block m) with
    | Some block => ret block
    | None =>
        let! block := on_block_manager BlockManager.alloc_block in
        update_minode minode (λ m, MemInode.set_offset_to_block
          (PyDict.set (Page.offset pg) block (MemInode.offset_to_block m)) m) ;;;
        ret block
    end in
  update_page dirty_page (Page.set_flag_dirty false) ;;;
  ret block.

Definition sync_page_bwrite (minode : Z) (dirty_page : loc) (block : Z) : M World bool :=
  let! pg := get_page dirty_page in
  let! m := get_minode minode in
  on_block_manager
    (BlockManager.bwrite block (Page.content pg) (MemInode.path m, Page.offset pg)).

Fixpoint sync_pages_loop (minode : Z) (pages : list loc) (r : Z) : M World Z :=
  match pages with
  | [] => ret r
  | dirty_page :: rest =>
      let! pg := get_page dirty_page in
      if negb (Page.flag_dirty pg) then sync_pages_loop minode rest r
      else
        let! block := sync_page_prepare minode dirty_page in
        let! bsuccess := sync_page_bwrite minode dirty_page block in
        sync_pages_loop minode rest (if negb bsuccess then - EIO else r)
  end.

Definition sync_pages (minode : Z) (pages : list loc) : M World Z :=
  sync_pages_loop minode pages 0.

Definition sync_meta (minode : pyobj) : M World unit :=
  match minode with
  | PyInt _ => raise AttributeError
  | PyMemInode minode =>
      let! m := get_minode minode in
      write_meta (MemInode.realpath m)
        {| Meta.size := MemInode.size m; Meta.atime := MemInode.atime m;
           Meta.mtime := MemInode.mtime m;
           Meta.offset_to_block := MemInode.offset_to_block m |}
  end.

Definition on_fsync (fd inode minode : Z) : M World Z :=
  let! dirty_pages := get_dirty_pages minode in
  let! r := sync_pages minode dirty_pages in
  sync_meta (PyMemInode minode) ;;;
  when (negb (r =? 0)) (_add_fds_to_notify inode) ;;;
  let! notify := _should_notify_fd fd inode in
  if notify then _mark_fd_notified fd inode ;;; ret (- EIO)
  else ret r.

Definition on_sync_write (fd inode minode : Z) (pages : list loc) : M World Z :=
  let! notify := _should_notify_fd fd inode in
  if notify then _mark_fd_notified fd inode ;;; ret (- EIO)
  else
    let! r := sync_pages minode pages in
    sync_meta (PyMemInode minode) ;;;
    when (negb (r =? 0))
      (_add_fds_to_notify inode ;;; _mark_fd_notified fd inode) ;;;
    ret r.
End GenericFsync.

Module Ext4Data.
Definition on_fsync (fd inode minode : Z) : M World Z :=
  let! notify := GenericFsync._should_notify_fd fd inode in
  if notify then GenericFsync._mark_fd_notified fd inode ;;; ret (- EIO)
  else
    let! dirty_pages := get_dirty_pages minode in
    let! r := GenericFsync.sync_pages minode dirty_pages in
    GenericFsync.sync_meta (PyMemInode minode) ;;;
    when (negb (r =? 0)) (GenericFsync._add_fds_to_notify inode) ;;;
    ret 0.

(** [sync_meta] is handed [inode], the integer. *)
Definition on_sync_write (fd inode minode : Z) (pages : list loc) : M World Z :=
  let! notify := GenericFsync._should_notify_fd fd inode in
  if notify then GenericFsync._mark_fd_notified fd inode ;;; ret (- EIO)
  else
    let! r := GenericFsync.sync_pages minode pages in
    GenericFsync.sync_meta (PyInt inode) ;;;
    when (negb (r =? 0)) (GenericFsync._add_fds_to_notify inode) ;;;
    ret 0.
End Ext4Data.

Module Btrfs.
(** The loop of [sync_pages]; the locals are [ret], [old_blocks] and
    [new_blocks].  A failed [bwrite] leaves the loop. *)
Fixpoint sync_pages_loop (minode : Z) (pages : list loc)
    (locals : Z * list Z * list Z) : M World (Z * list Z * list Z) :=
  match pages with
  | [] => ret locals
  | dirty_page :: rest =>
      let '(r, old_blocks, new_blocks) := locals in
      let! pg := get_page dirty_page in
      if negb (Page.flag_dirty pg) then sync_pages_loop minode rest locals
      else
        let! m := get_minode minode in
        let old_block := PyDict.get (Page.offset pg) (MemInode.offset_to_block m) in
        let old_blocks :=
          match old_block with
          | Some b => old_blocks ++ [b]
          | None => old_blocks
          end in
        let! block := on_block_manager BlockManager.alloc_block in
        update_minode minode (λ m, MemInode.set_offset_to_block
          (PyDict.set (Page.offset pg) block (MemInode.offset_to_block m)) m) ;;;
        let new_blocks := new_blocks ++ [block] in
        update_page dirty_page (Page.set_flag_dirty false) ;;;
        let! bsuccess := GenericFsync.sync_page_bwrite minode dirty_page block in
        if negb bsuccess then ret (- EIO, old_blocks, new_blocks)
        else sync_pages_loop minode rest (r, old_blocks, new_blocks)
  end.

Fixpoint dealloc_blocks (blocks : list Z) : M World unit :=
  match blocks with
  | [] => ret tt
  | block :: rest =>
      on_block_manager (BlockManager.dealloc_block block) ;;; dealloc_blocks rest
  end.

Definition sync_pages (minode : Z) (pages : list loc) : M World Z :=
  let! (r, old_blocks, new_blocks) := sync_pages_loop minode pages (0, [], []) in
  let blocks_to_dealloc := if r =? 0 then old_blocks else new_blocks in
  dealloc_blocks blocks_to_dealloc ;;;
  ret r.

Definition sync_meta (minode : pyobj) : M World unit :=
  GenericFsync.sync_meta minode.

Fixpoint pop_pages (minode : Z) (pages : list loc) : M World unit :=
  match pages with
  | [] => ret tt
  | page :: rest =>
      let! pg := get_page page in
      update_minode minode (λ m, MemInode.set_offset_to_page
        (PyDict.pop (Page.offset pg) (MemInode.offset_to_page m)) m) ;;;
      pop_pages minode rest
  end.

Definition on_fsync (fd inode minode : Z) : M World Z :=
  let! notify := GenericFsync._should_notify_fd fd inode in
  if notify then GenericFsync._mark_fd_notified fd inode ;;; ret (- EIO)
  else
    let! dirty_pages := get_dirty_pages minode in
    let! r := sync_pages minode dirty_pages in
    if r =? 0 then sync_meta (PyMemInode minode) ;;; ret r
    else
      let! m := get_minode minode in
      let! disk_meta := read_meta (MemInode.realpath m) in
      update_minode minode (MemInode.set_size (Meta.size disk_meta)) ;;;
      update_minode minode (MemInode.set_atime (Meta.atime disk_meta)) ;;;
      update_minode minode (MemInode.set_mtime (Meta.mtime disk_meta)) ;;;
      update_minode minode
        (MemInode.set_offset_to_block (Meta.offset_to_block disk_meta)) ;;;
      pop_pages minode dirty_pages ;;;
      GenericFsync._add_fds_to_notify inode ;;;
      GenericFsync._mark_fd_notified fd inode ;;;
      ret r.

Definition on_sync_write (fd inode minode : Z) (pages : list loc) : M World Z :=
  on_fsync fd inode minode.
End Btrfs.

(** The methods of [self.fsync_obj], by its class. *)
Definition on_fsync (fd inode minode : Z) : M World Z :=
  let! cls := gets fsync_cls in
  match cls with
  | Ext4Ordered | XFS => GenericFsync.on_fsync fd inode minode
  | Ext4Data => Ext4Data.on_fsync fd inode minode
  | Btrfs => Btrfs.on_fsync fd inode minode
  end.

Definition on_sync_write (fd inode minode : Z) (pages : list loc) : M World Z :=
  let! cls := gets fsync_cls in
  match cls with
  | Ext4Ordered | XFS => GenericFsync.on_sync_write fd inode minode pages
  | Ext4Data => Ext4Data.on_sync_write fd inode minode pages
  | Btrfs => Btrfs.on_sync_write fd inode minode pages
  end.

Definition on_close_fd (fd inode : Z) : M World unit :=
  GenericFsync.on_close_fd fd inode.

(** ** cuttlefs.py *)

(** [x.lstrip("/")] *)
Fixpoint lstrip (x : string) : string :=
  match x with
  | String c x' => if Ascii.eqb c "/" then lstrip x' else x
  | EmptyString => x
  end.

(** [self.realpath(x)], that is [self.root / x.lstrip("/")], for paths
    without [.] and [..] components. *)
Definition realpath (x : string) : M World string :=
  let! r := gets root in
  ret (if String.eqb (lstrip x) "" then r else r ++ "/" ++ lstrip x)%string.

(** [p.parent] for a path with at least two components: the path up to
    its last [/]. *)
Fixpoint after_slash (cs : list ascii) : list ascii :=
  match cs with
  | [] => []
  | c :: cs' => if Ascii.eqb c "/" then cs' else after_slash cs'
  end.
Definition parent (p : string) : string :=
  string_of_list_ascii (rev (after_slash (rev (list_ascii_of_string p)))).

(** [os.stat(p).st_ino] *)
Definition stat_ino (p : string) : M World Z :=
  λ w, match host w !! p with
       | Some f => (w, Returned (Host.st_ino f))
       | None => (w, Raised FileNotFoundError)
       end.

(** The names bound on a [CuttleFS] object, besides those every [object]
    has: the attributes set by [__init__] and by [cli.main], the methods of
    [CuttleFS] and [PassthroughOperations], and the members of fusepy's
    [Operations]. *)
Definition CuttleFS_dir : list string :=
  [ "log"; "root"; "realpath"; "metadir"; "block_manager"; "to_be_deleted";
    "page_cache"; "_last_fd_alloced"; "fd_info_map"; "inode_to_open_fds_map";
    "sync_fds"; "fsync_obj"; "server"; "server_thread";
    "post_init_validation"; "_alloc_fd"; "create"; "flush"; "fsync";
    "getattr"; "open"; "_get_page_for_offset"; "read"; "write"; "release";
    "rename"; "statfs"; "truncate"; "_unlink_open_file"; "unlink"; "utimens";
    "fs_checkpoint"; "destroy"; "_command_allow_all_writes";
    "_command_insert_log_entry"; "_command_evict_clean_pages";
    "_command_checkpoint"; "handle_command"; "__call__";
    "access"; "chmod"; "chown"; "fsyncdir"; "link"; "mkdir"; "mknod";
    "readdir"; "readlink"; "rmdir"; "symlink"; "getxattr"; "listxattr";
    "setxattr"; "removexattr";
    "bmap"; "init"; "ioctl"; "lock"; "opendir"; "releasedir" ]%string.

(** [self.<name>] where the code goes on to use the attribute as [bound]
    describes: the read raises when the object has no such name. *)
Definition self_attr {A} (name : string) (bound : M World A) : M World A :=
  if existsb (String.eqb name) CuttleFS_dir then bound else raise AttributeError.

(** The flags of [fi] the code looks at. *)
Record flags := mkFlags {
  O_DIRECT : bool;
  O_NOFOLLOW : bool;
  O_SYNC : bool;
  O_DSYNC : bool;
}.
Definition has_sync_enabled (f : flags) : bool := O_SYNC f || O_DSYNC f.

Definition _alloc_fd (path : string) (inode : Z) : M World Z :=
  let! h := gets host in
  assert (bool_decide (is_Some (h !! path))) ;;;
  let! last := gets last_fd_alloced in
  let new_fd := last + 1 in
  modify (set_last_fd_alloced new_fd) ;;;
  let info := {| fd_inode := inode; fd_path := path |} in
  modify (λ w, set_fd_info_map (<[new_fd := info]> (fd_info_map w)) w) ;;;
  modify (λ w, set_inode_to_open_fds_map
    (<[inode := default ∅ (inode_to_open_fds_map w !! inode) ∪ {[new_fd]}]>
       (inode_to_open_fds_map w)) w) ;;;
  ret new_fd.

(** [open(path, fi)]; the value is the descriptor stored in [fi.fh]. *)
Definition open (path : string) (fi : flags) : M World Z :=
  assert (negb (O_DIRECT fi)) ;;;
  assert (negb (O_NOFOLLOW fi)) ;;;
  let! p := realpath path in
  let! inode := stat_ino p in
  let! cached := page_cache_contains inode in
  when (negb cached)
    (let! minode := MemInode_init inode path p in page_cache_put inode minode) ;;;
  let! fh := _alloc_fd p inode in
  when (has_sync_enabled fi) (modify (λ w, set_sync_fds (sync_fds w ∪ {[fh]}) w)) ;;;
  ret fh.

Definition fsync (path : string) (datasync : Z) (fd : Z) : M World Z :=
  let! fmap := gets fd_info_map in
  match fmap !! fd with
  | None => raise KeyError
  | Some fd_info =>
      let! cached := page_cache_contains (fd_inode fd_info) in
      if negb cached then ret 0
      else on_fsync fd (fd_inode fd_info) (fd_inode fd_info)
  end.

Definition _get_page_for_offset (minode : Z) (offset : Z) : M World loc :=
  assert (offset mod PAGE_SZ =? 0) ;;;
  let! m := get_minode minode in
  match PyDict.get offset (MemInode.offset_to_page m) with
  | Some page => ret page
  | None =>
      let! page := new_page (Page.init (MemInode.inode m) offset) in
      update_minode minode (λ m, MemInode.set_offset_to_page
        (PyDict.set offset page (MemInode.offset_to_page m)) m) ;;;
      match PyDict.get offset (MemInode.offset_to_block m) with
      | Some block =>
          let! c := on_block_manager (BlockManager.bread block) in
          update_page page (Page.set_content c) ;;;
          ret page
      | None => ret page
      end
  end.

(** The [while remaining > 0] loop of [read]; the locals are [buf],
    [remaining] and [current_offset].  A round that reads no byte leaves
    them as they were, and every later round finds the same page: the loop
    does not end. *)
Fixpoint read_loop (fuel : nat) (minode : Z) (locals : bytes * Z * Z)
    : M World (bytes * Z * Z) :=
  let '(buf, remaining, current_offset) := locals in
  if negb (remaining >? 0) then ret locals
  else match fuel with
  | O => λ w, (w, OutOfFuel)
  | S fuel =>
      let page_num := current_offset / PAGE_SZ in
      let! page := _get_page_for_offset minode (page_num * PAGE_SZ) in
      let! pg := get_page page in
      let pg_start := current_offset mod PAGE_SZ in
      let pg_nbytes := Z.min remaining (PAGE_SZ - pg_start) in
      let data := slice (Page.content pg) pg_start (pg_start + pg_nbytes) in
      if Z.of_nat (length data) =? 0 then λ w, (w, Diverged)
      else read_loop fuel minode
             (buf ++ data, remaining - Z.of_nat (length data),
              current_offset + Z.of_nat (length data))
  end.

(** Every round of [read_loop] takes at least one byte off [remaining]. *)
Definition read_loop_fuel (remaining : Z) : nat := Z.to_nat remaining.

Definition read (path : string) (size offset fd : Z) : M World bytes :=
  let! fmap := gets fd_info_map in
  match fmap !! fd with
  | None => raise KeyError
  | Some fd_info =>
      let! cached := page_cache_contains (fd_inode fd_info) in
      when (negb cached)
        (let! minode := MemInode_init (fd_inode fd_info) path (fd_path fd_info) in
         page_cache_put (fd_inode fd_info) minode) ;;;
      let minode := fd_inode fd_info in
      if size =? 0 then ret []
      else
        let! m := get_minode minode in
        if offset >=? MemInode.size m then ret []
        else
          let size := if offset + size >=? MemInode.size m
                      then MemInode.size m - offset else size in
          let! (buf, _, _) :=
            read_loop (read_loop_fuel size) minode ([], size, offset) in
          ret buf
  end.

(** The [while remaining > 0] loop of [write]; the locals are
    [dirty_pages], [data_idx], [remaining] and [current_offset]. *)
Fixpoint write_loop (fuel : nat) (minode : Z) (data : bytes)
    (locals : list loc * Z * Z * Z) : M World (list loc * Z * Z * Z) :=
  let '(dirty_pages, data_idx, remaining, current_offset) := locals in
  if negb (remaining >? 0) then ret locals
  else match fuel with
  | O => λ w, (w, OutOfFuel)
  | S fuel =>
      let page_num := current_offset / PAGE_SZ in
      let! page := _get_page_for_offset minode (page_num * PAGE_SZ) in
      let pg_start := current_offset mod PAGE_SZ in
      let pg_nbytes := Z.min remaining (PAGE_SZ - pg_start) in
      update_page page (λ p, Page.set_content
        (slice_assign (Page.content p) pg_start (pg_start + pg_nbytes)
           (slice data data_idx (data_idx + pg_nbytes))) p) ;;;
      update_page page (Page.set_flag_dirty true) ;;;
      write_loop fuel minode data
        (dirty_pages ++ [page], data_idx + pg_nbytes, remaining - pg_nbytes,
         current_offset + pg_nbytes)
  end.

(** Every round of [write_loop] takes at least one byte off [remaining]. *)
Definition write_loop_fuel (remaining : Z) : nat := Z.to_nat remaining.

(** [write(path, data, offset, fi)]; [now] is what [time.time()] gives. *)
Definition write (path : string) (data : bytes) (offset fd : Z) (now : Z) : M World Z :=
  let! fmap := gets fd_info_map in
  match fmap !! fd with
  | None => raise KeyError
  | Some fd_info =>
      let size := Z.of_nat (length data) in
      let! cached := page_cache_contains (fd_inode fd_info) in
      when (negb cached)
        (let! minode := MemInode_init (fd_inode fd_info) path (fd_path fd_info) in
         page_cache_put (fd_inode fd_info) minode) ;;;
      let minode := fd_inode fd_info in
      if size =? 0 then ret 0
      else
        let! sfds := gets sync_fds in
        let sync_fd := bool_decide (fd ∈ sfds) in
        let! (dirty_pages, data_idx, remaining, current_offset) :=
          write_loop (write_loop_fuel size) minode data ([], 0, size, offset) in
        let nbytes_written := size - remaining in
        let! m := get_minode minode in
        when (offset + nbytes_written >? MemInode.size m)
          (update_minode minode (MemInode.set_size (offset + nbytes_written))) ;;;
        update_minode minode (MemInode.set_mtime now) ;;;
        if sync_fd then
          let! r := self_attr "on_sync_write"
                      (on_sync_write fd (fd_inode fd_info) minode dirty_pages) in
          if r <? 0 then ret r else ret nbytes_written
        else ret nbytes_written
  end.

(** [for block in minode.offset_to_block.values(): dealloc_block(block)] *)
Fixpoint dealloc_all (blocks : list Z) : M World unit :=
  match blocks with
  | [] => ret tt
  | block :: rest =>
      on_block_manager (BlockManager.dealloc_block block) ;;; dealloc_all rest
  end.

(** [os.unlink(p)] *)
Definition os_unlink (p : string) : M World unit :=
  let! h := gets host in
  match h !! p with
  | None => raise FileNotFoundError
  | Some _ => modify (set_host (delete p h))
  end.

(** [os.rename(p, q)] *)
Definition os_rename (p q : string) : M World unit :=
  let! h := gets host in
  match h !! p with
  | None => raise FileNotFoundError
  | Some f => modify (set_host (<[q := f]> (delete p h)))
  end.

Definition release (path : string) (fd : Z) : M World unit :=
  let! fmap := gets fd_info_map in
  match fmap !! fd with
  | None => ret tt
  | Some info =>
      modify (λ w, set_sync_fds (sync_fds w ∖ {[fd]}) w) ;;;
      let! p := realpath path in
      assert (String.eqb p (fd_path info)) ;;;
      modify (λ w, set_fd_info_map (delete fd (fd_info_map w)) w) ;;;
      on_close_fd fd (fd_inode info) ;;;
      let! omap := gets inode_to_open_fds_map in
      match omap !! fd_inode info with
      | None => raise KeyError
      | Some open_fds =>
          if bool_decide (fd ∈ open_fds) then
            let open_fds := open_fds ∖ {[fd]} in
            modify (set_inode_to_open_fds_map (<[fd_inode info := open_fds]> omap)) ;;;
            if negb (size open_fds =? 0)%nat then ret tt
            else
              modify (λ w, set_inode_to_open_fds_map
                             (delete (fd_inode info) (inode_to_open_fds_map w)) w) ;;;
              let! tbd := gets to_be_deleted in
              if negb (String.eqb (parent (fd_path info)) tbd) then ret tt
              else
                let! cached := page_cache_get (fd_inode info) in
                let! otb :=
                  match cached with
                  | Some minode =>
                      let! m := get_minode minode in ret (MemInode.offset_to_block m)
                  | None =>
                      let! m := MemInode_init (fd_inode info) path (fd_path info) in
                      ret (MemInode.offset_to_block m)
                  end in
                dealloc_all (PyDict.values otb) ;;;
                (* [self.page_cache.remove(inode)]: [release] binds no name
                   [inode], and the module has no global of that name *)
                (raise NameError : M World unit) ;;;
                os_unlink (fd_path info)
          else raise KeyError
      end
  end.

(** The loop of [truncate] that drops what lies after the last valid page.
    It names the two maps as attributes of the facade. *)
Fixpoint truncate_drop_loop (fuel : nat) (minode : Z) (current_offset : Z) : M World unit :=
  let! m := get_minode minode in
  if negb (current_offset <? MemInode.size m) then ret tt
  else match fuel with
  | O => λ w, (w, OutOfFuel)
  | S fuel =>
      self_attr "offset_to_page"
        (update_minode minode (λ m, MemInode.set_offset_to_page
           (PyDict.pop current_offset (MemInode.offset_to_page m)) m)) ;;;
      let! block := self_attr "offset_to_block"
        (let! m := get_minode minode in
         update_minode minode (λ m, MemInode.set_offset_to_block
           (PyDict.pop current_offset (MemInode.offset_to_block m)) m) ;;;
         ret (PyDict.get current_offset (MemInode.offset_to_block m))) in
      match block with
      | Some block => on_block_manager (BlockManager.dealloc_block block)
      | None => ret tt
      end ;;;
      truncate_drop_loop fuel minode (current_offset + PAGE_SZ)
  end.

(** The loop of [truncate] that fills the file up to a larger length; the
    locals are [current_offset] and [remaining]. *)
Fixpoint truncate_fill_loop (fuel : nat) (minode : Z) (locals : Z * Z) : M World (Z * Z) :=
  let '(current_offset, remaining) := locals in
  if negb (remaining >? 0) then ret locals
  else match fuel with
  | O => λ w, (w, OutOfFuel)
  | S fuel =>
      let page_num := current_offset / PAGE_SZ in
      let! page := _get_page_for_offset minode (page_num * PAGE_SZ) in
      let pg_start := current_offset mod PAGE_SZ in
      let pg_nbytes := Z.min remaining (PAGE_SZ - pg_start) in
      update_page page (λ p, Page.set_content
        (slice_assign (Page.content p) pg_start (pg_start + pg_nbytes)
           (zeros pg_nbytes)) p) ;;;
      update_page page (Page.set_flag_dirty true) ;;;
      truncate_fill_loop fuel minode (current_offset + pg_nbytes, remaining - pg_nbytes)
  end.

Definition truncate (path : string) (length : Z) : M World Z :=
  let! p := realpath path in
  let! inode := stat_ino p in
  let! cached := page_cache_contains inode in
  when (negb cached)
    (let! minode := MemInode_init inode path p in page_cache_put inode minode) ;;;
  let minode := inode in
  let! m := get_minode minode in
  if length =? MemInode.size m then ret length
  else if length =? 0 then
    update_minode minode (MemInode.set_offset_to_page []) ;;;
    dealloc_all (PyDict.values (MemInode.offset_to_block m)) ;;;
    update_minode minode (MemInode.set_offset_to_block []) ;;;
    update_minode minode (MemInode.set_size 0) ;;;
    ret 0
  else if length <? MemInode.size m then
    let last_valid_page := (length - 1) / PAGE_SZ in
    let! page := _get_page_for_offset minode (last_valid_page * PAGE_SZ) in
    let pg_start := length mod PAGE_SZ in
    let pg_nbytes := PAGE_SZ - pg_start in
    when (pg_nbytes >? 0)
      (update_page page (λ p, Page.set_content
         (slice_assign (Page.content p) pg_start (pg_start + pg_nbytes)
            (zeros pg_nbytes)) p) ;;;
       update_page page (Page.set_flag_dirty true)) ;;;
    let current_offset := (last_valid_page + 1) * PAGE_SZ in
    truncate_drop_loop (Z.to_nat ((MemInode.size m - current_offset) / PAGE_SZ + 1))
      minode current_offset ;;;
    update_minode minode (MemInode.set_size length) ;;;
    ret length
  else
    let! (_, _) :=
      truncate_fill_loop (Z.to_nat (length - MemInode.size m)) minode
        (MemInode.size m, length - MemInode.size m) in
    update_minode minode (MemInode.set_size length) ;;;
    ret length.

(** ** Predicates the statements use *)

(** The sequence installed for a sector of a path, if any. *)
Definition sector_seq (b : BlockManager.t) (path : string) (file_offset : Z)
    : option FailSequence.t :=
  BlockManager.faulty_paths b !! path ≫= λ m, m !! file_offset.

(** A sequence as [FailSequence(seq)] builds it and [next] advances it:
    [next] finds a letter at every position it looks at. *)
Definition seq_ok (s : FailSequence.t) : Prop :=
  -1 ≤ FailSequence.idx s ∧ FailSequence.end_idx s < FailSequence.len (FailSequence.seq s).

(** What the oracle of sector [i] of a block written at [offset] answers
    when it is asked next: [true] for ['x']. *)
Definition sector_fails (b : BlockManager.t) (path : string) (offset i : Z) : bool :=
  match sector_seq b path (offset + i * SECTOR_SZ) with
  | Some s =>
      match (FailSequence.next s).2 with
      | Returned c => Ascii.eqb c "x"
      | _ => false
      end
  | None => false
  end.

(** The backing file after the sectors [sectors] of [data] went to block
    [bnum], those whose oracle said ['x'] left out. *)
Definition write_sectors (b : BlockManager.t) (path : string) (offset bnum : Z)
    (data : bytes) (sectors : list Z) (file : bytes) : bytes :=
  fold_left
    (λ file i,
       if sector_fails b path offset i then file
       else BlockManager.pwrite file (slice data (i * SECTOR_SZ) ((i + 1) * SECTOR_SZ))
              (bnum * PAGE_SZ + i * SECTOR_SZ))
    sectors file.

(** The state a call leaves and the way it ends. *)
Definition state_after {S A} (c : M S A) (s : S) : S := (c s).1.
Definition outcome_of {S A} (c : M S A) (s : S) : outcome A := (c s).2.

(** The page object a reference names. *)
Definition page_at (w : World) (l : loc) : option Page.t := pages w !! l.

Definition is_dirty (w : World) (l : loc) : Prop :=
  ∃ p, pages w !! l = Some p ∧ Page.flag_dirty p = true.
Definition is_clean (w : World) (l : loc) : Prop :=
  ∃ p, pages w !! l = Some p ∧ Page.flag_dirty p = false.

(** The [BWRITE] lines a call added to the log. *)
Definition new_log (w w' : World) : list BlockManager.bwrite_msg :=
  drop (length (BlockManager.log (block_manager w))) (BlockManager.log (block_manager w')).

(** [fd] is owed a notification for [inode]. *)
Definition owed (w : World) (fd inode : Z) : bool :=
  match failed_inodes_fd_map w !! inode with
  | None => false
  | Some failed_fds => (size failed_fds =? 0)%nat || bool_decide (fd ∈ failed_fds)
  end.

(** Every fault sequence installed is as the constructor and [next] leave
    them. *)
Definition seqs_ok (b : BlockManager.t) : Prop :=
  map_Forall (λ _ m, map_Forall (λ _ s, seq_ok s) m) (BlockManager.faulty_paths b).

#[global] Instance seq_ok_dec s : Decision (seq_ok s) := and_dec _ _.

(** A state in which the policy can run its I/O for an inode: the
    [MemInode] is in the page cache and the references in its page map name
    pages, every page holds [PAGE_SZ] bytes, no block number is negative,
    and the fault sequences are as the constructor and [next] leave them. *)
Definition minode_ok (w : World) (m : MemInode.t) : Prop :=
  Forall (λ l, is_Some (pages w !! l)) (PyDict.values (MemInode.offset_to_page m)) ∧
  Forall (λ b, 0 ≤ b) (PyDict.values (MemInode.offset_to_block m)).

Definition inode_ok (w : World) (minode : Z) : Prop :=
  match minode_map w !! minode with
  | Some m => minode_ok w m
  | None => False
  end ∧
  map_Forall (λ _ p, Z.of_nat (length (Page.content p)) = PAGE_SZ) (pages w) ∧
  Forall (λ b, 0 ≤ b) (BlockManager.free_list (block_manager w)) ∧
  0 ≤ BlockManager.largest_block_num (block_manager w) ∧
  seqs_ok (block_manager w).

#[global] Instance inode_ok_dec w minode : Decision (inode_ok w minode) :=
  and_dec
    (match minode_map w !! minode as o
       return Decision (match o with Some m => minode_ok w m | None => False end)
     with
     | Some m => and_dec _ _
     | None => False_dec
     end) _.

(** What the policy's I/O for an inode leaves alone: the files of the
    underlying file system, the fd tables and the notification state, the
    other inodes, and of this inode and of the pages everything but the
    block map and the dirty flags, which are only ever cleared. *)
Record sync_frame (minode : Z) (w w' : World) : Prop := mk_sync_frame {
  sf_host : host w' = host w;
  sf_root : root w' = root w;
  sf_to_be_deleted : to_be_deleted w' = to_be_deleted w;
  sf_last_fd : last_fd_alloced w' = last_fd_alloced w;
  sf_fd_info : fd_info_map w' = fd_info_map w;
  sf_open_fds : inode_to_open_fds_map w' = inode_to_open_fds_map w;
  sf_sync_fds : sync_fds w' = sync_fds w;
  sf_cls : fsync_cls w' = fsync_cls w;
  sf_failed : failed_inodes_fd_map w' = failed_inodes_fd_map w;
  sf_pages : ∀ l,
    option_Forall2
      (λ p p', Page.inode p' = Page.inode p ∧ Page.offset p' = Page.offset p ∧
               Page.content p' = Page.content p ∧
               (Page.flag_dirty p' = true → Page.flag_dirty p = true))
      (pages w !! l) (pages w' !! l);
  sf_others : ∀ i, i ≠ minode → minode_map w' !! i = minode_map w !! i;
  sf_minode :
    option_Forall2
      (λ m m', MemInode.inode m' = MemInode.inode m ∧
               MemInode.path m' = MemInode.path m ∧
               MemInode.realpath m' = MemInode.realpath m ∧
               MemInode.atime m' = MemInode.atime m ∧
               MemInode.mtime m' = MemInode.mtime m ∧
               MemInode.size m' = MemInode.size m ∧
               MemInode.offset_to_page m' = MemInode.offset_to_page m)
      (minode_map w !! minode) (minode_map w' !! minode);
  sf_log : ∃ msgs, BlockManager.log (block_manager w')
                   = BlockManager.log (block_manager w) ++ msgs;
}.

(** The sectors [k, k + n) of a block, and the logical offsets of a list
    of sectors. *)
Definition sectors_from (k n : nat) : list Z := map Z.of_nat (seq k n).
Definition sector_offsets (logical_offset : Z) (sectors : list Z) : list Z :=
  (λ i, logical_offset + i * SECTOR_SZ) <$> sectors.

(** Whether a reference names a dirty page. *)
Definition dirtyb (w : World) (l : loc) : bool :=
  match pages w !! l with
  | Some p => Page.flag_dirty p
  | None => false
  end.

(** What [sync_meta] and the notification bookkeeping leave alone. *)
Definition same_data (w w' : World) : Prop :=
  pages w' = pages w ∧ minode_map w' = minode_map w ∧
  block_manager w' = block_manager w ∧
  inode_to_open_fds_map w' = inode_to_open_fds_map w ∧
  fsync_cls w' = fsync_cls w ∧ fd_info_map w' = fd_info_map w.

(** ** The file of the test suite, as a state *)

(** The block manager as [_init_empty_files] leaves it. *)
Definition empty_block_manager : BlockManager.t :=
  {| BlockManager.size := PAGE_SZ; BlockManager.free_list := [];
     BlockManager.largest_block_num := 0; BlockManager.faulty_paths := ∅;
     BlockManager.fp := zeros PAGE_SZ; BlockManager.log := [] |}.

(** A file system just mounted on a root that holds one empty file, [/f],
    with inode number 7. *)
Definition mounted (cls : fsync_class) : World :=
  {| block_manager := empty_block_manager; minode_map := ∅; pages := ∅;
     host := {[ "/root/f"%string :=
                  {| Host.st_ino := 7;
                     Host.text := {| Meta.offset_to_block := []; Meta.size := 0;
                                     Meta.atime := 100; Meta.mtime := 100 |} |} ]};
     root := "/root"; to_be_deleted := "/meta/to_be_deleted";
     last_fd_alloced := 3; fd_info_map := ∅; inode_to_open_fds_map := ∅;
     sync_fds := ∅; fsync_cls := cls; failed_inodes_fd_map := ∅ |}.

Definition plain : flags :=
  {| O_DIRECT := false; O_NOFOLLOW := false; O_SYNC := false; O_DSYNC := false |}.
Definition with_O_SYNC : flags :=
  {| O_DIRECT := false; O_NOFOLLOW := false; O_SYNC := true; O_DSYNC := false |}.

Definition page_of (c : byte) : bytes := repeat c (Z.to_nat PAGE_SZ).

(** [test_101]: the file is opened (descriptor 4), three pages of [a], [b]
    and [c] are written and synced. *)
Definition create_faulty_file : M World Z :=
  let! fd := open "/f" plain in
  write "/f" (page_of "a") 0 fd 101 ;;;
  write "/f" (page_of "b") 4096 fd 102 ;;;
  write "/f" (page_of "c") 8192 fd 103 ;;;
  fsync "/f" 0 fd.

(** [test_102], [test_103]: the fault [xW] on block 1 of the path, then a
    page of [x] written over the second page. *)
Definition three_pages (cls : fsync_class) : World :=
  state_after create_faulty_file (mounted cls).
Definition with_fault (cls : fsync_class) : World :=
  state_after (on_block_manager (BlockManager.enable_failures_on "/f" "xW" 1 true))
    (three_pages cls).
Definition overwritten (cls : fsync_class) : World :=
  state_after (write "/f" (page_of "x") 4096 4 104) (with_fault cls).

(** The page map after the pages at [offsets] were popped one by one. *)
Definition pop_all {V} (offsets : list Z) (d : PyDict.t V) : PyDict.t V :=
  fold_left (λ d o, PyDict.pop o d) offsets d.

(** The offset a page reference carries. *)
Definition offset_of (w : World) (l : loc) : Z :=
  match pages w !! l with
  | Some p => Page.offset p
  | None => 0
  end.

(** The descriptors of a list are closed one after the other; each
    [release] tells the policy through [on_close_fd]. *)
Fixpoint close_all (fds : list Z) (inode : Z) : M World unit :=
  match fds with
  | [] => ret tt
  | fd :: rest => on_close_fd fd inode ;;; close_all rest inode
  end.

(** A call that cannot return a value. *)
Definition never_returns {S A} (c : M S A) : Prop :=
  ∀ s a, (c s).2 ≠ Returned a.

(** The file opened with [O_SYNC]. *)
Definition opened_O_SYNC (cls : fsync_class) : World :=
  state_after (open "/f" with_O_SYNC) (mounted cls).

(** The file of the test suite truncated to nothing, then written again at
    its second page, under the fault of [with_fault]. *)
Definition truncated_rewritten (cls : fsync_class) : World :=
  state_after (truncate "/f" 0 ;;; write "/f" (page_of "x") 4096 4 104)
    (with_fault cls).
(** Free-list exclusivity: no block number mapped by a [MemInode] of the
    page cache is in the free list of the block manager. *)
Definition free_list_exclusive (w : World) : Prop :=
  map_Forall (λ _ m,
      Forall (λ b, b ∉ BlockManager.free_list (block_manager w))
        (PyDict.values (MemInode.offset_to_block m)))
    (minode_map w).

#[global] Instance free_list_exclusive_dec w : Decision (free_list_exclusive w).
Proof. unfold free_list_exclusive. apply _. Defined.

(** What a read leaves alone: everything but the page map of the inode and
    the store of pages, where page objects are only added, clean, and
    entries only added to the page map, for new page objects. *)
Record read_frame (minode : Z) (w w' : World) : Prop := mk_read_frame {
  rf_block_manager : block_manager w' = block_manager w;
  rf_host : host w' = host w;
  rf_root : root w' = root w;
  rf_to_be_deleted : to_be_deleted w' = to_be_deleted w;
  rf_last_fd : last_fd_alloced w' = last_fd_alloced w;
  rf_fd_info : fd_info_map w' = fd_info_map w;
  rf_open_fds : inode_to_open_fds_map w' = inode_to_open_fds_map w;
  rf_sync_fds : sync_fds w' = sync_fds w;
  rf_cls : fsync_cls w' = fsync_cls w;
  rf_failed : failed_inodes_fd_map w' = failed_inodes_fd_map w;
  rf_pages : ∀ l p, pages w !! l = Some p → pages w' !! l = Some p;
  rf_new_pages : ∀ l p, pages w' !! l = Some p → pages w !! l = None →
                 Page.flag_dirty p = false;
  rf_others : ∀ i, i ≠ minode → minode_map w' !! i = minode_map w !! i;
  rf_minode : ∀ m, minode_map w !! minode = Some m →
    ∃ m', minode_map w' !! minode = Some m' ∧
      MemInode.inode m' = MemInode.inode m ∧
      MemInode.path m' = MemInode.path m ∧
      MemInode.realpath m' = MemInode.realpath m ∧
      MemInode.offset_to_block m' = MemInode.offset_to_block m ∧
      MemInode.atime m' = MemInode.atime m ∧
      MemInode.mtime m' = MemInode.mtime m ∧
      MemInode.size m' = MemInode.size m ∧
      (∀ off l, PyDict.get off (MemInode.offset_to_page m) = Some l →
                PyDict.get off (MemInode.offset_to_page m') = Some l) ∧
      (∀ off l, PyDict.get off (MemInode.offset_to_page m') = Some l →
                PyDict.get off (MemInode.offset_to_page m) = None →
                pages w !! l = None ∧ is_Some (pages w' !! l));
}.

(** The page that buffers the byte at [o] of a file, and the byte: what a
    read of the file finds there when nothing is fetched from disk. *)
Definition page_for (w : World) (minode : Z) (o : Z) : option Page.t :=
  minode_map w !! minode ≫= λ m,
  PyDict.get (o / PAGE_SZ * PAGE_SZ) (MemInode.offset_to_page m) ≫= λ l,
  pages w !! l.
Definition byte_at (w : World) (minode : Z) (o : Z) : option byte :=
  page_for w minode o ≫= λ p, Page.content p !! Z.to_nat (o mod PAGE_SZ).

(** Every block mapped by the inode lies within the backing file, so that
    [bread] gives a whole page. *)
Definition blocks_on_file (w : World) (minode : Z) : Prop :=
  match minode_map w !! minode with
  | Some m =>
      Forall (λ b, b * PAGE_SZ < BlockManager.size (block_manager w) ∧
                   (b + 1) * PAGE_SZ ≤ Z.of_nat (length (BlockManager.fp (block_manager w))))
        (PyDict.values (MemInode.offset_to_block m))
  | None => True
  end.

(** No two entries of the page map of the inode name the same page object. *)
Definition pages_distinct (w : World) (minode : Z) : Prop :=
  match minode_map w !! minode with
  | Some m => NoDup (PyDict.values (MemInode.offset_to_page m))
  | None => True
  end.

(** A state in which the data path can run for an inode. *)
Definition file_ok (w : World) (minode : Z) : Prop :=
  inode_ok w minode ∧ blocks_on_file w minode ∧ pages_distinct w minode.

#[global] Instance file_ok_dec w minode : Decision (file_ok w minode).
Proof.
  unfold file_ok, blocks_on_file, pages_distinct.
  destruct (minode_map w !! minode); apply _.
Defined.

(** What the data path of [write] leaves alone: the fd tables, the policy
    and the size of the file. *)
Definition write_frame (minode : Z) (w w' : World) : Prop :=
  fd_info_map w' = fd_info_map w ∧ sync_fds w' = sync_fds w ∧
  fsync_cls w' = fsync_cls w ∧
  MemInode.size <$> minode_map w' !! minode = MemInode.size <$> minode_map w !! minode.

(** The file of an inode reads the same in two states: the same size, and
    at every offset the same byte of the page cache, or none in both. *)
Definition same_bytes (minode : Z) (w w' : World) : Prop :=
  fd_info_map w' = fd_info_map w ∧ fsync_cls w' = fsync_cls w ∧
  MemInode.size <$> minode_map w' !! minode = MemInode.size <$> minode_map w !! minode ∧
  ∀ o, byte_at w' minode o = byte_at w minode o.

(** [fd] is a descriptor of the file with inode number [inode]. *)
Definition fd_of (w : World) (inode fd : Z) : Prop :=
  fd_inode <$> fd_info_map w !! fd = Some inode.

(** The state after a list of [fsync] calls, [(path, datasync, fd)] each,
    made one after the other whatever each of them returns. *)
Fixpoint after_fsyncs (calls : list (string * Z * Z)) (w : World) : World :=
  match calls with
  | [] => w
  | (path, datasync, fd) :: rest =>
      after_fsyncs rest (state_after (fsync path datasync fd) w)
  end.

(** No [fsync] of the list logs a [BWRITE] that failed. *)
Fixpoint writes_succeed (calls : list (string * Z * Z)) (w : World) : bool :=
  match calls with
  | [] => true
  | (path, datasync, fd) :: rest =>
      let w' := state_after (fsync path datasync fd) w in
      forallb BlockManager.bio_success (new_log w w') && writes_succeed rest w'
  end.

(** ** Further operations and predicates *)

(** The strings [FailSequence] is meant for: at least one letter, the last
    [X] or [W], the others [x] or [w]. *)
Definition well_formed_seq (s : string) : bool :=
  match rev (list_ascii_of_string s) with
  | [] => false
  | c :: front =>
      existsb (Ascii.eqb c) ["X"; "W"]%char && forallb FailSequence.allowed_lower front
  end.

(** The object after [n] calls of [next]. *)
Definition after_nexts (n : nat) (f : FailSequence.t) : FailSequence.t :=
  Nat.iter n (λ f, (FailSequence.next f).1) f.

(** The sector offsets of a path that [enable_failures_on] puts a sequence
    at: the sectors of block [idx], or the sector [idx]. *)
Definition in_region (idx : Z) (is_block : bool) (o : Z) : Prop :=
  if is_block
  then idx * PAGE_SZ ≤ o < (idx + 1) * PAGE_SZ ∧ o mod SECTOR_SZ = 0
  else o = idx * SECTOR_SZ.

#[global] Instance in_region_dec idx is_block o : Decision (in_region idx is_block o).
Proof. unfold in_region. destruct is_block; apply _. Defined.

(** Whether access number [k + 1] of a sequence fails: the letter at [k],
    or the last letter once the sequence is past its end, is [x] or [X]. *)
Definition seq_fails (s : string) (k : nat) : bool :=
  match String.get (Nat.min k (String.length s - 1)) s with
  | Some c => Ascii.eqb (FailSequence.lower c) "x"
  | None => false
  end.

(** A run of [bwrite] calls for the same place of a file, [(bnum, data)]
    each, and what they return. *)
Fixpoint bwrite_all (ref : string * Z) (calls : list (Z * bytes))
    : M BlockManager.t (list bool) :=
  match calls with
  | [] => ret []
  | (bnum, data) :: rest =>
      let! r := BlockManager.bwrite bnum data ref in
      let! rs := bwrite_all ref rest in
      ret (r :: rs)
  end.

(** A page put down in block [bnum] sector by sector, no sector left out. *)
Definition write_page (bnum : Z) (data file : bytes) : bytes :=
  fold_left
    (λ file i,
       BlockManager.pwrite file (slice data (i * SECTOR_SZ) ((i + 1) * SECTOR_SZ))
         (bnum * PAGE_SZ + i * SECTOR_SZ))
    (BlockManager.range (PAGE_SZ / SECTOR_SZ)) file.

(** The backing file after a run of writes to a block under the fault [s],
    from access number [k + 1] on: a write that passes puts down its eight
    sectors, a write that fails puts down none. *)
Fixpoint schedule_file (s : string) (k : nat) (calls : list (Z * bytes))
    (file : bytes) : bytes :=
  match calls with
  | [] => file
  | (bnum, data) :: rest =>
      schedule_file s (S k) rest
        (if seq_fails s k then file else write_page bnum data file)
  end.

(** [for block in blocks: dealloc_block(block)] and [n] calls of
    [alloc_block], on the block manager. *)
Fixpoint dealloc_each (blocks : list Z) : M BlockManager.t unit :=
  match blocks with
  | [] => ret tt
  | block :: rest => BlockManager.dealloc_block block ;;; dealloc_each rest
  end.
Fixpoint alloc_many (n : nat) : M BlockManager.t (list Z) :=
  match n with
  | O => ret []
  | S n =>
      let! block := BlockManager.alloc_block in
      let! rest := alloc_many n in
      ret (block :: rest)
  end.

(** A block number is in use: it was handed out and is not in the free
    list. *)
Definition in_use (b : BlockManager.t) (block : Z) : Prop :=
  0 ≤ block < BlockManager.largest_block_num b ∧ block ∉ BlockManager.free_list b.

(** The free list names each block once, and only blocks handed out. *)
Definition free_list_ok (b : BlockManager.t) : Prop :=
  NoDup (BlockManager.free_list b) ∧
  Forall (λ x, 0 ≤ x < BlockManager.largest_block_num b) (BlockManager.free_list b).

#[global] Instance free_list_ok_dec b : Decision (free_list_ok b).
Proof. unfold free_list_ok. apply _. Defined.

(** The byte of a file at an offset as the backing file has it: the byte
    of the block mapped for the page of the offset, and zero where no block
    is mapped. *)
Definition disk_byte (w : World) (m : MemInode.t) (o : Z) : option byte :=
  match PyDict.get (o / PAGE_SZ * PAGE_SZ) (MemInode.offset_to_block m) with
  | Some block =>
      BlockManager.fp (block_manager w) !! Z.to_nat (block * PAGE_SZ + o mod PAGE_SZ)
  | None => Some x00
  end.

(** The byte of a file at an offset as a reader finds it: the byte of the
    page in the page cache, and for a page that is not there the byte the
    backing file has. *)
Definition file_byte (w : World) (minode : Z) (o : Z) : option byte :=
  match minode_map w !! minode with
  | Some m =>
      match PyDict.get (o / PAGE_SZ * PAGE_SZ) (MemInode.offset_to_page m) with
      | Some _ => byte_at w minode o
      | None => disk_byte w m o
      end
  | None => None
  end.

(** What the data path changes stays in memory: the block manager with the
    backing file, the files of the underlying file system, the fd tables,
    the policy's state and the other inodes are as before, and of the inode
    itself the identity and the block map. *)
Definition memory_only (minode : Z) (w w' : World) : Prop :=
  block_manager w' = block_manager w ∧ host w' = host w ∧
  fd_info_map w' = fd_info_map w ∧
  inode_to_open_fds_map w' = inode_to_open_fds_map w ∧
  sync_fds w' = sync_fds w ∧ last_fd_alloced w' = last_fd_alloced w ∧
  failed_inodes_fd_map w' = failed_inodes_fd_map w ∧ fsync_cls w' = fsync_cls w ∧
  (∀ i, i ≠ minode → minode_map w' !! i = minode_map w !! i) ∧
  option_Forall2
    (λ m m', MemInode.inode m' = MemInode.inode m ∧ MemInode.path m' = MemInode.path m ∧
             MemInode.realpath m' = MemInode.realpath m ∧
             MemInode.offset_to_block m' = MemInode.offset_to_block m ∧
             MemInode.atime m' = MemInode.atime m)
    (minode_map w !! minode) (minode_map w' !! minode).

(** The fd tables agree: every descriptor of [fd_info_map] was handed out
    by [_alloc_fd] and is in the set of its inode, every set of
    [inode_to_open_fds_map] is non-empty and holds descriptors of that
    inode only, and the descriptors with [O_SYNC] are open. *)
Definition fd_tables_ok (w : World) : Prop :=
  map_Forall (λ fd info,
      fd ≤ last_fd_alloced w ∧
      fd ∈ default ∅ (inode_to_open_fds_map w !! fd_inode info)) (fd_info_map w) ∧
  map_Forall (λ inode s,
      s ≠ ∅ ∧
      set_Forall (λ fd, fd_inode <$> fd_info_map w !! fd = Some inode) s)
    (inode_to_open_fds_map w) ∧
  set_Forall (λ fd, is_Some (fd_info_map w !! fd)) (sync_fds w).

#[global] Instance fd_tables_ok_dec w : Decision (fd_tables_ok w).
Proof. unfold fd_tables_ok. apply _. Defined.

(** The state in which [release] of an open descriptor, under the path it
    is known by, has taken the descriptor out of the tables. *)
Definition released (w : World) (fd : Z) (info : FDInfo) (s : gset Z) : World :=
  set_inode_to_open_fds_map
    (<[fd_inode info := s ∖ {[fd]}]> (inode_to_open_fds_map w))
    (set_failed_inodes_fd_map
       (alter (λ s, s ∖ {[fd]}) (fd_inode info) (failed_inodes_fd_map w))
       (set_fd_info_map (delete fd (fd_info_map w))
          (set_sync_fds (sync_fds w ∖ {[fd]}) w))).

(** [for fd in fds: self.fd_info_map[fd] = info] *)
Definition set_fd_infos (fds : gset Z) (info : FDInfo) : M World unit :=
  modify (λ w, set_fd_info_map
                 (foldr (λ fd m, <[fd := info]> m) (fd_info_map w) (elements fds)) w).

(** [_unlink_open_file(realpath, inode)]; [ts] is the string that
    [datetime.datetime.now().strftime("%Y%m%dT%H%M%S")] returns. *)
Definition _unlink_open_file (realpath : string) (inode : Z) (ts : string)
    : M World unit :=
  let! tbd := gets to_be_deleted in
  let newpath := (tbd ++ "/file_" ++ ts)%string in
  os_rename realpath newpath ;;;
  let! newinode := stat_ino newpath in
  assert (inode =? newinode) ;;;
  let new_fd_info := {| fd_inode := inode; fd_path := newpath |} in
  let! omap := gets inode_to_open_fds_map in
  match omap !! inode with
  | None => raise KeyError
  | Some fds =>
      set_fd_infos fds new_fd_info ;;;
      let! minode := page_cache_get inode in
      match minode with
      | None => raise AttributeError
      | Some minode => update_minode minode (MemInode.set_realpath newpath)
      end
  end.

(** [unlink(path)]; the value is [Some 0] for [return 0] and [None] for
    [return os.unlink(p)]. *)
Definition unlink (path : string) (ts : string) : M World (option Z) :=
  let! p := realpath path in
  let! inode := stat_ino p in
  let! omap := gets inode_to_open_fds_map in
  if bool_decide (is_Some (omap !! inode)) then
    _unlink_open_file p inode ts ;;;
    ret (Some 0)
  else
    let! cached := page_cache_get inode in
    let! otb :=
      match cached with
      | Some minode =>
          let! m := get_minode minode in ret (MemInode.offset_to_block m)
      | None =>
          let! m := MemInode_init inode path p in ret (MemInode.offset_to_block m)
      end in
    dealloc_all (PyDict.values otb) ;;;
    page_cache_remove inode ;;;
    os_unlink p ;;;
    ret None.

(** No block has two owners: no block mapped by an inode of the page cache
    is in the free list, the free list names no block twice, an inode maps
    no block twice, and no two inodes map the same block. *)
Definition blocks_owned_once (w : World) : Prop :=
  free_list_exclusive w ∧
  NoDup (BlockManager.free_list (block_manager w)) ∧
  map_Forall (λ i m,
      NoDup (PyDict.values (MemInode.offset_to_block m)) ∧
      map_Forall (λ j m',
          i = j ∨ Forall (λ b, b ∉ PyDict.values (MemInode.offset_to_block m'))
                    (PyDict.values (MemInode.offset_to_block m)))
        (minode_map w))
    (minode_map w).

#[global] Instance blocks_owned_once_dec w : Decision (blocks_owned_once w).
Proof. unfold blocks_owned_once. apply _. Defined.

(** [rename(old, new)]; [ts] is the timestamp [unlink] may ask for. *)
Definition rename (old new : string) (ts : string) : M World unit :=
  let! p_old := realpath old in
  let! p_new := realpath new in
  let! old_ino := stat_ino p_old in
  let! h := gets host in
  when (bool_decide (is_Some (h !! p_new))) (unlink new ts ;;; ret tt) ;;;
  let! cached := page_cache_contains old_ino in
  if negb cached then os_rename p_old p_new
  else
    let! minode := page_cache_get old_ino in
    match minode with
    | None => raise AttributeError
    | Some minode =>
        update_minode minode (MemInode.set_realpath p_new) ;;;
        let new_fd_info := {| fd_inode := old_ino; fd_path := p_new |} in
        let! omap := gets inode_to_open_fds_map in
        set_fd_infos (default ∅ (omap !! old_ino)) new_fd_info ;;;
        os_rename p_old p_new
    end.

(** [[offset for offset, page in items if page.flag_dirty is False]] *)
Fixpoint clean_offsets (items : list (Z * loc)) : M World (list Z) :=
  match items with
  | [] => ret []
  | (offset, page) :: rest =>
      let! pg := get_page page in
      let! offsets := clean_offsets rest in
      ret (if Page.flag_dirty pg then offsets else offset :: offsets)
  end.

(** The body of the loop of [_command_evict_clean_pages] for one inode. *)
Definition evict_minode (minode : Z) : M World unit :=
  let! m := get_minode minode in
  let! page_offsets_to_evict := clean_offsets (MemInode.offset_to_page m) in
  update_minode minode (λ m, MemInode.set_offset_to_page
    (pop_all page_offsets_to_evict (MemInode.offset_to_page m)) m).

Fixpoint evict_each (inodes : list Z) : M World unit :=
  match inodes with
  | [] => ret tt
  | minode :: rest => evict_minode minode ;;; evict_each rest
  end.

(** [_command_evict_clean_pages(command)].  The loop visits the inodes of
    the page cache one by one, and its body touches the inode it visits
    only: the inodes are taken in the order of [map_to_list]. *)
Definition _command_evict_clean_pages : M World unit :=
  let! mm := gets minode_map in
  evict_each (map_to_list mm).*1.

(** A page map is a dict: no offset is a key twice. *)
Definition keys_once {V} (d : PyDict.t V) : Prop := NoDup (PyDict.keys d).

#[global] Instance keys_once_dec {V} (d : PyDict.t V) : Decision (keys_once d).
Proof. unfold keys_once. apply _. Defined.

(** The references of every page map of the page cache name pages. *)
Definition pages_exist (w : World) : Prop :=
  map_Forall (λ _ m,
      Forall (λ l, is_Some (pages w !! l)) (PyDict.values (MemInode.offset_to_page m)))
    (minode_map w).

#[global] Instance pages_exist_dec w : Decision (pages_exist w).
Proof. unfold pages_exist. apply _. Defined.

(** The offsets of a page map whose pages are clean. *)
Definition clean_keys (w : World) (d : PyDict.t loc) : list Z :=
  (List.filter (λ ol, negb (dirtyb w ol.2)) d).*1.

(** An inode once its clean pages are evicted. *)
Definition evicted (w : World) (m : MemInode.t) : MemInode.t :=
  MemInode.set_offset_to_page
    (pop_all (clean_keys w (MemInode.offset_to_page m)) (MemInode.offset_to_page m)) m.

(** The page of a file at an offset as the backing file has it: the block
    mapped for the offset, or zeros where no block is mapped. *)
Definition disk_page (w : World) (m : MemInode.t) (o : Z) : bytes :=
  match PyDict.get o (MemInode.offset_to_block m) with
  | Some block =>
      BlockManager.pread (BlockManager.fp (block_manager w)) PAGE_SZ (block * PAGE_SZ)
  | None => zeros PAGE_SZ
  end.

(** The page map of an inode is as [_get_page_for_offset] builds it: no
    offset is a key twice, every key is a multiple of the page size, and
    the page stored under a key carries that offset. *)
Definition page_map_ok (w : World) (minode : Z) : Prop :=
  match minode_map w !! minode with
  | Some m =>
      keys_once (MemInode.offset_to_page m) ∧
      Forall (λ ol, ol.1 mod PAGE_SZ = 0 ∧
                    Page.offset <$> pages w !! ol.2 = Some ol.1)
        (MemInode.offset_to_page m)
  | None => False
  end.

#[global] Instance page_map_ok_dec w minode : Decision (page_map_ok w minode).
Proof. unfold page_map_ok. destruct (minode_map w !! minode); apply _. Defined.

#[global] Instance in_use_dec b block : Decision (in_use b block).
Proof. unfold in_use. apply _. Defined.

(** The blocks of an inode are its own: the free list is in order, and the
    inode maps no block twice and only blocks in use. *)
Definition blocks_private (w : World) (minode : Z) : Prop :=
  free_list_ok (block_manager w) ∧
  match minode_map w !! minode with
  | Some m =>
      NoDup (PyDict.values (MemInode.offset_to_block m)) ∧
      Forall (in_use (block_manager w)) (PyDict.values (MemInode.offset_to_block m))
  | None => False
  end.

#[global] Instance blocks_private_dec w minode : Decision (blocks_private w minode).
Proof. unfold blocks_private. destruct (minode_map w !! minode); apply _. Defined.

#[global] Instance byte_eq_dec : EqDecision byte := Byte.byte_eq_dec.

(** Every clean page of an inode holds what the backing file has for it. *)
Definition clean_pages_on_disk (w : World) (minode : Z) : Prop :=
  match minode_map w !! minode with
  | Some m =>
      Forall (λ ol, match pages w !! ol.2 with
                    | Some pg => Page.flag_dirty pg = true ∨
                                 Page.content pg = disk_page w m ol.1
                    | None => False
                    end)
        (MemInode.offset_to_page m)
  | None => False
  end.

#[global] Instance clean_pages_on_disk_dec w minode :
  Decision (clean_pages_on_disk w minode).
Proof.
  unfold clean_pages_on_disk. destruct (minode_map w !! minode); [|apply _].
  apply Forall_dec. intros ol. destruct (pages w !! ol.2); apply _.
Defined.

(** [fs_checkpoint]: [on_fsync(-1, minode.inode, minode)] for every inode
    of the page cache, in the order of [map_to_list]; what the calls return
    is dropped. *)
Fixpoint checkpoint_each (minodes : list Z) : M World unit :=
  match minodes with
  | [] => ret tt
  | minode :: rest =>
      let! m := get_minode minode in
      on_fsync (-1) (MemInode.inode m) minode ;;;
      checkpoint_each rest
  end.

Definition fs_checkpoint : M World unit :=
  let! mm := gets minode_map in
  checkpoint_each (map_to_list mm).*1.

(** A file system mounted with a fault list of one block fault on [/f]:
    [__init__] installs the faults before any call is served. *)
Definition mounted_with_fault (cls : fsync_class) (seq : string) (block : Z) : World :=
  state_after (on_block_manager (BlockManager.enable_failures_on "/f" seq block true))
    (mounted cls).

(** The file of the test suite is written and synced, a page of [x] is
    written over its second page, and the file is closed before any other
    [fsync]: no descriptor is open, and the page is dirty.  Under the fault
    [wxW] on the second block the next write of that block fails. *)
Definition close_dirty : M World unit :=
  create_faulty_file ;;;
  write "/f" (page_of "x") 4096 4 104 ;;;
  release "/f" 4.

Definition closed_dirty (cls : fsync_class) : World :=
  state_after close_dirty (mounted_with_fault cls "wxW" 1).

(** An append that fails: the file of the test suite is written and synced,
    a page of [d] is written past its end and [fsync] fails on it, under
    the fault [xW] on the fourth block; then the clean pages are evicted. *)
Definition fail_append : M World unit :=
  create_faulty_file ;;;
  write "/f" (page_of "d") 12288 4 105 ;;;
  fsync "/f" 0 4 ;;;
  _command_evict_clean_pages.

Definition failed_append (cls : fsync_class) : World :=
  state_after fail_append (mounted_with_fault cls "xW" 3).

(** Then one byte is written into the page of the failed append, and a
    page of [g] over the first page of the file. *)
Definition write_short_page : M World Z :=
  write "/f" ["e"%byte] 12388 4 106 ;;;
  write "/f" (page_of "g") 0 4 107.

Definition short_page (cls : fsync_class) : World :=
  state_after write_short_page (failed_append cls).

(** * Properties *)

(** Closes a decidable goal about a concrete state by evaluation. *)
Ltac decide_by_compute :=
  lazymatch goal with
  | |- ?P => let d := constr:(_ : Decision P) in
             apply (@bool_decide_unpack P d); vm_compute; exact I
  end.

(** ** The state transformers *)

Lemma bind_returned {S A B} (c : M S A) (k : A → M S B) s s1 a :
  c s = (s1, Returned a) → bind c k s = k a s1.
Proof. unfold bind. by intros ->. Qed.

Lemma bind_not_returned {S A B} (c : M S A) (k : A → M S B) s :
  (∀ a, (c s).2 ≠ Returned a) →
  (bind c k s).1 = (c s).1 ∧ ∀ b, (bind c k s).2 ≠ Returned b.
Proof.
  unfold bind. destruct (c s) as [s1 [a|e| | |]]; simpl; intros H; try done.
  by destruct (H a).
Qed.

Lemma bind_inv {S A B} (c : M S A) (k : A → M S B) s s' b :
  bind c k s = (s', Returned b) →
  ∃ s1 a, c s = (s1, Returned a) ∧ k a s1 = (s', Returned b).
Proof.
  unfold bind. destruct (c s) as [s1 [a|e| | |]]; try done. eauto.
Qed.

(** ** Python dictionaries *)

Lemma dict_get_set_eq {V} (k : Z) (v : V) d : PyDict.get k (PyDict.set k v d) = Some v.
Proof.
  induction d as [|[k' v'] d IH]; simpl.
  - by rewrite Z.eqb_refl.
  - destruct (k =? k') eqn:E; simpl; rewrite ?Z.eqb_refl, ?E; done.
Qed.

Lemma dict_get_set_ne {V} (k k' : Z) (v : V) d :
  k ≠ k' → PyDict.get k' (PyDict.set k v d) = PyDict.get k' d.
Proof.
  intros Hne. induction d as [|[k2 v2] d IH]; simpl.
  - destruct (k' =? k) eqn:E; [apply Z.eqb_eq in E; congruence | done].
  - destruct (k =? k2) eqn:E; simpl.
    + apply Z.eqb_eq in E. subst k2.
      destruct (k' =? k) eqn:E'; [apply Z.eqb_eq in E'; congruence | done].
    + destruct (k' =? k2); [done | apply IH].
Qed.

Lemma dict_get_pop_eq {V} (k : Z) (d : PyDict.t V) : PyDict.get k (PyDict.pop k d) = None.
Proof.
  unfold PyDict.pop. induction d as [|[k' v'] d IH]; simpl; [done|].
  destruct (k =? k') eqn:E; simpl; [done|]. by rewrite E.
Qed.

Lemma dict_get_pop_ne {V} (k k' : Z) (d : PyDict.t V) :
  k ≠ k' → PyDict.get k' (PyDict.pop k d) = PyDict.get k' d.
Proof.
  intros Hne. unfold PyDict.pop. induction d as [|[k2 v2] d IH]; simpl; [done|].
  destruct (k =? k2) eqn:E; simpl.
  - apply Z.eqb_eq in E. subst k2.
    destruct (k' =? k) eqn:E'; [apply Z.eqb_eq in E'; congruence | done].
  - destruct (k' =? k2); [done | apply IH].
Qed.

Lemma dict_get_values {V} (k : Z) (v : V) d :
  PyDict.get k d = Some v → v ∈ PyDict.values d.
Proof.
  unfold PyDict.values. induction d as [|[k' v'] d IH]; simpl; [done|].
  destruct (k =? k'); intros H.
  - injection H as ->. apply list_elem_of_here.
  - apply list_elem_of_further. by apply IH.
Qed.

(** ** The fault sequences *)

Lemma string_get_lt (s : string) (n : nat) :
  (n < String.length s)%nat → ∃ c, String.get n s = Some c.
Proof.
  revert n. induction s as [|c s IH]; simpl; intros n Hn; [lia|].
  destruct n; [eauto|]. apply IH. lia.
Qed.

Lemma next_returns s : seq_ok s → ∃ c, (FailSequence.next s).2 = Returned c.
Proof.
  intros [Hlo Hhi]. unfold FailSequence.next. simpl.
  destruct (FailSequence.idx s + 1 >=? FailSequence.end_idx s) eqn:E; simpl; [eauto|].
  rewrite Z.geb_leb in E. apply Z.leb_gt in E.
  unfold FailSequence.index.
  destruct (FailSequence.idx s + 1 <? 0) eqn:E0; [apply Z.ltb_lt in E0; lia|].
  destruct (string_get_lt (FailSequence.seq s) (Z.to_nat (FailSequence.idx s + 1))) as [c Hc].
  { unfold FailSequence.len in Hhi. lia. }
  rewrite Hc. simpl. eauto.
Qed.

Lemma next_seq_ok s : seq_ok s → seq_ok (FailSequence.next s).1.
Proof.
  intros [Hlo Hhi]. unfold FailSequence.next. simpl.
  destruct (_ >=? _); simpl; [split; simpl; lia|].
  destruct (FailSequence.index _ _); split; simpl; lia.
Qed.

(** [next] moves the position by one and leaves the letters alone. *)
Lemma next_advances s :
  FailSequence.idx (FailSequence.next s).1 = FailSequence.idx s + 1 ∧
  FailSequence.seq (FailSequence.next s).1 = FailSequence.seq s.
Proof.
  unfold FailSequence.next. simpl.
  destruct (_ >=? _); simpl; [done|]. by destruct (FailSequence.index _ _).
Qed.

(** The constructor builds sequences [next] can walk. *)
Lemma init_seq_ok {S} (str : string) (st st' : S) s :
  FailSequence.init str st = (st', Returned s) → seq_ok s.
Proof.
  unfold FailSequence.init. intros H. apply bind_inv in H as (s1 & [] & Hv & H).
  destruct (FailSequence.index str (-1)) as [c|] eqn:Hi; [|done].
  injection H as _ <-. split; simpl; [lia|].
  unfold FailSequence.len. lia.
Qed.

(** ** The block manager *)

Lemma seqs_ok_iff b :
  seqs_ok b ↔ ∀ path o s, sector_seq b path o = Some s → seq_ok s.
Proof.
  unfold seqs_ok, sector_seq. split.
  - intros H path o s Hs. destruct (BlockManager.faulty_paths b !! path) as [m|] eqn:Hm; [|done].
    simpl in Hs. exact (H _ _ Hm _ _ Hs).
  - intros H path m Hm o s Hs. apply (H path o s). by rewrite Hm.
Qed.

Lemma sector_seq_insert b path fo s' p o :
  sector_seq (BlockManager.set_faulty_paths
     (<[path := <[fo := s']> (default ∅ (BlockManager.faulty_paths b !! path))]>
        (BlockManager.faulty_paths b)) b) p o
  = if decide (p = path ∧ o = fo) then Some s' else sector_seq b p o.
Proof.
  unfold sector_seq. simpl.
  destruct (decide (p = path)) as [->|Hp].
  - rewrite lookup_insert_eq. simpl.
    destruct (decide (o = fo)) as [->|Ho].
    + rewrite lookup_insert_eq. by rewrite decide_True.
    + rewrite lookup_insert_ne by done. rewrite decide_False by (by intros [_ ?]).
      by destruct (BlockManager.faulty_paths b !! path).
  - rewrite lookup_insert_ne by done. rewrite decide_False by (by intros [? _]). done.
Qed.

(** One sector of [bwrite]. *)
Lemma bwrite_sector_spec b path data i succ bfo fo :
  0 ≤ bfo →
  (∀ s, sector_seq b path fo = Some s → seq_ok s) →
  let failed := match sector_seq b path fo with
                | Some s => match (FailSequence.next s).2 with
                            | Returned c => Ascii.eqb c "x" | _ => false end
                | None => false end in
  ∃ b', BlockManager.bwrite_sector path data i (succ, bfo, fo) b
          = (b', Returned (succ && negb failed, bfo + 512, fo + 512)) ∧
    BlockManager.size b' = BlockManager.size b ∧
    BlockManager.free_list b' = BlockManager.free_list b ∧
    BlockManager.largest_block_num b' = BlockManager.largest_block_num b ∧
    BlockManager.log b' = BlockManager.log b ∧
    BlockManager.fp b' =
      (if failed then BlockManager.fp b
       else BlockManager.pwrite (BlockManager.fp b) (slice data (i * 512) ((i + 1) * 512)) bfo) ∧
    (∀ p o, sector_seq b' p o =
       if decide (p = path ∧ o = fo)
       then (λ s, (FailSequence.next s).1) <$> sector_seq b path fo
       else sector_seq b p o).
Proof.
  intros Hbfo Hok failed. unfold BlockManager.bwrite_sector.
  assert (Hlt : (bfo <? 0) = false) by (apply Z.ltb_ge; lia).
  unfold bind at 1. simpl.
  pose proof (eq_refl : sector_seq b path fo = sector_seq b path fo) as Hs.
  unfold sector_seq at 2 in Hs.
  destruct (BlockManager.faulty_paths b !! path) as [m|] eqn:Hm; simpl in *.
  - destruct (m !! fo) as [s|] eqn:Hfo; simpl in *.
    + destruct (next_returns s (Hok s Hs)) as [c Hc].
      subst failed. rewrite Hs, Hc.
      unfold bind, gets, modify, ret. simpl.
      destruct (Ascii.eqb c "x") eqn:Hx; simpl.
      * eexists. split; [reflexivity|]. simpl. repeat split.
        intros p o. 
        pose proof (sector_seq_insert b path fo (FailSequence.next s).1 p o) as Hi.
        rewrite Hm in Hi. simpl in Hi. rewrite Hi. by case_decide.
      * rewrite Hlt. simpl. eexists. split; [reflexivity|]. simpl. repeat split.
        intros p o.
        pose proof (sector_seq_insert b path fo (FailSequence.next s).1 p o) as Hi.
        rewrite Hm in Hi. simpl in Hi.
        unfold sector_seq in *. simpl in *. rewrite Hi. by case_decide.
    + subst failed. rewrite Hs. unfold bind, gets, modify, ret. simpl. rewrite Hlt. simpl.
      eexists. split; [reflexivity|]. simpl. repeat split.
      intros p o. case_decide as Hd; [|done]. destruct Hd as [-> ->].
      unfold sector_seq. simpl. rewrite Hm. simpl. by rewrite Hfo.
  - subst failed. rewrite Hs. unfold bind, gets, modify, ret. simpl. rewrite Hlt. simpl.
    eexists. split; [reflexivity|]. simpl. repeat split.
    intros p o. case_decide as Hd; [|done]. destruct Hd as [-> ->].
    unfold sector_seq. simpl. by rewrite Hm.
Qed.

Lemma forallb_ext_in {A} (f g : A → bool) l :
  (∀ x, x ∈ l → f x = g x) → forallb f l = forallb g l.
Proof.
  induction l as [|a l IH]; simpl; intros H; [done|].
  rewrite (H a) by apply list_elem_of_here. f_equal. apply IH.
  intros x Hx. apply H. by apply list_elem_of_further.
Qed.

Lemma sector_fails_ext b b' path offset i :
  sector_seq b' path (offset + i * SECTOR_SZ) = sector_seq b path (offset + i * SECTOR_SZ) →
  sector_fails b' path offset i = sector_fails b path offset i.
Proof. unfold sector_fails. by intros ->. Qed.

Lemma write_sectors_ext b b' path offset bnum data sectors file :
  (∀ i, i ∈ sectors → sector_fails b' path offset i = sector_fails b path offset i) →
  write_sectors b' path offset bnum data sectors file
  = write_sectors b path offset bnum data sectors file.
Proof.
  unfold write_sectors. revert file.
  induction sectors as [|i sectors IH]; simpl; intros file H; [done|].
  rewrite (H i) by apply list_elem_of_here. apply IH.
  intros j Hj. apply H. by apply list_elem_of_further.
Qed.

Lemma elem_of_sectors_from i k n :
  i ∈ sectors_from k n ↔ ∃ j : nat, i = Z.of_nat j ∧ (k ≤ j < k + n)%nat.
Proof.
  unfold sectors_from. rewrite list_elem_of_In, in_map_iff. split.
  - intros (j & <- & Hj%in_seq). eauto.
  - intros (j & -> & Hj). exists j. split; [done|]. by apply in_seq.
Qed.

Lemma elem_of_sector_offsets o lo k n :
  o ∈ sector_offsets lo (sectors_from k n) ↔
  ∃ j : nat, (k ≤ j < k + n)%nat ∧ o = lo + Z.of_nat j * SECTOR_SZ.
Proof.
  unfold sector_offsets. rewrite list_elem_of_fmap. split.
  - intros (i & -> & (j & -> & Hj)%elem_of_sectors_from). eauto.
  - intros (j & Hj & ->). exists (Z.of_nat j). split; [done|].
    apply elem_of_sectors_from. eauto.
Qed.

Lemma bwrite_loop_spec path data bnum lo n : ∀ k b succ,
  0 ≤ bnum →
  (∀ o s, sector_seq b path o = Some s → seq_ok s) →
  ∃ b', BlockManager.bwrite_loop path data (sectors_from k n)
          (succ, bnum * PAGE_SZ + Z.of_nat k * 512, lo + Z.of_nat k * 512) b
        = (b', Returned (succ && forallb (λ i, negb (sector_fails b path lo i)) (sectors_from k n),
                         bnum * PAGE_SZ + Z.of_nat (k + n) * 512,
                         lo + Z.of_nat (k + n) * 512)) ∧
    BlockManager.size b' = BlockManager.size b ∧
    BlockManager.free_list b' = BlockManager.free_list b ∧
    BlockManager.largest_block_num b' = BlockManager.largest_block_num b ∧
    BlockManager.log b' = BlockManager.log b ∧
    BlockManager.fp b' = write_sectors b path lo bnum data (sectors_from k n) (BlockManager.fp b) ∧
    (∀ p o, sector_seq b' p o =
       if decide (p = path ∧ o ∈ sector_offsets lo (sectors_from k n))
       then (λ s, (FailSequence.next s).1) <$> sector_seq b p o
       else sector_seq b p o).
Proof.
  induction n as [|n IH]; intros k b succ Hb Hok.
  - exists b. simpl. unfold ret. rewrite andb_true_r, Nat.add_0_r.
    repeat split; try done.
    intros p o. rewrite decide_False; [done|]. intros (_ & H). by apply elem_of_nil in H.
  - unfold sectors_from. simpl seq. simpl map. fold (sectors_from (S k) n).
    simpl BlockManager.bwrite_loop.
    destruct (bwrite_sector_spec b path data (Z.of_nat k) succ
                (bnum * PAGE_SZ + Z.of_nat k * 512) (lo + Z.of_nat k * 512))
      as (b1 & Hrun & Hsz & Hfl & Hlg & Hlog & Hfp & Hseq).
    { unfold PAGE_SZ. lia. }
    { intros s. apply Hok. }
    change (match sector_seq b path (lo + Z.of_nat k * 512) with
            | Some s => _ | None => false end)
      with (sector_fails b path lo (Z.of_nat k)) in Hrun, Hfp.
    rewrite (bind_returned _ _ _ _ _ Hrun).
    replace (bnum * PAGE_SZ + Z.of_nat k * 512 + 512)
      with (bnum * PAGE_SZ + Z.of_nat (S k) * 512) by lia.
    replace (lo + Z.of_nat k * 512 + 512) with (lo + Z.of_nat (S k) * 512) by lia.
    assert (Hok1 : ∀ o s, sector_seq b1 path o = Some s → seq_ok s).
    { intros o s. rewrite Hseq. case_decide as Hd.
      - destruct Hd as [_ ->]. destruct (sector_seq b path _) as [s0|] eqn:H0; [|done].
        simpl. intros [= <-]. apply next_seq_ok. by eapply Hok.
      - apply Hok. }
    destruct (IH (S k) b1 (succ && negb (sector_fails b path lo (Z.of_nat k))) Hb Hok1)
      as (b' & Hrun' & Hsz' & Hfl' & Hlg' & Hlog' & Hfp' & Hseq').
    assert (Hsame : ∀ i, i ∈ sectors_from (S k) n →
              sector_fails b1 path lo i = sector_fails b path lo i).
    { intros i (j & -> & Hj)%elem_of_sectors_from. apply sector_fails_ext.
      rewrite Hseq. rewrite decide_False; [done|]. unfold SECTOR_SZ. intros [_ ?]. lia. }
    exists b'. rewrite Hrun'. split.
    { f_equal. f_equal. f_equal; [f_equal|]; [|lia..].
      simpl forallb. rewrite andb_assoc. f_equal.
      apply forallb_ext_in. intros i Hi. by rewrite Hsame. }
    split; [congruence|]. split; [congruence|]. split; [congruence|]. split; [congruence|].
    split.
    { rewrite Hfp'. rewrite (write_sectors_ext b b1) by done. rewrite Hfp. done. }
    intros p o. rewrite Hseq'. rewrite !Hseq.
    destruct (decide (p = path ∧ o = lo + Z.of_nat k * 512)) as [[-> ->]|Hk].
    + rewrite decide_False.
      2:{ intros (_ & (j & Hj & ?)%elem_of_sector_offsets). unfold SECTOR_SZ in *. lia. }
      rewrite decide_True; [done|]. split; [done|].
      apply (elem_of_sector_offsets _ lo k (S n)). exists k. split; [lia|done].
    + destruct (decide (p = path ∧ o ∈ sector_offsets lo (sectors_from (S k) n)))
        as [[-> (j & Hj & ->)%elem_of_sector_offsets]|Hn].
      * rewrite decide_True; [done|]. split; [done|].
        apply (elem_of_sector_offsets _ lo k (S n)). exists j. split; [lia|done].
      * rewrite decide_False; [done|].
        intros (-> & (j & Hj & ->)%(elem_of_sector_offsets _ lo k (S n))).
        destruct (decide (j = k)) as [->|Hjk]; [by apply Hk|].
        apply Hn. split; [done|]. apply elem_of_sector_offsets. exists j. split; [lia|done].
Qed.

(** C6: [bwrite] of a page writes the block in [PAGE_SZ / SECTOR_SZ] sectors.
    The oracle installed at [faulty_paths[path][logical_offset + i * SECTOR_SZ]],
    if there is one, is advanced once and no other oracle is touched: its
    position [idx] grows by exactly one, its letters, its end and its
    terminal letter stay, and what it answers is the letter at the new
    position, or the terminal letter from the end on.  A sector whose oracle
    answers ['x'] is not written to the backing file, every other sector is
    written at [bnum * PAGE_SZ + i * SECTOR_SZ]; and the call returns [true]
    exactly when no sector's oracle answered ['x']. *)
Theorem bwrite_sector_by_sector b bnum data path logical_offset :
  Z.of_nat (length data) = PAGE_SZ →
  0 ≤ bnum →
  (∀ o s, sector_seq b path o = Some s → seq_ok s) →
  let sectors := BlockManager.range (PAGE_SZ / SECTOR_SZ) in
  let success := forallb (λ i, negb (sector_fails b path logical_offset i)) sectors in
  ∃ b',
    BlockManager.bwrite bnum data (path, logical_offset) b = (b', Returned success) ∧
    Z.of_nat (length sectors) = PAGE_SZ / SECTOR_SZ ∧
    (∀ p o, sector_seq b' p o =
       if decide (p = path ∧ o ∈ sector_offsets logical_offset sectors)
       then (λ s, (FailSequence.next s).1) <$> sector_seq b p o
       else sector_seq b p o) ∧
    BlockManager.fp b' =
      write_sectors b path logical_offset bnum data sectors (BlockManager.fp b) ∧
    (success = true ↔
     ∀ i, 0 ≤ i < PAGE_SZ / SECTOR_SZ → sector_fails b path logical_offset i = false) ∧
    (∀ i, 0 ≤ i < PAGE_SZ / SECTOR_SZ →
       match sector_seq b path (logical_offset + i * SECTOR_SZ) with
       | Some s =>
           ∃ s', sector_seq b' path (logical_offset + i * SECTOR_SZ) = Some s' ∧
             FailSequence.idx s' = FailSequence.idx s + 1 ∧
             FailSequence.seq s' = FailSequence.seq s ∧
             FailSequence.end_idx s' = FailSequence.end_idx s ∧
             FailSequence.termchar s' = FailSequence.termchar s ∧
             (sector_fails b path logical_offset i = true ↔
              (if FailSequence.idx s + 1 >=? FailSequence.end_idx s
               then Some (FailSequence.termchar s)
               else FailSequence.index (FailSequence.seq s) (FailSequence.idx s + 1))
              = Some "x"%char)
       | None =>
           sector_seq b' path (logical_offset + i * SECTOR_SZ) = None ∧
           sector_fails b path logical_offset i = false
       end).
Proof.
  intros Hlen Hb Hok sectors success.
  destruct (bwrite_loop_spec path data bnum logical_offset 8 0 b true Hb Hok)
    as (b1 & Hrun & Hsz & Hfl & Hlg & Hlog & Hfp & Hseq).
  change (sectors_from 0 8) with sectors in *.
  replace (bnum * PAGE_SZ + Z.of_nat 0 * 512) with (bnum * PAGE_SZ) in Hrun by lia.
  replace (logical_offset + Z.of_nat 0 * 512) with logical_offset in Hrun by lia.
  rewrite andb_true_l in Hrun. fold success in Hrun.
  unfold BlockManager.bwrite.
  assert (Ha : (Z.of_nat (length data) =? PAGE_SZ) = true) by by apply Z.eqb_eq.
  rewrite Ha. unfold assert, bind at 1, ret at 1.
  change (BlockManager.range (PAGE_SZ / SECTOR_SZ)) with sectors.
  rewrite (bind_returned _ _ _ _ _ Hrun).
  unfold bind, modify, gets, when, ret. simpl.
  assert (Hiff : success = true ↔
     ∀ i, 0 ≤ i < PAGE_SZ / SECTOR_SZ → sector_fails b path logical_offset i = false).
  { subst success. rewrite forallb_forall. split.
    - intros H i Hi. apply negb_true_iff, H. apply list_elem_of_In.
      apply (elem_of_sectors_from i 0 8). exists (Z.to_nat i).
      change (PAGE_SZ / SECTOR_SZ) with 8 in Hi. lia.
    - intros H i (j & -> & Hj)%list_elem_of_In%(elem_of_sectors_from _ 0 8).
      apply negb_true_iff, H. change (PAGE_SZ / SECTOR_SZ) with 8. lia. }
  assert (Hadv : ∀ i, 0 ≤ i < PAGE_SZ / SECTOR_SZ →
       match sector_seq b path (logical_offset + i * SECTOR_SZ) with
       | Some s =>
           ∃ s', sector_seq b1 path (logical_offset + i * SECTOR_SZ) = Some s' ∧
             FailSequence.idx s' = FailSequence.idx s + 1 ∧
             FailSequence.seq s' = FailSequence.seq s ∧
             FailSequence.end_idx s' = FailSequence.end_idx s ∧
             FailSequence.termchar s' = FailSequence.termchar s ∧
             (sector_fails b path logical_offset i = true ↔
              (if FailSequence.idx s + 1 >=? FailSequence.end_idx s
               then Some (FailSequence.termchar s)
               else FailSequence.index (FailSequence.seq s) (FailSequence.idx s + 1))
              = Some "x"%char)
       | None =>
           sector_seq b1 path (logical_offset + i * SECTOR_SZ) = None ∧
           sector_fails b path logical_offset i = false
       end).
  { intros i Hi. change (PAGE_SZ / SECTOR_SZ) with 8 in Hi.
    pose proof (Hseq path (logical_offset + i * SECTOR_SZ)) as Hs.
    rewrite decide_True in Hs.
    2:{ split; [done|]. apply (elem_of_sector_offsets _ logical_offset 0 8).
        exists (Z.to_nat i). split; [lia|]. by rewrite Z2Nat.id by lia. }
    unfold sector_fails.
    destruct (sector_seq b path (logical_offset + i * SECTOR_SZ)) as [s|] eqn:Es;
      simpl in Hs; [|done].
    exists (FailSequence.next s).1. split; [exact Hs|].
    unfold FailSequence.next. simpl.
    destruct (FailSequence.idx s + 1 >=? FailSequence.end_idx s); simpl.
    - repeat (split; [done|]). rewrite Ascii.eqb_eq. split; [by intros ->|by intros [= ->]].
    - destruct (FailSequence.index (FailSequence.seq s) (FailSequence.idx s + 1)) as [c|];
        simpl; repeat (split; [done|]); [|done].
      rewrite Ascii.eqb_eq. split; [by intros ->|by intros [= ->]]. }
  destruct (_ >=? _); (eexists; split; [reflexivity|]);
      (split; [done|]); (split; [intros p o; exact (Hseq p o)|]);
      (split; [exact Hfp|]); (split; [exact Hiff|exact Hadv]).
Qed.

Lemma bwrite_sector_by_sector_witness :
  let b := block_manager (with_fault Ext4Ordered) in
  Z.of_nat (length (page_of "x")) = PAGE_SZ ∧ 0 ≤ 5 ∧
  (∀ o s, sector_seq b "/f" o = Some s → seq_ok s) ∧
  ∃ b', BlockManager.bwrite 5 (page_of "x") ("/f"%string, 4096) b = (b', Returned false) ∧
        FailSequence.idx <$> sector_seq b "/f" (4096 + 3 * SECTOR_SZ) = Some (-1) ∧
        FailSequence.idx <$> sector_seq b' "/f" (4096 + 3 * SECTOR_SZ) = Some 0.
Proof.
  assert (H3 : ∀ o s, sector_seq (block_manager (with_fault Ext4Ordered)) "/f" o = Some s
                      → seq_ok s).
  { intros o s. apply (proj1 (seqs_ok_iff (block_manager (with_fault Ext4Ordered)))).
    decide_by_compute. }
  cbv zeta.
  split; [vm_compute; reflexivity|]. split; [lia|]. split; [exact H3|].
  destruct (bwrite_sector_by_sector (block_manager (with_fault Ext4Ordered)) 5 (page_of "x")
              "/f" 4096 ltac:(vm_compute; reflexivity) ltac:(lia) H3)
    as (b' & Hrun & _ & _ & _ & _ & Hadv).
  assert (E : forallb (λ i, negb (sector_fails (block_manager (with_fault Ext4Ordered))
                                    "/f" 4096 i))
                (BlockManager.range (PAGE_SZ / SECTOR_SZ)) = false).
  { vm_compute. reflexivity. }
  rewrite E in Hrun. exists b'. split; [exact Hrun|].
  specialize (Hadv 3 ltac:(vm_compute; split; [by intros ?|reflexivity])).
  destruct (sector_seq (block_manager (with_fault Ext4Ordered)) "/f" (4096 + 3 * SECTOR_SZ))
    as [s|] eqn:Es.
  - destruct Hadv as (s' & Hs' & Hidx & _). rewrite Hs'. simpl. rewrite Hidx.
    revert Es. vm_compute. intros [= <-]. split; reflexivity.
  - revert Es. vm_compute. discriminate.
Defined.


(** ** The policies' I/O *)

(** [bwrite] of a page-sized buffer to a block. *)
Lemma bwrite_spec b bnum data path logical_offset :
  Z.of_nat (length data) = PAGE_SZ →
  0 ≤ bnum →
  seqs_ok b →
  let sectors := BlockManager.range (PAGE_SZ / SECTOR_SZ) in
  let success := forallb (λ i, negb (sector_fails b path logical_offset i)) sectors in
  ∃ b',
    BlockManager.bwrite bnum data (path, logical_offset) b = (b', Returned success) ∧
    (∀ p o, sector_seq b' p o =
       if decide (p = path ∧ o ∈ sector_offsets logical_offset sectors)
       then (λ s, (FailSequence.next s).1) <$> sector_seq b p o
       else sector_seq b p o) ∧
    BlockManager.fp b' =
      write_sectors b path logical_offset bnum data sectors (BlockManager.fp b) ∧
    BlockManager.free_list b' = BlockManager.free_list b ∧
    BlockManager.largest_block_num b' = BlockManager.largest_block_num b ∧
    BlockManager.log b' = BlockManager.log b ++
      [{| BlockManager.msg_block := bnum; BlockManager.msg_path := path;
          BlockManager.msg_offset := logical_offset;
          BlockManager.bio_success := success |}] ∧
    seqs_ok b'.
Proof.
  intros Hlen Hb Hok0 sectors success.
  pose proof (proj1 (seqs_ok_iff b) Hok0) as Hok.
  destruct (bwrite_loop_spec path data bnum logical_offset 8 0 b true Hb (Hok path))
    as (b1 & Hrun & Hsz & Hfl & Hlg & Hlog & Hfp & Hseq).
  change (sectors_from 0 8) with sectors in *.
  replace (bnum * PAGE_SZ + Z.of_nat 0 * 512) with (bnum * PAGE_SZ) in Hrun by lia.
  replace (logical_offset + Z.of_nat 0 * 512) with logical_offset in Hrun by lia.
  rewrite andb_true_l in Hrun. fold success in Hrun.
  unfold BlockManager.bwrite.
  assert (Ha : (Z.of_nat (length data) =? PAGE_SZ) = true) by by apply Z.eqb_eq.
  rewrite Ha. unfold assert, bind at 1, ret at 1.
  change (BlockManager.range (PAGE_SZ / SECTOR_SZ)) with sectors.
  rewrite (bind_returned _ _ _ _ _ Hrun).
  unfold bind, modify, gets, when, ret. simpl.
  assert (Hok' : ∀ b', (∀ p o, sector_seq b' p o = sector_seq b1 p o) → seqs_ok b').
  { intros b' Hb'. apply seqs_ok_iff. intros p o s. rewrite Hb', Hseq. case_decide.
    - destruct (sector_seq b p o) as [s0|] eqn:H0; [|done]. simpl. intros [= <-].
      apply next_seq_ok. by eapply Hok.
    - apply Hok. }
  destruct (_ >=? _); (eexists; split; [reflexivity|]);
    (split; [intros p o; exact (Hseq p o)|]); (split; [exact Hfp|]);
    (split; [exact Hfl|]); (split; [exact Hlg|]);
    (split; [simpl; by rewrite Hlog|]); by apply Hok'.
Qed.

Lemma alloc_block_spec b :
  Forall (λ x, 0 ≤ x) (BlockManager.free_list b) →
  0 ≤ BlockManager.largest_block_num b →
  ∃ b' block,
    BlockManager.alloc_block b = (b', Returned block) ∧ 0 ≤ block ∧
    Forall (λ x, 0 ≤ x) (BlockManager.free_list b') ∧
    0 ≤ BlockManager.largest_block_num b' ∧
    BlockManager.faulty_paths b' = BlockManager.faulty_paths b ∧
    BlockManager.fp b' = BlockManager.fp b ∧
    BlockManager.log b' = BlockManager.log b.
Proof.
  intros Hfree Hlarge. unfold BlockManager.alloc_block, bind, gets, modify, ret. simpl.
  destruct (BlockManager.free_list b) as [|x fl] eqn:Hfl using rev_ind.
  - simpl. eexists _, _. split; [reflexivity|]. simpl. rewrite Hfl.
    repeat split; try done. lia.
  - clear IHfl. rewrite length_app. simpl.
    destruct (0 <? Z.of_nat (length fl + 1)) eqn:E; [|apply Z.ltb_ge in E; lia].
    rewrite last_snoc. simpl. eexists _, _. split; [reflexivity|]. simpl.
    apply Forall_app in Hfree as [Hfree Hx]. apply Forall_inv in Hx.
    rewrite removelast_last. repeat split; done.
Qed.
Ltac split_ok := split; [|split; [|split; [|split]]].

Lemma sync_frame_refl minode w : sync_frame minode w w.
Proof.
  constructor; try done.
  - intros l. destruct (pages w !! l); by constructor.
  - destruct (minode_map w !! minode); by constructor.
  - exists []. by rewrite app_nil_r.
Qed.

Lemma sync_frame_trans minode w1 w2 w3 :
  sync_frame minode w1 w2 → sync_frame minode w2 w3 → sync_frame minode w1 w3.
Proof.
  intros H1 H2. constructor.
  - rewrite (sf_host _ _ _ H2). apply H1.
  - rewrite (sf_root _ _ _ H2). apply H1.
  - rewrite (sf_to_be_deleted _ _ _ H2). apply H1.
  - rewrite (sf_last_fd _ _ _ H2). apply H1.
  - rewrite (sf_fd_info _ _ _ H2). apply H1.
  - rewrite (sf_open_fds _ _ _ H2). apply H1.
  - rewrite (sf_sync_fds _ _ _ H2). apply H1.
  - rewrite (sf_cls _ _ _ H2). apply H1.
  - rewrite (sf_failed _ _ _ H2). apply H1.
  - intros l. pose proof (sf_pages _ _ _ H1 l) as Ha. pose proof (sf_pages _ _ _ H2 l) as Hb.
    destruct Ha as [p1 p2 (?&?&?&?)|]; inversion Hb as [? p3 (?&?&?&?)|]; subst;
      constructor. repeat split; try congruence. auto.
  - intros i Hi. rewrite (sf_others _ _ _ H2), (sf_others _ _ _ H1); done.
  - pose proof (sf_minode _ _ _ H1) as Ha. pose proof (sf_minode _ _ _ H2) as Hb.
    destruct Ha as [m1 m2 (?&?&?&?&?&?&?)|];
      inversion Hb as [? m3 (?&?&?&?&?&?&?)|]; subst; constructor.
    repeat split; congruence.
  - destruct (sf_log _ _ _ H1) as [a Ha], (sf_log _ _ _ H2) as [b Hb]. exists (a ++ b).
    by rewrite Hb, Ha, app_assoc.
Qed.

Lemma dict_values_set_Forall {V} (P : V → Prop) k v (d : PyDict.t V) :
  Forall P (PyDict.values d) → P v → Forall P (PyDict.values (PyDict.set k v d)).
Proof.
  unfold PyDict.values. induction d as [|[k' v'] d IH]; simpl; intros Hd Hv.
  - by constructor.
  - inversion Hd; subst. destruct (k =? k'); simpl; constructor; auto.
Qed.

Lemma dict_values_get_Forall {V} (P : V → Prop) k v (d : PyDict.t V) :
  Forall P (PyDict.values d) → PyDict.get k d = Some v → P v.
Proof.
  intros Hd Hg. apply dict_get_values in Hg.
  rewrite Forall_forall in Hd. by apply Hd.
Qed.

(** Clearing the flag of a page keeps a state fit for I/O. *)
Lemma inode_ok_clear_flag w minode l :
  inode_ok w minode →
  inode_ok (set_pages (alter (Page.set_flag_dirty false) l (pages w)) w) minode.
Proof.
  intros (Hm & Hc & Hf & Hl & Hs). split_ok; simpl; try done.
  - destruct (minode_map w !! minode) as [m|]; [|done]. destruct Hm as [Hp Hb]. split; [|done].
    simpl. eapply Forall_impl; [exact Hp|]. intros l' [p Hp']. simpl.
    rewrite lookup_alter. case_decide; subst; rewrite Hp'; simpl; eauto.
  - intros l' p. rewrite lookup_alter. case_decide; subst.
    + destruct (pages w !! l') as [p0|] eqn:H0; [|done]. simpl. intros [= <-].
      simpl. by eapply Hc.
    + apply Hc.
Qed.

Lemma sync_frame_clear_flag w minode l :
  sync_frame minode w (set_pages (alter (Page.set_flag_dirty false) l (pages w)) w).
Proof.
  constructor; simpl; try done.
  - intros l'. rewrite lookup_alter. case_decide; subst.
    + destruct (pages w !! l'); simpl; constructor. done.
    + destruct (pages w !! l'); by constructor.
  - destruct (minode_map w !! minode); by constructor.
  - exists []. by rewrite app_nil_r.
Qed.

Lemma sync_page_prepare_spec w minode l pg :
  inode_ok w minode → pages w !! l = Some pg →
  ∃ w1 block,
    GenericFsync.sync_page_prepare minode l w = (w1, Returned block) ∧ 0 ≤ block ∧
    inode_ok w1 minode ∧ sync_frame minode w w1 ∧
    (∀ l', pages w1 !! l' =
       if decide (l' = l) then Some (Page.set_flag_dirty false pg) else pages w !! l') ∧
    BlockManager.log (block_manager w1) = BlockManager.log (block_manager w).
Proof.
  intros Hok Hpg. pose proof Hok as (Hm & Hc & Hf & Hl & Hs).
  destruct (minode_map w !! minode) as [m|] eqn:Hmm; [|done]. destruct Hm as [Hp Hb].
  unfold GenericFsync.sync_page_prepare.
  unfold bind at 1. unfold get_page at 1. rewrite Hpg.
  unfold bind at 1. unfold get_minode at 1. rewrite Hmm.
  destruct (PyDict.get (Page.offset pg) (MemInode.offset_to_block m)) as [block|] eqn:Hget.
  - unfold bind, ret, update_page, modify. simpl.
    eexists _, block. split; [reflexivity|].
    split; [by eapply dict_values_get_Forall|].
    split; [by apply inode_ok_clear_flag|].
    split; [apply sync_frame_clear_flag|].
    split; [|done]. simpl. intros l'. rewrite lookup_alter.
    destruct (decide (l' = l)) as [->|Hne];
      [rewrite decide_True by done; by rewrite Hpg|by rewrite decide_False].
  - destruct (alloc_block_spec (block_manager w) Hf Hl)
      as (b' & block & Hrun & Hblock & Hf' & Hl' & Hfp' & Hfile' & Hlog').
    unfold bind, ret, update_page, update_minode, modify, on_block_manager. simpl.
    rewrite Hrun. simpl.
    eexists _, block. split; [reflexivity|]. split; [done|].
    split.
    { split_ok; simpl; try done.
      - rewrite lookup_alter, decide_True by done. rewrite Hmm. simpl. split; simpl.
        + eapply Forall_impl; [exact Hp|]. intros l' [p Hp']. simpl.
          rewrite lookup_alter. case_decide; subst; rewrite Hp'; simpl; eauto.
        + by apply dict_values_set_Forall.
      - intros l' p. rewrite lookup_alter. case_decide; subst.
        + destruct (pages w !! l') as [p0|] eqn:H0; [|done]. simpl. intros [= <-].
          simpl. by eapply Hc.
        + apply Hc.
      - unfold seqs_ok. by rewrite Hfp'. }
    split.
    { constructor; simpl; try done.
      - intros l'. rewrite lookup_alter. case_decide; subst.
        + destruct (pages w !! l'); simpl; constructor. done.
        + destruct (pages w !! l'); by constructor.
      - intros i Hi. rewrite lookup_alter, decide_False; done.
      - rewrite lookup_alter, decide_True by done. rewrite Hmm. simpl. by constructor.
      - exists []. by rewrite app_nil_r. }
    split; [|done]. simpl. intros l'. rewrite lookup_alter.
    destruct (decide (l' = l)) as [->|Hne];
      [rewrite decide_True by done; by rewrite Hpg|by rewrite decide_False].
Qed.

Lemma sync_page_bwrite_spec w minode l pg m block :
  inode_ok w minode → pages w !! l = Some pg → minode_map w !! minode = Some m →
  0 ≤ block →
  ∃ b' bsuccess,
    GenericFsync.sync_page_bwrite minode l block w
      = (set_block_manager b' w, Returned bsuccess) ∧
    inode_ok (set_block_manager b' w) minode ∧
    sync_frame minode w (set_block_manager b' w) ∧
    BlockManager.log b' = BlockManager.log (block_manager w) ++
      [{| BlockManager.msg_block := block; BlockManager.msg_path := MemInode.path m;
          BlockManager.msg_offset := Page.offset pg;
          BlockManager.bio_success := bsuccess |}].
Proof.
  intros Hok Hpg Hmm Hblock. pose proof Hok as (Hm & Hc & Hf & Hl & Hs).
  destruct (bwrite_spec (block_manager w) block (Page.content pg) (MemInode.path m)
              (Page.offset pg)) as (b' & Hrun & _ & _ & Hfl & Hlg & Hlog & Hseq);
    [by eapply Hc|done|done|].
  unfold GenericFsync.sync_page_bwrite, bind, get_page, get_minode, on_block_manager.
  rewrite Hpg, Hmm, Hrun.
  eexists _, _. split; [reflexivity|]. split.
  { split_ok; simpl; try done; congruence. }
  split; [|done].
  constructor; simpl; try done.
  - intros l'. destruct (pages w !! l'); by constructor.
  - destruct (minode_map w !! minode); by constructor.
  - eauto.
Qed.
Lemma sync_frame_is_Some minode w w' l :
  sync_frame minode w w' → is_Some (pages w !! l) → is_Some (pages w' !! l).
Proof.
  intros H [p Hp]. pose proof (sf_pages _ _ _ H l) as Hl. rewrite Hp in Hl.
  inversion Hl. eauto.
Qed.

Lemma sync_frame_clean minode w w' l :
  sync_frame minode w w' → is_clean w l → is_clean w' l.
Proof.
  intros H (p & Hp & Hf). pose proof (sf_pages _ _ _ H l) as Hl. rewrite Hp in Hl.
  inversion Hl as [? p' (?&?&?&Hflag) E1 E2|]; subst. exists p'. split; [done|].
  destruct (Page.flag_dirty p'); [|done]. rewrite Hflag in Hf; done.
Qed.

Lemma sync_frame_path minode w w' m m' :
  sync_frame minode w w' → minode_map w !! minode = Some m →
  minode_map w' !! minode = Some m' → MemInode.path m' = MemInode.path m.
Proof.
  intros H Hm Hm'. pose proof (sf_minode _ _ _ H) as Hx. rewrite Hm, Hm' in Hx.
  inversion Hx as [? ? (?&?&?) |]; by subst.
Qed.

(** The loop of [sync_pages], for a state fit for I/O: it ends, one
    [BWRITE] line is logged for every page found dirty, and the value is
    [-EIO] as soon as one of them reports a failure. *)
Lemma sync_pages_loop_spec minode : ∀ ps w r m,
  inode_ok w minode → minode_map w !! minode = Some m →
  Forall (λ l, is_Some (pages w !! l)) ps →
  ∃ w' msgs,
    GenericFsync.sync_pages_loop minode ps r w
      = (w', Returned (if forallb BlockManager.bio_success msgs then r else - EIO)) ∧
    inode_ok w' minode ∧ sync_frame minode w w' ∧
    BlockManager.log (block_manager w') = BlockManager.log (block_manager w) ++ msgs ∧
    (∀ l, l ∈ ps → is_clean w' l) ∧
    (∀ l, l ∉ ps → pages w' !! l = pages w !! l) ∧
    (∀ l pg, l ∈ ps → pages w !! l = Some pg → Page.flag_dirty pg = true →
       ∃ msg, msg ∈ msgs ∧ BlockManager.msg_offset msg = Page.offset pg ∧
              BlockManager.msg_path msg = MemInode.path m) ∧
    (∀ msg, msg ∈ msgs →
       ∃ l pg, l ∈ ps ∧ pages w !! l = Some pg ∧ Page.flag_dirty pg = true ∧
               BlockManager.msg_offset msg = Page.offset pg ∧
               BlockManager.msg_path msg = MemInode.path m).
Proof.
  induction ps as [|l rest IH]; intros w r m Hok Hmm Hps.
  - exists w, []. simpl. split; [done|]. split; [done|]. split; [apply sync_frame_refl|].
    split; [by rewrite app_nil_r|]. split; [by intros l H%elem_of_nil|].
    split; [done|]. split; [by intros l pg H%elem_of_nil|by intros msg H%elem_of_nil].
  - apply Forall_cons in Hps as [[pg Hpg] Hrest]. simpl.
    unfold bind at 1. unfold get_page at 1. rewrite Hpg.
    destruct (Page.flag_dirty pg) eqn:Hdirty; simpl.
    + destruct (sync_page_prepare_spec w minode l pg Hok Hpg)
        as (w1 & block & Hrun1 & Hblock & Hok1 & Hfr1 & Hpages1 & Hlog1).
      rewrite (bind_returned _ _ _ _ _ Hrun1).
      assert (Hpg1 : pages w1 !! l = Some (Page.set_flag_dirty false pg)).
      { by rewrite Hpages1, decide_True. }
      assert (∃ m1, minode_map w1 !! minode = Some m1) as [m1 Hmm1].
      { destruct Hok1 as [H _]. destruct (minode_map w1 !! minode); [eauto|done]. }
      destruct (sync_page_bwrite_spec w1 minode l _ m1 block Hok1 Hpg1 Hmm1 Hblock)
        as (b' & bsuccess & Hrun2 & Hok2 & Hfr2 & Hlog2).
      rewrite (bind_returned _ _ _ _ _ Hrun2).
      set (w2 := set_block_manager b' w1) in *.
      assert (Hfr12 : sync_frame minode w w2) by by eapply sync_frame_trans.
      assert (∃ m2, minode_map w2 !! minode = Some m2) as [m2 Hmm2]
        by (exists m1; exact Hmm1).
      assert (Hrest2 : Forall (λ l, is_Some (pages w2 !! l)) rest).
      { eapply Forall_impl; [exact Hrest|]. intros l'. by eapply sync_frame_is_Some. }
      destruct (IH w2 (if negb bsuccess then - EIO else r) m2 Hok2 Hmm2 Hrest2)
        as (w' & msgs & Hrun & Hok' & Hfr' & Hlog' & Hclean & Hother & Hatt & Hmsg).
      pose proof (sync_frame_path _ _ _ _ _ Hfr1 Hmm Hmm1) as Hpath1.
      pose proof (sync_frame_path _ _ _ _ _ Hfr12 Hmm Hmm2) as Hpath2.
      simpl in Hpath1.
      exists w', ({| BlockManager.msg_block := block;
                     BlockManager.msg_path := MemInode.path m1;
                     BlockManager.msg_offset := Page.offset pg;
                     BlockManager.bio_success := bsuccess |} :: msgs). split.
      { rewrite Hrun. simpl. f_equal. f_equal.
        destruct bsuccess, (forallb _ msgs); reflexivity. }
      split; [done|]. split; [by eapply sync_frame_trans|].
      split.
      { rewrite Hlog'. unfold w2. simpl. rewrite Hlog2, Hlog1. by rewrite <- app_assoc. }
      split.
      { intros l' [->|Hl']%elem_of_cons; [|by apply Hclean].
        eapply sync_frame_clean; [exact Hfr'|]. eexists. split; [exact Hpg1|done]. }
      split.
      { intros l' Hl'%not_elem_of_cons. destruct Hl' as [Hne Hl'].
        rewrite (Hother l' Hl'). unfold w2. simpl. by rewrite Hpages1, decide_False. }
      split.
      { intros l' pg' Hl' Hpg' Hd'.
        destruct (decide (l' = l)) as [->|Hne].
        - rewrite Hpg in Hpg'. injection Hpg' as <-.
          eexists. split; [apply list_elem_of_here|]. simpl. by rewrite Hpath1.
        - apply elem_of_cons in Hl' as [?|Hl']; [done|].
          destruct (Hatt l' pg' Hl') as (msg & Hin & Ho & Hp); [|done|].
          { unfold w2. simpl. by rewrite Hpages1, decide_False. }
          exists msg. split; [by apply list_elem_of_further|]. split; [done|]. congruence. }
      intros msg [->|Hin]%elem_of_cons.
      { exists l, pg. split; [apply list_elem_of_here|]. simpl. by rewrite Hpath1. }
      destruct (Hmsg msg Hin) as (l' & pg' & Hl' & Hpg' & Hd' & Ho & Hp).
      exists l', pg'. split; [by apply list_elem_of_further|].
      unfold w2 in Hpg'. simpl in Hpg'. rewrite Hpages1 in Hpg'.
      destruct (decide (l' = l)) as [->|Hne].
      { injection Hpg' as <-. done. }
      split; [done|]. split; [done|]. split; [done|]. congruence.
    + destruct (IH w r m Hok Hmm Hrest)
        as (w' & msgs & Hrun & Hok' & Hfr' & Hlog' & Hclean & Hother & Hatt & Hmsg).
      exists w', msgs. split; [done|]. split; [done|]. split; [done|]. split; [done|].
      split.
      { intros l' [->|Hl']%elem_of_cons; [|by apply Hclean].
        eapply sync_frame_clean; [exact Hfr'|]. by exists pg. }
      split.
      { intros l' [_ Hl']%not_elem_of_cons. by apply Hother. }
      split.
      { intros l' pg' [->|Hl']%elem_of_cons Hpg' Hd'; [congruence|]. by eapply Hatt. }
      intros msg Hin. destruct (Hmsg msg Hin) as (l' & pg' & Hl' & Hrest').
      exists l', pg'. split; [by apply list_elem_of_further|done].
Qed.
Lemma bind_assoc {S A B C} (c : M S A) (k : A → M S B) (k' : B → M S C) s :
  bind (bind c k) k' s = bind c (λ a, bind (k a) k') s.
Proof. unfold bind. by destruct (c s) as [s1 [a| | | |]]. Qed.

Lemma bind_ext {S A B} (c : M S A) (k k' : A → M S B) s :
  (∀ a s1, k a s1 = k' a s1) → bind c k s = bind c k' s.
Proof. intros H. unfold bind. destruct (c s) as [s1 [a| | | |]]; auto. Qed.

Lemma sync_pages_loop_app minode pre post : ∀ r w,
  GenericFsync.sync_pages_loop minode (pre ++ post) r w
  = bind (GenericFsync.sync_pages_loop minode pre r)
         (λ r0, GenericFsync.sync_pages_loop minode post r0) w.
Proof.
  induction pre as [|l pre IH]; intros r w; [done|]. simpl.
  rewrite bind_assoc. apply bind_ext. intros pg w1.
  destruct (negb (Page.flag_dirty pg)); [apply IH|].
  rewrite bind_assoc. apply bind_ext. intros block w2.
  rewrite bind_assoc. apply bind_ext. intros bs w3. apply IH.
Qed.

Lemma elem_of_dirty_filter w l ps :
  l ∈ List.filter (dirtyb w) ps ↔ l ∈ ps ∧ dirtyb w l = true.
Proof. by rewrite !list_elem_of_In, filter_In. Qed.

Lemma filter_dirty_spec w ps :
  Forall (λ l, is_Some (pages w !! l)) ps →
  filter_dirty ps w = (w, Returned (List.filter (dirtyb w) ps)).
Proof.
  induction ps as [|l ps IH]; intros Hps; simpl; [done|].
  apply Forall_cons in Hps as [[pg Hpg] Hps].
  unfold bind at 1. unfold get_page at 1. rewrite Hpg.
  rewrite (bind_returned _ _ _ _ _ (IH Hps)). unfold ret. simpl.
  assert (dirtyb w l = Page.flag_dirty pg) as -> by (unfold dirtyb; by rewrite Hpg).
  by destruct (Page.flag_dirty pg).
Qed.

Lemma get_dirty_pages_spec w minode m :
  minode_map w !! minode = Some m →
  Forall (λ l, is_Some (pages w !! l)) (PyDict.values (MemInode.offset_to_page m)) →
  get_dirty_pages minode w
  = (w, Returned (List.filter (dirtyb w) (PyDict.values (MemInode.offset_to_page m)))).
Proof.
  intros Hm Hps. unfold get_dirty_pages, bind, get_minode. rewrite Hm.
  by apply filter_dirty_spec.
Qed.

Lemma sync_meta_spec w minode m :
  minode_map w !! minode = Some m →
  ∃ w', GenericFsync.sync_meta (PyMemInode minode) w = (w', Returned tt) ∧
        same_data w w' ∧ failed_inodes_fd_map w' = failed_inodes_fd_map w ∧
        ∀ p, p ≠ MemInode.realpath m → host w' !! p = host w !! p.
Proof.
  intros Hm. unfold GenericFsync.sync_meta, bind, get_minode, write_meta, modify.
  rewrite Hm. eexists. split; [reflexivity|]. split; [done|]. split; [done|].
  intros p Hp. simpl. by rewrite lookup_insert_ne.
Qed.

Lemma should_notify_spec w fd inode :
  GenericFsync._should_notify_fd fd inode w = (w, Returned (owed w fd inode)).
Proof.
  unfold GenericFsync._should_notify_fd, owed, bind, gets, ret. simpl.
  destruct (failed_inodes_fd_map w !! inode) as [s|]; [|done].
  by destruct (size s =? 0)%nat.
Qed.

Lemma add_fds_spec w inode :
  ∃ w', GenericFsync._add_fds_to_notify inode w = (w', Returned tt) ∧
        same_data w w' ∧ host w' = host w ∧
        failed_inodes_fd_map w' =
          <[inode := default ∅ (failed_inodes_fd_map w !! inode)
                     ∪ default ∅ (inode_to_open_fds_map w !! inode)]>
            (failed_inodes_fd_map w).
Proof.
  unfold GenericFsync._add_fds_to_notify, bind, gets, modify. simpl.
  eexists. split; [reflexivity|]. done.
Qed.

Lemma mark_notified_spec w fd inode :
  ∃ w', GenericFsync._mark_fd_notified fd inode w = (w', Returned tt) ∧
        same_data w w' ∧ host w' = host w ∧
        failed_inodes_fd_map w' =
          match failed_inodes_fd_map w !! inode with
          | None => failed_inodes_fd_map w
          | Some s => if (size (s ∖ {[fd]}) =? 0)%nat
                      then delete inode (failed_inodes_fd_map w)
                      else <[inode := s ∖ {[fd]}]> (failed_inodes_fd_map w)
          end.
Proof.
  unfold GenericFsync._mark_fd_notified, modify.
  eexists. split; [reflexivity|].
  destruct (failed_inodes_fd_map w !! inode) as [s|]; [|done].
  by destruct (size (s ∖ {[fd]}) =? 0)%nat.
Qed.

Lemma same_data_trans w1 w2 w3 : same_data w1 w2 → same_data w2 w3 → same_data w1 w3.
Proof. intros (?&?&?&?&?&?) (?&?&?&?&?&?). repeat split; congruence. Qed.

(** [on_fsync] of the ordered policies, for a state fit for I/O. *)
Lemma generic_on_fsync_spec w fd inode minode m :
  inode_ok w minode → minode_map w !! minode = Some m →
  ∃ w1 w' msgs,
    let r := if forallb BlockManager.bio_success msgs then 0 else - EIO in
    GenericFsync.sync_pages minode
      (List.filter (dirtyb w) (PyDict.values (MemInode.offset_to_page m))) w
      = (w1, Returned r) ∧
    BlockManager.log (block_manager w1) = BlockManager.log (block_manager w) ++ msgs ∧
    inode_ok w1 minode ∧ sync_frame minode w w1 ∧
    (∀ l, l ∈ PyDict.values (MemInode.offset_to_page m) → is_clean w1 l) ∧
    same_data w1 w' ∧
    let failed1 := if r =? 0 then failed_inodes_fd_map w
                   else <[inode := default ∅ (failed_inodes_fd_map w !! inode)
                                   ∪ default ∅ (inode_to_open_fds_map w !! inode)]>
                          (failed_inodes_fd_map w) in
    let w_owed := set_failed_inodes_fd_map failed1 w in
    GenericFsync.on_fsync fd inode minode w
      = (w', Returned (if owed w_owed fd inode then - EIO else r)) ∧
    failed_inodes_fd_map w' =
      (if owed w_owed fd inode
       then match failed1 !! inode with
            | None => failed1
            | Some s => if (size (s ∖ {[fd]}) =? 0)%nat then delete inode failed1
                        else <[inode := s ∖ {[fd]}]> failed1
            end
       else failed1).
Proof.
  intros Hok Hm. pose proof Hok as (Hmo & _). rewrite Hm in Hmo. destruct Hmo as [Hp Hb].
  destruct (sync_pages_loop_spec minode
              (List.filter (dirtyb w) (PyDict.values (MemInode.offset_to_page m))) w 0 m Hok Hm)
    as (w1 & msgs & Hrun & Hok1 & Hfr1 & Hlog1 & Hclean & Hother & _ & _).
  { apply Forall_forall. intros l [Hl _]%elem_of_dirty_filter.
    rewrite Forall_forall in Hp. by apply Hp. }
  assert (∃ m1, minode_map w1 !! minode = Some m1) as [m1 Hm1].
  { destruct Hok1 as [H _]. destruct (minode_map w1 !! minode); [eauto|done]. }
  destruct (sync_meta_spec w1 minode m1 Hm1) as (w2 & Hrun2 & Hsd2 & Hfail2 & _).
  set (r := if forallb BlockManager.bio_success msgs then 0 else - EIO) in *.
  assert (∃ w3, when (negb (r =? 0)) (GenericFsync._add_fds_to_notify inode) w2
                = (w3, Returned tt) ∧ same_data w2 w3 ∧
                failed_inodes_fd_map w3 =
                  (if r =? 0 then failed_inodes_fd_map w
                   else <[inode := default ∅ (failed_inodes_fd_map w !! inode)
                                   ∪ default ∅ (inode_to_open_fds_map w !! inode)]>
                          (failed_inodes_fd_map w))) as (w3 & Hrun3 & Hsd3 & Hfail3).
  { destruct (r =? 0); simpl.
    - exists w2. split; [done|]. split; [done|]. rewrite Hfail2. apply Hfr1.
    - destruct (add_fds_spec w2 inode) as (w3 & Hrun3 & Hsd3 & _ & Hfail3).
      exists w3. split; [done|]. split; [done|]. rewrite Hfail3, Hfail2.
      destruct Hsd2 as (_&_&_&->&_). by rewrite (sf_failed _ _ _ Hfr1), (sf_open_fds _ _ _ Hfr1). }
  exists w1.
  assert (Howed : ∀ wx, failed_inodes_fd_map wx = failed_inodes_fd_map w3 →
            owed wx fd inode = owed w3 fd inode).
  { intros wx Hx. unfold owed. by rewrite Hx. }
  destruct (owed w3 fd inode) eqn:Ho.
  - destruct (mark_notified_spec w3 fd inode) as (w4 & Hrun4 & Hsd4 & _ & Hfail4).
    exists w4, msgs. simpl. split; [exact Hrun|]. split; [done|]. split; [done|].
    split; [done|]. split.
    { intros l Hl. destruct (decide (l ∈ List.filter (dirtyb w)
                                 (PyDict.values (MemInode.offset_to_page m)))) as [Hin|Hnin].
      - by apply Hclean.
      - rewrite Forall_forall in Hp. destruct (Hp l Hl) as [pg Hpg].
        exists pg. rewrite Hother by done. split; [done|].
        destruct (Page.flag_dirty pg) eqn:Hd; [|done]. exfalso. apply Hnin.
        apply elem_of_dirty_filter. split; [done|].
        unfold dirtyb. by rewrite Hpg. }
    split; [eauto using same_data_trans|].
    rewrite (Howed (set_failed_inodes_fd_map _ w)) by (simpl; by rewrite Hfail3).
    rewrite ?Ho. split.
    + unfold GenericFsync.on_fsync.
      rewrite (bind_returned _ _ _ _ _ (get_dirty_pages_spec w minode m Hm Hp)).
      unfold GenericFsync.sync_pages in *. rewrite (bind_returned _ _ _ _ _ Hrun).
      rewrite (bind_returned _ _ _ _ _ Hrun2). rewrite (bind_returned _ _ _ _ _ Hrun3).
      rewrite (bind_returned _ _ _ _ _ (should_notify_spec w3 fd inode)). rewrite Ho.
      by rewrite (bind_returned _ _ _ _ _ Hrun4).
    + by rewrite Hfail4, Hfail3.
  - exists w3, msgs. simpl. split; [exact Hrun|]. split; [done|]. split; [done|].
    split; [done|]. split.
    { intros l Hl. destruct (decide (l ∈ List.filter (dirtyb w)
                                 (PyDict.values (MemInode.offset_to_page m)))) as [Hin|Hnin].
      - by apply Hclean.
      - rewrite Forall_forall in Hp. destruct (Hp l Hl) as [pg Hpg].
        exists pg. rewrite Hother by done. split; [done|].
        destruct (Page.flag_dirty pg) eqn:Hd; [|done]. exfalso. apply Hnin.
        apply elem_of_dirty_filter. split; [done|].
        unfold dirtyb. by rewrite Hpg. }
    split; [eauto using same_data_trans|].
    rewrite (Howed (set_failed_inodes_fd_map _ w)) by (simpl; by rewrite Hfail3).
    rewrite ?Ho. split; [|done].
    unfold GenericFsync.on_fsync.
    rewrite (bind_returned _ _ _ _ _ (get_dirty_pages_spec w minode m Hm Hp)).
    unfold GenericFsync.sync_pages in *. rewrite (bind_returned _ _ _ _ _ Hrun).
    rewrite (bind_returned _ _ _ _ _ Hrun2). rewrite (bind_returned _ _ _ _ _ Hrun3).
    rewrite (bind_returned _ _ _ _ _ (should_notify_spec w3 fd inode)). by rewrite Ho.
Qed.
Lemma new_log_app w w' msgs :
  BlockManager.log (block_manager w') = BlockManager.log (block_manager w) ++ msgs →
  new_log w w' = msgs.
Proof. unfold new_log. intros ->. by rewrite drop_app_length. Qed.



Lemma dealloc_blocks_spec blocks : ∀ w,
  ∃ w', Btrfs.dealloc_blocks blocks w = (w', Returned tt) ∧
    w' = set_block_manager
           (BlockManager.set_free_list
              (BlockManager.free_list (block_manager w) ++ blocks) (block_manager w)) w.
Proof.
  induction blocks as [|b blocks IH]; intros w; simpl.
  - exists w. split; [done|]. rewrite app_nil_r. by destruct w as [[]].
  - unfold bind at 1. unfold on_block_manager at 1.
    unfold BlockManager.dealloc_block, bind, gets, modify. simpl.
    destruct (IH (set_block_manager
                    (BlockManager.set_free_list (BlockManager.free_list (block_manager w) ++ [b])
                       (block_manager w)) w)) as (w' & Hrun & ->).
    eexists. split; [exact Hrun|]. simpl. by rewrite <- app_assoc.
Qed.

(** The loop of the btrfs [sync_pages], for a state fit for I/O: it ends,
    at the first failed [bwrite] or at the end of the list. *)
Lemma btrfs_sync_pages_loop_spec minode : ∀ ps w r old_blocks new_blocks,
  inode_ok w minode → Forall (λ l, is_Some (pages w !! l)) ps →
  Forall (λ b, 0 ≤ b) old_blocks → Forall (λ b, 0 ≤ b) new_blocks →
  ∃ w' msgs old_blocks' new_blocks',
    Btrfs.sync_pages_loop minode ps (r, old_blocks, new_blocks) w
      = (w', Returned (if forallb BlockManager.bio_success msgs then r else - EIO,
                       old_blocks', new_blocks')) ∧
    inode_ok w' minode ∧ sync_frame minode w w' ∧
    BlockManager.log (block_manager w') = BlockManager.log (block_manager w) ++ msgs ∧
    Forall (λ b, 0 ≤ b) old_blocks' ∧ Forall (λ b, 0 ≤ b) new_blocks'.
Proof.
  induction ps as [|l rest IH]; intros w r old new Hok Hps Hold Hnew.
  - exists w, [], old, new. simpl. split; [done|]. split; [done|].
    split; [apply sync_frame_refl|]. split; [by rewrite app_nil_r|done].
  - apply Forall_cons in Hps as [[pg Hpg] Hrest]. simpl.
    unfold bind at 1. unfold get_page at 1. rewrite Hpg.
    destruct (Page.flag_dirty pg) eqn:Hdirty; simpl; [|by apply IH].
    pose proof Hok as (Hm & Hc & Hf & Hl & Hs).
    destruct (minode_map w !! minode) as [m|] eqn:Hmm; [|done]. destruct Hm as [Hp Hb].
    unfold bind at 1. unfold get_minode at 1. rewrite Hmm.
    destruct (alloc_block_spec (block_manager w) Hf Hl)
      as (b' & block & Hrun & Hblock & Hf' & Hl' & Hfp' & Hfile' & Hlog').
    unfold bind at 1. unfold on_block_manager at 1. rewrite Hrun.
    unfold bind at 1. unfold update_minode at 1. unfold modify at 1.
    unfold bind at 1. unfold update_page at 1. unfold modify at 1.
    set (w1 := set_pages _ _).
    assert (Hok1 : inode_ok w1 minode).
    { split_ok; simpl; try done.
      - rewrite lookup_alter, decide_True by done. rewrite Hmm. simpl. split; simpl.
        + eapply Forall_impl; [exact Hp|]. intros l' [p Hp']. simpl.
          rewrite lookup_alter. case_decide; subst; rewrite Hp'; simpl; eauto.
        + by apply dict_values_set_Forall.
      - intros l' p. rewrite lookup_alter. case_decide; subst.
        + destruct (pages w !! l') as [p0|] eqn:H0; [|done]. simpl. intros [= <-].
          simpl. by eapply Hc.
        + apply Hc.
      - unfold seqs_ok. by rewrite Hfp'. }
    assert (Hfr1 : sync_frame minode w w1).
    { constructor; simpl; try done.
      - intros l'. rewrite lookup_alter. case_decide; subst.
        + destruct (pages w !! l'); simpl; constructor. done.
        + destruct (pages w !! l'); by constructor.
      - intros i Hi. rewrite lookup_alter, decide_False; done.
      - rewrite lookup_alter, decide_True by done. rewrite Hmm. simpl. by constructor.
      - exists []. rewrite app_nil_r. by rewrite Hlog'. }
    assert (Hpg1 : pages w1 !! l = Some (Page.set_flag_dirty false pg)).
    { simpl. rewrite lookup_alter, decide_True by done. by rewrite Hpg. }
    assert (∃ m1, minode_map w1 !! minode = Some m1) as [m1 Hmm1].
    { destruct Hok1 as [H _]. destruct (minode_map w1 !! minode); [eauto|done]. }
    destruct (sync_page_bwrite_spec w1 minode l _ m1 block Hok1 Hpg1 Hmm1 Hblock)
      as (b2 & bsuccess & Hrun2 & Hok2 & Hfr2 & Hlog2).
    rewrite (bind_returned _ _ _ _ _ Hrun2).
    assert (Hold' : Forall (λ b, 0 ≤ b)
              match PyDict.get (Page.offset pg) (MemInode.offset_to_block m) with
              | Some b => old ++ [b] | None => old end).
    { destruct (PyDict.get _ _) as [b|] eqn:Hg; [|done]. apply Forall_app. split; [done|].
      apply Forall_singleton. by eapply dict_values_get_Forall. }
    assert (Hnew' : Forall (λ b, 0 ≤ b) (new ++ [block])).
    { apply Forall_app. split; [done|]. by apply Forall_singleton. }
    assert (Hlog12 : BlockManager.log b2 = BlockManager.log (block_manager w) ++
              [{| BlockManager.msg_block := block; BlockManager.msg_path := MemInode.path m1;
                  BlockManager.msg_offset := Page.offset pg;
                  BlockManager.bio_success := bsuccess |}]).
    { rewrite Hlog2. simpl. by rewrite Hlog'. }
    set (msg1 := {| BlockManager.msg_block := block; BlockManager.msg_path := MemInode.path m1;
                    BlockManager.msg_offset := Page.offset pg;
                    BlockManager.bio_success := bsuccess |}) in *.
    destruct bsuccess; simpl.
    + assert (Hrest2 : Forall (λ l, is_Some (pages (set_block_manager b2 w1) !! l)) rest).
      { eapply Forall_impl; [exact Hrest|]. intros l' Hx.
        eapply sync_frame_is_Some; [|exact Hx]. by eapply sync_frame_trans. }
      destruct (IH (set_block_manager b2 w1) r _ _ Hok2 Hrest2 Hold' Hnew')
        as (w' & msgs & old' & new' & Hrun' & Hok' & Hfr' & Hlog'' & Ho & Hn).
      exists w', (msg1 :: msgs), old', new'. split.
      { rewrite Hrun'. simpl. reflexivity. }
      split; [done|]. split; [eauto using sync_frame_trans|].
      split; [|done]. rewrite Hlog''. simpl. rewrite Hlog12. by rewrite <- app_assoc.
    + eexists _, [msg1], _, _. split; [reflexivity|]. split; [done|].
      split; [eauto using sync_frame_trans|]. split; [exact Hlog12|done].
Qed.
Lemma inode_ok_same_data w w' minode :
  same_data w w' → inode_ok w minode → inode_ok w' minode.
Proof.
  intros (Hp & Hm & Hb & _). unfold inode_ok, minode_ok. by rewrite Hp, Hm, Hb.
Qed.

Lemma btrfs_sync_pages_spec minode ps w :
  inode_ok w minode → Forall (λ l, is_Some (pages w !! l)) ps →
  ∃ w' msgs,
    Btrfs.sync_pages minode ps w
      = (w', Returned (if forallb BlockManager.bio_success msgs then 0 else - EIO)) ∧
    inode_ok w' minode ∧ sync_frame minode w w' ∧
    BlockManager.log (block_manager w') = BlockManager.log (block_manager w) ++ msgs.
Proof.
  intros Hok Hps.
  destruct (btrfs_sync_pages_loop_spec minode ps w 0 [] [] Hok Hps)
    as (w1 & msgs & old & new & Hrun & Hok1 & Hfr1 & Hlog1 & Hold & Hnew); [done..|].
  unfold Btrfs.sync_pages. rewrite (bind_returned _ _ _ _ _ Hrun).
  set (r := if forallb BlockManager.bio_success msgs then 0 else - EIO).
  destruct (dealloc_blocks_spec (if r =? 0 then old else new) w1) as (w' & Hrun' & ->).
  rewrite (bind_returned _ _ _ _ _ Hrun'). eexists _, msgs. split; [reflexivity|].
  pose proof Hok1 as (Hm & Hc & Hf & Hl & Hs).
  split; [|split; [|done]].
  - split_ok; simpl; try done. apply Forall_app. split; [done|]. by destruct (r =? 0).
  - eapply sync_frame_trans; [exact Hfr1|]. constructor; simpl; try done.
    + intros l. destruct (pages w1 !! l); by constructor.
    + destruct (minode_map w1 !! minode); by constructor.
    + exists []. by rewrite app_nil_r.
Qed.

Lemma dict_get_pop_None {V} (k k' : Z) (d : PyDict.t V) :
  PyDict.get k d = None → PyDict.get k (PyDict.pop k' d) = None.
Proof.
  intros H. destruct (decide (k' = k)) as [->|Hne].
  - apply dict_get_pop_eq.
  - by rewrite dict_get_pop_ne.
Qed.

Lemma dict_get_pop_all {V} (offsets : list Z) : ∀ (d : PyDict.t V) k,
  PyDict.get k (pop_all offsets d) =
  if decide (k ∈ offsets) then None else PyDict.get k d.
Proof.
  unfold pop_all. induction offsets as [|o offsets IH]; intros d k.
  - destruct (decide (k ∈ [])) as [H|H]; [by apply elem_of_nil in H|done].
  - cbn [fold_left]. rewrite IH.
    destruct (decide (k ∈ o :: offsets)) as [Hin|Hnin].
    + destruct (decide (k ∈ offsets)) as [|Hnin]; [done|].
      apply elem_of_cons in Hin as [->|?]; [|done]. apply dict_get_pop_eq.
    + apply not_elem_of_cons in Hnin as [Hne Hnin].
      rewrite decide_False by done. by apply dict_get_pop_ne.
Qed.

Lemma pop_pages_spec minode m : ∀ ps w,
  minode_map w !! minode = Some m → Forall (λ l, is_Some (pages w !! l)) ps →
  Btrfs.pop_pages minode ps w
  = (set_minode_map
       (<[minode := MemInode.set_offset_to_page
                      (pop_all (offset_of w <$> ps) (MemInode.offset_to_page m)) m]>
          (minode_map w)) w,
     Returned tt).
Proof.
  intros ps. revert m. induction ps as [|l ps IH]; intros m w Hm Hps; simpl.
  - unfold ret. f_equal. destruct m, w; simpl in *. unfold set_minode_map. simpl.
    f_equal. by rewrite insert_id.
  - apply Forall_cons in Hps as [[pg Hpg] Hps].
    unfold bind at 1. unfold get_page at 1. rewrite Hpg.
    unfold bind at 1. unfold update_minode at 1. unfold modify at 1.
    rewrite (IH (MemInode.set_offset_to_page
                   (PyDict.pop (Page.offset pg) (MemInode.offset_to_page m)) m)).
    + simpl. f_equal. unfold set_minode_map. simpl. f_equal.
      assert (offset_of w l = Page.offset pg) as -> by (unfold offset_of; by rewrite Hpg).
      apply map_eq. intros j. destruct (decide (j = minode)) as [->|Hne].
      * by rewrite !lookup_insert_eq.
      * rewrite !lookup_insert_ne by done. by rewrite lookup_alter, decide_False.
    + simpl. rewrite lookup_alter, decide_True by done. by rewrite Hm.
    + done.
Qed.
Lemma inode_ok_minode w minode :
  inode_ok w minode → ∃ m, minode_map w !! minode = Some m ∧
    Forall (λ l, is_Some (pages w !! l)) (PyDict.values (MemInode.offset_to_page m)).
Proof.
  intros [H _]. destruct (minode_map w !! minode) as [m|]; [|done].
  exists m. split; [done|]. apply H.
Qed.

Lemma dirty_pages_exist w m :
  Forall (λ l, is_Some (pages w !! l)) (PyDict.values (MemInode.offset_to_page m)) →
  Forall (λ l, is_Some (pages w !! l))
    (List.filter (dirtyb w) (PyDict.values (MemInode.offset_to_page m))).
Proof.
  rewrite !Forall_forall. intros H l [Hl _]%elem_of_dirty_filter. by apply H.
Qed.

(** An fd that is owed a notification gets it from the late-reporting and
    the reverting policies before any I/O. *)
Lemma owed_on_fsync_first w fd inode :
  owed w fd inode = true →
  ∃ w', (let! notify := GenericFsync._should_notify_fd fd inode in
         if notify then GenericFsync._mark_fd_notified fd inode ;;; ret (- EIO)
         else ret 0) w = (w', Returned (- EIO)) ∧
        same_data w w' ∧ host w' = host w ∧
        failed_inodes_fd_map w' =
          match failed_inodes_fd_map w !! inode with
          | None => failed_inodes_fd_map w
          | Some s => if (size (s ∖ {[fd]}) =? 0)%nat
                      then delete inode (failed_inodes_fd_map w)
                      else <[inode := s ∖ {[fd]}]> (failed_inodes_fd_map w)
          end.
Proof.
  intros Ho. rewrite (bind_returned _ _ _ _ _ (should_notify_spec w fd inode)), Ho.
  destruct (mark_notified_spec w fd inode) as (w' & Hrun & Hsd & Hh & Hf).
  exists w'. rewrite (bind_returned _ _ _ _ _ Hrun). done.
Qed.

Lemma btrfs_on_fsync_owed w fd inode minode :
  owed w fd inode = true →
  ∃ w', Btrfs.on_fsync fd inode minode w = (w', Returned (- EIO)) ∧
        same_data w w' ∧ host w' = host w ∧
        failed_inodes_fd_map w' =
          match failed_inodes_fd_map w !! inode with
          | None => failed_inodes_fd_map w
          | Some s => if (size (s ∖ {[fd]}) =? 0)%nat
                      then delete inode (failed_inodes_fd_map w)
                      else <[inode := s ∖ {[fd]}]> (failed_inodes_fd_map w)
          end.
Proof.
  intros Ho. unfold Btrfs.on_fsync.
  rewrite (bind_returned _ _ _ _ _ (should_notify_spec w fd inode)), Ho.
  destruct (mark_notified_spec w fd inode) as (w' & Hrun & Hsd & Hh & Hf).
  exists w'. rewrite (bind_returned _ _ _ _ _ Hrun). done.
Qed.

Lemma ext4data_on_fsync_owed w fd inode minode :
  owed w fd inode = true →
  ∃ w', Ext4Data.on_fsync fd inode minode w = (w', Returned (- EIO)) ∧
        same_data w w' ∧ host w' = host w ∧
        failed_inodes_fd_map w' =
          match failed_inodes_fd_map w !! inode with
          | None => failed_inodes_fd_map w
          | Some s => if (size (s ∖ {[fd]}) =? 0)%nat
                      then delete inode (failed_inodes_fd_map w)
                      else <[inode := s ∖ {[fd]}]> (failed_inodes_fd_map w)
          end.
Proof.
  intros Ho. unfold Ext4Data.on_fsync.
  rewrite (bind_returned _ _ _ _ _ (should_notify_spec w fd inode)), Ho.
  destruct (mark_notified_spec w fd inode) as (w' & Hrun & Hsd & Hh & Hf).
  exists w'. rewrite (bind_returned _ _ _ _ _ Hrun). done.
Qed.

(** [on_fsync] of ext4-data for an fd that is owed nothing: the pages and
    the metadata are written, 0 is returned whatever the block manager
    reported, and a failure registers the open fds of the inode. *)
Lemma ext4data_on_fsync_not_owed w fd inode minode m :
  inode_ok w minode → minode_map w !! minode = Some m →
  owed w fd inode = false →
  ∃ w1 w' msgs,
    GenericFsync.sync_pages minode
      (List.filter (dirtyb w) (PyDict.values (MemInode.offset_to_page m))) w
      = (w1, Returned (if forallb BlockManager.bio_success msgs then 0 else - EIO)) ∧
    BlockManager.log (block_manager w1) = BlockManager.log (block_manager w) ++ msgs ∧
    inode_ok w1 minode ∧ sync_frame minode w w1 ∧ same_data w1 w' ∧
    Ext4Data.on_fsync fd inode minode w = (w', Returned 0) ∧
    failed_inodes_fd_map w' =
      (if forallb BlockManager.bio_success msgs then failed_inodes_fd_map w
       else <[inode := default ∅ (failed_inodes_fd_map w !! inode)
                       ∪ default ∅ (inode_to_open_fds_map w !! inode)]>
              (failed_inodes_fd_map w)).
Proof.
  intros Hok Hm Ho. destruct (inode_ok_minode _ _ Hok) as (m0 & Hm0 & Hp).
  rewrite Hm in Hm0. injection Hm0 as <-.
  destruct (sync_pages_loop_spec minode _ w 0 m Hok Hm (dirty_pages_exist w m Hp))
    as (w1 & msgs & Hrun & Hok1 & Hfr1 & Hlog1 & _).
  destruct (inode_ok_minode _ _ Hok1) as (m1 & Hm1 & _).
  destruct (sync_meta_spec w1 minode m1 Hm1) as (w2 & Hrun2 & Hsd2 & Hfail2 & _).
  exists w1. unfold Ext4Data.on_fsync.
  rewrite (bind_returned _ _ _ _ _ (should_notify_spec w fd inode)), Ho.
  rewrite (bind_returned _ _ _ _ _ (get_dirty_pages_spec w minode m Hm Hp)).
  unfold GenericFsync.sync_pages. rewrite (bind_returned _ _ _ _ _ Hrun).
  rewrite (bind_returned _ _ _ _ _ Hrun2).
  destruct (forallb BlockManager.bio_success msgs) eqn:Hall; simpl.
  - exists w2, msgs. rewrite Hall. simpl.
    split; [done|]. split; [done|]. split; [done|]. split; [done|].
    split; [done|]. split; [done|]. rewrite Hfail2. apply Hfr1.
  - destruct (add_fds_spec w2 inode) as (w3 & Hrun3 & Hsd3 & _ & Hfail3).
    rewrite (bind_returned _ _ _ _ _ Hrun3).
    exists w3, msgs. rewrite Hall. simpl.
    split; [done|]. split; [done|]. split; [done|]. split; [done|].
    split; [eauto using same_data_trans|]. split; [done|].
    rewrite Hfail3, Hfail2. destruct Hsd2 as (_&_&_&->&_).
    by rewrite (sf_failed _ _ _ Hfr1), (sf_open_fds _ _ _ Hfr1).
Qed.

(** [on_fsync] of btrfs for an fd that is owed nothing. *)
Lemma btrfs_on_fsync_not_owed w fd inode minode m :
  inode_ok w minode → minode_map w !! minode = Some m →
  owed w fd inode = false →
  ∃ w1 msgs m1,
    let dirty := List.filter (dirtyb w) (PyDict.values (MemInode.offset_to_page m)) in
    Btrfs.sync_pages minode dirty w
      = (w1, Returned (if forallb BlockManager.bio_success msgs then 0 else - EIO)) ∧
    BlockManager.log (block_manager w1) = BlockManager.log (block_manager w) ++ msgs ∧
    inode_ok w1 minode ∧ sync_frame minode w w1 ∧ minode_map w1 !! minode = Some m1 ∧
    if forallb BlockManager.bio_success msgs
    then ∃ w', Btrfs.on_fsync fd inode minode w = (w', Returned 0) ∧ same_data w1 w' ∧
               failed_inodes_fd_map w' = failed_inodes_fd_map w
    else match host w !! MemInode.realpath m with
         | None => Btrfs.on_fsync fd inode minode w = (w1, Raised FileNotFoundError)
         | Some f =>
         ∃ w', Btrfs.on_fsync fd inode minode w = (w', Returned (- EIO)) ∧
               host w' = host w ∧ pages w' = pages w1 ∧
               block_manager w' = block_manager w1 ∧
               minode_map w' =
                 <[minode :=
                     {| MemInode.inode := MemInode.inode m; MemInode.path := MemInode.path m;
                        MemInode.realpath := MemInode.realpath m;
                        MemInode.offset_to_block := Meta.offset_to_block (Host.text f);
                        MemInode.atime := Meta.atime (Host.text f);
                        MemInode.mtime := Meta.mtime (Host.text f);
                        MemInode.size := Meta.size (Host.text f);
                        MemInode.offset_to_page :=
                          pop_all (offset_of w <$> dirty) (MemInode.offset_to_page m) |}]>
                   (minode_map w1)
         end.
Proof.
  intros Hok Hm Ho. destruct (inode_ok_minode _ _ Hok) as (m0 & Hm0 & Hp).
  rewrite Hm in Hm0. injection Hm0 as <-.
  pose proof (dirty_pages_exist w m Hp) as Hdp.
  destruct (btrfs_sync_pages_spec minode _ w Hok Hdp) as (w1 & msgs & Hrun & Hok1 & Hfr1 & Hlog1).
  destruct (inode_ok_minode _ _ Hok1) as (m1 & Hm1 & _).
  exists w1, msgs, m1. simpl. split; [done|]. split; [done|]. split; [done|].
  split; [done|]. split; [done|].
  assert (Hstart : ∀ k, Btrfs.on_fsync fd inode minode w =
     (if (if forallb BlockManager.bio_success msgs then 0 else - EIO) =? 0
      then Btrfs.sync_meta (PyMemInode minode) ;;;
           ret (if forallb BlockManager.bio_success msgs then 0 else - EIO)
      else k) w1 →
     Btrfs.on_fsync fd inode minode w =
     (if (if forallb BlockManager.bio_success msgs then 0 else - EIO) =? 0
      then Btrfs.sync_meta (PyMemInode minode) ;;;
           ret (if forallb BlockManager.bio_success msgs then 0 else - EIO)
      else k) w1) by done.
  unfold Btrfs.on_fsync.
  rewrite (bind_returned _ _ _ _ _ (should_notify_spec w fd inode)), Ho.
  rewrite (bind_returned _ _ _ _ _ (get_dirty_pages_spec w minode m Hm Hp)).
  rewrite (bind_returned _ _ _ _ _ Hrun). clear Hstart.
  destruct (forallb BlockManager.bio_success msgs); simpl.
  - destruct (sync_meta_spec w1 minode m1 Hm1) as (w2 & Hrun2 & Hsd2 & Hfail2 & _).
    exists w2. unfold Btrfs.sync_meta. rewrite (bind_returned _ _ _ _ _ Hrun2).
    split; [done|]. split; [done|]. rewrite Hfail2. apply Hfr1.
  - pose proof (sf_minode _ _ _ Hfr1) as Hmm. rewrite Hm, Hm1 in Hmm.
    inversion Hmm as [? ? (Hi & Hpa & Hrp & Hat & Hmt & Hsz & Hotp)|]; subst.
    destruct (host w !! MemInode.realpath m) as [f|] eqn:Hf.
    2:{ unfold bind at 1. unfold get_minode at 1. rewrite Hm1.
        unfold bind at 1. unfold read_meta at 1.
        by rewrite Hrp, (sf_host _ _ _ Hfr1), Hf. }
    unfold bind at 1. unfold get_minode at 1. rewrite Hm1.
    unfold bind at 1. unfold read_meta at 1. rewrite Hrp, (sf_host _ _ _ Hfr1), Hf.
    unfold bind at 1. unfold update_minode at 1. unfold modify at 1.
    unfold bind at 1. unfold update_minode at 1. unfold modify at 1.
    unfold bind at 1. unfold update_minode at 1. unfold modify at 1.
    unfold bind at 1. unfold update_minode at 1. unfold modify at 1.
    set (w2 := set_minode_map _ _).
    set (m2 := {| MemInode.inode := MemInode.inode m1; MemInode.path := MemInode.path m1;
                  MemInode.realpath := MemInode.realpath m1;
                  MemInode.offset_to_block := Meta.offset_to_block (Host.text f);
                  MemInode.atime := Meta.atime (Host.text f);
                  MemInode.mtime := Meta.mtime (Host.text f);
                  MemInode.size := Meta.size (Host.text f);
                  MemInode.offset_to_page := MemInode.offset_to_page m1 |}).
    assert (Hm2 : minode_map w2 !! minode = Some m2).
    { unfold w2. simpl. rewrite !lookup_alter, !decide_True by done. by rewrite Hm1. }
    assert (Hdp2 : Forall (λ l, is_Some (pages w2 !! l))
              (List.filter (dirtyb w) (PyDict.values (MemInode.offset_to_page m)))).
    { eapply Forall_impl; [exact Hdp|]. intros l Hl. unfold w2. simpl.
      by eapply sync_frame_is_Some. }
    rewrite (bind_returned _ _ _ _ _ (pop_pages_spec minode m2 _ w2 Hm2 Hdp2)).
    set (w3 := set_minode_map _ w2).
    destruct (add_fds_spec w3 inode) as (w4 & Hrun4 & Hsd4 & Hh4 & _).
    rewrite (bind_returned _ _ _ _ _ Hrun4).
    destruct (mark_notified_spec w4 fd inode) as (w5 & Hrun5 & Hsd5 & Hh5 & _).
    rewrite (bind_returned _ _ _ _ _ Hrun5).
    exists w5. split; [done|].
    destruct Hsd4 as (Hp4 & Hmm4 & Hb4 & _ & _), Hsd5 as (Hp5 & Hmm5 & Hb5 & _ & _).
    split; [rewrite Hh5, Hh4; apply Hfr1|]. split; [by rewrite Hp5, Hp4|].
    split; [by rewrite Hb5, Hb4|]. rewrite Hmm5, Hmm4. unfold w3. simpl.
    apply map_eq. intros j. destruct (decide (j = minode)) as [->|Hne].
    + rewrite !lookup_insert_eq. f_equal. unfold m2. simpl.
      rewrite Hi, Hpa, Hrp, Hotp. unfold MemInode.set_offset_to_page. simpl.
      f_equal. f_equal. apply list_fmap_ext. intros i l Hl. unfold offset_of. unfold w2. simpl.
      pose proof (sf_pages _ _ _ Hfr1 l) as Hx.
      destruct Hx as [p p' (?&?&?)|]; done.
    + rewrite !lookup_insert_ne by done. unfold w2. simpl.
      by rewrite !lookup_alter, !decide_False.
Qed.
(** C2: under btrfs, an [on_fsync] by an fd that is owed nothing and during
    which a block write fails returns [-EIO] and leaves the [MemInode] as
    the on-disk metadata record describes it: size, atime, mtime and
    offset_to_block are those of the record, the record itself (every file
    of the underlying file system) is as before the call, and no page that
    was dirty at entry is in offset_to_page any more, while nothing is
    added to it. *)
Theorem btrfs_failed_fsync_reverts w fd inode minode m f :
  inode_ok w minode → minode_map w !! minode = Some m →
  host w !! MemInode.realpath m = Some f →
  owed w fd inode = false →
  let w' := state_after (Btrfs.on_fsync fd inode minode) w in
  (∃ msg, msg ∈ new_log w w' ∧ BlockManager.bio_success msg = false) →
  outcome_of (Btrfs.on_fsync fd inode minode) w = Returned (- EIO) ∧
  host w' = host w ∧
  ∃ m', minode_map w' !! minode = Some m' ∧
    MemInode.size m' = Meta.size (Host.text f) ∧
    MemInode.atime m' = Meta.atime (Host.text f) ∧
    MemInode.mtime m' = Meta.mtime (Host.text f) ∧
    MemInode.offset_to_block m' = Meta.offset_to_block (Host.text f) ∧
    (∀ l pg, l ∈ PyDict.values (MemInode.offset_to_page m) →
       pages w !! l = Some pg → Page.flag_dirty pg = true →
       PyDict.get (Page.offset pg) (MemInode.offset_to_page m') = None) ∧
    (∀ off l, PyDict.get off (MemInode.offset_to_page m') = Some l →
       PyDict.get off (MemInode.offset_to_page m) = Some l).
Proof.
  intros Hok Hm Hf Ho w' (msg & Hin & Hfail).
  destruct (btrfs_on_fsync_not_owed w fd inode minode m Hok Hm Ho)
    as (w1 & msgs & m1 & Hrun & Hlog1 & Hok1 & Hfr1 & Hm1 & Hcases).
  destruct (forallb BlockManager.bio_success msgs) eqn:Hall.
  - exfalso. destruct Hcases as (w2 & Hrun2 & (_ & _ & Hb & _) & _).
    subst w'. unfold state_after in Hin. rewrite Hrun2 in Hin. simpl in Hin.
    rewrite (new_log_app w w2 msgs) in Hin by (by rewrite Hb).
    rewrite forallb_forall in Hall. apply list_elem_of_In, Hall in Hin. congruence.
  - rewrite Hf in Hcases. destruct Hcases as (w2 & Hrun2 & Hh & Hp & Hb & Hmm).
    subst w'. unfold state_after, outcome_of. rewrite Hrun2. simpl.
    split; [done|]. split; [done|]. rewrite Hmm, lookup_insert_eq.
    eexists. split; [reflexivity|]. simpl.
    split; [done|]. split; [done|]. split; [done|]. split; [done|]. split.
    + intros l pg Hl Hpg Hd. rewrite dict_get_pop_all. rewrite decide_True; [done|].
      apply list_elem_of_fmap. exists l. split.
      * unfold offset_of. by rewrite Hpg.
      * apply elem_of_dirty_filter. split; [done|]. unfold dirtyb. by rewrite Hpg.
    + intros off l. rewrite dict_get_pop_all. by case_decide.
Qed.

Lemma btrfs_failed_fsync_reverts_witness :
  let w := overwritten Btrfs in
  let w' := state_after (Btrfs.on_fsync 4 7 7) w in
  inode_ok w 7 ∧ owed w 4 7 = false ∧
  (∃ msg, msg ∈ new_log w w' ∧ BlockManager.bio_success msg = false) ∧
  outcome_of (Btrfs.on_fsync 4 7 7) w = Returned (- EIO) ∧ host w' = host w.
Proof.
  assert (H1 : inode_ok (overwritten Btrfs) 7) by decide_by_compute.
  destruct (minode_map (overwritten Btrfs) !! 7) as [m|] eqn:H2;
    [|exfalso; revert H2; vm_compute; discriminate].
  destruct (host (overwritten Btrfs) !! MemInode.realpath m) as [f|] eqn:H3.
  2:{ exfalso. revert H2 H3. vm_compute. intros [= <-]. vm_compute. discriminate. }
  assert (H4 : owed (overwritten Btrfs) 4 7 = false) by (vm_compute; reflexivity).
  assert (H5 : ∃ msg, msg ∈ new_log (overwritten Btrfs)
                              (state_after (Btrfs.on_fsync 4 7 7) (overwritten Btrfs))
                      ∧ BlockManager.bio_success msg = false).
  { exists {| BlockManager.msg_block := 3; BlockManager.msg_path := "/f";
              BlockManager.msg_offset := 4096; BlockManager.bio_success := false |}.
    split; [|reflexivity]. vm_compute. apply list_elem_of_here. }
  split; [exact H1|]. split; [exact H4|]. split; [exact H5|].
  destruct (btrfs_failed_fsync_reverts (overwritten Btrfs) 4 7 7 m f H1 H2 H3 H4 H5)
    as (Hret & Hhost & _).
  split; [exact Hret|exact Hhost].
Defined.

(** ** Notifications *)

Lemma size_zero_iff (s : gset Z) : (size s =? 0)%nat = true ↔ s = ∅.
Proof.
  rewrite Nat.eqb_eq. split.
  - intros H. by apply size_empty_iff, leibniz_equiv in H.
  - intros ->. apply size_empty.
Qed.

Lemma on_fsync_dispatch w fd inode minode :
  on_fsync fd inode minode w =
  match fsync_cls w with
  | Ext4Ordered | XFS => GenericFsync.on_fsync fd inode minode w
  | Ext4Data => Ext4Data.on_fsync fd inode minode w
  | Btrfs => Btrfs.on_fsync fd inode minode w
  end.
Proof. unfold on_fsync, bind, gets. by destruct (fsync_cls w). Qed.

(** Closing descriptors takes them out of the set of the inode and leaves
    the entry in place. *)
Lemma close_all_spec fds inode : ∀ w,
  close_all fds inode w =
  (match failed_inodes_fd_map w !! inode with
   | None => w
   | Some s => set_failed_inodes_fd_map
                 (<[inode := s ∖ list_to_set fds]> (failed_inodes_fd_map w)) w
   end, Returned tt).
Proof.
  induction fds as [|fd fds IH]; intros w; simpl.
  - unfold ret. f_equal. destruct (failed_inodes_fd_map w !! inode) as [s|] eqn:Hs; [|done].
    destruct w. unfold set_failed_inodes_fd_map. simpl in *. f_equal.
    rewrite difference_empty_L. by rewrite insert_id.
  - unfold bind at 1. unfold on_close_fd, GenericFsync.on_close_fd, modify.
    rewrite IH. f_equal.
    destruct (failed_inodes_fd_map w !! inode) as [s|] eqn:Hs; [|by rewrite Hs].
    simpl. rewrite lookup_insert_eq. unfold set_failed_inodes_fd_map. simpl. f_equal.
    rewrite insert_insert_eq. f_equal. set_solver.
Qed.

(** Once [_mark_fd_notified] ran for an fd, the fd is owed nothing. *)
Lemma not_owed_after_mark w w' fd inode :
  failed_inodes_fd_map w' =
    match failed_inodes_fd_map w !! inode with
    | None => failed_inodes_fd_map w
    | Some s => if (size (s ∖ {[fd]}) =? 0)%nat
                then delete inode (failed_inodes_fd_map w)
                else <[inode := s ∖ {[fd]}]> (failed_inodes_fd_map w)
    end →
  owed w fd inode = true →
  owed w' fd inode = false.
Proof.
  unfold owed. intros -> Ho.
  destruct (failed_inodes_fd_map w !! inode) as [s|] eqn:Hs; [|done].
  destruct (size (s ∖ {[fd]}) =? 0)%nat eqn:Hsz.
  - by rewrite lookup_delete_eq.
  - rewrite lookup_insert_eq, Hsz. simpl. apply bool_decide_eq_false. set_solver.
Qed.
Lemma owed_ext w w' fd inode :
  failed_inodes_fd_map w' = failed_inodes_fd_map w → owed w' fd inode = owed w fd inode.
Proof. unfold owed. by intros ->. Qed.

Lemma all_succeeded w w' msgs :
  BlockManager.log (block_manager w') = BlockManager.log (block_manager w) ++ msgs →
  (∀ msg, msg ∈ new_log w w' → BlockManager.bio_success msg = true) →
  forallb BlockManager.bio_success msgs = true.
Proof.
  intros Hlog H. rewrite (new_log_app _ _ _ Hlog) in H.
  apply forallb_forall. intros msg Hin. by apply H, list_elem_of_In.
Qed.

(** The empty set of an inode is the mark a failure leaves for the next
    descriptor: whichever descriptor calls [on_fsync] on the inode first is
    told, under every policy, and the entry is dropped, so that a second
    [on_fsync] by the same descriptor during which no block write fails
    returns 0. *)
Lemma empty_entry_notifies_once w3 fd inode minode :
  failed_inodes_fd_map w3 !! inode = Some ∅ →
  inode_ok w3 minode →
  ∃ w4, on_fsync fd inode minode w3 = (w4, Returned (- EIO)) ∧
    ((∀ msg, msg ∈ new_log w4 (state_after (on_fsync fd inode minode) w4) →
        BlockManager.bio_success msg = true) →
     outcome_of (on_fsync fd inode minode) w4 = Returned 0).
Proof.
  intros Hempty Hok.
  assert (Ho : owed w3 fd inode = true).
  { unfold owed. rewrite Hempty. by rewrite size_empty. }
  destruct (inode_ok_minode _ _ Hok) as (m & Hm & _).
  rewrite on_fsync_dispatch.
  assert (Hsecond : ∀ w4,
    fsync_cls w4 = fsync_cls w3 → inode_ok w4 minode → owed w4 fd inode = false →
    (∀ msg, msg ∈ new_log w4 (state_after (on_fsync fd inode minode) w4) →
        BlockManager.bio_success msg = true) →
     outcome_of (on_fsync fd inode minode) w4 = Returned 0).
  { intros w4 Hcls Hok4 Ho4. destruct (inode_ok_minode _ _ Hok4) as (m4 & Hm4 & _).
    unfold state_after, outcome_of. rewrite on_fsync_dispatch.
    assert (Hgen : (∀ msg, msg ∈ new_log w4 (GenericFsync.on_fsync fd inode minode w4).1 →
                      BlockManager.bio_success msg = true) →
                   (GenericFsync.on_fsync fd inode minode w4).2 = Returned 0).
    { intros Hnew.
      destruct (generic_on_fsync_spec w4 fd inode minode m4 Hok4 Hm4)
        as (wa & wb & msgs & _ & Hlog & _ & _ & _ & Hsd & Hrun & _).
      cbv zeta in Hrun. rewrite Hrun in *. simpl in *.
      assert (Hall : forallb BlockManager.bio_success msgs = true).
      { apply (all_succeeded w4 wb); [|done]. destruct Hsd as (_ & _ & -> & _). done. }
      rewrite Hall in *. simpl.
      rewrite (owed_ext w4) by done. by rewrite Ho4. }
    destruct (fsync_cls w4); try exact Hgen.
    - intros _. destruct (ext4data_on_fsync_not_owed w4 fd inode minode m4 Hok4 Hm4 Ho4)
        as (wa & wb & msgs & _ & _ & _ & _ & _ & Hrun & _). by rewrite Hrun.
    - intros Hnew.
      destruct (btrfs_on_fsync_not_owed w4 fd inode minode m4 Hok4 Hm4 Ho4)
        as (wa & msgs & ma & _ & Hlog & _ & _ & _ & Hcases).
      destruct (forallb BlockManager.bio_success msgs) eqn:Hall.
      + destruct Hcases as (wb & Hrun & _). by rewrite Hrun.
      + exfalso. assert (forallb BlockManager.bio_success msgs = true); [|congruence].
        destruct (host w4 !! MemInode.realpath m4) as [f|].
        * destruct Hcases as (wb & Hrun & _ & _ & Hb & _). rewrite Hrun in Hnew.
          apply (all_succeeded w4 wb); [|done]. by rewrite Hb.
        * rewrite Hcases in Hnew. by apply (all_succeeded w4 wa). }
  assert (Howed_first : ∀ w4,
    same_data w3 w4 →
    failed_inodes_fd_map w4 =
      match failed_inodes_fd_map w3 !! inode with
      | None => failed_inodes_fd_map w3
      | Some s => if (size (s ∖ {[fd]}) =? 0)%nat
                  then delete inode (failed_inodes_fd_map w3)
                  else <[inode := s ∖ {[fd]}]> (failed_inodes_fd_map w3)
      end →
    (∀ msg, msg ∈ new_log w4 (state_after (on_fsync fd inode minode) w4) →
        BlockManager.bio_success msg = true) →
     outcome_of (on_fsync fd inode minode) w4 = Returned 0).
  { intros w4 Hsd Hf. apply Hsecond.
    - apply Hsd.
    - by eapply inode_ok_same_data.
    - by eapply not_owed_after_mark. }
  destruct (fsync_cls w3) eqn:Hcls.
  1,2: destruct (generic_on_fsync_spec w3 fd inode minode m Hok Hm)
         as (wa & w4 & msgs & _ & Hlog & Hoka & Hfra & _ & Hsd & Hrun & Hf);
       cbv zeta in Hrun, Hf; exists w4;
       (split;
        [rewrite Hrun;
         assert ((if owed (set_failed_inodes_fd_map
                     (if (if forallb BlockManager.bio_success msgs then 0 else - EIO) =? 0
                      then failed_inodes_fd_map w3
                      else <[inode := default ∅ (failed_inodes_fd_map w3 !! inode)
                                      ∪ default ∅ (inode_to_open_fds_map w3 !! inode)]>
                             (failed_inodes_fd_map w3)) w3) fd inode
                  then - EIO
                  else if forallb BlockManager.bio_success msgs then 0 else - EIO) = - EIO)
           as ->; [|done];
         destruct (forallb BlockManager.bio_success msgs);
         [change (0 =? 0) with true; cbv iota;
          rewrite (owed_ext w3) by done; by rewrite Ho
         |match goal with |- (if ?b then _ else _) = _ => by destruct b end]
        |apply Hsecond;
         [destruct Hsd as (_&_&_&_&->&_); rewrite (sf_cls _ _ _ Hfra); exact Hcls
         |by eapply inode_ok_same_data
         |destruct (owed (set_failed_inodes_fd_map
                     (if (if forallb BlockManager.bio_success msgs then 0 else - EIO) =? 0
                      then failed_inodes_fd_map w3
                      else <[inode := default ∅ (failed_inodes_fd_map w3 !! inode)
                                      ∪ default ∅ (inode_to_open_fds_map w3 !! inode)]>
                             (failed_inodes_fd_map w3)) w3) fd inode) eqn:Ho1;
          [eapply not_owed_after_mark; [|exact Ho1]; exact Hf
          |rewrite <- Ho1; by apply owed_ext]]]).
  - destruct (ext4data_on_fsync_owed w3 fd inode minode Ho) as (w4 & Hrun & Hsd & _ & Hf).
    exists w4. split; [done|]. by apply Howed_first.
  - destruct (btrfs_on_fsync_owed w3 fd inode minode Ho) as (w4 & Hrun & Hsd & _ & Hf).
    exists w4. split; [done|]. by apply Howed_first.
Qed.

(** The descriptors owed a notification close one by one: the entry of the
    inode stays, empty. *)
Lemma entry_after_close_all w inode closed s :
  failed_inodes_fd_map w !! inode = Some s →
  (∀ f, f ∈ s → f ∈ closed) →
  failed_inodes_fd_map (state_after (close_all closed inode) w) !! inode = Some ∅.
Proof.
  intros Hs Hclosed. unfold state_after. rewrite close_all_spec, Hs. simpl.
  rewrite lookup_insert_eq. f_equal. apply set_eq. intros f.
  split; [|by intros ?%not_elem_of_empty].
  intros [Hin Hnin]%elem_of_difference. exfalso. apply Hnin.
  apply elem_of_list_to_set. by apply Hclosed.
Qed.

(** ** Calls that raise *)

Lemma never_returns_bind {S A B} (c : M S A) (k : A → M S B) :
  (∀ a, never_returns (k a)) → never_returns (bind c k).
Proof.
  intros H s b. unfold bind. destruct (c s) as [s1 [a| | | |]]; simpl; try done.
  apply H.
Qed.

Lemma never_returns_raise {S A} (e : exn) : never_returns (raise e : M S A).
Proof. by intros s a. Qed.

(** The facade object has no attribute of these names. *)
Lemma self_attr_raises {A} (name : string) (bound : M World A) :
  existsb (String.eqb name) CuttleFS_dir = false →
  self_attr name bound = raise AttributeError.
Proof. unfold self_attr. by intros ->. Qed.

Lemma page_cache_contains_spec w inode :
  page_cache_contains inode w = (w, Returned (bool_decide (is_Some (minode_map w !! inode)))).
Proof. done. Qed.

(** The way [read], [write] and [truncate] make sure the inode is in the
    page cache. *)
Lemma ensure_cached_spec w inode path rp b :
  ∃ w1 o,
    when b (let! minode := MemInode_init inode path rp in page_cache_put inode minode) w
      = (w1, o) ∧
    sync_fds w1 = sync_fds w ∧ fd_info_map w1 = fd_info_map w.
Proof.
  destruct b; simpl; [|by eexists _, _].
  unfold MemInode_init, bind, read_meta, page_cache_put, modify, ret.
  destruct (host w !! rp); by eexists _, _.
Qed.

(** A write of at least one byte through a descriptor opened with [O_SYNC]
    or [O_DSYNC] never returns: in no state, under no policy. *)
Lemma write_sync_fd_never_returns path data offset fd now w :
  fd ∈ sync_fds w → data ≠ [] →
  ∀ r, outcome_of (write path data offset fd now) w ≠ Returned r.
Proof.
  intros Hfd Hdata r. unfold outcome_of, write.
  unfold bind at 1. unfold gets at 1.
  destruct (fd_info_map w !! fd) as [info|]; [|done].
  rewrite (bind_returned _ _ _ _ _ (page_cache_contains_spec w _)).
  destruct (ensure_cached_spec w (fd_inode info) path (fd_path info)
              (negb (bool_decide (is_Some (minode_map w !! fd_inode info)))))
    as (w1 & o & Hrun & Hs & _).
  unfold bind at 1. rewrite Hrun. destruct o as [[]| | | |]; try done.
  destruct (Z.of_nat (length data) =? 0) eqn:E.
  { apply Z.eqb_eq in E. destruct data; [done|simpl in E; lia]. }
  unfold bind at 1. unfold gets at 1.
  rewrite Hs, (bool_decide_eq_true_2 _ Hfd).
  revert r. generalize w1. apply never_returns_bind. intros [[[dirty_pages ?] ?] ?].
  apply never_returns_bind. intros m. apply never_returns_bind. intros _.
  apply never_returns_bind. intros _.
  rewrite self_attr_raises by reflexivity.
  intros s a. done.
Qed.

(** C1, on the code: a write of a page through the descriptor [open] gave
    for [O_SYNC] raises [AttributeError] at [self.on_sync_write], under
    every policy.  The policy is not called (no block is written, nothing is
    registered, the metadata record is as before) and the page stays dirty;
    the call returns neither the policy's value nor the number of bytes. *)
Theorem write_on_sync_fd_raises cls :
  let w := opened_O_SYNC cls in
  let w' := state_after (write "/f" (page_of "a") 0 4 101) w in
  4 ∈ sync_fds w ∧
  outcome_of (write "/f" (page_of "a") 0 4 101) w = Raised AttributeError ∧
  new_log w w' = [] ∧ host w' = host w ∧
  failed_inodes_fd_map w' = failed_inodes_fd_map w ∧
  is_dirty w' 1.
Proof.
  destruct cls; (split; [decide_by_compute|]); (split; [vm_compute; reflexivity|]);
    (split; [vm_compute; reflexivity|]); (split; [vm_compute; reflexivity|]);
    (split; [vm_compute; reflexivity|]);
    (eexists; split; [vm_compute; reflexivity|reflexivity]).
Qed.

Lemma never_returns_bind_l {S A B} (c : M S A) (k : A → M S B) :
  never_returns c → never_returns (bind c k).
Proof.
  intros H s b. unfold bind. specialize (H s).
  destruct (c s) as [s1 [a| | | |]]; simpl in *; try done. by destruct (H a).
Qed.

(** [on_sync_write] of ext4-data, for an fd that is owed nothing, never
    returns: [sync_meta] is handed the inode number. *)
Lemma ext4data_on_sync_write_never_returns fd inode minode pgs w :
  owed w fd inode = false →
  ∀ r, outcome_of (Ext4Data.on_sync_write fd inode minode pgs) w ≠ Returned r.
Proof.
  intros Ho r. unfold outcome_of, Ext4Data.on_sync_write.
  rewrite (bind_returned _ _ _ _ _ (should_notify_spec w fd inode)), Ho.
  revert r. generalize w. apply never_returns_bind. intros r0.
  apply never_returns_bind_l. apply never_returns_raise.
Qed.

(** C3, on the code: under ext4-data, [on_sync_write] by the fd that wrote
    the page, owed nothing, with a fault on the block: the pages are
    written and the failure is logged, then [sync_meta(inode)] raises
    [AttributeError].  The call does not return 0, no fd is registered, and
    the next [on_fsync] by the same fd returns 0, not [-EIO]. *)
Theorem ext4data_on_sync_write_raises :
  let w := overwritten Ext4Data in
  let w' := state_after (Ext4Data.on_sync_write 4 7 7 [2%positive]) w in
  owed w 4 7 = false ∧
  outcome_of (Ext4Data.on_sync_write 4 7 7 [2%positive]) w = Raised AttributeError ∧
  (∃ msg, msg ∈ new_log w w' ∧ BlockManager.bio_success msg = false) ∧
  failed_inodes_fd_map w' = ∅ ∧
  outcome_of (Ext4Data.on_fsync 4 7 7) w' = Returned 0.
Proof.
  split; [vm_compute; reflexivity|]. split; [vm_compute; reflexivity|].
  split.
  { exists {| BlockManager.msg_block := 1; BlockManager.msg_path := "/f";
              BlockManager.msg_offset := 4096; BlockManager.bio_success := false |}.
    split; [|reflexivity]. vm_compute. apply list_elem_of_here. }
  split; vm_compute; reflexivity.
Qed.

(** C9, on the code: [truncate] of the three-page file to one byte.  The
    first page is zeroed after its first byte and marked dirty; then the
    loop over the later pages reads [self.offset_to_page] on the facade and
    raises [AttributeError]: the two later pages stay buffered, their
    blocks stay mapped and allocated, and the size stays 12288. *)
Theorem truncate_shrink_raises cls :
  let w := three_pages cls in
  let w' := state_after (truncate "/f" 1) w in
  MemInode.size <$> minode_map w !! 7 = Some 12288 ∧
  outcome_of (truncate "/f" 1) w = Raised AttributeError ∧
  (Page.content <$> pages w' !! 1%positive) = Some ("a"%byte :: zeros 4095) ∧
  is_dirty w' 1 ∧
  MemInode.size <$> minode_map w' !! 7 = Some 12288 ∧
  MemInode.offset_to_page <$> minode_map w' !! 7
    = Some [(0, 1%positive); (4096, 2%positive); (8192, 3%positive)] ∧
  MemInode.offset_to_block <$> minode_map w' !! 7 = Some [(0, 0); (4096, 1); (8192, 2)] ∧
  BlockManager.free_list (block_manager w') = [].
Proof.
  destruct cls; (split; [vm_compute; reflexivity|]); (split; [vm_compute; reflexivity|]);
    (split; [vm_compute; reflexivity|]);
    (split; [eexists; split; [vm_compute; reflexivity|reflexivity]|]);
    (split; [vm_compute; reflexivity|]); (split; [vm_compute; reflexivity|]);
    (split; [vm_compute; reflexivity|]); vm_compute; reflexivity.
Qed.

(** C8, on the code: under btrfs, the three-page file is truncated to
    nothing (its blocks go to the free list at once, the on-disk record
    still maps them), a page is written and [fsync] fails on the fault.
    The three calls complete, [fsync] with [-EIO]; the revert reloads the
    block map of the record, and blocks 0, 1 and 2 are then both mapped by
    the inode and in the free list. *)
Theorem free_list_overlaps_after_revert :
  let w := with_fault Btrfs in
  let w' := state_after (fsync "/f" 0 4) (truncated_rewritten Btrfs) in
  free_list_exclusive w ∧
  outcome_of (truncate "/f" 0) w = Returned 0 ∧
  outcome_of (truncate "/f" 0 ;;; write "/f" (page_of "x") 4096 4 104) w = Returned 4096 ∧
  free_list_exclusive (truncated_rewritten Btrfs) ∧
  outcome_of (fsync "/f" 0 4) (truncated_rewritten Btrfs) = Returned (- EIO) ∧
  BlockManager.free_list (block_manager w') = [0; 1; 2] ∧
  MemInode.offset_to_block <$> minode_map w' !! 7 = Some [(0, 0); (4096, 1); (8192, 2)] ∧
  ¬ free_list_exclusive w'.
Proof.
  split; [decide_by_compute|].
  split; [vm_compute; reflexivity|]. split; [vm_compute; reflexivity|].
  split; [decide_by_compute|].
  split; [vm_compute; reflexivity|]. split; [vm_compute; reflexivity|].
  split; [vm_compute; reflexivity|].
  apply (@bool_decide_eq_false_1 _ (free_list_exclusive_dec _)). vm_compute. reflexivity.
Qed.

(** ** Reads *)

Lemma read_frame_refl minode w : read_frame minode w w.
Proof.
  constructor; try done.
  - intros l p H1 H2. congruence.
  - intros m Hm. exists m. repeat split; try done; congruence.
Qed.

Lemma read_frame_trans minode w1 w2 w3 :
  read_frame minode w1 w2 → read_frame minode w2 w3 → read_frame minode w1 w3.
Proof.
  intros H1 H2. constructor.
  - rewrite (rf_block_manager _ _ _ H2). apply H1.
  - rewrite (rf_host _ _ _ H2). apply H1.
  - rewrite (rf_root _ _ _ H2). apply H1.
  - rewrite (rf_to_be_deleted _ _ _ H2). apply H1.
  - rewrite (rf_last_fd _ _ _ H2). apply H1.
  - rewrite (rf_fd_info _ _ _ H2). apply H1.
  - rewrite (rf_open_fds _ _ _ H2). apply H1.
  - rewrite (rf_sync_fds _ _ _ H2). apply H1.
  - rewrite (rf_cls _ _ _ H2). apply H1.
  - rewrite (rf_failed _ _ _ H2). apply H1.
  - intros l p Hp. eapply (rf_pages _ _ _ H2), (rf_pages _ _ _ H1), Hp.
  - intros l p Hp3 Hp1. destruct (pages w2 !! l) as [p2|] eqn:Hp2.
    + pose proof (rf_pages _ _ _ H2 l p2 Hp2) as Hx. rewrite Hx in Hp3.
      injection Hp3 as <-. eapply (rf_new_pages _ _ _ H1); eauto.
    + eapply (rf_new_pages _ _ _ H2); eauto.
  - intros i Hi. rewrite (rf_others _ _ _ H2), (rf_others _ _ _ H1); done.
  - intros m1 Hm1.
    destruct (rf_minode _ _ _ H1 m1 Hm1) as (m2 & Hm2 & ? & ? & ? & ? & ? & ? & ? & Hk1 & Hn1).
    destruct (rf_minode _ _ _ H2 m2 Hm2) as (m3 & Hm3 & ? & ? & ? & ? & ? & ? & ? & Hk2 & Hn2).
    exists m3. split; [done|]. do 7 (split; [congruence|]). split.
    + intros off l Hl. by apply Hk2, Hk1.
    + intros off l Hl3 Hl1.
      destruct (PyDict.get off (MemInode.offset_to_page m2)) as [l2|] eqn:Hl2.
      * pose proof (Hk2 _ _ Hl2) as Hx. rewrite Hx in Hl3. injection Hl3 as <-.
        destruct (Hn1 _ _ Hl2 Hl1) as [Hnone [p Hp]]. split; [done|].
        exists p. by apply (rf_pages _ _ _ H2).
      * destruct (Hn2 _ _ Hl3 Hl2) as [Hnone Hsome]. split; [|done].
        destruct (pages w1 !! l) as [p|] eqn:Hp; [|done].
        by rewrite (rf_pages _ _ _ H1 _ _ Hp) in Hnone.
Qed.

Lemma fresh_page_None w : pages w !! fresh (dom (pages w)) = None.
Proof. apply not_elem_of_dom, is_fresh. Qed.

(** Materializing a page, however the call ends. *)
Lemma get_page_for_offset_frame minode offset w :
  read_frame minode w (state_after (_get_page_for_offset minode offset) w).
Proof.
  unfold state_after, _get_page_for_offset.
  unfold bind at 1. destruct (offset mod PAGE_SZ =? 0); simpl; [|apply read_frame_refl].
  unfold bind at 1. unfold get_minode at 1.
  destruct (minode_map w !! minode) as [m|] eqn:Hm; [|apply read_frame_refl].
  destruct (PyDict.get offset (MemInode.offset_to_page m)) as [l|] eqn:Hget;
    [apply read_frame_refl|].
  unfold bind at 1. unfold new_page at 1.
  unfold bind at 1. unfold update_minode at 1. unfold modify at 1.
  set (l := fresh (dom (pages w))).
  pose proof (fresh_page_None w) as Hfresh. fold l in Hfresh.
  assert (Hcommon : ∀ P' p,
    P' !! l = Some p → Page.flag_dirty p = false →
    (∀ l', l' ≠ l → P' !! l' = pages w !! l') →
    read_frame minode w
      (set_pages P'
         (set_minode_map
            (alter (λ m, MemInode.set_offset_to_page
                           (PyDict.set offset l (MemInode.offset_to_page m)) m)
               minode (minode_map w)) w))).
  { intros P' p0 Hl Hflag Hother. constructor; simpl; try done.
    - intros l' p Hp. rewrite Hother; [done|]. intros ->. congruence.
    - intros l' p. destruct (decide (l' = l)) as [->|Hne].
      + rewrite Hl. by intros [= <-].
      + rewrite Hother by done. congruence.
    - intros i Hi. by rewrite lookup_alter, decide_False.
    - intros m0 Hm0. rewrite Hm in Hm0. injection Hm0 as <-.
      rewrite lookup_alter, decide_True by done. rewrite Hm. simpl.
      eexists. split; [reflexivity|]. simpl. do 7 (split; [done|]). split.
      + intros off l' Hl'. rewrite dict_get_set_ne; [done|]. intros <-. congruence.
      + intros off l'. destruct (decide (offset = off)) as [<-|Hne].
        * rewrite dict_get_set_eq. intros [= <-] _. split; [done|]. by rewrite Hl.
        * rewrite dict_get_set_ne by done. congruence. }
  assert (Hzero : read_frame minode w
      (set_minode_map
         (alter (λ m, MemInode.set_offset_to_page
                        (PyDict.set offset l (MemInode.offset_to_page m)) m)
            minode (minode_map w))
         (set_pages (<[l := Page.init (MemInode.inode m) offset]> (pages w)) w))).
  { apply (Hcommon (<[l := Page.init (MemInode.inode m) offset]> (pages w))
             (Page.init (MemInode.inode m) offset)).
    - apply lookup_insert_eq.
    - done.
    - intros l' Hne. by rewrite lookup_insert_ne. }
  destruct (PyDict.get offset (MemInode.offset_to_block m)) as [block|]; [|exact Hzero].
  unfold bind at 1. unfold on_block_manager at 1. simpl block_manager.
  unfold BlockManager.bread.
  unfold bind at 1. unfold gets at 1.
  unfold bind at 1. destruct (block * PAGE_SZ <? BlockManager.size (block_manager w));
    simpl; [|exact Hzero].
  destruct (block * PAGE_SZ <? 0); simpl; [exact Hzero|].
  apply (Hcommon (alter (Page.set_content
                      (BlockManager.pread (BlockManager.fp (block_manager w)) PAGE_SZ
                         (block * PAGE_SZ))) l
                    (<[l := Page.init (MemInode.inode m) offset]> (pages w)))
                 (Page.set_content
                      (BlockManager.pread (BlockManager.fp (block_manager w)) PAGE_SZ
                         (block * PAGE_SZ))
                      (Page.init (MemInode.inode m) offset))).
  - rewrite lookup_alter, decide_True by done. by rewrite lookup_insert_eq.
  - done.
  - intros l' Hne. rewrite lookup_alter, decide_False by done. by rewrite lookup_insert_ne.
Qed.
Lemma state_after_bind {S A B} (c : M S A) (k : A → M S B) s :
  state_after (bind c k) s =
  match outcome_of c s with
  | Returned a => state_after (k a) (state_after c s)
  | _ => state_after c s
  end.
Proof.
  unfold state_after, outcome_of, bind. by destruct (c s) as [s1 [a| | | |]].
Qed.

Lemma get_page_state l w : state_after (get_page l) w = w.
Proof. unfold state_after, get_page. by destruct (pages w !! l). Qed.

Lemma read_loop_frame minode : ∀ fuel locals w,
  read_frame minode w (state_after (read_loop fuel minode locals) w).
Proof.
  induction fuel as [|fuel IH]; intros [[buf remaining] current_offset] w; simpl.
  - destruct (negb (remaining >? 0)); apply read_frame_refl.
  - destruct (negb (remaining >? 0)); [apply read_frame_refl|].
    rewrite state_after_bind.
    pose proof (get_page_for_offset_frame minode (current_offset / PAGE_SZ * PAGE_SZ) w) as H1.
    destruct (outcome_of _ w) as [page| | | |]; try exact H1.
    rewrite state_after_bind, get_page_state.
    destruct (outcome_of (get_page page) _) as [pg| | | |]; try exact H1.
    destruct (Z.of_nat (length _) =? 0); [exact H1|].
    eapply read_frame_trans; [exact H1|]. apply IH.
Qed.

(** C10: a [read] through an fd whose inode is in the page cache leaves the
    size, atime, mtime and offset_to_block of the [MemInode] as they were;
    every page object that existed keeps its content and its dirty flag, and
    stays where it was in offset_to_page; whatever was added to
    offset_to_page is a page object made by this call, clean.  Nothing else
    changes: not the block manager, the files of the underlying file system,
    the fd tables, the notification state or the other inodes. *)
Theorem read_changes_only_new_pages w path size offset fd info m :
  fd_info_map w !! fd = Some info →
  minode_map w !! fd_inode info = Some m →
  let w' := state_after (read path size offset fd) w in
  (∃ m', minode_map w' !! fd_inode info = Some m' ∧
     MemInode.size m' = MemInode.size m ∧
     MemInode.atime m' = MemInode.atime m ∧
     MemInode.mtime m' = MemInode.mtime m ∧
     MemInode.offset_to_block m' = MemInode.offset_to_block m ∧
     (∀ off l, PyDict.get off (MemInode.offset_to_page m) = Some l →
               PyDict.get off (MemInode.offset_to_page m') = Some l) ∧
     (∀ off l, PyDict.get off (MemInode.offset_to_page m') = Some l →
               PyDict.get off (MemInode.offset_to_page m) = None →
               pages w !! l = None ∧
               ∃ p, pages w' !! l = Some p ∧ Page.flag_dirty p = false)) ∧
  (∀ l p, pages w !! l = Some p → pages w' !! l = Some p) ∧
  (∀ l p, pages w' !! l = Some p → pages w !! l = None → Page.flag_dirty p = false) ∧
  (∀ i, i ≠ fd_inode info → minode_map w' !! i = minode_map w !! i) ∧
  block_manager w' = block_manager w ∧ host w' = host w ∧
  fd_info_map w' = fd_info_map w ∧
  inode_to_open_fds_map w' = inode_to_open_fds_map w ∧
  sync_fds w' = sync_fds w ∧
  failed_inodes_fd_map w' = failed_inodes_fd_map w.
Proof.
  intros Hfd Hm w'.
  assert (Hfr : read_frame (fd_inode info) w w').
  { subst w'. unfold state_after, read.
    rewrite (bind_returned _ _ w w (fd_info_map w)) by done. rewrite Hfd.
    rewrite (bind_returned _ _ _ _ _ (page_cache_contains_spec w _)).
    assert (Hc : bool_decide (is_Some (minode_map w !! fd_inode info)) = true).
    { apply bool_decide_eq_true. eauto. }
    rewrite Hc. simpl negb. rewrite (bind_returned _ _ w w tt) by done.
    destruct (size =? 0); [apply read_frame_refl|].
    rewrite (bind_returned _ _ w w m) by (unfold get_minode; by rewrite Hm).
    destruct (offset >=? MemInode.size m); [apply read_frame_refl|].
    pose proof (read_loop_frame (fd_inode info)
      (read_loop_fuel (if offset + size >=? MemInode.size m
                       then MemInode.size m - offset else size))
      ([], if offset + size >=? MemInode.size m then MemInode.size m - offset else size,
       offset) w) as H.
    unfold state_after in H. unfold bind.
    destruct (read_loop _ _ _ w) as [w1 [[[buf ?] ?]| | | |]]; exact H. }
  destruct (rf_minode _ _ _ Hfr m Hm)
    as (m' & Hm' & _ & _ & _ & Hotb & Hat & Hmt & Hsz & Hkeep & Hnew).
  split.
  { exists m'. split; [done|]. do 4 (split; [done|]). split; [done|].
    intros off l Hl Hn. destruct (Hnew off l Hl Hn) as [Hnone [p Hp]].
    split; [done|]. exists p. split; [done|]. by eapply (rf_new_pages _ _ _ Hfr). }
  split; [apply Hfr|]. split; [apply Hfr|]. split; [apply Hfr|].
  split; [apply Hfr|]. split; [apply Hfr|]. split; [apply Hfr|].
  split; [apply Hfr|]. split; apply Hfr.
Qed.


Lemma read_changes_only_new_pages_witness :
  let w := state_after (fsync "/f" 0 4) (overwritten Btrfs) in
  let info := {| fd_inode := 7; fd_path := "/root/f" |} in
  ∃ m, fd_info_map w !! 4 = Some info ∧ minode_map w !! fd_inode info = Some m ∧
       block_manager (state_after (read "/f" 12288 0 4) w) = block_manager w ∧
       host (state_after (read "/f" 12288 0 4) w) = host w.
Proof.
  set (w := state_after (fsync "/f" 0 4) (overwritten Btrfs)).
  set (info := {| fd_inode := 7; fd_path := "/root/f" |}).
  assert (H1 : fd_info_map w !! 4 = Some info) by (vm_compute; reflexivity).
  destruct (minode_map w !! 7) as [m|] eqn:H2;
    [|exfalso; revert H2; vm_compute; discriminate].
  exists m. split; [exact H1|]. split; [exact H2|].
  destruct (read_changes_only_new_pages w "/f" 12288 0 4 info m H1 H2)
    as (_ & _ & _ & _ & Hb & Hh & _).
  split; [exact Hb|exact Hh].
Defined.

(** ** Slices *)

Lemma slice_length {A} (l : list A) lo hi :
  0 ≤ lo ≤ hi → hi ≤ Z.of_nat (length l) →
  Z.of_nat (length (slice l lo hi)) = hi - lo.
Proof.
  intros H1 H2. unfold slice. rewrite length_take, length_drop. lia.
Qed.

Lemma slice_lookup {A} (l : list A) lo hi (k : nat) :
  0 ≤ lo → Z.of_nat k < hi - lo →
  slice l lo hi !! k = l !! (Z.to_nat lo + k)%nat.
Proof.
  intros H1 H2. unfold slice. rewrite lookup_take_lt by lia. by rewrite lookup_drop.
Qed.

Lemma slice_assign_length {A} (c : list A) lo hi v :
  0 ≤ lo ≤ hi → hi ≤ Z.of_nat (length c) → Z.of_nat (length v) = hi - lo →
  length (slice_assign c lo hi v) = length c.
Proof.
  intros H1 H2 H3. unfold slice_assign.
  rewrite !length_app, length_take, length_drop. lia.
Qed.

Lemma slice_assign_lookup_in {A} (c : list A) lo hi v (j : nat) :
  0 ≤ lo ≤ hi → hi ≤ Z.of_nat (length c) → Z.of_nat (length v) = hi - lo →
  lo ≤ Z.of_nat j < hi →
  slice_assign c lo hi v !! j = v !! (j - Z.to_nat lo)%nat.
Proof.
  intros H1 H2 H3 H4. unfold slice_assign.
  rewrite lookup_app_r by (rewrite length_take; lia).
  rewrite length_take. rewrite lookup_app_l by lia. f_equal. lia.
Qed.

Lemma slice_assign_lookup_out {A} (c : list A) lo hi v (j : nat) :
  0 ≤ lo ≤ hi → hi ≤ Z.of_nat (length c) → Z.of_nat (length v) = hi - lo →
  Z.of_nat j < lo ∨ hi ≤ Z.of_nat j →
  slice_assign c lo hi v !! j = c !! j.
Proof.
  intros H1 H2 H3 H4. unfold slice_assign. destruct H4 as [H4|H4].
  - rewrite lookup_app_l by (rewrite length_take; lia). apply lookup_take_lt. lia.
  - rewrite lookup_app_r by (rewrite length_take; lia).
    rewrite length_take. rewrite lookup_app_r by lia.
    rewrite lookup_drop. f_equal. lia.
Qed.

(** ** Pages of a file *)

Lemma same_page cur o n :
  0 ≤ n ≤ PAGE_SZ - cur mod PAGE_SZ → cur ≤ o < cur + n →
  o / PAGE_SZ * PAGE_SZ = cur / PAGE_SZ * PAGE_SZ ∧
  o mod PAGE_SZ = cur mod PAGE_SZ + (o - cur).
Proof.
  unfold PAGE_SZ. intros Hn Ho.
  pose proof (Z.mod_pos_bound cur 4096 ltac:(lia)) as Hb.
  pose proof (Z.div_mod cur 4096 ltac:(lia)) as Hc.
  assert (Hq : o / 4096 = cur / 4096).
  { symmetry. apply (Z.div_unique o 4096 (cur / 4096) (cur mod 4096 + (o - cur))); lia. }
  split; [by rewrite Hq|].
  symmetry. apply (Z.mod_unique o 4096 (cur / 4096) (cur mod 4096 + (o - cur))); lia.
Qed.

Lemma other_page cur o :
  o / PAGE_SZ * PAGE_SZ = cur / PAGE_SZ * PAGE_SZ →
  cur / PAGE_SZ * PAGE_SZ ≤ o < cur / PAGE_SZ * PAGE_SZ + PAGE_SZ.
Proof.
  unfold PAGE_SZ. intros H.
  pose proof (Z.mod_pos_bound o 4096 ltac:(lia)) as Hb.
  pose proof (Z.div_mod o 4096 ltac:(lia)) as Hc. lia.
Qed.

Lemma page_aligned cur : (cur / PAGE_SZ * PAGE_SZ) mod PAGE_SZ = 0.
Proof. apply Z.mod_mul. unfold PAGE_SZ. lia. Qed.
Lemma dict_values_set_None {V} (k : Z) (v : V) d :
  PyDict.get k d = None → PyDict.values (PyDict.set k v d) = PyDict.values d ++ [v].
Proof.
  unfold PyDict.values. induction d as [|[k' v'] d IH]; simpl; [done|].
  destruct (k =? k'); [done|]. intros H. simpl. by rewrite IH.
Qed.

Lemma file_ok_minode w minode :
  file_ok w minode → ∃ m, minode_map w !! minode = Some m.
Proof. intros [H _]. destruct (inode_ok_minode _ _ H) as (m & Hm & _). eauto. Qed.

(** A state stays fit for the data path when a page object of [PAGE_SZ]
    bytes is created and entered in the page map at a free offset. *)
Lemma file_ok_new_page w minode m offset P' p :
  file_ok w minode → minode_map w !! minode = Some m →
  PyDict.get offset (MemInode.offset_to_page m) = None →
  let l := fresh (dom (pages w)) in
  P' !! l = Some p → Z.of_nat (length (Page.content p)) = PAGE_SZ →
  (∀ l', l' ≠ l → P' !! l' = pages w !! l') →
  file_ok
    (set_pages P'
       (set_minode_map
          (alter (λ m, MemInode.set_offset_to_page
                         (PyDict.set offset l (MemInode.offset_to_page m)) m)
             minode (minode_map w)) w)) minode.
Proof.
  intros ((Hmo & Hc & Hf & Hl & Hs) & Hb & Hd) Hm Hget l HP Hlen Hother.
  unfold blocks_on_file, pages_distinct in *. rewrite Hm in Hmo, Hb, Hd.
  destruct Hmo as [Hp Hbl].
  pose proof (fresh_page_None w) as Hfresh. fold l in Hfresh.
  assert (Hnotin : l ∉ PyDict.values (MemInode.offset_to_page m)).
  { intros Hin. rewrite Forall_forall in Hp. destruct (Hp l Hin) as [? ?]. congruence. }
  split; [split_ok|split]; simpl.
  - rewrite lookup_alter, decide_True by done. rewrite Hm. simpl. split; simpl; [|done].
    rewrite dict_values_set_None by done. apply Forall_app. split.
    + rewrite Forall_forall in *. intros l' Hl'. rewrite Hother; [by apply Hp|].
      intros ->. done.
    + apply Forall_singleton. by rewrite HP.
  - intros l' p'. destruct (decide (l' = l)) as [->|Hne].
    + rewrite HP. by intros [= <-].
    + rewrite Hother by done. apply Hc.
  - done.
  - done.
  - done.
  - unfold blocks_on_file. simpl. rewrite lookup_alter, decide_True by done.
    by rewrite Hm.
  - unfold pages_distinct. simpl. rewrite lookup_alter, decide_True by done.
    rewrite Hm. simpl. rewrite dict_values_set_None by done.
    apply NoDup_app. split; [done|]. split; [|apply NoDup_singleton].
    intros x Hx ->%list_elem_of_singleton. done.
Qed.

Lemma pread_page file b :
  0 ≤ b → (b + 1) * PAGE_SZ ≤ Z.of_nat (length file) →
  Z.of_nat (length (BlockManager.pread file PAGE_SZ (b * PAGE_SZ))) = PAGE_SZ.
Proof.
  unfold BlockManager.pread, PAGE_SZ. intros H1 H2.
  rewrite length_take, length_drop. lia.
Qed.

(** Materializing the page at an aligned offset. *)
Lemma get_page_for_offset_returns w minode offset :
  file_ok w minode → offset mod PAGE_SZ = 0 →
  ∃ l w' m',
    _get_page_for_offset minode offset w = (w', Returned l) ∧ file_ok w' minode ∧
    minode_map w' !! minode = Some m' ∧
    PyDict.get offset (MemInode.offset_to_page m') = Some l.
Proof.
  intros Hok Hal. destruct (file_ok_minode _ _ Hok) as [m Hm].
  unfold _get_page_for_offset.
  unfold bind at 1. rewrite Hal. simpl.
  unfold bind at 1. unfold get_minode at 1. rewrite Hm.
  destruct (PyDict.get offset (MemInode.offset_to_page m)) as [l|] eqn:Hget.
  { exists l, w, m. done. }
  unfold bind at 1. unfold new_page at 1.
  unfold bind at 1. unfold update_minode at 1. unfold modify at 1.
  set (l := fresh (dom (pages w))).
  assert (Hmap : ∀ P', minode_map (set_pages P'
       (set_minode_map
          (alter (λ m, MemInode.set_offset_to_page
                         (PyDict.set offset l (MemInode.offset_to_page m)) m)
             minode (minode_map w)) w)) !! minode
     = Some (MemInode.set_offset_to_page (PyDict.set offset l (MemInode.offset_to_page m)) m)).
  { intros P'. simpl. rewrite lookup_alter, decide_True by done. by rewrite Hm. }
  destruct (PyDict.get offset (MemInode.offset_to_block m)) as [block|] eqn:Hblock.
  - pose proof Hok as ((Hmo & _) & Hb & _). unfold blocks_on_file in Hb.
    rewrite Hm in Hmo, Hb. destruct Hmo as [_ Hbl].
    pose proof (dict_values_get_Forall _ _ _ _ Hbl Hblock) as Hpos.
    pose proof (dict_values_get_Forall _ _ _ _ Hb Hblock) as [Hsz Hfile].
    simpl in Hpos.
    unfold bind at 1. unfold on_block_manager at 1. simpl block_manager.
    unfold BlockManager.bread.
    unfold bind at 1. unfold gets at 1.
    unfold bind at 1.
    assert (E1 : (block * PAGE_SZ <? BlockManager.size (block_manager w)) = true)
      by (apply Z.ltb_lt; lia).
    assert (E2 : (block * PAGE_SZ <? 0) = false) by (apply Z.ltb_ge; unfold PAGE_SZ; lia).
    rewrite E1. simpl. rewrite E2. simpl.
    unfold update_page, modify, bind, ret. simpl.
    eexists l, _, _. split; [reflexivity|]. split.
    { apply (file_ok_new_page w minode m offset _
               (Page.set_content
                  (BlockManager.pread (BlockManager.fp (block_manager w)) PAGE_SZ
                     (block * PAGE_SZ)) (Page.init (MemInode.inode m) offset))); try done.
      - fold l. rewrite lookup_alter, decide_True by done. by rewrite lookup_insert_eq.
      - simpl. by apply pread_page.
      - fold l. intros l' Hne. rewrite lookup_alter, decide_False by done.
        by rewrite lookup_insert_ne. }
    split; [apply Hmap|]. simpl; apply dict_get_set_eq.
  - eexists l, _, _. split; [reflexivity|]. split.
    { apply (file_ok_new_page w minode m offset
               (<[l := Page.init (MemInode.inode m) offset]> (pages w))
               (Page.init (MemInode.inode m) offset)); try done.
      - fold l. apply lookup_insert_eq.
      - fold l. intros l' Hne. by rewrite lookup_insert_ne. }
    split; [apply (Hmap (<[l := Page.init (MemInode.inode m) offset]> (pages w)))|].
    simpl; apply dict_get_set_eq.
Qed.

Lemma get_page_for_offset_spec w minode offset :
  file_ok w minode → offset mod PAGE_SZ = 0 →
  ∃ l w' m',
    _get_page_for_offset minode offset w = (w', Returned l) ∧ file_ok w' minode ∧
    minode_map w' !! minode = Some m' ∧
    PyDict.get offset (MemInode.offset_to_page m') = Some l ∧
    read_frame minode w w'.
Proof.
  intros Hok Hal.
  destruct (get_page_for_offset_returns w minode offset Hok Hal)
    as (l & w' & m' & Hrun & Hok' & Hm' & Hget).
  exists l, w', m'. repeat (split; [done|]).
  pose proof (get_page_for_offset_frame minode offset w) as Hfr.
  unfold state_after in Hfr. by rewrite Hrun in Hfr.
Qed.

(** ** Writing into the pages of a file *)

Lemma dict_get_NoDup {V} (d : PyDict.t V) k1 k2 v :
  NoDup (PyDict.values d) → PyDict.get k1 d = Some v → PyDict.get k2 d = Some v → k1 = k2.
Proof.
  unfold PyDict.values. induction d as [|[k v'] d IH]; simpl; [done|].
  intros [Hnotin Hnd]%NoDup_cons.
  assert (Hin : ∀ k', PyDict.get k' d = Some v' → False).
  { intros k' Hk'. apply Hnotin. clear -Hk'.
    induction d as [|[k0 v0] d IH]; simpl in *; [done|].
    destruct (k' =? k0); [injection Hk' as ->; left|right; auto]. }
  destruct (k1 =? k) eqn:E1, (k2 =? k) eqn:E2.
  - intros _ _. apply Z.eqb_eq in E1, E2. congruence.
  - intros [= <-] H. destruct (Hin _ H).
  - intros H [= <-]. destruct (Hin _ H).
  - by apply IH.
Qed.

Lemma write_frame_refl minode w : write_frame minode w w.
Proof. done. Qed.

Lemma write_frame_trans minode w1 w2 w3 :
  write_frame minode w1 w2 → write_frame minode w2 w3 → write_frame minode w1 w3.
Proof. intros (?&?&?&?) (?&?&?&?). repeat split; congruence. Qed.

Lemma read_frame_write_frame minode w w' :
  is_Some (minode_map w !! minode) → read_frame minode w w' → write_frame minode w w'.
Proof.
  intros [m Hm] Hfr. split; [apply Hfr|]. split; [apply Hfr|]. split; [apply Hfr|].
  destruct (rf_minode _ _ _ Hfr m Hm) as (m' & -> & _ & _ & _ & _ & _ & _ & Hs & _).
  rewrite Hm. simpl. by rewrite Hs.
Qed.

Lemma read_frame_byte_at minode w w' o b :
  read_frame minode w w' → byte_at w minode o = Some b → byte_at w' minode o = Some b.
Proof.
  intros Hfr. unfold byte_at, page_for.
  destruct (minode_map w !! minode) as [m|] eqn:Hm; [|done]. simpl.
  destruct (rf_minode _ _ _ Hfr m Hm) as (m' & -> & _ & _ & _ & _ & _ & _ & _ & Hget & _).
  simpl.
  destruct (PyDict.get (o / PAGE_SZ * PAGE_SZ) (MemInode.offset_to_page m)) as [l|] eqn:Hl;
    [|done].
  rewrite (Hget _ _ Hl). simpl.
  destruct (pages w !! l) as [p|] eqn:Hp; [|done].
  by rewrite (rf_pages _ _ _ Hfr _ _ Hp).
Qed.

(** The bytes [v] are put into a page of the file at [start]. *)
Lemma write_page_spec w minode m base l start v (F : Page.t → Page.t) :
  file_ok w minode → minode_map w !! minode = Some m →
  PyDict.get base (MemInode.offset_to_page m) = Some l →
  0 ≤ start → start + Z.of_nat (length v) ≤ PAGE_SZ →
  (∀ p, Page.content (F p)
        = slice_assign (Page.content p) start (start + Z.of_nat (length v)) v) →
  let w' := set_pages (alter F l (pages w)) w in
  file_ok w' minode ∧ write_frame minode w w' ∧
  (∀ o, o / PAGE_SZ * PAGE_SZ = base →
        start ≤ o mod PAGE_SZ < start + Z.of_nat (length v) →
        byte_at w' minode o = v !! Z.to_nat (o mod PAGE_SZ - start)) ∧
  (∀ o, ¬ (o / PAGE_SZ * PAGE_SZ = base ∧
           start ≤ o mod PAGE_SZ < start + Z.of_nat (length v)) →
        byte_at w' minode o = byte_at w minode o).
Proof.
  intros Hok Hm Hl Hs Hlen HF w'. subst w'.
  pose proof Hok as ((Hmo & Hc & Hf & Hlb & Hsq) & Hb & Hd).
  unfold blocks_on_file, pages_distinct in *. rewrite Hm in Hmo, Hb, Hd.
  destruct Hmo as [Hp Hbl].
  destruct (dict_values_get_Forall _ _ _ _ Hp Hl) as [p Hpl].
  pose proof (Hc _ _ Hpl) as Hpc. simpl in Hpc.
  assert (Hmod : ∀ o, 0 ≤ o mod PAGE_SZ < PAGE_SZ)
    by (intros o; apply Z.mod_pos_bound; unfold PAGE_SZ; lia).
  split; [|split; [done|split]].
  - split; [split_ok|split]; simpl.
    + rewrite Hm. split; [|done]. rewrite Forall_forall in *. intros l' Hl'. simpl.
      rewrite lookup_alter. destruct (decide (l = l')); [|by apply Hp].
      rewrite Hpl. by eexists.
    + intros l' p'. simpl. rewrite lookup_alter. destruct (decide (l = l')) as [<-|Hne].
      * rewrite Hpl. simpl. intros [= <-]. rewrite HF.
        rewrite slice_assign_length; [done|lia|lia|lia].
      * apply Hc.
    + done.
    + done.
    + done.
    + unfold blocks_on_file. simpl. by rewrite Hm.
    + unfold pages_distinct. simpl. by rewrite Hm.
  - intros o Hbase Hin. unfold byte_at, page_for. simpl. rewrite Hm. simpl.
    rewrite Hbase, Hl. simpl. rewrite lookup_alter, decide_True by done.
    rewrite Hpl. simpl. rewrite HF.
    rewrite (slice_assign_lookup_in _ _ _ _ (Z.to_nat (o mod PAGE_SZ))) by lia.
    f_equal. lia.
  - intros o Hout. unfold byte_at, page_for. simpl. rewrite Hm. simpl.
    destruct (PyDict.get (o / PAGE_SZ * PAGE_SZ) (MemInode.offset_to_page m))
      as [l'|] eqn:Hl'; [|done]. simpl.
    rewrite lookup_alter. destruct (decide (l = l')) as [<-|Hne]; [|done].
    pose proof (dict_get_NoDup _ _ _ _ Hd Hl' Hl) as Hbase.
    rewrite Hpl. simpl. rewrite HF.
    apply slice_assign_lookup_out; try lia.
    specialize (Hmod o). lia.
Qed.

(** The loop of [write]: it ends with nothing remaining, the bytes of
    [data] are in the pages of the file, and the other bytes of the file
    are as before. *)
Lemma write_loop_spec minode data : ∀ fuel dirty idx remaining cur w,
  file_ok w minode → 0 ≤ idx → 0 ≤ remaining →
  idx + remaining ≤ Z.of_nat (length data) → (Z.to_nat remaining ≤ fuel)%nat →
  ∃ w' dp,
    write_loop fuel minode data (dirty, idx, remaining, cur) w
      = (w', Returned (dp, idx + remaining, 0, cur + remaining)) ∧
    file_ok w' minode ∧ write_frame minode w w' ∧
    (∀ k, 0 ≤ k < remaining →
          byte_at w' minode (cur + k) = data !! Z.to_nat (idx + k)) ∧
    (∀ o b, ¬ (cur ≤ o < cur + remaining) →
            byte_at w minode o = Some b → byte_at w' minode o = Some b).
Proof.
  assert (Hstop : ∀ fuel dirty idx cur w, file_ok w minode →
    ∃ w' dp,
      write_loop fuel minode data (dirty, idx, 0, cur) w
        = (w', Returned (dp, idx + 0, 0, cur + 0)) ∧
      file_ok w' minode ∧ write_frame minode w w' ∧
      (∀ k, 0 ≤ k < 0 →
            byte_at w' minode (cur + k) = data !! Z.to_nat (idx + k)) ∧
      (∀ o b, ¬ (cur ≤ o < cur + 0) →
              byte_at w minode o = Some b → byte_at w' minode o = Some b)).
  { intros fuel dirty idx cur w Hok. exists w, dirty. rewrite !Z.add_0_r.
    split; [by destruct fuel|]. split; [done|]. split; [done|].
    split; [lia|done]. }
  induction fuel as [|fuel IH]; intros dirty idx remaining cur w Hok Hidx Hrem Hlen Hfuel.
  { assert (remaining = 0) as -> by lia. by apply Hstop. }
  destruct (decide (remaining = 0)) as [->|Hpos]; [by apply Hstop|].
  assert (E : (remaining >? 0) = true) by (apply Z.gtb_lt; lia).
  cbn [write_loop]. rewrite E. cbn [negb].
  pose proof (Z.mod_pos_bound cur PAGE_SZ ltac:(unfold PAGE_SZ; lia)) as Hstart.
  set (base := cur / PAGE_SZ * PAGE_SZ).
  set (start := cur mod PAGE_SZ) in *.
  set (n := Z.min remaining (PAGE_SZ - start)).
  assert (Hn : 0 < n ≤ remaining ∧ n ≤ PAGE_SZ - start) by lia.
  set (v := slice data idx (idx + n)).
  assert (Hv : Z.of_nat (length v) = n).
  { unfold v. rewrite slice_length by lia. lia. }
  destruct (get_page_for_offset_spec w minode base Hok (page_aligned cur))
    as (l & wa & ma & Hrun & Hoka & Hma & Hl & Hfr).
  rewrite (bind_returned _ _ _ _ _ Hrun).
  set (G := λ p : Page.t, Page.set_content
              (slice_assign (Page.content p) start (start + n) v) p).
  set (F := Page.set_flag_dirty true ∘ G).
  set (wc := set_pages (alter F l (pages wa)) wa).
  assert (Hupd : ∀ {A} (k : M World A),
    (update_page l G ;;; update_page l (Page.set_flag_dirty true) ;;; k) wa = k wc).
  { intros A k. unfold update_page, modify, bind. simpl.
    unfold wc, F. by rewrite alter_alter_eq. }
  rewrite Hupd.
  destruct (write_page_spec wa minode ma base l start v F Hoka Hma Hl) as
    (Hokc & Hwfc & Hin & Hout); [lia|lia|by intros p; rewrite Hv|]. fold wc in Hokc, Hwfc, Hin, Hout.
  rewrite Hv in Hin, Hout.
  destruct (IH (dirty ++ [l]) (idx + n) (remaining - n) (cur + n) wc Hokc)
    as (w' & dp & Hrun' & Hok' & Hwf' & Hin' & Hout'); [lia|lia|lia|lia|].
  exists w', dp.
  replace (idx + n + (remaining - n)) with (idx + remaining) in Hrun' by lia.
  replace (cur + n + (remaining - n)) with (cur + remaining) in * by lia.
  split; [exact Hrun'|]. split; [done|]. split.
  { eapply write_frame_trans; [|exact Hwf'].
    eapply write_frame_trans; [|exact Hwfc].
    apply read_frame_write_frame; [|done]. by destruct (file_ok_minode _ _ Hok) as [? ->]. }
  split.
  - intros k Hk. destruct (decide (k < n)) as [Hlt|Hge].
    + destruct (same_page cur (cur + k) n ltac:(lia) ltac:(lia)) as [Hb Hmodk].
      fold base start in Hb, Hmodk.
      assert (Hbyte : byte_at wc minode (cur + k) = data !! Z.to_nat (idx + k)).
      { rewrite (Hin _ Hb) by lia. unfold v.
        rewrite slice_lookup by lia. f_equal. lia. }
      destruct (lookup_lt_is_Some_2 data (Z.to_nat (idx + k)) ltac:(lia)) as [b Hb'].
      rewrite Hb' in Hbyte |- *. apply Hout'; [lia|exact Hbyte].
    + specialize (Hin' (k - n) ltac:(lia)).
      replace (cur + n + (k - n)) with (cur + k) in Hin' by lia.
      replace (idx + n + (k - n)) with (idx + k) in Hin' by lia. done.
  - intros o b Ho Hb. apply Hout'; [lia|].
    rewrite Hout.
    + by apply (read_frame_byte_at _ _ _ _ _ Hfr).
    + intros [Hbase Hrange].
      pose proof (Z.div_mod o PAGE_SZ ltac:(unfold PAGE_SZ; lia)) as Ho'.
      pose proof (Z.div_mod cur PAGE_SZ ltac:(unfold PAGE_SZ; lia)) as Hc'.
      fold start in Hc'. unfold base in Hbase. lia.
Qed.

(** A change of the [MemInode] that leaves its two maps alone keeps the
    state fit for the data path and the bytes of the file. *)
Lemma update_minode_data w minode (f : MemInode.t → MemInode.t) :
  (∀ m, MemInode.offset_to_page (f m) = MemInode.offset_to_page m ∧
        MemInode.offset_to_block (f m) = MemInode.offset_to_block m) →
  let w' := set_minode_map (alter f minode (minode_map w)) w in
  (file_ok w minode → file_ok w' minode) ∧
  (∀ o, byte_at w' minode o = byte_at w minode o).
Proof.
  intros Hf w'. subst w'. split.
  - intros ((Hmo & Hc & Hfl & Hlb & Hsq) & Hb & Hd).
    unfold file_ok, inode_ok, blocks_on_file, pages_distinct in *. simpl.
    rewrite lookup_alter, decide_True by done.
    destruct (minode_map w !! minode) as [m|]; [|done]. simpl.
    destruct (Hf m) as [Hp Hbk]. unfold minode_ok in *. simpl. rewrite Hp, Hbk. done.
  - intros o. unfold byte_at, page_for. simpl.
    rewrite lookup_alter, decide_True by done.
    destruct (minode_map w !! minode) as [m|]; [|done]. simpl.
    destruct (Hf m) as [-> _]. done.
Qed.

(** [write] through a descriptor of a cached file: what it returns, and
    the file it leaves. *)
Lemma write_spec w path data offset fd now info :
  fd_info_map w !! fd = Some info → file_ok w (fd_inode info) →
  ∃ w',
    write path data offset fd now w
      = (w', if Z.of_nat (length data) =? 0 then Returned 0
             else if bool_decide (fd ∈ sync_fds w) then Raised AttributeError
             else Returned (Z.of_nat (length data))) ∧
    file_ok w' (fd_inode info) ∧ fd_info_map w' = fd_info_map w ∧
    fsync_cls w' = fsync_cls w ∧
    (∀ k, 0 ≤ k < Z.of_nat (length data) →
          byte_at w' (fd_inode info) (offset + k) = data !! Z.to_nat k) ∧
    (data ≠ [] →
     ∃ m', minode_map w' !! fd_inode info = Some m' ∧
           offset + Z.of_nat (length data) ≤ MemInode.size m').
Proof.
  intros Hfd Hok. destruct (file_ok_minode _ _ Hok) as [m Hm].
  unfold write. unfold bind at 1. unfold gets at 1. rewrite Hfd.
  rewrite (bind_returned _ _ _ _ _ (page_cache_contains_spec w _)).
  rewrite Hm, bool_decide_eq_true_2 by eauto. cbn [negb when].
  unfold bind at 1. unfold ret at 1.
  destruct (Z.of_nat (length data) =? 0) eqn:E.
  { apply Z.eqb_eq in E. exists w. split; [done|]. split; [done|]. split; [done|].
    split; [done|]. split; [lia|]. intros Hne. destruct data; [done|simpl in E; lia]. }
  apply Z.eqb_neq in E.
  unfold bind at 1. unfold gets at 1.
  destruct (write_loop_spec (fd_inode info) data
              (write_loop_fuel (Z.of_nat (length data))) [] 0
              (Z.of_nat (length data)) offset w Hok)
    as (w1 & dp & Hrun & Hok1 & (Hfd1 & Hs1 & Hcls1 & Hsz1) & Hin & _);
    [lia|lia|lia|unfold write_loop_fuel; lia|].
  rewrite Z.add_0_l in Hrun.
  rewrite (bind_returned _ _ _ _ _ Hrun). cbn beta iota.
  destruct (file_ok_minode _ _ Hok1) as [m1 Hm1].
  unfold bind at 1. unfold get_minode at 1. rewrite Hm1.
  rewrite Z.sub_0_r.
  set (total := offset + Z.of_nat (length data)).
  set (w2 := if total >? MemInode.size m1
             then set_minode_map
                    (alter (MemInode.set_size total) (fd_inode info) (minode_map w1)) w1
             else w1).
  set (w3 := set_minode_map
               (alter (MemInode.set_mtime now) (fd_inode info) (minode_map w2)) w2).
  assert (Hupd : ∀ {A} (k : M World A),
    (when (total >? MemInode.size m1)
       (update_minode (fd_inode info) (MemInode.set_size total)) ;;;
     update_minode (fd_inode info) (MemInode.set_mtime now) ;;; k) w1 = k w3).
  { intros A k. unfold w3, w2. by destruct (total >? MemInode.size m1). }
  rewrite Hupd.
  assert (H2 : file_ok w2 (fd_inode info) ∧
               (∀ o, byte_at w2 (fd_inode info) o = byte_at w1 (fd_inode info) o) ∧
               fd_info_map w2 = fd_info_map w1 ∧ fsync_cls w2 = fsync_cls w1 ∧
               ∃ m2, minode_map w2 !! fd_inode info = Some m2 ∧
                     total ≤ MemInode.size m2).
  { unfold w2. destruct (total >? MemInode.size m1) eqn:E'.
    - destruct (update_minode_data w1 (fd_inode info) (MemInode.set_size total))
        as [Hok2 Hb2]; [done|].
      split; [auto|]. split; [done|]. split; [done|]. split; [done|].
      eexists. simpl. rewrite lookup_alter, decide_True, Hm1 by done.
      split; [reflexivity|]. simpl. lia.
    - split; [done|]. split; [done|]. split; [done|]. split; [done|].
      exists m1. split; [done|]. rewrite Z.gtb_ltb in E'. apply Z.ltb_ge in E'. lia. }
  destruct H2 as (Hok2 & Hb2 & Hfd2 & Hcls2 & m2 & Hm2 & Hsz2).
  destruct (update_minode_data w2 (fd_inode info) (MemInode.set_mtime now)) as [Hok3 Hb3].
  { done. }
  fold w3 in Hok3, Hb3.
  exists w3. split.
  { destruct (bool_decide (fd ∈ sync_fds w)); [|done].
    rewrite self_attr_raises by reflexivity. done. }
  split; [auto|]. split; [simpl; congruence|]. split; [simpl; congruence|]. split.
  - intros k Hk. rewrite Hb3, Hb2. rewrite (Hin k Hk). f_equal.
  - intros _. eexists. split.
    + unfold w3. simpl. rewrite lookup_alter, decide_True, Hm2 by done.
      simpl. reflexivity.
    + simpl. done.
Qed.

(** ** Reading the pages of a file *)

(** The loop of [read] over bytes that are all in the page cache: it
    collects them and leaves the state as it is. *)
Lemma read_loop_spec minode : ∀ fuel buf remaining cur w out,
  Z.of_nat (length out) = remaining → (Z.to_nat remaining ≤ fuel)%nat →
  (∀ k, 0 ≤ k < remaining → byte_at w minode (cur + k) = out !! Z.to_nat k) →
  read_loop fuel minode (buf, remaining, cur) w
    = (w, Returned (buf ++ out, 0, cur + remaining)).
Proof.
  assert (Hstop : ∀ fuel buf cur w,
    read_loop fuel minode (buf, 0, cur) w = (w, Returned (buf ++ [], 0, cur + 0))).
  { intros fuel buf cur w. rewrite app_nil_r, Z.add_0_r. by destruct fuel. }
  induction fuel as [|fuel IH]; intros buf remaining cur w out Hlen Hfuel Hbytes.
  { assert (remaining = 0) as -> by lia. destruct out; [|simpl in Hlen; lia]. apply Hstop. }
  destruct (decide (remaining = 0)) as [->|Hpos].
  { destruct out; [|simpl in Hlen; lia]. apply Hstop. }
  assert (E : (remaining >? 0) = true) by (apply Z.gtb_lt; lia).
  cbn [read_loop]. rewrite E. cbn [negb].
  pose proof (Z.mod_pos_bound cur PAGE_SZ ltac:(unfold PAGE_SZ; lia)) as Hstart.
  set (base := cur / PAGE_SZ * PAGE_SZ).
  set (start := cur mod PAGE_SZ) in *.
  set (n := Z.min remaining (PAGE_SZ - start)).
  assert (Hn : 0 < n ≤ remaining ∧ n ≤ PAGE_SZ - start) by lia.
  (* the page of the first byte *)
  pose proof (Hbytes 0 ltac:(lia)) as H0. rewrite Z.add_0_r in H0.
  destruct (lookup_lt_is_Some_2 out (Z.to_nat 0) ltac:(lia)) as [b0 Hb0].
  rewrite Hb0 in H0. unfold byte_at, page_for in H0. fold base in H0.
  destruct (minode_map w !! minode) as [m|] eqn:Hm; [|done]. simpl in H0.
  destruct (PyDict.get base (MemInode.offset_to_page m)) as [l|] eqn:Hl; [|done].
  simpl in H0. destruct (pages w !! l) as [p|] eqn:Hp; [|done]. simpl in H0.
  assert (Hget : _get_page_for_offset minode base w = (w, Returned l)).
  { unfold _get_page_for_offset. unfold bind at 1. unfold base at 1.
    rewrite page_aligned. simpl. unfold bind at 1. unfold get_minode at 1.
    rewrite Hm. fold base. by rewrite Hl. }
  rewrite (bind_returned _ _ _ _ _ Hget).
  unfold bind at 1. unfold get_page at 1. rewrite Hp.
  assert (Hdata : slice (Page.content p) start (start + n) = take (Z.to_nat n) out).
  { apply list_eq. intros j. destruct (decide (Z.of_nat j < n)) as [Hj|Hj].
    - rewrite slice_lookup by lia. rewrite lookup_take_lt by lia.
      specialize (Hbytes (Z.of_nat j) ltac:(lia)). rewrite Nat2Z.id in Hbytes.
      rewrite <- Hbytes. unfold byte_at, page_for.
      destruct (same_page cur (cur + Z.of_nat j) n ltac:(lia) ltac:(lia)) as [-> ->].
      fold base start. rewrite Hm. simpl. rewrite Hl. simpl. rewrite Hp. simpl.
      f_equal. lia.
    - unfold slice. rewrite !lookup_take_ge; [done|lia|lia]. }
  rewrite Hdata.
  assert (Hlen' : Z.of_nat (length (take (Z.to_nat n) out)) = n)
    by (rewrite length_take; lia).
  rewrite Hlen'.
  assert (En : (n =? 0) = false) by (apply Z.eqb_neq; lia). rewrite En.
  rewrite (IH _ (remaining - n) (cur + n) w (drop (Z.to_nat n) out)).
  - rewrite <- app_assoc, take_drop. do 3 f_equal. lia.
  - rewrite length_drop. lia.
  - lia.
  - intros k Hk. rewrite lookup_drop.
    specialize (Hbytes (n + k) ltac:(lia)).
    replace (cur + n + k) with (cur + (n + k)) by lia. rewrite Hbytes. f_equal. lia.
Qed.

(** [read] of bytes that are all in the page cache and within the size of
    the file. *)
Lemma read_spec w path size offset fd info m out :
  fd_info_map w !! fd = Some info → minode_map w !! fd_inode info = Some m →
  Z.of_nat (length out) = size →
  (out ≠ [] → offset + size ≤ MemInode.size m) →
  (∀ k, 0 ≤ k < size → byte_at w (fd_inode info) (offset + k) = out !! Z.to_nat k) →
  read path size offset fd w = (w, Returned out).
Proof.
  intros Hfd Hm Hlen Hsz Hbytes.
  unfold read. unfold bind at 1. unfold gets at 1. rewrite Hfd.
  rewrite (bind_returned _ _ _ _ _ (page_cache_contains_spec w _)).
  rewrite Hm, bool_decide_eq_true_2 by eauto. cbn [negb when].
  unfold bind at 1. unfold ret at 1.
  destruct (size =? 0) eqn:E.
  { apply Z.eqb_eq in E. destruct out; [done|simpl in Hlen; lia]. }
  apply Z.eqb_neq in E.
  assert (Hne : out ≠ []) by (intros ->; simpl in Hlen; lia).
  specialize (Hsz Hne).
  unfold bind at 1. unfold get_minode at 1. rewrite Hm.
  assert (E1 : (offset >=? MemInode.size m) = false).
  { rewrite Z.geb_leb. apply Z.leb_gt. lia. }
  rewrite E1.
  assert (E2 : (if offset + size >=? MemInode.size m
                then MemInode.size m - offset else size) = size).
  { destruct (offset + size >=? MemInode.size m) eqn:E2; [|done].
    rewrite Z.geb_leb in E2. apply Z.leb_le in E2. lia. }
  rewrite E2.
  unfold bind. rewrite (read_loop_spec _ _ [] size offset w out Hlen); [done| |done].
  unfold read_loop_fuel. lia.
Qed.

(** ** What [fsync] does to the bytes of a file *)

Lemma same_bytes_refl minode w : same_bytes minode w w.
Proof. done. Qed.

Lemma same_bytes_trans minode w1 w2 w3 :
  same_bytes minode w1 w2 → same_bytes minode w2 w3 → same_bytes minode w1 w3.
Proof.
  intros (?&?&?&Hb1) (?&?&?&Hb2). split; [congruence|]. split; [congruence|].
  split; [congruence|]. intros o. by rewrite Hb2, Hb1.
Qed.

Lemma same_data_same_bytes minode w w' : same_data w w' → same_bytes minode w w'.
Proof.
  intros (Hp & Hm & _ & _ & Hc & Hfd). split; [done|]. split; [done|].
  split; [by rewrite Hm|]. intros o. unfold byte_at, page_for. by rewrite Hm, Hp.
Qed.

Lemma sync_frame_same_bytes minode w w' : sync_frame minode w w' → same_bytes minode w w'.
Proof.
  intros Hfr. split; [apply Hfr|]. split; [apply Hfr|].
  pose proof (sf_minode _ _ _ Hfr) as Hm.
  split.
  - destruct Hm as [m m' (_&_&_&_&_&Hs&_)|]; [|done]. simpl. by rewrite Hs.
  - intros o. unfold byte_at, page_for.
    destruct Hm as [m m' (_&_&_&_&_&_&Hp)|]; [|done]. simpl. rewrite Hp.
    destruct (PyDict.get (o / PAGE_SZ * PAGE_SZ) (MemInode.offset_to_page m)) as [l|];
      [|done]. simpl.
    destruct (sf_pages _ _ _ Hfr l) as [p p' (_&_&Hc&_)|]; [|done]. simpl. by rewrite Hc.
Qed.

(** One [fsync] through a descriptor of the file: it adds lines to the
    log, and unless the policy is btrfs and one of them reports a failure,
    the file reads as before. *)
Lemma fsync_step w path datasync fd info :
  fd_info_map w !! fd = Some info → inode_ok w (fd_inode info) →
  ∃ msgs,
    let w' := state_after (fsync path datasync fd) w in
    BlockManager.log (block_manager w') = BlockManager.log (block_manager w) ++ msgs ∧
    ((fsync_cls w = Btrfs → forallb BlockManager.bio_success msgs = true) →
     inode_ok w' (fd_inode info) ∧ same_bytes (fd_inode info) w w').
Proof.
  intros Hfd Hok. destruct (inode_ok_minode _ _ Hok) as (m & Hm & _).
  set (i := fd_inode info) in *.
  assert (Hrun : fsync path datasync fd w = on_fsync fd i i w).
  { unfold fsync. unfold bind at 1. unfold gets at 1. rewrite Hfd.
    rewrite (bind_returned _ _ _ _ _ (page_cache_contains_spec w _)).
    fold i. rewrite Hm, bool_decide_eq_true_2 by eauto. done. }
  unfold state_after. rewrite Hrun, on_fsync_dispatch.
  assert (Howed : ∀ w' (o : outcome Z), same_data w w' →
    BlockManager.log (block_manager (w', o).1) = BlockManager.log (block_manager w) ++ [] ∧
    (((fsync_cls w = Btrfs → forallb BlockManager.bio_success [] = true) →
      inode_ok (w', o).1 i ∧ same_bytes i w (w', o).1))).
  { intros w' o Hsd. simpl. rewrite app_nil_r. split; [by destruct Hsd as (_&_&->&_)|].
    intros _. split; [by eapply inode_ok_same_data|by apply same_data_same_bytes]. }
  assert (Hio : ∀ w1 w' (o : outcome Z) msgs,
    BlockManager.log (block_manager w1) = BlockManager.log (block_manager w) ++ msgs →
    inode_ok w1 i → sync_frame i w w1 → same_data w1 w' →
    BlockManager.log (block_manager (w', o).1) = BlockManager.log (block_manager w) ++ msgs ∧
    (((fsync_cls w = Btrfs → forallb BlockManager.bio_success msgs = true) →
      inode_ok (w', o).1 i ∧ same_bytes i w (w', o).1))).
  { intros w1 w' o msgs Hlog Hok1 Hfr Hsd. simpl.
    split; [by destruct Hsd as (_&_&->&_)|]. intros _.
    split; [by eapply inode_ok_same_data|].
    eapply same_bytes_trans; [by apply sync_frame_same_bytes|by apply same_data_same_bytes]. }
  assert (Hgen : ∃ msgs,
    BlockManager.log (block_manager (GenericFsync.on_fsync fd i i w).1)
      = BlockManager.log (block_manager w) ++ msgs ∧
    ((fsync_cls w = Btrfs → forallb BlockManager.bio_success msgs = true) →
     inode_ok (GenericFsync.on_fsync fd i i w).1 i ∧
     same_bytes i w (GenericFsync.on_fsync fd i i w).1)).
  { destruct (generic_on_fsync_spec w fd i i m Hok Hm)
      as (w1 & w' & msgs & _ & Hlog & Hok1 & Hfr & _ & Hsd & Hrun' & _).
    exists msgs. rewrite Hrun'. by eapply Hio. }
  destruct (fsync_cls w) eqn:Hcls; cbv beta iota zeta.
  - exact Hgen.
  - exact Hgen.
  - destruct (owed w fd i) eqn:Ho.
    + destruct (ext4data_on_fsync_owed w fd i i Ho) as (w' & -> & Hsd & _).
      exists []. by apply Howed.
    + destruct (ext4data_on_fsync_not_owed w fd i i m Hok Hm Ho)
        as (w1 & w' & msgs & _ & Hlog & Hok1 & Hfr & Hsd & -> & _).
      exists msgs. by eapply Hio.
  - destruct (owed w fd i) eqn:Ho.
    + destruct (btrfs_on_fsync_owed w fd i i Ho) as (w' & -> & Hsd & _).
      exists []. by apply Howed.
    + destruct (btrfs_on_fsync_not_owed w fd i i m Hok Hm Ho)
        as (w1 & msgs & m1 & _ & Hlog & Hok1 & Hfr & Hm1 & Hrest).
      destruct (forallb BlockManager.bio_success msgs) eqn:Hall; exists msgs.
      * destruct Hrest as (w' & -> & Hsd & _). by eapply Hio.
      * split; [|intros H; specialize (H eq_refl); congruence].
        destruct (host w !! MemInode.realpath m) as [f|].
        -- destruct Hrest as (w' & -> & _ & _ & Hb & _). simpl. by rewrite Hb.
        -- rewrite Hrest. done.
Qed.

(** A run of [fsync] calls through descriptors of the file: unless the
    policy is btrfs and a block write fails, the file reads as before. *)
Lemma after_fsyncs_spec minode : ∀ calls w,
  inode_ok w minode → Forall (λ c, fd_of w minode c.2) calls →
  (fsync_cls w = Btrfs → writes_succeed calls w = true) →
  inode_ok (after_fsyncs calls w) minode ∧ same_bytes minode w (after_fsyncs calls w).
Proof.
  induction calls as [|[[path datasync] fd] calls IH]; intros w Hok Hfds Hlog; [done|].
  apply Forall_cons in Hfds as [Hfd Hfds]. unfold fd_of in Hfd. simpl in Hfd.
  destruct (fd_info_map w !! fd) as [info|] eqn:Hinfo; [|done].
  injection Hfd as <-.
  destruct (fsync_step w path datasync fd info Hinfo Hok) as (msgs & Hmsgs & Hstep).
  cbv zeta in Hmsgs, Hstep. simpl in Hlog |- *.
  rewrite (new_log_app _ _ _ Hmsgs) in Hlog.
  destruct Hstep as [Hok' Hsb'].
  { intros Hcls. by destruct (andb_prop _ _ (Hlog Hcls)). }
  destruct (IH (state_after (fsync path datasync fd) w) Hok') as [Hok'' Hsb''].
  - destruct Hsb' as (Hfdm & _). eapply Forall_impl; [exact Hfds|].
    intros c Hc. unfold fd_of in *. by rewrite Hfdm.
  - destruct Hsb' as (_ & Hcls' & _). rewrite Hcls'. intros Hcls.
    by destruct (andb_prop _ _ (Hlog Hcls)).
  - split; [done|]. by eapply same_bytes_trans.
Qed.




(** * Further properties *)

(** ** The constructor and the stream of a fault sequence *)

Lemma string_get_lookup (s : string) (n : nat) :
  String.get n s = list_ascii_of_string s !! n.
Proof.
  revert n. induction s as [|c s IH]; intros [|n]; simpl; done.
Qed.

Lemma string_length_list (s : string) :
  String.length s = length (list_ascii_of_string s).
Proof. induction s as [|c s IH]; simpl; [done|]. by rewrite IH. Qed.

Lemma index_last (s : string) :
  FailSequence.index s (-1) = last (list_ascii_of_string s).
Proof.
  unfold FailSequence.index, FailSequence.len. simpl (-1 <? 0).
  rewrite string_length_list, string_get_lookup, last_lookup.
  destruct (list_ascii_of_string s) as [|c l]; [done|].
  destruct (Z.of_nat (length (c :: l)) + -1 <? 0) eqn:E.
  { apply Z.ltb_lt in E. simpl in E. lia. }
  f_equal. simpl. lia.
Qed.

(** A string seen from its last letter. *)
Lemma string_snoc_cases (s : string) :
  list_ascii_of_string s = [] ∨
  ∃ front c, list_ascii_of_string s = front ++ [c].
Proof.
  destruct (list_ascii_of_string s) as [|c l] using rev_ind; [by left|].
  right. eauto.
Qed.

Lemma allowed_lower_allowed c :
  FailSequence.allowed_lower c = true → FailSequence.allowed c = true.
Proof.
  unfold FailSequence.allowed_lower, FailSequence.allowed. simpl.
  destruct (Ascii.eqb c "x"), (Ascii.eqb c "w"); simpl; try done.
  all: by rewrite ?orb_true_r.
Qed.

Lemma terminal_allowed c :
  existsb (Ascii.eqb c) ["X"; "W"]%char = true → FailSequence.allowed c = true.
Proof.
  unfold FailSequence.allowed. simpl.
  destruct (Ascii.eqb c "X"), (Ascii.eqb c "W"); simpl; try done.
  all: by rewrite ?orb_true_r.
Qed.

(** The outcome of the constructor, case by case. *)
Lemma init_cases {S} (s : string) (st : S) :
  FailSequence.init s st =
  (st,
   if negb (forallb FailSequence.allowed (list_ascii_of_string s)) then Raised TypeError
   else match last (list_ascii_of_string s) with
        | None => Raised IndexError
        | Some c =>
            if well_formed_seq s
            then Returned {| FailSequence.idx := -1; FailSequence.seq := s;
                             FailSequence.end_idx := FailSequence.len s - 1;
                             FailSequence.termchar := FailSequence.lower c |}
            else Raised ValueError
        end).
Proof.
  unfold FailSequence.init, FailSequence._validate_seq, bind.
  destruct (negb (forallb FailSequence.allowed (list_ascii_of_string s))) eqn:Hall; [done|].
  rewrite index_last. unfold well_formed_seq, FailSequence.but_last.
  destruct (string_snoc_cases s) as [->|(front & c & ->)]; [done|].
  rewrite last_snoc, removelast_last, rev_app_distr. simpl.
  assert (Hrev : forallb FailSequence.allowed_lower (rev front)
                 = forallb FailSequence.allowed_lower front).
  { apply eq_true_iff_eq. rewrite !forallb_forall. split; intros H x Hx; apply H.
    - by apply (proj1 (in_rev _ _)).
    - by apply (proj2 (in_rev _ _)). }
  rewrite Hrev.
  destruct (forallb FailSequence.allowed_lower front); simpl.
  - destruct (Ascii.eqb c "X" || (Ascii.eqb c "W" || false)); done.
  - rewrite andb_false_r. done.
Qed.

(** X1: [FailSequence(seq)] returns an object exactly for the strings
    with at least one letter whose last letter is [X] or [W] and whose other
    letters are [x] or [w]; the object then stands before the first letter
    ([idx = -1]), ends at the last one and answers with the last letter in
    lower case once it is past the end.  Every other string makes the
    constructor raise. *)
Theorem failseq_init_accepts {S} (s : string) (st : S) :
  match FailSequence.init s st with
  | (st', Returned f) =>
      st' = st ∧ well_formed_seq s = true ∧
      FailSequence.idx f = -1 ∧ FailSequence.seq f = s ∧
      FailSequence.end_idx f = FailSequence.len s - 1 ∧
      Some (FailSequence.termchar f)
        = FailSequence.lower <$> last (list_ascii_of_string s)
  | (st', Raised e) => st' = st ∧ well_formed_seq s = false
  | _ => False
  end.
Proof.
  rewrite init_cases.
  destruct (negb (forallb FailSequence.allowed (list_ascii_of_string s))) eqn:Hall.
  - split; [done|]. unfold well_formed_seq.
    destruct (rev (list_ascii_of_string s)) as [|c front] eqn:Hrev; [done|].
    apply andb_false_iff.
    destruct (existsb (Ascii.eqb c) ["X"; "W"]%char) eqn:Hc; [right|by left].
    destruct (forallb FailSequence.allowed_lower front) eqn:Hf; [|done].
    apply negb_true_iff in Hall. rewrite <- Hall. symmetry.
    apply forallb_forall. intros x Hx. apply in_rev in Hx. rewrite Hrev in Hx.
    destruct Hx as [<-|Hx]; [by apply terminal_allowed|].
    apply allowed_lower_allowed. rewrite forallb_forall in Hf. by apply Hf.
  - destruct (last (list_ascii_of_string s)) as [c|] eqn:Hlast.
    + destruct (well_formed_seq s); [|done]. simpl. done.
    + split; [done|]. unfold well_formed_seq.
      apply last_None in Hlast. by rewrite Hlast.
Qed.

(** X2: how the constructor rejects.  A string with a letter other than
    [x], [w], [X], [W] raises [TypeError] (the report of the unknown letters
    is a call of [list.append] with two arguments), the empty string raises
    [IndexError] at [self.seq[-1]], and the strings left that are not as
    the class wants them raise the [ValueError] of [_validate_seq]. *)
Theorem failseq_init_rejects {S} (s : string) (st : S) :
  let known := forallb FailSequence.allowed (list_ascii_of_string s) in
  (known = false ∧ outcome_of (FailSequence.init s) st = Raised TypeError) ∨
  (known = true ∧ s = ""%string ∧
   outcome_of (FailSequence.init s) st = Raised IndexError) ∨
  (known = true ∧ s ≠ ""%string ∧ well_formed_seq s = false ∧
   outcome_of (FailSequence.init s) st = Raised ValueError) ∨
  (well_formed_seq s = true ∧ ∃ f, outcome_of (FailSequence.init s) st = Returned f).
Proof.
  unfold outcome_of. rewrite init_cases. simpl.
  destruct (forallb FailSequence.allowed (list_ascii_of_string s)); simpl; [|by left].
  right. destruct s as [|c s]; [by left|]. right.
  destruct (last (list_ascii_of_string (String c s))) as [c'|] eqn:Hlast.
  - destruct (well_formed_seq (String c s)); [right; eauto|by left].
  - apply last_None in Hlast. done.
Qed.

(** The object [init] builds, after [k] calls of [next]. *)
Lemma after_nexts_fields (f : FailSequence.t) (k : nat) :
  FailSequence.idx (after_nexts k f) = FailSequence.idx f + Z.of_nat k ∧
  FailSequence.seq (after_nexts k f) = FailSequence.seq f ∧
  FailSequence.end_idx (after_nexts k f) = FailSequence.end_idx f ∧
  FailSequence.termchar (after_nexts k f) = FailSequence.termchar f.
Proof.
  induction k as [|k (I1 & I2 & I3 & I4)]; [simpl; repeat split; lia|].
  unfold after_nexts in *. rewrite Nat.iter_succ.
  set (g := Nat.iter k _ f) in *.
  unfold FailSequence.next. simpl.
  destruct (_ >=? _); simpl; [repeat split; try done; lia|].
  destruct (FailSequence.index _ _); simpl; repeat split; try done; lia.
Qed.

(** The answers of the object the constructor builds: the letters before
    the last one, then the last one in lower case. *)
Lemma init_next_value {S} (s : string) (st : S) (f : FailSequence.t) (k : nat) :
  FailSequence.init s st = (st, Returned f) →
  ∃ front c0,
    list_ascii_of_string s = front ++ [c0] ∧
    (Ascii.eqb c0 "X" || (Ascii.eqb c0 "W" || false)) = true ∧
    forallb FailSequence.allowed_lower (rev front) = true ∧
    (FailSequence.next (after_nexts k f)).2
    = Returned (default (FailSequence.lower c0) (front !! k)).
Proof.
  intros Hinit. rewrite init_cases in Hinit.
  destruct (negb (forallb FailSequence.allowed (list_ascii_of_string s))); [done|].
  unfold well_formed_seq in Hinit.
  destruct (string_snoc_cases s) as [Hs|(front & c0 & Hs)]; rewrite Hs in Hinit;
    [done|].
  rewrite last_snoc, rev_app_distr in Hinit. simpl in Hinit.
  destruct (Ascii.eqb c0 "X" || (Ascii.eqb c0 "W" || false)) eqn:Hc0; [|done].
  destruct (forallb FailSequence.allowed_lower (rev front)) eqn:Hfront; [|done].
  simpl in Hinit. injection Hinit as <-.
  exists front, c0. split; [done|]. split; [done|]. split; [done|].
  destruct (after_nexts_fields
              {| FailSequence.idx := -1; FailSequence.seq := s;
                 FailSequence.end_idx := FailSequence.len s - 1;
                 FailSequence.termchar := FailSequence.lower c0 |} k)
    as (I1 & I2 & I3 & I4). simpl in I1, I2, I3, I4.
  unfold FailSequence.next. simpl. rewrite I1, I2, I3, I4.
  replace (-1 + Z.of_nat k + 1) with (Z.of_nat k) by lia.
  assert (Hlen : FailSequence.len s = Z.of_nat (length front) + 1).
  { unfold FailSequence.len. rewrite string_length_list, Hs, length_app. simpl. lia. }
  destruct (Z.of_nat k >=? FailSequence.len s - 1) eqn:E.
  - rewrite Z.geb_leb in E. apply Z.leb_le in E. simpl.
    by rewrite lookup_ge_None_2 by lia.
  - rewrite Z.geb_leb in E. apply Z.leb_gt in E.
    unfold FailSequence.index.
    assert (E0 : (Z.of_nat k <? 0) = false) by (apply Z.ltb_ge; lia).
    rewrite E0, Nat2Z.id, string_get_lookup, Hs.
    destruct (lookup_lt_is_Some_2 front k ltac:(lia)) as [c Hc].
    by rewrite (lookup_app_l_Some _ _ _ _ Hc), Hc.
Qed.

(** X3: the stream of answers of a sequence.  The call of [next] number
    [k + 1] on the object built from [s] answers with letter [k] of [s] as
    long as that is not the last letter, and from the last letter on, for
    ever, with the last letter in lower case; the answer is always [x] or
    [w]. *)
Theorem failseq_next_stream {S} (s : string) (st : S) (f : FailSequence.t) (k : nat) :
  FailSequence.init s st = (st, Returned f) →
  ∃ c, (FailSequence.next (after_nexts k f)).2 = Returned c ∧
       (if Z.of_nat k <? FailSequence.len s - 1
        then String.get k s = Some c
        else Some c = FailSequence.lower <$> last (list_ascii_of_string s)) ∧
       (c = "x"%char ∨ c = "w"%char).
Proof.
  intros Hinit.
  destruct (init_next_value s st f k Hinit) as (front & c0 & Hs & Hc0 & Hfront & Hnext).
  assert (Hlen : FailSequence.len s = Z.of_nat (length front) + 1).
  { unfold FailSequence.len. rewrite string_length_list, Hs, length_app. simpl. lia. }
  rewrite Hnext. eexists. split; [reflexivity|].
  destruct (Z.of_nat k <? FailSequence.len s - 1) eqn:E.
  - apply Z.ltb_lt in E.
    destruct (lookup_lt_is_Some_2 front k ltac:(lia)) as [c Hc]. rewrite Hc. simpl.
    split.
    + by rewrite string_get_lookup, Hs, (lookup_app_l_Some _ _ _ _ Hc).
    + rewrite forallb_forall in Hfront.
      specialize (Hfront c). rewrite <- in_rev in Hfront.
      specialize (Hfront (proj1 (list_elem_of_In _ _) (list_elem_of_lookup_2 _ _ _ Hc))).
      unfold FailSequence.allowed_lower in Hfront. simpl in Hfront.
      destruct (Ascii.eqb_spec c "x") as [Hx|_]; [by left|].
      destruct (Ascii.eqb_spec c "w") as [Hw|_]; [by right|done].
  - apply Z.ltb_ge in E. rewrite lookup_ge_None_2 by lia. simpl.
    split; [by rewrite Hs, last_snoc|].
    destruct (Ascii.eqb_spec c0 "X") as [Hx|_]; [left; by rewrite Hx|].
    destruct (Ascii.eqb_spec c0 "W") as [Hw|_]; [right; by rewrite Hw|done].
Qed.

Lemma failseq_next_stream_witness :
  ∃ c, (FailSequence.next
          (after_nexts 5 {| FailSequence.idx := -1; FailSequence.seq := "xwX";
                            FailSequence.end_idx := 2;
                            FailSequence.termchar := "x" |})).2 = Returned c ∧
       (if Z.of_nat 5 <? FailSequence.len "xwX" - 1
        then String.get 5 "xwX" = Some c
        else Some c = FailSequence.lower <$> last (list_ascii_of_string "xwX")) ∧
       (c = "x"%char ∨ c = "w"%char).
Proof.
  apply (failseq_next_stream (S := unit) "xwX" tt _ 5). reflexivity.
Defined.

(** ** What [bwrite] leaves in the backing file *)

Lemma zeros_nonpos n : n ≤ 0 → zeros n = [].
Proof. intros H. unfold zeros. by replace (Z.to_nat n) with 0%nat by lia. Qed.

Lemma pwrite_lookup_inside (file data : bytes) off (j : nat) :
  0 ≤ off → off + Z.of_nat (length data) ≤ Z.of_nat (length file) →
  BlockManager.pwrite file data off !! j =
  if bool_decide (off ≤ Z.of_nat j < off + Z.of_nat (length data))
  then data !! (j - Z.to_nat off)%nat else file !! j.
Proof.
  intros H0 Hin. unfold BlockManager.pwrite.
  rewrite zeros_nonpos, app_nil_r by lia.
  case_bool_decide as Hj.
  - rewrite lookup_app_r by (rewrite length_take; lia).
    rewrite length_take. rewrite lookup_app_l by lia. f_equal. lia.
  - destruct (decide (Z.of_nat j < off)) as [Hlt|Hge].
    + rewrite lookup_app_l by (rewrite length_take; lia). apply lookup_take_lt. lia.
    + rewrite lookup_app_r by (rewrite length_take; lia).
      rewrite length_take. rewrite lookup_app_r by lia.
      rewrite lookup_drop. f_equal. lia.
Qed.

Lemma pwrite_length_inside (file data : bytes) off :
  0 ≤ off → off + Z.of_nat (length data) ≤ Z.of_nat (length file) →
  length (BlockManager.pwrite file data off) = length file.
Proof.
  intros H0 Hin. unfold BlockManager.pwrite.
  rewrite zeros_nonpos, app_nil_r by lia.
  rewrite !length_app, length_take, length_drop. lia.
Qed.

(** The sectors of a list that reach the backing file, byte by byte, for a
    block that lies inside the file. *)
Lemma write_sectors_lookup b path lo bnum data : ∀ sectors file,
  Z.of_nat (length data) = PAGE_SZ → 0 ≤ bnum →
  Forall (λ i, 0 ≤ i < PAGE_SZ / SECTOR_SZ) sectors →
  (bnum + 1) * PAGE_SZ ≤ Z.of_nat (length file) →
  let file' := write_sectors b path lo bnum data sectors file in
  length file' = length file ∧
  ∀ j : nat,
    file' !! j =
    if existsb (λ i, negb (sector_fails b path lo i) &&
                     bool_decide (bnum * PAGE_SZ + i * SECTOR_SZ ≤ Z.of_nat j
                                  < bnum * PAGE_SZ + (i + 1) * SECTOR_SZ)) sectors
    then data !! (j - Z.to_nat (bnum * PAGE_SZ))%nat else file !! j.
Proof.
  intros sectors file Hlen Hb. revert file.
  induction sectors as [|i sectors IH]; intros file Hsec Hfile; [done|].
  apply Forall_cons in Hsec as [Hi Hsec].
  change (PAGE_SZ / SECTOR_SZ) with 8 in Hi.
  unfold write_sectors. cbn [fold_left]. fold (write_sectors b path lo bnum data sectors).
  set (v := slice data (i * SECTOR_SZ) ((i + 1) * SECTOR_SZ)).
  assert (Hv : Z.of_nat (length v) = SECTOR_SZ).
  { unfold v. rewrite slice_length; unfold SECTOR_SZ, PAGE_SZ in *; lia. }
  set (file1 := if sector_fails b path lo i then file
                else BlockManager.pwrite file v (bnum * PAGE_SZ + i * SECTOR_SZ)).
  assert (Hlen1 : length file1 = length file).
  { unfold file1. destruct (sector_fails b path lo i); [done|].
    apply pwrite_length_inside; unfold SECTOR_SZ, PAGE_SZ in *; lia. }
  destruct (IH file1 Hsec) as [Hl Hlk]; [lia|].
  split; [etransitivity; [exact Hl|exact Hlen1]|].
  intros j. etransitivity; [apply Hlk|]. cbn [existsb].
  destruct (existsb _ sectors) eqn:Hex; [by rewrite orb_true_r|].
  rewrite orb_false_r. unfold file1.
  destruct (sector_fails b path lo i); [done|]. cbn [negb andb].
  rewrite pwrite_lookup_inside by (unfold SECTOR_SZ, PAGE_SZ in *; lia).
  rewrite Hv.
  replace (bnum * PAGE_SZ + (i + 1) * SECTOR_SZ)
    with (bnum * PAGE_SZ + i * SECTOR_SZ + SECTOR_SZ) by lia.
  case_bool_decide as Hj; [|done].
  unfold v. rewrite slice_lookup by (unfold SECTOR_SZ, PAGE_SZ in *; lia).
  f_equal. unfold SECTOR_SZ, PAGE_SZ in *. lia.
Qed.

(** The sector of a byte of a block. *)
Lemma existsb_sector (f : Z → bool) bnum (j : nat) :
  existsb (λ i, f i && bool_decide (bnum * PAGE_SZ + i * SECTOR_SZ ≤ Z.of_nat j
                                    < bnum * PAGE_SZ + (i + 1) * SECTOR_SZ))
    (BlockManager.range (PAGE_SZ / SECTOR_SZ))
  = bool_decide (bnum * PAGE_SZ ≤ Z.of_nat j < (bnum + 1) * PAGE_SZ) &&
    f ((Z.of_nat j - bnum * PAGE_SZ) / SECTOR_SZ).
Proof.
  apply eq_true_iff_eq. rewrite existsb_exists, andb_true_iff, bool_decide_eq_true.
  change (BlockManager.range (PAGE_SZ / SECTOR_SZ)) with (sectors_from 0 8).
  unfold PAGE_SZ, SECTOR_SZ. split.
  - intros (i & Hi & [Hf Hj%bool_decide_eq_true]%andb_true_iff).
    apply list_elem_of_In, elem_of_sectors_from in Hi as (k & -> & Hk).
    assert ((Z.of_nat j - bnum * 4096) / 512 = Z.of_nat k) as ->.
    { symmetry. apply (Z.div_unique _ 512 _ (Z.of_nat j - bnum * 4096 - Z.of_nat k * 512)); lia. }
    split; [lia|done].
  - intros [Hj Hf]. exists ((Z.of_nat j - bnum * 4096) / 512).
    pose proof (Z.div_mod (Z.of_nat j - bnum * 4096) 512 ltac:(lia)) as Hdm.
    pose proof (Z.mod_pos_bound (Z.of_nat j - bnum * 4096) 512 ltac:(lia)) as Hm.
    assert (0 ≤ (Z.of_nat j - bnum * 4096) / 512 < 8).
    { split; [apply Z.div_pos; lia|apply Z.div_lt_upper_bound; lia]. }
    split.
    + apply list_elem_of_In, elem_of_sectors_from.
      exists (Z.to_nat ((Z.of_nat j - bnum * 4096) / 512)). lia.
    + rewrite Hf. apply bool_decide_eq_true. lia.
Qed.

(** X4: a torn write.  [bwrite] to a block that lies inside the backing
    file leaves the file at its length; afterwards every byte of a sector
    whose oracle did not answer ['x'] is the byte of [data], and every byte
    of a sector that failed, like every byte outside the block, is what it
    was before. *)
Theorem bwrite_torn b bnum data path logical_offset :
  Z.of_nat (length data) = PAGE_SZ → 0 ≤ bnum → seqs_ok b →
  (bnum + 1) * PAGE_SZ ≤ Z.of_nat (length (BlockManager.fp b)) →
  let b' := state_after (BlockManager.bwrite bnum data (path, logical_offset)) b in
  length (BlockManager.fp b') = length (BlockManager.fp b) ∧
  ∀ j : nat,
    BlockManager.fp b' !! j =
    if bool_decide (bnum * PAGE_SZ ≤ Z.of_nat j < (bnum + 1) * PAGE_SZ) &&
       negb (sector_fails b path logical_offset
               ((Z.of_nat j - bnum * PAGE_SZ) / SECTOR_SZ))
    then data !! (j - Z.to_nat (bnum * PAGE_SZ))%nat
    else BlockManager.fp b !! j.
Proof.
  intros Hlen Hb Hok Hfile b'.
  destruct (bwrite_spec b bnum data path logical_offset Hlen Hb Hok)
    as (b1 & Hrun & _ & Hfp & _).
  subst b'. unfold state_after. rewrite Hrun. simpl. rewrite Hfp.
  destruct (write_sectors_lookup b path logical_offset bnum data
              (BlockManager.range (PAGE_SZ / SECTOR_SZ)) (BlockManager.fp b) Hlen Hb)
    as [Hl Hlk]; [|done|].
  { apply Forall_forall. intros i Hi.
    change (BlockManager.range (PAGE_SZ / SECTOR_SZ)) with (sectors_from 0 8) in Hi.
    apply elem_of_sectors_from in Hi as (k & -> & Hk).
    change (PAGE_SZ / SECTOR_SZ) with 8. lia. }
  split; [done|]. intros j. rewrite Hlk.
  rewrite (existsb_sector (λ i, negb (sector_fails b path logical_offset i))).
  by rewrite andb_comm.
Qed.

Lemma bwrite_torn_witness :
  let b := block_manager (with_fault Ext4Ordered) in
  let b' := state_after (BlockManager.bwrite 1 (page_of "x") ("/f"%string, 4096)) b in
  length (BlockManager.fp b') = length (BlockManager.fp b) ∧
  ∀ j : nat,
    BlockManager.fp b' !! j =
    if bool_decide (1 * PAGE_SZ ≤ Z.of_nat j < (1 + 1) * PAGE_SZ) &&
       negb (sector_fails b "/f" 4096 ((Z.of_nat j - 1 * PAGE_SZ) / SECTOR_SZ))
    then page_of "x" !! (j - Z.to_nat (1 * PAGE_SZ))%nat
    else BlockManager.fp b !! j.
Proof.
  intros b.
  apply (bwrite_torn b 1 (page_of "x") "/f" 4096).
  - vm_compute; reflexivity.
  - lia.
  - subst b. decide_by_compute.
  - subst b. vm_compute. discriminate.
Defined.

(** Two writes that follow each other in the file are one write. *)
Lemma pwrite_app (file d1 d2 : bytes) off :
  0 ≤ off →
  BlockManager.pwrite (BlockManager.pwrite file d1 off) d2 (off + Z.of_nat (length d1))
  = BlockManager.pwrite file (d1 ++ d2) off.
Proof.
  intros H0. unfold BlockManager.pwrite.
  set (A := take (Z.to_nat off) (file ++ zeros (off - Z.of_nat (length file)))).
  assert (HA : length A = Z.to_nat off).
  { unfold A, zeros. rewrite length_take, length_app, repeat_length. lia. }
  set (B := drop (Z.to_nat off + length d1) file).
  replace (Z.to_nat (off + Z.of_nat (length d1))) with (length (A ++ d1))
    by (rewrite length_app; lia).
  rewrite (app_assoc A d1 B), <- (app_assoc (A ++ d1) B).
  rewrite take_app_length.
  rewrite drop_app_ge by lia.
  replace (length (A ++ d1) + length d2 - length (A ++ d1))%nat with (length d2) by lia.
  unfold B. rewrite drop_drop, length_app, <- !app_assoc.
  do 4 f_equal. lia.
Qed.

(** What was written is read back. *)
Lemma pread_pwrite (file data : bytes) off :
  0 ≤ off →
  BlockManager.pread (BlockManager.pwrite file data off) (Z.of_nat (length data)) off = data.
Proof.
  intros H0. unfold BlockManager.pread, BlockManager.pwrite.
  set (A := take (Z.to_nat off) (file ++ zeros (off - Z.of_nat (length file)))).
  assert (HA : length A = Z.to_nat off).
  { unfold A, zeros. rewrite length_take, length_app, repeat_length. lia. }
  rewrite <- HA, drop_app_length, Nat2Z.id. apply take_app_length.
Qed.

(** When no sector fails, the sectors written one after the other are the
    page written at once. *)
Lemma write_sectors_from b path lo bnum data file : ∀ n k,
  0 ≤ bnum → (1 ≤ k)%nat →
  Z.of_nat (k + n) * SECTOR_SZ ≤ Z.of_nat (length data) →
  (∀ i, i ∈ sectors_from k n → sector_fails b path lo i = false) →
  write_sectors b path lo bnum data (sectors_from k n)
    (BlockManager.pwrite file (take (k * 512) data) (bnum * PAGE_SZ))
  = BlockManager.pwrite file (take ((k + n) * 512) data) (bnum * PAGE_SZ).
Proof.
  induction n as [|n IH]; intros k Hb Hk Hlen Hok.
  { simpl. by rewrite Nat.add_0_r. }
  unfold sectors_from in *. cbn [seq map]. unfold write_sectors. cbn [fold_left].
  rewrite (Hok (Z.of_nat k)) by (cbn [seq map]; left).
  fold (write_sectors b path lo bnum data (map Z.of_nat (seq (S k) n))).
  assert (Htk : length (take (k * 512) data) = (k * 512)%nat).
  { rewrite length_take. unfold SECTOR_SZ in Hlen. lia. }
  replace (bnum * PAGE_SZ + Z.of_nat k * SECTOR_SZ)
    with (bnum * PAGE_SZ + Z.of_nat (length (take (k * 512) data)))
    by (rewrite Htk; unfold SECTOR_SZ; lia).
  rewrite pwrite_app by (unfold PAGE_SZ; lia).
  assert (Hstep : take (k * 512) data
                    ++ slice data (Z.of_nat k * SECTOR_SZ) ((Z.of_nat k + 1) * SECTOR_SZ)
                  = take (S k * 512) data).
  { unfold slice, SECTOR_SZ.
    replace (Z.to_nat (Z.of_nat k * 512)) with (k * 512)%nat by lia.
    replace (Z.to_nat ((Z.of_nat k + 1) * 512 - Z.of_nat k * 512)) with 512%nat by lia.
    rewrite take_take_drop. f_equal. lia. }
  rewrite Hstep.
  transitivity (BlockManager.pwrite file (take ((S k + n) * 512) data) (bnum * PAGE_SZ));
    [|f_equal; f_equal; lia].
  apply (IH (S k)); [done|lia|lia|].
  intros i Hi. apply Hok. cbn [seq map]. by right.
Qed.

Lemma write_sectors_whole b path lo bnum data file :
  0 ≤ bnum → Z.of_nat (length data) = PAGE_SZ →
  (∀ i, 0 ≤ i < PAGE_SZ / SECTOR_SZ → sector_fails b path lo i = false) →
  write_sectors b path lo bnum data (BlockManager.range (PAGE_SZ / SECTOR_SZ)) file
  = BlockManager.pwrite file data (bnum * PAGE_SZ).
Proof.
  intros Hb Hlen Hok.
  assert (Hok' : ∀ i, i ∈ sectors_from 0 8 → sector_fails b path lo i = false).
  { intros i (k & -> & Hk)%elem_of_sectors_from. apply Hok.
    change (PAGE_SZ / SECTOR_SZ) with 8. lia. }
  change (BlockManager.range (PAGE_SZ / SECTOR_SZ)) with (0 :: sectors_from 1 7).
  unfold write_sectors. cbn [fold_left].
  rewrite (Hok' 0) by (change (sectors_from 0 8) with (0 :: sectors_from 1 7); left).
  fold (write_sectors b path lo bnum data (sectors_from 1 7)).
  replace (bnum * PAGE_SZ + 0 * SECTOR_SZ) with (bnum * PAGE_SZ) by lia.
  change (slice data (0 * SECTOR_SZ) ((0 + 1) * SECTOR_SZ)) with (take (1 * 512) data).
  transitivity (BlockManager.pwrite file (take ((1 + 7) * 512) data) (bnum * PAGE_SZ)).
  - apply (write_sectors_from b path lo bnum data file 7 1); [done|lia| |].
    + unfold SECTOR_SZ, PAGE_SZ in *. lia.
    + intros i Hi. apply Hok'.
      change (sectors_from 0 8) with (0 :: sectors_from 1 7). by right.
  - f_equal. apply take_ge. unfold PAGE_SZ in Hlen. lia.
Qed.

(** X5: what [bwrite] wrote, [bread] reads.  When no sector of the write
    fails, [bwrite] returns [True], the size of the block manager covers the
    block afterwards, and [bread] of the block returns the page that was
    written, wherever the block lies: inside the backing file or past its
    end. *)
Theorem bwrite_bread_roundtrip b bnum data path logical_offset :
  Z.of_nat (length data) = PAGE_SZ → 0 ≤ bnum → seqs_ok b →
  (∀ i, 0 ≤ i < PAGE_SZ / SECTOR_SZ → sector_fails b path logical_offset i = false) →
  ∃ b',
    BlockManager.bwrite bnum data (path, logical_offset) b = (b', Returned true) ∧
    BlockManager.size b' = Z.max (BlockManager.size b) ((bnum + 1) * PAGE_SZ) ∧
    BlockManager.bread bnum b' = (b', Returned data).
Proof.
  intros Hlen Hb Hok0 Hnofail.
  pose proof (proj1 (seqs_ok_iff b) Hok0) as Hok.
  destruct (bwrite_loop_spec path data bnum logical_offset 8 0 b true Hb (Hok path))
    as (b1 & Hrun & Hsz & Hfl & Hlg & Hlog & Hfp & Hseq).
  change (sectors_from 0 8) with (BlockManager.range (PAGE_SZ / SECTOR_SZ)) in *.
  replace (bnum * PAGE_SZ + Z.of_nat 0 * 512) with (bnum * PAGE_SZ) in Hrun by lia.
  replace (logical_offset + Z.of_nat 0 * 512) with logical_offset in Hrun by lia.
  rewrite andb_true_l in Hrun.
  replace (bnum * PAGE_SZ + Z.of_nat (0 + 8) * 512) with ((bnum + 1) * PAGE_SZ) in Hrun
    by (unfold PAGE_SZ; lia).
  assert (Hall : forallb (λ i, negb (sector_fails b path logical_offset i))
                   (BlockManager.range (PAGE_SZ / SECTOR_SZ)) = true).
  { apply forallb_forall. intros i Hi. apply negb_true_iff, Hnofail.
    change (BlockManager.range (PAGE_SZ / SECTOR_SZ)) with (sectors_from 0 8) in Hi.
    apply list_elem_of_In, elem_of_sectors_from in Hi as (k & -> & Hk).
    change (PAGE_SZ / SECTOR_SZ) with 8. lia. }
  rewrite Hall in Hrun.
  rewrite write_sectors_whole in Hfp by done.
  unfold BlockManager.bwrite.
  assert (Ha : (Z.of_nat (length data) =? PAGE_SZ) = true) by by apply Z.eqb_eq.
  rewrite Ha. unfold assert, bind at 1, ret at 1.
  rewrite (bind_returned _ _ _ _ _ Hrun).
  unfold bind, modify, gets, when, ret. simpl.
  assert (Hread : ∀ b2, BlockManager.fp b2 = BlockManager.fp b1 →
            (bnum + 1) * PAGE_SZ ≤ BlockManager.size b2 →
            BlockManager.bread bnum b2 = (b2, Returned data)).
  { intros b2 Hfp2 Hsz2. unfold BlockManager.bread, bind, gets, assert, ret.
    assert (E1 : (bnum * PAGE_SZ <? BlockManager.size b2) = true)
      by (apply Z.ltb_lt; unfold PAGE_SZ in *; lia).
    assert (E2 : (bnum * PAGE_SZ <? 0) = false)
      by (apply Z.ltb_ge; unfold PAGE_SZ; lia).
    rewrite E1, E2, Hfp2, Hfp, <- Hlen.
    rewrite pread_pwrite by (unfold PAGE_SZ; lia). done. }
  destruct ((bnum + 1) * PAGE_SZ >=? BlockManager.size b1) eqn:E;
    rewrite Z.geb_leb in E; [apply Z.leb_le in E|apply Z.leb_gt in E];
    (eexists; split; [reflexivity|]); simpl; (split; [lia|]);
    (apply Hread; [done|simpl; lia]).
Qed.

Lemma bwrite_bread_roundtrip_witness :
  ∃ b',
    BlockManager.bwrite 7 (page_of "x") ("/f"%string, 0)
      (block_manager (three_pages Ext4Ordered)) = (b', Returned true) ∧
    BlockManager.size b'
      = Z.max (BlockManager.size (block_manager (three_pages Ext4Ordered)))
          ((7 + 1) * PAGE_SZ) ∧
    BlockManager.bread 7 b' = (b', Returned (page_of "x")).
Proof.
  apply (bwrite_bread_roundtrip (block_manager (three_pages Ext4Ordered)) 7
           (page_of "x") "/f" 0).
  - vm_compute; reflexivity.
  - lia.
  - decide_by_compute.
  - intros i _. unfold sector_fails, sector_seq.
    assert (H : BlockManager.faulty_paths (block_manager (three_pages Ext4Ordered)) = ∅)
      by (vm_compute; reflexivity).
    rewrite H. done.
Defined.

(** ** Fault injection *)

Lemma elem_of_failure_offsets idx is_block o :
  o ∈ BlockManager.failure_offsets idx is_block ↔ in_region idx is_block o.
Proof.
  unfold BlockManager.failure_offsets, in_region. destruct is_block.
  - change (Z.to_nat (PAGE_SZ / SECTOR_SZ)) with 8%nat.
    rewrite list_elem_of_In, in_map_iff. unfold PAGE_SZ, SECTOR_SZ. split.
    + intros (i & <- & Hi%in_seq). split; [lia|].
      replace (idx * 4096 + Z.of_nat i * 512) with ((idx * 8 + Z.of_nat i) * 512) by lia.
      apply Z.mod_mul. lia.
    + intros [Ho Hm]. exists (Z.to_nat ((o - idx * 4096) / 512)).
      pose proof (Z.div_mod o 512 ltac:(lia)) as Ho'. rewrite Hm in Ho'.
      assert ((o - idx * 4096) / 512 = o / 512 - idx * 8) as ->.
      { symmetry. apply (Z.div_unique _ 512 _ 0); lia. }
      split; [lia|]. apply in_seq. lia.
  - rewrite list_elem_of_singleton. done.
Qed.

Lemma sector_seq_setdefault b path p o :
  sector_seq (BlockManager.set_faulty_paths
     (<[path := default ∅ (BlockManager.faulty_paths b !! path)]>
        (BlockManager.faulty_paths b)) b) p o
  = sector_seq b p o.
Proof.
  unfold sector_seq. simpl. destruct (decide (p = path)) as [->|Hne].
  - rewrite lookup_insert_eq. by destruct (BlockManager.faulty_paths b !! path).
  - by rewrite lookup_insert_ne.
Qed.

(** A copy of the object the constructor built is that object. *)
Lemma copy_init {S S'} (s : string) (st : S) (st' : S') f :
  FailSequence.init s st = (st, Returned f) →
  FailSequence.copy f st' = (st', Returned f).
Proof.
  intros Hinit. rewrite init_cases in Hinit.
  unfold FailSequence.copy, bind.
  destruct (negb (forallb FailSequence.allowed (list_ascii_of_string s))) eqn:Hk; [done|].
  destruct (last (list_ascii_of_string s)) as [c|] eqn:Hl; [|done].
  destruct (well_formed_seq s) eqn:Hwf; [|done].
  injection Hinit as <-. simpl. rewrite init_cases, Hk, Hl, Hwf. done.
Qed.

(** The loop of [enable_failures_on] over offsets that are all free. *)
Lemma install_spec path f : ∀ offsets b,
  (∀ st : BlockManager.t, FailSequence.copy f st = (st, Returned f)) →
  NoDup offsets → (∀ o, o ∈ offsets → sector_seq b path o = None) →
  ∃ b',
    BlockManager.install path f offsets b = (b', Returned tt) ∧
    (∀ p o, sector_seq b' p o =
       if decide (p = path ∧ o ∈ offsets) then Some f else sector_seq b p o) ∧
    BlockManager.fp b' = BlockManager.fp b ∧
    BlockManager.size b' = BlockManager.size b ∧
    BlockManager.free_list b' = BlockManager.free_list b ∧
    BlockManager.largest_block_num b' = BlockManager.largest_block_num b ∧
    BlockManager.log b' = BlockManager.log b.
Proof.
  induction offsets as [|o0 offsets IH]; intros b Hcopy Hnd Hfree.
  { exists b. split; [done|]. split; [|done]. intros p o.
    rewrite decide_False; [done|]. intros [_ H]. by apply elem_of_nil in H. }
  apply NoDup_cons in Hnd as [Hnotin Hnd].
  cbn [BlockManager.install]. unfold bind at 1. unfold gets at 1.
  pose proof (Hfree o0 ltac:(left)) as H0. unfold sector_seq in H0.
  assert (Hfree0 : default ∅ (BlockManager.faulty_paths b !! path) !! o0 = None).
  { destruct (BlockManager.faulty_paths b !! path); [done|apply lookup_empty]. }
  rewrite Hfree0, bool_decide_eq_true_2 by done.
  unfold assert, bind at 1, ret at 1.
  unfold bind at 1. rewrite Hcopy.
  unfold bind at 1. unfold modify at 1.
  set (b1 := BlockManager.set_faulty_paths _ b).
  destruct (IH b1 Hcopy Hnd) as (b' & Hrun & Hseq & Hfp & Hsz & Hfl & Hlg & Hlog).
  { intros o Ho. unfold b1. rewrite sector_seq_insert.
    rewrite decide_False; [apply Hfree; by right|]. intros [_ ->]. done. }
  exists b'. split; [done|]. split; [|done].
  intros p o. rewrite Hseq. unfold b1. rewrite sector_seq_insert.
  destruct (decide (p = path ∧ o ∈ offsets)) as [[-> Ho]|Hno].
  - rewrite decide_True; [done|]. split; [done|by right].
  - destruct (decide (p = path ∧ o = o0)) as [[-> ->]|Hno0].
    + rewrite decide_True; [done|]. split; [done|left].
    + rewrite decide_False; [done|]. intros [-> [->|Ho]%elem_of_cons]; tauto.
Qed.

Lemma failure_offsets_NoDup idx is_block :
  NoDup (BlockManager.failure_offsets idx is_block).
Proof.
  unfold BlockManager.failure_offsets. destruct is_block; [|apply NoDup_singleton].
  apply NoDup_fmap_2; [|apply NoDup_ListNoDup, seq_NoDup].
  intros i j H. unfold SECTOR_SZ in H. lia.
Qed.

Lemma failure_offsets_aligned idx is_block :
  forallb (λ i, i mod SECTOR_SZ =? 0) (BlockManager.failure_offsets idx is_block) = true.
Proof.
  apply forallb_forall. intros o Ho%list_elem_of_In%elem_of_failure_offsets.
  apply Z.eqb_eq. unfold in_region in Ho. destruct is_block; [apply Ho|].
  subst o. apply Z.mod_mul. unfold SECTOR_SZ. lia.
Qed.

(** [enable_failures_on] over a free region. *)
Lemma enable_failures_on_spec b path s idx is_block f :
  FailSequence.init s b = (b, Returned f) →
  (∀ o, in_region idx is_block o → sector_seq b path o = None) →
  ∃ b',
    BlockManager.enable_failures_on path s idx is_block b = (b', Returned tt) ∧
    (∀ p o, sector_seq b' p o =
       if decide (p = path ∧ in_region idx is_block o) then Some f
       else sector_seq b p o) ∧
    BlockManager.fp b' = BlockManager.fp b ∧
    BlockManager.size b' = BlockManager.size b ∧
    BlockManager.free_list b' = BlockManager.free_list b ∧
    BlockManager.largest_block_num b' = BlockManager.largest_block_num b ∧
    BlockManager.log b' = BlockManager.log b.
Proof.
  intros Hinit Hfree. unfold BlockManager.enable_failures_on.
  rewrite (bind_returned _ _ _ _ _ Hinit).
  unfold bind at 1. unfold gets at 1. unfold bind at 1. unfold modify at 1.
  set (b1 := BlockManager.set_faulty_paths _ b).
  rewrite failure_offsets_aligned. unfold assert, bind at 1, ret at 1.
  destruct (install_spec path f (BlockManager.failure_offsets idx is_block) b1)
    as (b' & Hrun & Hseq & Hrest).
  { intros st. by eapply copy_init. }
  { apply failure_offsets_NoDup. }
  { intros o Ho%elem_of_failure_offsets. unfold b1. rewrite sector_seq_setdefault.
    by apply Hfree. }
  exists b'. split; [done|]. split; [|exact Hrest].
  intros p o. rewrite Hseq. unfold b1. rewrite sector_seq_setdefault.
  destruct (decide (p = path ∧ in_region idx is_block o)) as [[-> Ho]|Hno].
  - rewrite decide_True; [done|]. split; [done|]. by apply elem_of_failure_offsets.
  - rewrite decide_False; [done|]. intros [-> Ho%elem_of_failure_offsets]. tauto.
Qed.

Lemma well_formed_allowed (s : string) :
  well_formed_seq s = true →
  forallb FailSequence.allowed (list_ascii_of_string s) = true.
Proof.
  unfold well_formed_seq. intros Hwf.
  destruct (rev (list_ascii_of_string s)) as [|c front] eqn:Hrev; [done|].
  apply andb_true_iff in Hwf as [Hc Hf].
  apply forallb_forall. intros x Hx. apply in_rev in Hx. rewrite Hrev in Hx.
  destruct Hx as [<-|Hx]; [by apply terminal_allowed|].
  apply allowed_lower_allowed. rewrite forallb_forall in Hf. by apply Hf.
Qed.

Lemma well_formed_init {S} (s : string) (st : S) :
  well_formed_seq s = true →
  ∃ f, FailSequence.init s st = (st, Returned f) ∧
       FailSequence.idx f = -1 ∧ FailSequence.seq f = s.
Proof.
  intros Hwf. rewrite init_cases, Hwf, (well_formed_allowed s Hwf). simpl.
  destruct (last (list_ascii_of_string s)) as [c|] eqn:Hl; [eauto|].
  apply last_None in Hl. unfold well_formed_seq in Hwf. by rewrite Hl in Hwf.
Qed.

(** X6: [enable_failures_on] over a region where the path has no sequence
    yet.  For a string the constructor accepts, the call returns; every
    sector offset of the region (the eight sectors of block [idx], or the
    sector [idx]) then has a sequence of its own for the path, standing
    before its first letter; no other sequence is touched, and the backing
    file and the allocator are as before. *)
Theorem enable_failures_on_installs b path s idx is_block :
  well_formed_seq s = true →
  (∀ o, in_region idx is_block o → sector_seq b path o = None) →
  ∃ b' f,
    BlockManager.enable_failures_on path s idx is_block b = (b', Returned tt) ∧
    FailSequence.idx f = -1 ∧ FailSequence.seq f = s ∧
    (∀ p o, sector_seq b' p o =
       if decide (p = path ∧ in_region idx is_block o) then Some f
       else sector_seq b p o) ∧
    BlockManager.fp b' = BlockManager.fp b ∧
    BlockManager.size b' = BlockManager.size b ∧
    BlockManager.free_list b' = BlockManager.free_list b ∧
    BlockManager.largest_block_num b' = BlockManager.largest_block_num b ∧
    BlockManager.log b' = BlockManager.log b.
Proof.
  intros Hwf Hfree.
  destruct (well_formed_init s b Hwf) as (f & Hinit & Hi & Hs).
  destruct (enable_failures_on_spec b path s idx is_block f Hinit Hfree)
    as (b' & Hrun & Hrest).
  exists b', f. done.
Qed.

Lemma enable_failures_on_installs_witness :
  ∃ b' f,
    BlockManager.enable_failures_on "/f" "xW" 1 true empty_block_manager
      = (b', Returned tt) ∧
    FailSequence.idx f = -1 ∧ FailSequence.seq f = "xW"%string ∧
    (∀ p o, sector_seq b' p o =
       if decide (p = "/f"%string ∧ in_region 1 true o) then Some f
       else sector_seq empty_block_manager p o) ∧
    BlockManager.fp b' = BlockManager.fp empty_block_manager ∧
    BlockManager.size b' = BlockManager.size empty_block_manager ∧
    BlockManager.free_list b' = BlockManager.free_list empty_block_manager ∧
    BlockManager.largest_block_num b'
      = BlockManager.largest_block_num empty_block_manager ∧
    BlockManager.log b' = BlockManager.log empty_block_manager.
Proof.
  apply (enable_failures_on_installs empty_block_manager "/f" "xW" 1 true).
  - reflexivity.
  - intros o _. reflexivity.
Defined.

(** The loop of [enable_failures_on] over offsets of which one is taken. *)
Lemma install_conflict path f : ∀ offsets b o,
  (∀ st : BlockManager.t, FailSequence.copy f st = (st, Returned f)) →
  o ∈ offsets → is_Some (sector_seq b path o) →
  ∃ b',
    BlockManager.install path f offsets b = (b', Raised AssertionError) ∧
    ∀ p o' g, sector_seq b p o' = Some g → sector_seq b' p o' = Some g.
Proof.
  induction offsets as [|o0 offsets IH]; intros b o Hcopy Hin Hsome.
  { by apply elem_of_nil in Hin. }
  cbn [BlockManager.install]. unfold bind at 1. unfold gets at 1.
  destruct (sector_seq b path o0) as [g0|] eqn:H0.
  - exists b. split; [|done]. unfold sector_seq in H0.
    destruct (BlockManager.faulty_paths b !! path) as [m|]; [|done]. simpl in H0 |- *.
    rewrite H0, bool_decide_eq_false_2 by done. done.
  - assert (Hfree0 : default ∅ (BlockManager.faulty_paths b !! path) !! o0 = None).
    { unfold sector_seq in H0.
      destruct (BlockManager.faulty_paths b !! path); [done|apply lookup_empty]. }
    rewrite Hfree0, bool_decide_eq_true_2 by done.
    unfold assert, bind at 1, ret at 1.
    unfold bind at 1. rewrite Hcopy.
    unfold bind at 1. unfold modify at 1.
    set (b1 := BlockManager.set_faulty_paths _ b).
    assert (Hkeep : ∀ p o' g, sector_seq b p o' = Some g → sector_seq b1 p o' = Some g).
    { intros p o' g Hg. unfold b1. rewrite sector_seq_insert.
      rewrite decide_False; [done|]. intros [-> ->]. congruence. }
    apply elem_of_cons in Hin as [->|Hin].
    { rewrite H0 in Hsome. by destruct Hsome. }
    destruct (IH b1 o Hcopy Hin) as (b' & Hrun & Hkeep').
    { destruct Hsome as [g Hg]. rewrite (Hkeep _ _ _ Hg). eauto. }
    exists b'. split; [done|]. intros p o' g Hg. apply Hkeep', Hkeep, Hg.
Qed.

(** X7: a fault on a region that overlaps a fault the path already has.
    When one sector offset of the region holds a sequence for the path (a
    second fault on the same block, a sector fault inside a faulted block,
    a block fault over a faulted sector), [enable_failures_on] raises
    [AssertionError] at [assert offset not in offset_seq_map]; every
    sequence that was installed stays as it is. *)
Theorem enable_failures_on_overlap b path s idx is_block o :
  well_formed_seq s = true →
  in_region idx is_block o → is_Some (sector_seq b path o) →
  ∃ b',
    BlockManager.enable_failures_on path s idx is_block b = (b', Raised AssertionError) ∧
    ∀ p o' g, sector_seq b p o' = Some g → sector_seq b' p o' = Some g.
Proof.
  intros Hwf Hin Hsome.
  destruct (well_formed_init s b Hwf) as (f & Hinit & _).
  unfold BlockManager.enable_failures_on.
  rewrite (bind_returned _ _ _ _ _ Hinit).
  unfold bind at 1. unfold gets at 1. unfold bind at 1. unfold modify at 1.
  set (b1 := BlockManager.set_faulty_paths _ b).
  rewrite failure_offsets_aligned. unfold assert, bind at 1, ret at 1.
  destruct (install_conflict path f (BlockManager.failure_offsets idx is_block) b1 o)
    as (b' & Hrun & Hkeep).
  - intros st. by eapply copy_init.
  - by apply elem_of_failure_offsets.
  - unfold b1. by rewrite sector_seq_setdefault.
  - exists b'. split; [done|]. intros p o' g Hg. apply Hkeep.
    unfold b1. by rewrite sector_seq_setdefault.
Qed.

Lemma enable_failures_on_overlap_witness :
  ∃ b',
    BlockManager.enable_failures_on "/f" "wX" 8 false
      (block_manager (with_fault Ext4Ordered)) = (b', Raised AssertionError) ∧
    ∀ p o' g, sector_seq (block_manager (with_fault Ext4Ordered)) p o' = Some g →
              sector_seq b' p o' = Some g.
Proof.
  apply (enable_failures_on_overlap (block_manager (with_fault Ext4Ordered))
           "/f" "wX" 8 false 4096).
  - reflexivity.
  - reflexivity.
  - vm_compute. eauto.
Defined.

(** ** The schedule of a block fault *)

Lemma seq_fails_answer {S} (s : string) (st : S) f (k : nat) :
  FailSequence.init s st = (st, Returned f) →
  ∃ c, (FailSequence.next (after_nexts k f)).2 = Returned c ∧
       Ascii.eqb c "x" = seq_fails s k.
Proof.
  intros Hinit.
  destruct (init_next_value s st f k Hinit) as (front & c0 & Hs & Hc0 & Hfront & Hnext).
  rewrite Hnext. eexists. split; [reflexivity|].
  unfold seq_fails. rewrite string_get_lookup, string_length_list, Hs, length_app.
  simpl. replace (length front + 1 - 1)%nat with (length front) by lia.
  destruct (front !! k) as [c|] eqn:Hc; simpl.
  - apply lookup_lt_Some in Hc as Hlt. rewrite Nat.min_l by lia.
    rewrite (lookup_app_l_Some _ _ _ _ Hc).
    rewrite forallb_forall in Hfront.
    specialize (Hfront c). rewrite <- in_rev in Hfront.
    specialize (Hfront (proj1 (list_elem_of_In _ _) (list_elem_of_lookup_2 _ _ _ Hc))).
    unfold FailSequence.allowed_lower in Hfront. simpl in Hfront.
    destruct (Ascii.eqb_spec c "x") as [Hx|_]; [by rewrite Hx|].
    destruct (Ascii.eqb_spec c "w") as [Hw|_]; [by rewrite Hw|done].
  - apply lookup_ge_None in Hc. rewrite Nat.min_r by lia.
    rewrite lookup_app_r by lia. by rewrite Nat.sub_diag.
Qed.

(** When the oracles of the sectors agree, the sectors are written or left
    out together. *)
Lemma write_sectors_uniform b path lo bnum data x : ∀ sectors file,
  (∀ i, i ∈ sectors → sector_fails b path lo i = x) →
  write_sectors b path lo bnum data sectors file
  = if x then file
    else fold_left
           (λ file i,
              BlockManager.pwrite file (slice data (i * SECTOR_SZ) ((i + 1) * SECTOR_SZ))
                (bnum * PAGE_SZ + i * SECTOR_SZ))
           sectors file.
Proof.
  unfold write_sectors.
  induction sectors as [|i sectors IH]; intros file H; simpl; [by destruct x|].
  rewrite (H i) by apply list_elem_of_here.
  rewrite IH by (intros j Hj; apply H; by apply list_elem_of_further).
  by destruct x.
Qed.

(** [bwrite] to a block all of whose sectors hold the same sequence. *)
Lemma bwrite_faulted b bnum data path lo g c :
  Z.of_nat (length data) = PAGE_SZ → 0 ≤ bnum → seqs_ok b →
  (∀ i, 0 ≤ i < PAGE_SZ / SECTOR_SZ → sector_seq b path (lo + i * SECTOR_SZ) = Some g) →
  (FailSequence.next g).2 = Returned c →
  ∃ b',
    BlockManager.bwrite bnum data (path, lo) b = (b', Returned (negb (Ascii.eqb c "x"))) ∧
    seqs_ok b' ∧
    (∀ i, 0 ≤ i < PAGE_SZ / SECTOR_SZ →
          sector_seq b' path (lo + i * SECTOR_SZ) = Some (FailSequence.next g).1) ∧
    BlockManager.fp b' =
      (if Ascii.eqb c "x" then BlockManager.fp b
       else write_page bnum data (BlockManager.fp b)).
Proof.
  intros Hlen Hb Hok Hseq Hc.
  destruct (bwrite_spec b bnum data path lo Hlen Hb Hok)
    as (b' & Hrun & Hseq' & Hfp & _ & _ & _ & Hok').
  assert (Hall : ∀ i, i ∈ sectors_from 0 8 →
                      sector_fails b path lo i = Ascii.eqb c "x").
  { intros i (k & -> & Hk)%elem_of_sectors_from. unfold sector_fails.
    rewrite Hseq by (change (PAGE_SZ / SECTOR_SZ) with 8; lia). by rewrite Hc. }
  exists b'. split; [|split; [done|split]].
  - rewrite Hrun. do 2 f_equal.
    change (BlockManager.range (PAGE_SZ / SECTOR_SZ)) with (sectors_from 0 8).
    rewrite (forallb_ext_in _ (λ _, negb (Ascii.eqb c "x"))).
    + simpl. by destruct (Ascii.eqb c "x").
    + intros i Hi. by rewrite Hall.
  - intros i Hi. rewrite Hseq'. rewrite decide_True.
    + by rewrite Hseq.
    + split; [done|].
      change (BlockManager.range (PAGE_SZ / SECTOR_SZ)) with (sectors_from 0 8).
      apply elem_of_sector_offsets. exists (Z.to_nat i).
      change (PAGE_SZ / SECTOR_SZ) with 8 in Hi. split; [lia|].
      by rewrite Z2Nat.id by lia.
  - rewrite Hfp. unfold write_page.
    change (BlockManager.range (PAGE_SZ / SECTOR_SZ)) with (sectors_from 0 8).
    by apply write_sectors_uniform.
Qed.

(** The writes to a faulted block, from the [k]th on. *)
Lemma bwrite_all_schedule s (f : FailSequence.t) path lo : ∀ calls (k : nat) b,
  (∀ (st : unit), FailSequence.init s st = (st, Returned f)) →
  Forall (λ c, 0 ≤ c.1 ∧ Z.of_nat (length c.2) = PAGE_SZ) calls →
  seqs_ok b →
  (∀ i, 0 ≤ i < PAGE_SZ / SECTOR_SZ →
        sector_seq b path (lo + i * SECTOR_SZ) = Some (after_nexts k f)) →
  ∃ b',
    bwrite_all (path, lo) calls b
    = (b', Returned (map (λ j, negb (seq_fails s j)) (seq k (length calls)))) ∧
    BlockManager.fp b' = schedule_file s k calls (BlockManager.fp b) ∧
    ∀ i, 0 ≤ i < PAGE_SZ / SECTOR_SZ →
         sector_seq b' path (lo + i * SECTOR_SZ) = Some (after_nexts (k + length calls) f).
Proof.
  induction calls as [|[bnum data] calls IH]; intros k b Hinit Hcalls Hok Hseq.
  { exists b. simpl. rewrite Nat.add_0_r. done. }
  apply Forall_cons in Hcalls as [[Hb Hlen] Hcalls]. simpl in Hb, Hlen.
  destruct (seq_fails_answer s tt f k (Hinit tt)) as (c & Hc & Hfails).
  destruct (bwrite_faulted b bnum data path lo _ c Hlen Hb Hok Hseq Hc)
    as (b1 & Hrun & Hok' & Hseq' & Hfp).
  destruct (IH (S k) b1 Hinit Hcalls Hok' Hseq') as (b' & Hrun' & Hfp' & Hseq'').
  exists b'. cbn [bwrite_all]. rewrite (bind_returned _ _ _ _ _ Hrun).
  rewrite (bind_returned _ _ _ _ _ Hrun'). split; [|split].
  - unfold ret. simpl. by rewrite Hfails.
  - rewrite Hfp'. simpl. by rewrite Hfp, Hfails.
  - intros i Hi. rewrite (Hseq'' i Hi).
    by replace (k + length ((bnum, data) :: calls))%nat with (S k + length calls)%nat
      by (simpl; lia).
Qed.

Lemma init_any_state {S S'} (s : string) (st : S) (st' : S') f :
  FailSequence.init s st = (st, Returned f) → FailSequence.init s st' = (st', Returned f).
Proof.
  rewrite !init_cases. intros H. injection H as H. by rewrite H.
Qed.

(** X8: the schedule of a block fault.  A sequence is installed on block
    [idx] of a path that has no fault there, and the block is then written
    again and again (to whichever block numbers, with whichever pages): the
    write number [k + 1] returns [False] exactly when letter [k] of the
    sequence, or its last letter once the sequence is used up, is [x] or
    [X].  The eight sectors fail or pass together: a write that returns
    [False] leaves the backing file as it was and one that returns [True]
    puts down all eight sectors of its page, and afterwards the oracles of
    the eight sectors are one and the same sequence, each advanced once by
    every write. *)
Theorem block_fault_schedule b path s idx calls :
  well_formed_seq s = true → seqs_ok b →
  (∀ o, in_region idx true o → sector_seq b path o = None) →
  Forall (λ c, 0 ≤ c.1 ∧ Z.of_nat (length c.2) = PAGE_SZ) calls →
  let run := BlockManager.enable_failures_on path s idx true ;;;
             bwrite_all (path, idx * PAGE_SZ) calls in
  outcome_of run b
  = Returned (map (λ k, negb (seq_fails s k)) (seq 0 (length calls))) ∧
  BlockManager.fp (state_after run b) = schedule_file s 0 calls (BlockManager.fp b) ∧
  ∃ g, FailSequence.seq g = s ∧
       FailSequence.idx g = Z.of_nat (length calls) - 1 ∧
       ∀ i, 0 ≤ i < PAGE_SZ / SECTOR_SZ →
            sector_seq (state_after run b) path (idx * PAGE_SZ + i * SECTOR_SZ) = Some g.
Proof.
  intros Hwf Hok Hfree Hcalls run.
  destruct (well_formed_init s b Hwf) as (f & Hinit & Hfields).
  destruct (enable_failures_on_spec b path s idx true f Hinit Hfree)
    as (b0 & Hrun & Hseq & Hfp0 & _).
  destruct (bwrite_all_schedule s f path (idx * PAGE_SZ) calls 0 b0)
    as (b' & Hrun' & Hfp & Hseq').
  - intros st. by eapply init_any_state.
  - done.
  - apply seqs_ok_iff. intros p o g. rewrite Hseq. case_decide.
    + intros [= <-]. by eapply init_seq_ok.
    + by apply (proj1 (seqs_ok_iff b) Hok).
  - intros i Hi. rewrite Hseq, decide_True; [done|]. split; [done|].
    change (PAGE_SZ / SECTOR_SZ) with 8 in Hi. unfold in_region, PAGE_SZ, SECTOR_SZ.
    split; [lia|].
    replace (idx * 4096 + i * 512) with ((idx * 8 + i) * 512) by lia.
    apply Z.mod_mul. lia.
  - unfold outcome_of, state_after, run. rewrite (bind_returned _ _ _ _ _ Hrun), Hrun'.
    simpl. split; [done|]. split; [by rewrite Hfp, Hfp0|].
    exists (after_nexts (length calls) f).
    destruct (after_nexts_fields f (length calls)) as (I1 & I2 & _).
    destruct Hfields as [Hidx Hs].
    split; [by rewrite I2|]. split; [rewrite I1, Hidx; lia|exact Hseq'].
Qed.

Lemma block_fault_schedule_witness :
  let calls := [(0, page_of "a"); (0, page_of "b"); (0, page_of "c"); (1, page_of "d")] in
  let run := BlockManager.enable_failures_on "/f" "xwX" 0 true ;;;
             bwrite_all ("/f"%string, 0 * PAGE_SZ) calls in
  outcome_of run empty_block_manager = Returned [false; true; false; false] ∧
  BlockManager.fp (state_after run empty_block_manager) = page_of "b".
Proof.
  cbv zeta.
  destruct (block_fault_schedule empty_block_manager "/f" "xwX" 0
              [(0, page_of "a"); (0, page_of "b"); (0, page_of "c"); (1, page_of "d")])
    as (Hout & Hfp & _).
  - reflexivity.
  - decide_by_compute.
  - intros o _. reflexivity.
  - repeat (apply Forall_cons; split; [split; [simpl; lia|vm_compute; reflexivity]|]).
    apply Forall_nil_2.
  - split.
    + etransitivity; [exact Hout|]. vm_compute. reflexivity.
    + etransitivity; [exact Hfp|]. vm_compute. reflexivity.
Defined.

(** ** The allocator *)

Lemma block_manager_eta (b : BlockManager.t) :
  BlockManager.set_free_list (BlockManager.free_list b) b = b.
Proof. by destruct b. Qed.

Lemma dealloc_each_spec blocks : ∀ b,
  dealloc_each blocks b
  = (BlockManager.set_free_list (BlockManager.free_list b ++ blocks) b, Returned tt).
Proof.
  induction blocks as [|x blocks IH]; intros b; simpl.
  - by rewrite app_nil_r, block_manager_eta.
  - unfold bind at 1. unfold BlockManager.dealloc_block, bind, gets, modify. simpl.
    rewrite IH. simpl. by rewrite <- app_assoc.
Qed.

Lemma alloc_block_pop b fl x :
  BlockManager.free_list b = fl ++ [x] →
  BlockManager.alloc_block b = (BlockManager.set_free_list fl b, Returned x).
Proof.
  intros Hfl. unfold BlockManager.alloc_block, bind, gets, modify, ret. simpl.
  rewrite Hfl, length_app. simpl.
  destruct (0 <? Z.of_nat (length fl + 1)) eqn:E; [|apply Z.ltb_ge in E; lia].
  by rewrite last_snoc, removelast_last.
Qed.

(** X9: the free list is a stack.  Blocks given back with
    [dealloc_block], one after the other, come out of as many calls of
    [alloc_block] in the opposite order, and the block manager is then as it
    was before they were given back. *)
Theorem dealloc_alloc_lifo b blocks :
  (dealloc_each blocks ;;; alloc_many (length blocks)) b = (b, Returned (rev blocks)).
Proof.
  unfold bind at 1. rewrite dealloc_each_spec.
  set (fl := BlockManager.free_list b).
  assert (H : ∀ blocks b1, BlockManager.free_list b1 = fl ++ blocks →
            alloc_many (length blocks) b1
            = (BlockManager.set_free_list fl b1, Returned (rev blocks))).
  { clear blocks. intros blocks. induction blocks as [|x blocks IH] using rev_ind;
      intros b1 Hb1.
    - rewrite app_nil_r in Hb1. cbn [length alloc_many rev]. unfold ret. f_equal.
      rewrite <- Hb1. symmetry. apply block_manager_eta.
    - rewrite length_app, Nat.add_comm. cbn [length Nat.add alloc_many].
      rewrite app_assoc in Hb1.
      rewrite (bind_returned _ _ _ _ _ (alloc_block_pop b1 _ x Hb1)).
      unfold bind. rewrite (IH (BlockManager.set_free_list (fl ++ blocks) b1)) by done.
      by rewrite rev_app_distr. }
  rewrite (H blocks) by done. f_equal. unfold fl. by destruct b.
Qed.

(** X10: [alloc_block] hands out a block that is not in use.  When the
    free list names each block once and only blocks below
    [largest_block_num], the call returns a block that was not in use, the
    last of the free list or else [largest_block_num]; afterwards that block
    is in use, every other block is in use exactly if it was, and the free
    list is again as required. *)
Theorem alloc_block_fresh b :
  free_list_ok b → 0 ≤ BlockManager.largest_block_num b →
  ∃ b' block,
    BlockManager.alloc_block b = (b', Returned block) ∧
    ¬ in_use b block ∧ in_use b' block ∧
    (last (BlockManager.free_list b) = Some block ∨
     BlockManager.free_list b = [] ∧ block = BlockManager.largest_block_num b) ∧
    (∀ x, x ≠ block → in_use b' x ↔ in_use b x) ∧
    free_list_ok b' ∧
    BlockManager.fp b' = BlockManager.fp b ∧ BlockManager.size b' = BlockManager.size b.
Proof.
  intros [Hnd Hbound] Hlarge. unfold in_use, free_list_ok.
  destruct (BlockManager.free_list b) as [|x fl _] eqn:Hfl using rev_ind.
  - exists (BlockManager.set_largest_block_num (BlockManager.largest_block_num b + 1) b),
      (BlockManager.largest_block_num b).
    split.
    { unfold BlockManager.alloc_block, bind, gets, modify, ret. simpl. by rewrite Hfl. }
    simpl. rewrite Hfl.
    split; [lia|]. split; [split; [lia|apply not_elem_of_nil]|].
    split; [by right|]. split; [|split; [split; [apply NoDup_nil_2|done]|done]].
    intros y Hy. split; intros [Hr Hn]; (split; [lia|apply not_elem_of_nil]).
  - exists (BlockManager.set_free_list fl b), x.
    split; [by apply alloc_block_pop|]. simpl.
    apply NoDup_app in Hnd as (Hndfl & Hdisj & _).
    apply Forall_app in Hbound as [Hbfl Hbx]. apply Forall_inv in Hbx.
    assert (Hx : x ∉ fl).
    { intros Hin. apply (Hdisj x Hin). apply list_elem_of_here. }
    split; [intros [_ Hn]; apply Hn; set_solver|].
    split; [done|]. split; [left; apply last_snoc|].
    split; [|done].
    intros y Hy. split; intros [Hr Hn]; (split; [done|]); set_solver.
Qed.

Lemma alloc_block_fresh_witness :
  ∃ b' block,
    BlockManager.alloc_block (block_manager (truncated_rewritten Ext4Ordered))
      = (b', Returned block) ∧
    ¬ in_use (block_manager (truncated_rewritten Ext4Ordered)) block ∧
    in_use b' block ∧
    (last (BlockManager.free_list (block_manager (truncated_rewritten Ext4Ordered)))
       = Some block ∨
     BlockManager.free_list (block_manager (truncated_rewritten Ext4Ordered)) = [] ∧
     block = BlockManager.largest_block_num
               (block_manager (truncated_rewritten Ext4Ordered))) ∧
    (∀ x, x ≠ block →
          in_use b' x ↔ in_use (block_manager (truncated_rewritten Ext4Ordered)) x) ∧
    free_list_ok b' ∧
    BlockManager.fp b' = BlockManager.fp (block_manager (truncated_rewritten Ext4Ordered)) ∧
    BlockManager.size b'
      = BlockManager.size (block_manager (truncated_rewritten Ext4Ordered)).
Proof.
  apply (alloc_block_fresh (block_manager (truncated_rewritten Ext4Ordered))).
  - decide_by_compute.
  - vm_compute. discriminate.
Defined.

(** ** What [read] returns *)

Lemma lookup_repeat_lt {A} (x : A) (n i : nat) :
  (i < n)%nat → repeat x n !! i = Some x.
Proof.
  revert i. induction n as [|n IH]; intros [|i] Hi; simpl; try lia; [done|].
  apply IH. lia.
Qed.

Lemma page_split o :
  o = o / PAGE_SZ * PAGE_SZ + o mod PAGE_SZ ∧ 0 ≤ o mod PAGE_SZ < PAGE_SZ.
Proof.
  unfold PAGE_SZ. pose proof (Z.div_mod o 4096 ltac:(lia)).
  pose proof (Z.mod_pos_bound o 4096 ltac:(lia)). lia.
Qed.

Lemma page_of_aligned offset j :
  offset mod PAGE_SZ = 0 → 0 ≤ j < PAGE_SZ →
  (offset + j) / PAGE_SZ * PAGE_SZ = offset ∧ (offset + j) mod PAGE_SZ = j.
Proof.
  unfold PAGE_SZ. intros Ha Hj.
  pose proof (Z.div_mod offset 4096 ltac:(lia)) as Hd. rewrite Ha in Hd.
  assert ((offset + j) / 4096 = offset / 4096) as Hq.
  { symmetry. apply (Z.div_unique _ 4096 _ j); lia. }
  split; [rewrite Hq; lia|].
  symmetry. apply (Z.mod_unique _ 4096 (offset / 4096)); lia.
Qed.

(** The bytes of a file when a page object is created for an offset that
    had none, with the content the backing file has for it. *)
Lemma file_byte_new_page w minode m offset P' p :
  file_ok w minode → minode_map w !! minode = Some m →
  PyDict.get offset (MemInode.offset_to_page m) = None →
  offset mod PAGE_SZ = 0 →
  let l := fresh (dom (pages w)) in
  P' !! l = Some p →
  (∀ l', l' ≠ l → P' !! l' = pages w !! l') →
  (∀ j, 0 ≤ j < PAGE_SZ → Page.content p !! Z.to_nat j = disk_byte w m (offset + j)) →
  ∀ o, file_byte
         (set_pages P'
            (set_minode_map
               (alter (λ m, MemInode.set_offset_to_page
                              (PyDict.set offset l (MemInode.offset_to_page m)) m)
                  minode (minode_map w)) w)) minode o
       = file_byte w minode o.
Proof.
  intros ((Hmo & _) & _) Hm Hget Hal l HP Hother Hcontent o.
  rewrite Hm in Hmo. destruct Hmo as [Hp _].
  pose proof (fresh_page_None w) as Hfresh. fold l in Hfresh.
  unfold file_byte, byte_at, page_for. simpl.
  rewrite lookup_alter, decide_True by done. rewrite Hm. simpl.
  destruct (page_split o) as [Ho Hmod].
  destruct (decide (o / PAGE_SZ * PAGE_SZ = offset)) as [Hbase|Hbase].
  - rewrite Hbase, dict_get_set_eq, Hget. simpl. rewrite HP. simpl.
    rewrite (Hcontent (o mod PAGE_SZ) Hmod). f_equal. lia.
  - rewrite dict_get_set_ne by done.
    destruct (PyDict.get (o / PAGE_SZ * PAGE_SZ) (MemInode.offset_to_page m))
      as [l'|] eqn:Hl'; [|done].
    simpl. rewrite Hother; [done|]. intros ->.
    destruct (dict_values_get_Forall _ _ _ _ Hp Hl') as [? ?]. congruence.
Qed.

(** Materializing the page at an aligned offset, with what the file reads
    as. *)
Lemma get_page_for_offset_bytes w minode offset :
  file_ok w minode → offset mod PAGE_SZ = 0 →
  ∃ l w' m' p,
    _get_page_for_offset minode offset w = (w', Returned l) ∧ file_ok w' minode ∧
    minode_map w' !! minode = Some m' ∧
    PyDict.get offset (MemInode.offset_to_page m') = Some l ∧
    pages w' !! l = Some p ∧ Z.of_nat (length (Page.content p)) = PAGE_SZ ∧
    (∀ o, file_byte w' minode o = file_byte w minode o) ∧
    read_frame minode w w'.
Proof.
  intros Hok Hal.
  destruct (get_page_for_offset_spec w minode offset Hok Hal)
    as (l & w' & m' & Hrun & Hok' & Hm' & Hl & Hfr).
  pose proof Hok' as ((Hmo' & Hc' & _) & _). rewrite Hm' in Hmo'. destruct Hmo' as [Hp' _].
  destruct (dict_values_get_Forall _ _ _ _ Hp' Hl) as [p Hpl].
  exists l, w', m', p. do 4 (split; [done|]). split; [done|].
  split; [exact (Hc' _ _ Hpl)|]. split; [|done].
  (* the state, case by case *)
  destruct (file_ok_minode _ _ Hok) as [m Hm].
  revert Hrun. unfold _get_page_for_offset.
  unfold bind at 1. rewrite Hal. simpl.
  unfold bind at 1. unfold get_minode at 1. rewrite Hm.
  destruct (PyDict.get offset (MemInode.offset_to_page m)) as [l0|] eqn:Hget.
  { intros [= <- <-]. done. }
  unfold bind at 1. unfold new_page at 1.
  unfold bind at 1. unfold update_minode at 1. unfold modify at 1.
  set (l1 := fresh (dom (pages w))).
  destruct (PyDict.get offset (MemInode.offset_to_block m)) as [block|] eqn:Hblock.
  - pose proof Hok as ((Hmo & _) & Hb & _). unfold blocks_on_file in Hb.
    rewrite Hm in Hmo, Hb. destruct Hmo as [_ Hbl].
    pose proof (dict_values_get_Forall _ _ _ _ Hbl Hblock) as Hpos.
    pose proof (dict_values_get_Forall _ _ _ _ Hb Hblock) as [Hsz Hfile].
    simpl in Hpos.
    unfold bind at 1. unfold on_block_manager at 1. simpl block_manager.
    unfold BlockManager.bread.
    unfold bind at 1. unfold gets at 1.
    unfold bind at 1.
    assert (E1 : (block * PAGE_SZ <? BlockManager.size (block_manager w)) = true)
      by (apply Z.ltb_lt; lia).
    assert (E2 : (block * PAGE_SZ <? 0) = false) by (apply Z.ltb_ge; unfold PAGE_SZ; lia).
    rewrite E1. simpl. rewrite E2. simpl.
    unfold update_page, modify, bind, ret. simpl.
    intros [= <- <-].
    apply (file_byte_new_page w minode m offset _
             (Page.set_content
                (BlockManager.pread (BlockManager.fp (block_manager w)) PAGE_SZ
                   (block * PAGE_SZ)) (Page.init (MemInode.inode m) offset))); try done.
    + fold l1. rewrite lookup_alter, decide_True by done. by rewrite lookup_insert_eq.
    + fold l1. intros l' Hne. rewrite lookup_alter, decide_False by done.
      by rewrite lookup_insert_ne.
    + intros j Hj. simpl. unfold disk_byte.
      destruct (page_of_aligned offset j Hal Hj) as [-> ->]. rewrite Hblock.
      unfold BlockManager.pread. rewrite lookup_take_lt by (unfold PAGE_SZ in *; lia).
      rewrite lookup_drop. f_equal. unfold PAGE_SZ in *. lia.
  - intros [= <- <-].
    apply (file_byte_new_page w minode m offset
             (<[l1 := Page.init (MemInode.inode m) offset]> (pages w))
             (Page.init (MemInode.inode m) offset)); try done.
    + fold l1. apply lookup_insert_eq.
    + fold l1. intros l' Hne. by rewrite lookup_insert_ne.
    + intros j Hj. simpl. unfold disk_byte.
      destruct (page_of_aligned offset j Hal Hj) as [-> _]. rewrite Hblock.
      unfold zeros. apply lookup_repeat_lt. unfold PAGE_SZ in *. lia.
Qed.

(** The loop of [read], for any state fit for the data path. *)
Lemma read_loop_general minode : ∀ fuel buf remaining cur w,
  file_ok w minode → 0 ≤ remaining → (Z.to_nat remaining ≤ fuel)%nat →
  ∃ w' out,
    read_loop fuel minode (buf, remaining, cur) w
      = (w', Returned (buf ++ out, 0, cur + remaining)) ∧
    Z.of_nat (length out) = remaining ∧
    (∀ k : nat, (k < length out)%nat →
                out !! k = file_byte w minode (cur + Z.of_nat k)) ∧
    (∀ o, file_byte w' minode o = file_byte w minode o) ∧
    file_ok w' minode ∧ read_frame minode w w'.
Proof.
  assert (Hstop : ∀ fuel buf cur w, file_ok w minode →
    ∃ w' out,
      read_loop fuel minode (buf, 0, cur) w = (w', Returned (buf ++ out, 0, cur + 0)) ∧
      Z.of_nat (length out) = 0 ∧
      (∀ k : nat, (k < length out)%nat →
                  out !! k = file_byte w minode (cur + Z.of_nat k)) ∧
      (∀ o, file_byte w' minode o = file_byte w minode o) ∧
      file_ok w' minode ∧ read_frame minode w w').
  { intros fuel buf cur w Hok. exists w, []. rewrite app_nil_r, Z.add_0_r.
    split; [by destruct fuel|]. split; [done|]. split; [simpl; lia|].
    split; [done|]. split; [done|apply read_frame_refl]. }
  induction fuel as [|fuel IH]; intros buf remaining cur w Hok Hrem Hfuel.
  { assert (remaining = 0) as -> by lia. by apply Hstop. }
  destruct (decide (remaining = 0)) as [->|Hpos]; [by apply Hstop|].
  assert (E : (remaining >? 0) = true) by (apply Z.gtb_lt; lia).
  cbn [read_loop]. rewrite E. cbn [negb].
  destruct (page_split cur) as [Hcur Hstart].
  set (base := cur / PAGE_SZ * PAGE_SZ) in *.
  set (start := cur mod PAGE_SZ) in *.
  set (n := Z.min remaining (PAGE_SZ - start)).
  assert (Hn : 0 < n ≤ remaining ∧ n ≤ PAGE_SZ - start) by lia.
  destruct (get_page_for_offset_bytes w minode base Hok (page_aligned cur))
    as (l & wa & ma & p & Hrun & Hoka & Hma & Hl & Hp & Hplen & Hbytes & Hfr).
  rewrite (bind_returned _ _ _ _ _ Hrun).
  unfold bind at 1. unfold get_page at 1. rewrite Hp.
  set (data := slice (Page.content p) start (start + n)).
  assert (Hdlen : Z.of_nat (length data) = n).
  { unfold data. rewrite slice_length by lia. lia. }
  rewrite Hdlen.
  assert (En : (n =? 0) = false) by (apply Z.eqb_neq; lia). rewrite En.
  destruct (IH (buf ++ data) (remaining - n) (cur + n) wa Hoka)
    as (w' & out & Hrun' & Hlen' & Hout' & Hbytes' & Hok' & Hfr'); [lia|lia|].
  exists w', (data ++ out).
  rewrite <- app_assoc in Hrun'.
  replace (cur + n + (remaining - n)) with (cur + remaining) in Hrun' by lia.
  split; [exact Hrun'|]. split; [rewrite length_app; lia|].
  split; [|split; [intros o; by rewrite Hbytes', Hbytes|]].
  - intros k Hk. rewrite <- Hbytes.
    destruct (decide (Z.of_nat k < n)) as [Hlt|Hge].
    + rewrite lookup_app_l by lia. unfold data. rewrite slice_lookup by lia.
      destruct (same_page cur (cur + Z.of_nat k) n ltac:(lia) ltac:(lia)) as [Hb Hm].
      fold base start in Hb, Hm.
      unfold file_byte, byte_at, page_for. rewrite Hma. simpl. rewrite Hb, Hl. simpl.
      rewrite Hp. simpl. f_equal. lia.
    + rewrite lookup_app_r by lia.
      rewrite length_app in Hk. rewrite Hout' by lia. f_equal. lia.
  - split; [done|]. by eapply read_frame_trans.
Qed.

(** X11: what [read] returns.  For a descriptor of a cached file in a
    state fit for the data path, [read(path, size, offset, fi)] returns; the
    number of bytes is [size] cut at the end of the file (none for an offset
    at or past the end, or a [size] that is not positive); byte [k] of the
    result is the byte of the page-cache page at [offset + k], and where that
    page is not in the cache the byte of the block mapped for it in the
    backing file, and zero where no block is mapped; and the file reads the
    same after the call. *)
Theorem read_returns_file_bytes w path size offset fd info :
  fd_info_map w !! fd = Some info → file_ok w (fd_inode info) →
  ∃ w' out m,
    read path size offset fd w = (w', Returned out) ∧
    minode_map w !! fd_inode info = Some m ∧
    Z.of_nat (length out) = Z.max 0 (Z.min size (MemInode.size m - offset)) ∧
    (∀ k : nat, (k < length out)%nat →
                out !! k = file_byte w (fd_inode info) (offset + Z.of_nat k)) ∧
    (∀ o, file_byte w' (fd_inode info) o = file_byte w (fd_inode info) o) ∧
    file_ok w' (fd_inode info).
Proof.
  intros Hfd Hok. destruct (file_ok_minode _ _ Hok) as [m Hm].
  unfold read. unfold bind at 1. unfold gets at 1. rewrite Hfd.
  rewrite (bind_returned _ _ _ _ _ (page_cache_contains_spec w _)).
  rewrite Hm, bool_decide_eq_true_2 by eauto. cbn [negb when].
  unfold bind at 1. unfold ret at 1.
  assert (Hnone : Z.max 0 (Z.min size (MemInode.size m - offset)) = 0 →
    ∃ w' out m0,
      (w, Returned [] : outcome bytes) = (w', Returned out) ∧
      Some m = Some m0 ∧
      Z.of_nat (length out) = Z.max 0 (Z.min size (MemInode.size m0 - offset)) ∧
      (∀ k : nat, (k < length out)%nat →
                  out !! k = file_byte w (fd_inode info) (offset + Z.of_nat k)) ∧
      (∀ o, file_byte w' (fd_inode info) o = file_byte w (fd_inode info) o) ∧
      file_ok w' (fd_inode info)).
  { intros H0. exists w, [], m. rewrite H0. split; [done|]. split; [done|].
    split; [done|]. split; [simpl; lia|done]. }
  destruct (size =? 0) eqn:E0.
  { apply Z.eqb_eq in E0. apply Hnone. lia. }
  apply Z.eqb_neq in E0.
  unfold bind at 1. unfold get_minode at 1. rewrite Hm.
  destruct (offset >=? MemInode.size m) eqn:E1.
  { rewrite Z.geb_leb in E1. apply Z.leb_le in E1. apply Hnone. lia. }
  rewrite Z.geb_leb in E1. apply Z.leb_gt in E1.
  set (size' := if offset + size >=? MemInode.size m
                then MemInode.size m - offset else size).
  assert (Hsize' : size' = Z.min size (MemInode.size m - offset)).
  { unfold size'. destruct (offset + size >=? MemInode.size m) eqn:E2;
      rewrite Z.geb_leb in E2; [apply Z.leb_le in E2|apply Z.leb_gt in E2]; lia. }
  destruct (decide (0 ≤ size')) as [Hpos|Hneg].
  - destruct (read_loop_general (fd_inode info) (read_loop_fuel size') [] size' offset w Hok)
      as (w' & out & Hrun & Hlen & Hout & Hbytes & Hok' & _);
      [done|unfold read_loop_fuel; lia|].
    unfold bind. rewrite Hrun. exists w', out, m.
    split; [done|]. split; [done|]. split; [lia|done].
  - assert (Hrun : read_loop (read_loop_fuel size') (fd_inode info) ([], size', offset) w
                   = (w, Returned ([], size', offset))).
    { assert (E : (size' >? 0) = false) by (rewrite Z.gtb_ltb; apply Z.ltb_ge; lia).
      destruct (read_loop_fuel size'); simpl; by rewrite E. }
    unfold bind. rewrite Hrun. apply Hnone. lia.
Qed.

Lemma read_returns_file_bytes_witness :
  ∃ w' out m,
    read "/f" 12288 0 4 (state_after (fsync "/f" 0 4) (overwritten Btrfs))
      = (w', Returned out) ∧
    minode_map (state_after (fsync "/f" 0 4) (overwritten Btrfs))
      !! fd_inode {| fd_inode := 7; fd_path := "/root/f" |} = Some m ∧
    Z.of_nat (length out) = Z.max 0 (Z.min 12288 (MemInode.size m - 0)) ∧
    (∀ k : nat, (k < length out)%nat →
                out !! k = file_byte (state_after (fsync "/f" 0 4) (overwritten Btrfs))
                             (fd_inode {| fd_inode := 7; fd_path := "/root/f" |})
                             (0 + Z.of_nat k)) ∧
    (∀ o, file_byte w' (fd_inode {| fd_inode := 7; fd_path := "/root/f" |}) o
          = file_byte (state_after (fsync "/f" 0 4) (overwritten Btrfs))
              (fd_inode {| fd_inode := 7; fd_path := "/root/f" |}) o) ∧
    file_ok w' (fd_inode {| fd_inode := 7; fd_path := "/root/f" |}).
Proof.
  apply (read_returns_file_bytes (state_after (fsync "/f" 0 4) (overwritten Btrfs))
           "/f" 12288 0 4 {| fd_inode := 7; fd_path := "/root/f" |}).
  - vm_compute; reflexivity.
  - decide_by_compute.
Defined.

(** ** What [write] changes *)

Lemma memory_only_refl minode w : memory_only minode w w.
Proof.
  do 9 (split; [done|]). destruct (minode_map w !! minode); by constructor.
Qed.

Lemma memory_only_trans minode w1 w2 w3 :
  memory_only minode w1 w2 → memory_only minode w2 w3 → memory_only minode w1 w3.
Proof.
  intros (A1&A2&A3&A4&A5&A6&A7&A8&A9&A10) (B1&B2&B3&B4&B5&B6&B7&B8&B9&B10).
  do 8 (split; [congruence|]). split.
  - intros i Hi. by rewrite B9, A9.
  - destruct A10 as [m1 m2 (?&?&?&?&?)|]; inversion B10 as [? m3 (?&?&?&?&?) Heq1 Heq2|];
      simplify_eq; constructor. repeat split; congruence.
Qed.

Lemma read_frame_memory_only minode w w' :
  is_Some (minode_map w !! minode) → read_frame minode w w' → memory_only minode w w'.
Proof.
  intros [m Hm] Hfr.
  split; [apply Hfr|]. split; [apply Hfr|]. split; [apply Hfr|]. split; [apply Hfr|].
  split; [apply Hfr|]. split; [apply Hfr|]. split; [apply Hfr|]. split; [apply Hfr|].
  split; [apply Hfr|].
  destruct (rf_minode _ _ _ Hfr m Hm) as (m' & Hm' & H1 & H2 & H3 & H4 & H5 & _).
  rewrite Hm, Hm'. by constructor.
Qed.

Lemma set_pages_memory_only minode w P' : memory_only minode w (set_pages P' w).
Proof.
  do 9 (split; [done|]). simpl. destruct (minode_map w !! minode); by constructor.
Qed.

Lemma update_minode_memory_only minode w (f : MemInode.t → MemInode.t) :
  (∀ m, MemInode.inode (f m) = MemInode.inode m ∧ MemInode.path (f m) = MemInode.path m ∧
        MemInode.realpath (f m) = MemInode.realpath m ∧
        MemInode.offset_to_block (f m) = MemInode.offset_to_block m ∧
        MemInode.atime (f m) = MemInode.atime m) →
  memory_only minode w (set_minode_map (alter f minode (minode_map w)) w).
Proof.
  intros Hf. do 8 (split; [done|]). split; simpl.
  - intros i Hi. by rewrite lookup_alter, decide_False.
  - rewrite lookup_alter, decide_True by done.
    destruct (minode_map w !! minode); constructor. apply Hf.
Qed.

(** A page of the file is written: the bytes of the file. *)
Lemma write_page_bytes w minode m base l start v (F : Page.t → Page.t) :
  file_ok w minode → minode_map w !! minode = Some m →
  PyDict.get base (MemInode.offset_to_page m) = Some l →
  0 ≤ start → start + Z.of_nat (length v) ≤ PAGE_SZ →
  (∀ p, Page.content (F p)
        = slice_assign (Page.content p) start (start + Z.of_nat (length v)) v) →
  let w' := set_pages (alter F l (pages w)) w in
  file_ok w' minode ∧
  (∀ o, o / PAGE_SZ * PAGE_SZ = base →
        start ≤ o mod PAGE_SZ < start + Z.of_nat (length v) →
        file_byte w' minode o = v !! Z.to_nat (o mod PAGE_SZ - start)) ∧
  (∀ o, ¬ (o / PAGE_SZ * PAGE_SZ = base ∧
           start ≤ o mod PAGE_SZ < start + Z.of_nat (length v)) →
        file_byte w' minode o = file_byte w minode o).
Proof.
  intros Hok Hm Hl Hs Hlen HF w'.
  destruct (write_page_spec w minode m base l start v F Hok Hm Hl Hs Hlen HF)
    as (Hok' & _ & Hin & Hout). fold w' in Hok', Hin, Hout.
  split; [done|]. split.
  - intros o Hb Hr. unfold file_byte. subst w'. simpl. rewrite Hm, Hb, Hl.
    by apply Hin.
  - intros o Ho. unfold file_byte. subst w'. simpl. rewrite Hm.
    destruct (PyDict.get (o / PAGE_SZ * PAGE_SZ) (MemInode.offset_to_page m)); [|done].
    by apply Hout.
Qed.

(** The loop of [write], for any state fit for the data path. *)
Lemma write_loop_general minode data : ∀ fuel dirty idx remaining cur w,
  file_ok w minode → 0 ≤ idx → 0 ≤ remaining →
  idx + remaining ≤ Z.of_nat (length data) → (Z.to_nat remaining ≤ fuel)%nat →
  ∃ w' dp,
    write_loop fuel minode data (dirty, idx, remaining, cur) w
      = (w', Returned (dp, idx + remaining, 0, cur + remaining)) ∧
    file_ok w' minode ∧ write_frame minode w w' ∧ memory_only minode w w' ∧
    (∀ k, 0 ≤ k < remaining →
          file_byte w' minode (cur + k) = data !! Z.to_nat (idx + k)) ∧
    (∀ o, ¬ (cur ≤ o < cur + remaining) →
          file_byte w' minode o = file_byte w minode o) ∧
    MemInode.mtime <$> minode_map w' !! minode = MemInode.mtime <$> minode_map w !! minode.
Proof.
  assert (Hstop : ∀ fuel dirty idx cur w, file_ok w minode →
    ∃ w' dp,
      write_loop fuel minode data (dirty, idx, 0, cur) w
        = (w', Returned (dp, idx + 0, 0, cur + 0)) ∧
      file_ok w' minode ∧ write_frame minode w w' ∧ memory_only minode w w' ∧
      (∀ k, 0 ≤ k < 0 →
            file_byte w' minode (cur + k) = data !! Z.to_nat (idx + k)) ∧
      (∀ o, ¬ (cur ≤ o < cur + 0) → file_byte w' minode o = file_byte w minode o) ∧
      MemInode.mtime <$> minode_map w' !! minode
        = MemInode.mtime <$> minode_map w !! minode).
  { intros fuel dirty idx cur w Hok. exists w, dirty. rewrite !Z.add_0_r.
    split; [by destruct fuel|]. split; [done|]. split; [done|].
    split; [apply memory_only_refl|]. split; [lia|done]. }
  induction fuel as [|fuel IH]; intros dirty idx remaining cur w Hok Hidx Hrem Hlen Hfuel.
  { assert (remaining = 0) as -> by lia. by apply Hstop. }
  destruct (decide (remaining = 0)) as [->|Hpos]; [by apply Hstop|].
  assert (E : (remaining >? 0) = true) by (apply Z.gtb_lt; lia).
  cbn [write_loop]. rewrite E. cbn [negb].
  destruct (page_split cur) as [Hcur Hstart].
  set (base := cur / PAGE_SZ * PAGE_SZ) in *.
  set (start := cur mod PAGE_SZ) in *.
  set (n := Z.min remaining (PAGE_SZ - start)).
  assert (Hn : 0 < n ≤ remaining ∧ n ≤ PAGE_SZ - start) by lia.
  set (v := slice data idx (idx + n)).
  assert (Hv : Z.of_nat (length v) = n).
  { unfold v. rewrite slice_length by lia. lia. }
  destruct (get_page_for_offset_bytes w minode base Hok (page_aligned cur))
    as (l & wa & ma & p & Hrun & Hoka & Hma & Hl & _ & _ & Hbytes & Hfr).
  rewrite (bind_returned _ _ _ _ _ Hrun).
  set (G := λ p : Page.t, Page.set_content
              (slice_assign (Page.content p) start (start + n) v) p).
  set (F := Page.set_flag_dirty true ∘ G).
  set (wc := set_pages (alter F l (pages wa)) wa).
  assert (Hupd : ∀ {A} (k : M World A),
    (update_page l G ;;; update_page l (Page.set_flag_dirty true) ;;; k) wa = k wc).
  { intros A k. unfold update_page, modify, bind. simpl.
    unfold wc, F. by rewrite alter_alter_eq. }
  rewrite Hupd.
  destruct (write_page_spec wa minode ma base l start v F Hoka Hma Hl) as
    (_ & Hwfc & _); [lia|lia|by intros p0; rewrite Hv|]. fold wc in Hwfc.
  destruct (write_page_bytes wa minode ma base l start v F Hoka Hma Hl) as
    (Hokc & Hin & Hout); [lia|lia|by intros p0; rewrite Hv|]. fold wc in Hokc, Hin, Hout.
  rewrite Hv in Hin, Hout.
  destruct (IH (dirty ++ [l]) (idx + n) (remaining - n) (cur + n) wc Hokc)
    as (w' & dp & Hrun' & Hok' & Hwf' & Hmo' & Hin' & Hout' & Hmt'); [lia|lia|lia|lia|].
  exists w', dp.
  replace (idx + n + (remaining - n)) with (idx + remaining) in Hrun' by lia.
  replace (cur + n + (remaining - n)) with (cur + remaining) in * by lia.
  assert (Hsome : is_Some (minode_map w !! minode))
    by (by destruct (file_ok_minode _ _ Hok) as [? ->]).
  split; [exact Hrun'|]. split; [done|]. split.
  { eapply write_frame_trans; [|exact Hwf'].
    eapply write_frame_trans; [|exact Hwfc].
    by apply read_frame_write_frame. }
  split.
  { eapply memory_only_trans; [|exact Hmo'].
    eapply memory_only_trans; [by apply read_frame_memory_only|].
    apply set_pages_memory_only. }
  split; [|split].
  - intros k Hk. destruct (decide (k < n)) as [Hlt|Hge].
    + destruct (same_page cur (cur + k) n ltac:(lia) ltac:(lia)) as [Hb Hmodk].
      fold base start in Hb, Hmodk.
      rewrite Hout' by lia. rewrite (Hin _ Hb) by lia. unfold v.
      rewrite slice_lookup by lia. f_equal. lia.
    + specialize (Hin' (k - n) ltac:(lia)).
      replace (cur + n + (k - n)) with (cur + k) in Hin' by lia.
      replace (idx + n + (k - n)) with (idx + k) in Hin' by lia. done.
  - intros o Ho. rewrite Hout' by lia. rewrite Hout; [apply Hbytes|].
    intros [Hbase Hrange]. destruct (page_split o) as [Ho' _]. unfold base in Hbase. lia.
  - rewrite Hmt'. unfold wc. simpl. destruct Hsome as [m Hm].
    destruct (rf_minode _ _ _ Hfr m Hm) as (m' & Hm' & _ & _ & _ & _ & _ & Hmt & _).
    rewrite Hm, Hm'. simpl. by rewrite Hmt.
Qed.

Lemma update_minode_file_byte w minode (f : MemInode.t → MemInode.t) :
  (∀ m, MemInode.offset_to_page (f m) = MemInode.offset_to_page m ∧
        MemInode.offset_to_block (f m) = MemInode.offset_to_block m) →
  ∀ o, file_byte (set_minode_map (alter f minode (minode_map w)) w) minode o
       = file_byte w minode o.
Proof.
  intros Hf o. destruct (update_minode_data w minode f Hf) as [_ Hb].
  unfold file_byte. rewrite Hb. simpl.
  rewrite lookup_alter, decide_True by done.
  destruct (minode_map w !! minode) as [m|]; [|done]. simpl.
  destruct (Hf m) as [-> Hbk]. unfold disk_byte. by rewrite Hbk.
Qed.

(** X12: what [write] changes.  Through a descriptor without [O_SYNC] of
    a cached file, in a state fit for the data path, [write] returns the
    number of bytes of [data]; afterwards the file reads [data] at
    [offset], and every other byte of it reads as before, in cached pages and
    in pages that are only in the backing file; for at least one byte
    written the size is the larger of the old size and the end of the write
    and [mtime] is the time of the call, while [atime] stays; and the call
    stays in memory: the backing file, the block map, the metadata records,
    the fd tables and the other inodes are untouched.  A write of no bytes
    changes nothing at all. *)
Theorem write_changes_only_its_range w path data offset fd now info :
  fd_info_map w !! fd = Some info → file_ok w (fd_inode info) → fd ∉ sync_fds w →
  ∃ w' m m',
    write path data offset fd now w = (w', Returned (Z.of_nat (length data))) ∧
    minode_map w !! fd_inode info = Some m ∧ minode_map w' !! fd_inode info = Some m' ∧
    (∀ k, 0 ≤ k < Z.of_nat (length data) →
          file_byte w' (fd_inode info) (offset + k) = data !! Z.to_nat k) ∧
    (∀ o, ¬ (offset ≤ o < offset + Z.of_nat (length data)) →
          file_byte w' (fd_inode info) o = file_byte w (fd_inode info) o) ∧
    (data = [] → w' = w) ∧
    (data ≠ [] →
     MemInode.size m' = Z.max (MemInode.size m) (offset + Z.of_nat (length data)) ∧
     MemInode.mtime m' = now ∧ MemInode.atime m' = MemInode.atime m) ∧
    memory_only (fd_inode info) w w' ∧ file_ok w' (fd_inode info).
Proof.
  intros Hfd Hok Hsync. destruct (file_ok_minode _ _ Hok) as [m Hm].
  set (i := fd_inode info) in *.
  unfold write. unfold bind at 1. unfold gets at 1. rewrite Hfd.
  rewrite (bind_returned _ _ _ _ _ (page_cache_contains_spec w _)).
  fold i. rewrite Hm, bool_decide_eq_true_2 by eauto. cbn [negb when].
  unfold bind at 1. unfold ret at 1.
  destruct (Z.of_nat (length data) =? 0) eqn:E.
  { apply Z.eqb_eq in E. assert (data = []) as -> by (destruct data; [done|simpl in E; lia]).
    exists w, m, m. split; [done|]. split; [done|]. split; [done|].
    split; [simpl; lia|]. split; [done|]. split; [done|]. split; [done|].
    split; [apply memory_only_refl|done]. }
  apply Z.eqb_neq in E.
  unfold bind at 1. unfold gets at 1.
  rewrite bool_decide_eq_false_2 by done.
  destruct (write_loop_general i data (write_loop_fuel (Z.of_nat (length data))) [] 0
              (Z.of_nat (length data)) offset w Hok)
    as (w1 & dp & Hrun & Hok1 & (_ & _ & _ & Hsz1) & Hmo1 & Hin & Hout & _);
    [lia|lia|lia|unfold write_loop_fuel; lia|].
  rewrite Z.add_0_l in Hrun.
  rewrite (bind_returned _ _ _ _ _ Hrun). cbn beta iota.
  destruct (file_ok_minode _ _ Hok1) as [m1 Hm1].
  unfold bind at 1. unfold get_minode at 1. rewrite Hm1.
  rewrite Z.sub_0_r.
  rewrite Hm, Hm1 in Hsz1. simpl in Hsz1. injection Hsz1 as Hsz1.
  pose proof Hmo1 as (_&_&_&_&_&_&_&_&_&Hm10). rewrite Hm, Hm1 in Hm10.
  inversion Hm10 as [? ? (Hino1 & Hpath1 & Hrp1 & Hotb1 & Hat1)|]; subst.
  set (total := offset + Z.of_nat (length data)).
  set (f := λ m0 : MemInode.t,
              MemInode.set_mtime now
                (if total >? MemInode.size m1 then MemInode.set_size total m0 else m0)).
  set (w3 := set_minode_map (alter f i (minode_map w1)) w1).
  assert (Hupd : ∀ {A} (k : M World A),
    (when (total >? MemInode.size m1)
       (update_minode i (MemInode.set_size total)) ;;;
     update_minode i (MemInode.set_mtime now) ;;; k) w1 = k w3).
  { intros A k. unfold w3, f.
    destruct (total >? MemInode.size m1);
      unfold when, update_minode, modify, bind, ret; simpl; [|done].
    by rewrite alter_alter_eq. }
  rewrite Hupd.
  assert (Hf : ∀ m0, MemInode.offset_to_page (f m0) = MemInode.offset_to_page m0 ∧
                     MemInode.offset_to_block (f m0) = MemInode.offset_to_block m0).
  { intros m0. unfold f. by destruct (total >? MemInode.size m1). }
  destruct (update_minode_data w1 i f Hf) as [Hok3 _].
  pose proof (update_minode_file_byte w1 i f Hf) as Hb3. fold w3 in Hok3, Hb3.
  exists w3, m, (f m1). split; [done|]. split; [done|]. split.
  { unfold w3. simpl. by rewrite lookup_alter, decide_True, Hm1. }
  split; [intros k Hk; rewrite Hb3, (Hin k Hk); f_equal|].
  split; [intros o Ho; rewrite Hb3; by apply Hout|].
  split; [intros ->; done|]. split.
  { intros _. unfold f. destruct (total >? MemInode.size m1) eqn:E'; simpl.
    - split; [lia|done].
    - rewrite Z.gtb_ltb in E'. apply Z.ltb_ge in E'. split; [lia|done]. }
  split; [|auto].
  eapply memory_only_trans; [exact Hmo1|]. apply update_minode_memory_only.
  intros m0. unfold f. by destruct (total >? MemInode.size m1).
Qed.

Lemma write_changes_only_its_range_witness :
  ∃ w' m m',
    write "/f" ["x"; "y"; "z"]%byte 5000 4 105
      (state_after (fsync "/f" 0 4) (overwritten Btrfs))
      = (w', Returned (Z.of_nat (length ["x"; "y"; "z"]%byte))) ∧
    minode_map (state_after (fsync "/f" 0 4) (overwritten Btrfs))
      !! fd_inode {| fd_inode := 7; fd_path := "/root/f" |} = Some m ∧
    minode_map w' !! fd_inode {| fd_inode := 7; fd_path := "/root/f" |} = Some m' ∧
    (∀ k, 0 ≤ k < Z.of_nat (length ["x"; "y"; "z"]%byte) →
          file_byte w' (fd_inode {| fd_inode := 7; fd_path := "/root/f" |}) (5000 + k)
          = ["x"; "y"; "z"]%byte !! Z.to_nat k) ∧
    (∀ o, ¬ (5000 ≤ o < 5000 + Z.of_nat (length ["x"; "y"; "z"]%byte)) →
          file_byte w' (fd_inode {| fd_inode := 7; fd_path := "/root/f" |}) o
          = file_byte (state_after (fsync "/f" 0 4) (overwritten Btrfs))
              (fd_inode {| fd_inode := 7; fd_path := "/root/f" |}) o) ∧
    (["x"; "y"; "z"]%byte = [] → w' = state_after (fsync "/f" 0 4) (overwritten Btrfs)) ∧
    (["x"; "y"; "z"]%byte ≠ [] →
     MemInode.size m'
       = Z.max (MemInode.size m) (5000 + Z.of_nat (length ["x"; "y"; "z"]%byte)) ∧
     MemInode.mtime m' = 105 ∧ MemInode.atime m' = MemInode.atime m) ∧
    memory_only (fd_inode {| fd_inode := 7; fd_path := "/root/f" |})
      (state_after (fsync "/f" 0 4) (overwritten Btrfs)) w' ∧
    file_ok w' (fd_inode {| fd_inode := 7; fd_path := "/root/f" |}).
Proof.
  apply (write_changes_only_its_range (state_after (fsync "/f" 0 4) (overwritten Btrfs))
           "/f" ["x"; "y"; "z"]%byte 5000 4 105 {| fd_inode := 7; fd_path := "/root/f" |}).
  - vm_compute; reflexivity.
  - decide_by_compute.
  - decide_by_compute.
Defined.

(** ** [truncate] *)

Lemma slice_zeros total idx n :
  0 ≤ idx → 0 ≤ n → idx + n ≤ total → slice (zeros total) idx (idx + n) = zeros n.
Proof.
  intros Hi Hn Ht. apply list_eq. intros j. unfold slice, zeros.
  destruct (decide (j < Z.to_nat n)%nat) as [Hj|Hj].
  - rewrite lookup_take_lt by lia. rewrite lookup_drop.
    rewrite !lookup_repeat_lt by lia. done.
  - rewrite lookup_take_ge by lia. symmetry. apply lookup_ge_None.
    rewrite repeat_length. lia.
Qed.

(** The loop that fills a file up with zero bytes does what the loop of
    [write] does with a buffer of zero bytes. *)
Lemma truncate_fill_as_write minode total : ∀ fuel dirty idx remaining cur w w' r,
  0 ≤ idx → idx + remaining ≤ total →
  write_loop fuel minode (zeros total) (dirty, idx, remaining, cur) w = (w', Returned r) →
  truncate_fill_loop fuel minode (cur, remaining) w = (w', Returned (r.2, r.1.2)).
Proof.
  induction fuel as [|fuel IH]; intros dirty idx remaining cur w w' r Hidx Htot.
  { simpl. destruct (negb (remaining >? 0)); [|done]. by intros [= <- <-]. }
  cbn [write_loop truncate_fill_loop].
  destruct (remaining >? 0) eqn:E; cbn [negb]; [|by intros [= <- <-]].
  apply Z.gtb_lt in E.
  unfold bind at 1 4.
  destruct (_get_page_for_offset minode (cur / PAGE_SZ * PAGE_SZ) w) as [wa [l| | | |]];
    try done.
  pose proof (Z.mod_pos_bound cur PAGE_SZ ltac:(unfold PAGE_SZ; lia)) as Hstart.
  set (n := Z.min remaining (PAGE_SZ - cur mod PAGE_SZ)).
  rewrite slice_zeros by lia.
  unfold bind, update_page, modify. cbv beta.
  apply IH; lia.
Qed.

(** X13: [truncate] to a larger length.  For a cached file in a state fit
    for the data path, the call returns [length] and the size becomes
    [length]; the bytes from the old size up to [length] read as zero, and
    every other byte of the file reads as before; nothing leaves memory, and
    [mtime] and [atime] are not touched. *)
Theorem truncate_grows_with_zeros w path length p f m :
  realpath path w = (w, Returned p) → host w !! p = Some f →
  file_ok w (Host.st_ino f) → minode_map w !! Host.st_ino f = Some m →
  0 ≤ MemInode.size m < length →
  ∃ w' m',
    truncate path length w = (w', Returned length) ∧
    minode_map w' !! Host.st_ino f = Some m' ∧ MemInode.size m' = length ∧
    MemInode.mtime m' = MemInode.mtime m ∧
    (∀ o, MemInode.size m ≤ o < length → file_byte w' (Host.st_ino f) o = Some x00) ∧
    (∀ o, ¬ (MemInode.size m ≤ o < length) →
          file_byte w' (Host.st_ino f) o = file_byte w (Host.st_ino f) o) ∧
    memory_only (Host.st_ino f) w w' ∧ file_ok w' (Host.st_ino f).
Proof.
  intros Hp Hf Hok Hm Hlen. set (i := Host.st_ino f) in *.
  unfold truncate. rewrite (bind_returned _ _ _ _ _ Hp).
  unfold bind at 1. unfold stat_ino at 1. rewrite Hf. fold i.
  rewrite (bind_returned _ _ _ _ _ (page_cache_contains_spec w _)).
  rewrite Hm, bool_decide_eq_true_2 by eauto. cbn [negb when].
  unfold bind at 1. unfold ret at 1.
  unfold bind at 1. unfold get_minode at 1. rewrite Hm.
  assert (E1 : (length =? MemInode.size m) = false) by (apply Z.eqb_neq; lia).
  rewrite E1.
  assert (E0 : (length =? 0) = false) by (apply Z.eqb_neq; lia).
  assert (E2 : (length <? MemInode.size m) = false) by (apply Z.ltb_ge; lia).
  rewrite E0, E2.
  set (rem := length - MemInode.size m).
  destruct (write_loop_general i (zeros rem) (Z.to_nat rem) [] 0 rem (MemInode.size m) w Hok)
    as (w1 & dp & Hrun & Hok1 & (_ & _ & _ & Hsz1) & Hmo1 & Hin & Hout & Hmt1);
    [lia|lia|unfold zeros; rewrite repeat_length; lia|lia|].
  apply (truncate_fill_as_write i rem) in Hrun; [|lia|lia]. cbn [fst snd] in Hrun.
  unfold bind at 1. rewrite Hrun. cbn beta iota.
  destruct (file_ok_minode _ _ Hok1) as [m1 Hm1].
  rewrite Hm, Hm1 in Hsz1. simpl in Hsz1. injection Hsz1 as Hsz1.
  unfold update_minode, modify, bind, ret.
  set (w2 := set_minode_map _ w1).
  assert (Hf2 : ∀ m0, MemInode.offset_to_page (MemInode.set_size length m0)
                        = MemInode.offset_to_page m0 ∧
                      MemInode.offset_to_block (MemInode.set_size length m0)
                        = MemInode.offset_to_block m0) by done.
  destruct (update_minode_data w1 i (MemInode.set_size length) Hf2) as [Hok2 _].
  pose proof (update_minode_file_byte w1 i (MemInode.set_size length) Hf2) as Hb2.
  fold w2 in Hok2, Hb2.
  exists w2, (MemInode.set_size length m1).
  split; [done|]. split.
  { unfold w2. simpl. by rewrite lookup_alter, decide_True, Hm1. }
  split; [done|]. split.
  { simpl. rewrite Hm, Hm1 in Hmt1. simpl in Hmt1. by injection Hmt1. }
  split.
  { intros o Ho. rewrite Hb2. specialize (Hin (o - MemInode.size m) ltac:(lia)).
    replace (MemInode.size m + (o - MemInode.size m)) with o in Hin by lia.
    rewrite Hin. unfold zeros. apply lookup_repeat_lt. lia. }
  split.
  { intros o Ho. rewrite Hb2. apply Hout. lia. }
  split; [|auto].
  eapply memory_only_trans; [exact Hmo1|]. by apply update_minode_memory_only.
Qed.

Lemma truncate_grows_with_zeros_witness :
  ∃ f m,
    realpath "/f" (three_pages Ext4Ordered) = (three_pages Ext4Ordered, Returned "/root/f"%string) ∧
    host (three_pages Ext4Ordered) !! "/root/f"%string = Some f ∧
    minode_map (three_pages Ext4Ordered) !! Host.st_ino f = Some m ∧
    ∃ w' m',
      truncate "/f" 20000 (three_pages Ext4Ordered) = (w', Returned 20000) ∧
      minode_map w' !! Host.st_ino f = Some m' ∧ MemInode.size m' = 20000 ∧
      MemInode.mtime m' = MemInode.mtime m ∧
      (∀ o, MemInode.size m ≤ o < 20000 → file_byte w' (Host.st_ino f) o = Some x00) ∧
      (∀ o, ¬ (MemInode.size m ≤ o < 20000) →
            file_byte w' (Host.st_ino f) o
            = file_byte (three_pages Ext4Ordered) (Host.st_ino f) o) ∧
      memory_only (Host.st_ino f) (three_pages Ext4Ordered) w' ∧
      file_ok w' (Host.st_ino f).
Proof.
  set (w := three_pages Ext4Ordered).
  assert (Hp : realpath "/f" w = (w, Returned "/root/f"%string)) by (vm_compute; reflexivity).
  destruct (host w !! "/root/f"%string) as [f|] eqn:Hf;
    [|exfalso; revert Hf; vm_compute; discriminate].
  assert (Hino : Host.st_ino f = 7).
  { revert Hf. vm_compute. by intros [= <-]. }
  destruct (minode_map w !! Host.st_ino f) as [m|] eqn:Hm;
    [|exfalso; revert Hm; rewrite Hino; vm_compute; discriminate].
  assert (Hsize : MemInode.size m = 12288).
  { revert Hm. rewrite Hino. vm_compute. by intros [= <-]. }
  exists f, m. split; [exact Hp|]. split; [reflexivity|]. split; [exact Hm|].
  apply (truncate_grows_with_zeros w "/f" 20000 "/root/f" f m Hp Hf).
  - rewrite Hino. decide_by_compute.
  - exact Hm.
  - rewrite Hsize. lia.
Defined.

Lemma dealloc_all_spec blocks : ∀ w,
  dealloc_all blocks w
  = (set_block_manager
       (BlockManager.set_free_list
          (BlockManager.free_list (block_manager w) ++ blocks) (block_manager w)) w,
     Returned tt).
Proof.
  induction blocks as [|b blocks IH]; intros w; simpl.
  - unfold ret. f_equal. rewrite app_nil_r. by destruct w as [[]].
  - unfold bind at 1. unfold on_block_manager at 1.
    unfold BlockManager.dealloc_block, bind, gets, modify. simpl.
    rewrite IH. simpl. by rewrite <- app_assoc.
Qed.

(** X14: [truncate] to nothing.  For a cached file that is not empty, the
    call returns 0 and empties the inode in memory: no page, no block, size
    0.  The blocks the file had go to the end of the free list at once, in
    the order of the block map, while the backing file and the metadata
    record in the underlying file system stay as they were (the record keeps
    the old size and the old block map until an [fsync]).  Every [read]
    through a descriptor of the file, at an offset that is not negative,
    returns no byte afterwards. *)
Theorem truncate_to_zero w path p f m :
  realpath path w = (w, Returned p) → host w !! p = Some f →
  minode_map w !! Host.st_ino f = Some m → MemInode.size m ≠ 0 →
  ∃ w' m',
    truncate path 0 w = (w', Returned 0) ∧
    minode_map w' !! Host.st_ino f = Some m' ∧
    MemInode.size m' = 0 ∧ MemInode.offset_to_page m' = [] ∧
    MemInode.offset_to_block m' = [] ∧
    BlockManager.free_list (block_manager w')
      = BlockManager.free_list (block_manager w)
          ++ PyDict.values (MemInode.offset_to_block m) ∧
    BlockManager.fp (block_manager w') = BlockManager.fp (block_manager w) ∧
    BlockManager.largest_block_num (block_manager w')
      = BlockManager.largest_block_num (block_manager w) ∧
    host w' = host w ∧ pages w' = pages w ∧ fd_info_map w' = fd_info_map w ∧
    ∀ fd info rpath size offset,
      fd_info_map w !! fd = Some info → fd_inode info = Host.st_ino f → 0 ≤ offset →
      read rpath size offset fd w' = (w', Returned []).
Proof.
  intros Hp Hf Hm Hsize. set (i := Host.st_ino f) in *.
  unfold truncate. rewrite (bind_returned _ _ _ _ _ Hp).
  unfold bind at 1. unfold stat_ino at 1. rewrite Hf. fold i.
  rewrite (bind_returned _ _ _ _ _ (page_cache_contains_spec w _)).
  rewrite Hm, bool_decide_eq_true_2 by eauto. cbn [negb when].
  unfold bind at 1. unfold ret at 1.
  unfold bind at 1. unfold get_minode at 1. rewrite Hm.
  assert (E1 : (0 =? MemInode.size m) = false) by (apply Z.eqb_neq; lia).
  rewrite E1. cbn [Z.eqb].
  unfold bind at 1. unfold update_minode at 1. unfold modify at 1.
  unfold bind at 1. rewrite dealloc_all_spec.
  unfold update_minode, modify, bind, ret. simpl.
  rewrite !alter_alter_eq.
  eexists _, _. split; [reflexivity|]. simpl.
  rewrite lookup_alter, decide_True, Hm by done. simpl.
  split; [reflexivity|]. simpl. do 9 (split; [done|]).
  intros fd info rpath size offset Hfd Hino Hoff.
  unfold read. unfold bind at 1. unfold gets at 1. simpl. rewrite Hfd.
  rewrite (bind_returned _ _ _ _ _ (page_cache_contains_spec _ _)). simpl.
  rewrite Hino. fold i. rewrite lookup_alter, decide_True, Hm by done. simpl.
  unfold bind at 1. unfold ret at 1.
  destruct (size =? 0); [done|].
  unfold bind at 1. unfold get_minode at 1. simpl.
  rewrite lookup_alter, decide_True, Hm by done. simpl.
  assert (E : (offset >=? 0) = true) by (rewrite Z.geb_leb; apply Z.leb_le; lia).
  by rewrite E.
Qed.

Lemma truncate_to_zero_witness :
  ∃ f m,
    realpath "/f" (three_pages Btrfs) = (three_pages Btrfs, Returned "/root/f"%string) ∧
    host (three_pages Btrfs) !! "/root/f"%string = Some f ∧
    minode_map (three_pages Btrfs) !! Host.st_ino f = Some m ∧
    MemInode.size m ≠ 0 ∧
    ∃ w', outcome_of (truncate "/f" 0) (three_pages Btrfs) = Returned 0 ∧
          state_after (truncate "/f" 0) (three_pages Btrfs) = w' ∧
          BlockManager.free_list (block_manager w')
          = BlockManager.free_list (block_manager (three_pages Btrfs))
              ++ PyDict.values (MemInode.offset_to_block m).
Proof.
  set (w := three_pages Btrfs).
  assert (Hp : realpath "/f" w = (w, Returned "/root/f"%string)) by (vm_compute; reflexivity).
  destruct (host w !! "/root/f"%string) as [f|] eqn:Hf;
    [|exfalso; revert Hf; vm_compute; discriminate].
  assert (Hino : Host.st_ino f = 7).
  { revert Hf. vm_compute. by intros [= <-]. }
  destruct (minode_map w !! Host.st_ino f) as [m|] eqn:Hm;
    [|exfalso; revert Hm; rewrite Hino; vm_compute; discriminate].
  assert (Hsize : MemInode.size m = 12288).
  { revert Hm. rewrite Hino. vm_compute. by intros [= <-]. }
  exists f, m. split; [exact Hp|]. split; [reflexivity|]. split; [exact Hm|].
  split; [rewrite Hsize; lia|].
  destruct (truncate_to_zero w "/f" "/root/f" f m Hp Hf Hm ltac:(rewrite Hsize; lia))
    as (w' & m' & Hrun & _ & _ & _ & _ & Hfree & _).
  exists w'. unfold outcome_of, state_after. rewrite Hrun. simpl.
  split; [reflexivity|]. split; [reflexivity|]. exact Hfree.
Defined.

(** X15: [truncate] to a smaller length inside the last page.  For a
    cached file in a state fit for the data path ([file_ok]) and a length
    that is positive and below the size: when no page of the file begins at
    or after the end of the page that holds byte [length - 1], the call
    returns [length] and the size becomes [length]; the bytes from [length]
    to the end of that page read as zero, every other byte of the file
    reads as before, nothing leaves memory, and the state is fit for the
    data path again. *)
Theorem truncate_shrinks_in_page w path length p f m :
  realpath path w = (w, Returned p) → host w !! p = Some f →
  file_ok w (Host.st_ino f) → minode_map w !! Host.st_ino f = Some m →
  0 < length < MemInode.size m →
  MemInode.size m ≤ ((length - 1) / PAGE_SZ + 1) * PAGE_SZ →
  ∃ w' m',
    truncate path length w = (w', Returned length) ∧
    minode_map w' !! Host.st_ino f = Some m' ∧ MemInode.size m' = length ∧
    (∀ o, length ≤ o < ((length - 1) / PAGE_SZ + 1) * PAGE_SZ →
          file_byte w' (Host.st_ino f) o = Some x00) ∧
    (∀ o, ¬ (length ≤ o < ((length - 1) / PAGE_SZ + 1) * PAGE_SZ) →
          file_byte w' (Host.st_ino f) o = file_byte w (Host.st_ino f) o) ∧
    memory_only (Host.st_ino f) w w' ∧ file_ok w' (Host.st_ino f).
Proof.
  intros Hp Hf Hok Hm Hlen Hlast. set (i := Host.st_ino f) in *.
  unfold truncate. rewrite (bind_returned _ _ _ _ _ Hp).
  unfold bind at 1. unfold stat_ino at 1. rewrite Hf. fold i.
  rewrite (bind_returned _ _ _ _ _ (page_cache_contains_spec w _)).
  rewrite Hm, bool_decide_eq_true_2 by eauto. cbn [negb when].
  unfold bind at 1. unfold ret at 1.
  unfold bind at 1. unfold get_minode at 1. rewrite Hm.
  assert (E1 : (length =? MemInode.size m) = false) by (apply Z.eqb_neq; lia).
  assert (E0 : (length =? 0) = false) by (apply Z.eqb_neq; lia).
  assert (E2 : (length <? MemInode.size m) = true) by (apply Z.ltb_lt; lia).
  rewrite E1, E0, E2.
  set (lvp := (length - 1) / PAGE_SZ) in *.
  (* [length] is inside the page: it is not the first byte of the next one *)
  assert (Hpage : lvp * PAGE_SZ < length < (lvp + 1) * PAGE_SZ ∧
                  length mod PAGE_SZ = length - lvp * PAGE_SZ).
  { destruct (page_split (length - 1)) as [Hs Hb]. fold lvp in Hs.
    split; [lia|]. symmetry. apply (Z.mod_unique _ _ lvp); unfold PAGE_SZ in *; lia. }
  destruct Hpage as [Hin_page Hstart].
  set (start := length mod PAGE_SZ) in *.
  set (v := zeros (PAGE_SZ - start)).
  assert (Hv : Z.of_nat (List.length v) = PAGE_SZ - start).
  { unfold v, zeros. rewrite repeat_length. lia. }
  destruct (get_page_for_offset_bytes w i (lvp * PAGE_SZ) Hok)
    as (l & wa & ma & pg & Hrun & Hoka & Hma & Hl & _ & _ & Hbytes & Hfr).
  { apply Z.mod_mul. unfold PAGE_SZ. lia. }
  rewrite (bind_returned _ _ _ _ _ Hrun).
  assert (Egt : (PAGE_SZ - start >? 0) = true) by (apply Z.gtb_lt; lia).
  rewrite Egt. cbn [when].
  set (G := λ p : Page.t, Page.set_content
              (slice_assign (Page.content p) start (start + (PAGE_SZ - start)) v) p).
  set (F := Page.set_flag_dirty true ∘ G).
  set (wc := set_pages (alter F l (pages wa)) wa).
  assert (Hupd : ∀ {A} (k : M World A),
    ((update_page l G ;;; update_page l (Page.set_flag_dirty true)) ;;; k) wa = k wc).
  { intros A k. unfold update_page, modify, bind. simpl.
    unfold wc, F. by rewrite alter_alter_eq. }
  rewrite Hupd.
  destruct (write_page_bytes wa i ma (lvp * PAGE_SZ) l start v F Hoka Hma Hl) as
    (Hokc & Hin & Hout); [lia|lia|by intros p0; rewrite Hv|]. fold wc in Hokc, Hin, Hout.
  rewrite Hv in Hin, Hout.
  destruct (file_ok_minode _ _ Hokc) as [mc Hmc].
  assert (Hsz : MemInode.size mc = MemInode.size m).
  { destruct (rf_minode _ _ _ Hfr m Hm) as (m1 & Hm1 & _ & _ & _ & _ & _ & _ & Hs & _).
    unfold wc in Hmc. simpl in Hmc. rewrite Hm1 in Hmc. by injection Hmc as <-. }
  assert (Hdrop : ∀ fuel, truncate_drop_loop fuel i ((lvp + 1) * PAGE_SZ) wc
                          = (wc, Returned tt)).
  { intros fuel. assert (E : ((lvp + 1) * PAGE_SZ <? MemInode.size mc) = false)
      by (apply Z.ltb_ge; lia).
    assert (Hget : get_minode i wc = (wc, Returned mc))
      by (unfold get_minode; by rewrite Hmc).
    destruct fuel; cbn [truncate_drop_loop];
      by rewrite (bind_returned _ _ _ _ _ Hget), E. }
  unfold bind at 1. rewrite Hdrop.
  unfold update_minode, modify, bind, ret.
  set (w2 := set_minode_map _ wc).
  assert (Hf2 : ∀ m0, MemInode.offset_to_page (MemInode.set_size length m0)
                        = MemInode.offset_to_page m0 ∧
                      MemInode.offset_to_block (MemInode.set_size length m0)
                        = MemInode.offset_to_block m0) by done.
  destruct (update_minode_data wc i (MemInode.set_size length) Hf2) as [Hok2 _].
  pose proof (update_minode_file_byte wc i (MemInode.set_size length) Hf2) as Hb2.
  fold w2 in Hok2, Hb2.
  exists w2, (MemInode.set_size length mc).
  split; [done|]. split.
  { unfold w2. cbn [minode_map set_minode_map].
    by rewrite lookup_alter, decide_True, Hmc. }
  split; [done|]. split.
  { intros o Ho. rewrite Hb2.
    assert (Hb : o / PAGE_SZ * PAGE_SZ = lvp * PAGE_SZ ∧
                 o mod PAGE_SZ = o - lvp * PAGE_SZ).
    { assert (o / PAGE_SZ = lvp) as Hq.
      { symmetry. apply (Z.div_unique _ _ _ (o - lvp * PAGE_SZ)); unfold PAGE_SZ in *; lia. }
      split; [by rewrite Hq|].
      symmetry. apply (Z.mod_unique _ _ lvp); unfold PAGE_SZ in *; lia. }
    destruct Hb as [Hb Hmod].
    rewrite (Hin o Hb) by lia. unfold v, zeros. apply lookup_repeat_lt. lia. }
  split.
  { intros o Ho. rewrite Hb2, Hout; [apply Hbytes|].
    intros [Hb Hr]. apply Ho. destruct (page_split o) as [Ho' _]. lia. }
  split; [|auto].
  eapply memory_only_trans; [|by apply update_minode_memory_only].
  eapply memory_only_trans; [apply read_frame_memory_only; eauto|].
  apply set_pages_memory_only.
Qed.

Lemma truncate_shrinks_in_page_witness :
  ∃ f m,
    realpath "/f" (three_pages XFS) = (three_pages XFS, Returned "/root/f"%string) ∧
    host (three_pages XFS) !! "/root/f"%string = Some f ∧
    minode_map (three_pages XFS) !! Host.st_ino f = Some m ∧
    ∃ w' m',
      truncate "/f" 9000 (three_pages XFS) = (w', Returned 9000) ∧
      minode_map w' !! Host.st_ino f = Some m' ∧ MemInode.size m' = 9000 ∧
      (∀ o, 9000 ≤ o < ((9000 - 1) / PAGE_SZ + 1) * PAGE_SZ →
            file_byte w' (Host.st_ino f) o = Some x00) ∧
      (∀ o, ¬ (9000 ≤ o < ((9000 - 1) / PAGE_SZ + 1) * PAGE_SZ) →
            file_byte w' (Host.st_ino f) o = file_byte (three_pages XFS) (Host.st_ino f) o) ∧
      memory_only (Host.st_ino f) (three_pages XFS) w' ∧ file_ok w' (Host.st_ino f).
Proof.
  set (w := three_pages XFS).
  assert (Hp : realpath "/f" w = (w, Returned "/root/f"%string)) by (vm_compute; reflexivity).
  destruct (host w !! "/root/f"%string) as [f|] eqn:Hf;
    [|exfalso; revert Hf; vm_compute; discriminate].
  assert (Hino : Host.st_ino f = 7).
  { revert Hf. vm_compute. by intros [= <-]. }
  destruct (minode_map w !! Host.st_ino f) as [m|] eqn:Hm;
    [|exfalso; revert Hm; rewrite Hino; vm_compute; discriminate].
  assert (Hsize : MemInode.size m = 12288).
  { revert Hm. rewrite Hino. vm_compute. by intros [= <-]. }
  exists f, m. split; [exact Hp|]. split; [reflexivity|]. split; [exact Hm|].
  apply (truncate_shrinks_in_page w "/f" 9000 "/root/f" f m Hp Hf).
  - rewrite Hino. decide_by_compute.
  - exact Hm.
  - rewrite Hsize. lia.
  - rewrite Hsize. vm_compute. discriminate.
Defined.

(** ** What [fsync] reports *)

(** [fsync] through a descriptor of a cached inode is the [on_fsync] of the
    policy. *)
Lemma fsync_runs_policy w path datasync fd info :
  fd_info_map w !! fd = Some info → is_Some (minode_map w !! fd_inode info) →
  fsync path datasync fd w = on_fsync fd (fd_inode info) (fd_inode info) w.
Proof.
  intros Hfd Hm. unfold fsync. unfold bind at 1. unfold gets at 1. rewrite Hfd.
  rewrite (bind_returned _ _ _ _ _ (page_cache_contains_spec w _)).
  by rewrite bool_decide_eq_true_2.
Qed.

(** The descriptors of an inode registered by a failure are owed a
    notification until they are told. *)
Lemma owed_other_after_mark w w' fd fd' inode s :
  failed_inodes_fd_map w !! inode = Some s → fd' ∈ s → fd' ≠ fd →
  failed_inodes_fd_map w' =
    (if owed w fd inode
     then if (size (s ∖ {[fd]}) =? 0)%nat
          then delete inode (failed_inodes_fd_map w)
          else <[inode := s ∖ {[fd]}]> (failed_inodes_fd_map w)
     else failed_inodes_fd_map w) →
  owed w' fd' inode = true.
Proof.
  intros Hs Hin Hne Hf. unfold owed at 1. rewrite Hf.
  destruct (owed w fd inode).
  - destruct (size (s ∖ {[fd]}) =? 0)%nat eqn:Hsz.
    + apply size_zero_iff in Hsz. set_solver.
    + rewrite lookup_insert_eq. rewrite bool_decide_eq_true_2 by set_solver.
      by rewrite orb_true_r.
  - rewrite Hs. rewrite bool_decide_eq_true_2 by done. by rewrite orb_true_r.
Qed.

(** X16: what [fsync] reports under the ordered policies (ext4-ordered and
    XFS).  Through a descriptor of a cached file in a state fit for I/O the
    call returns [-EIO] when one of the block writes it made failed or the
    descriptor was owed a notification, and 0 otherwise.  Afterwards the
    caller is owed nothing, no page of the file is dirty, whether the
    writes went through or not, and after a failed write every other
    descriptor open on the inode is owed a notification. *)
Theorem ordered_fsync_reports w path datasync fd info :
  fsync_cls w = Ext4Ordered ∨ fsync_cls w = XFS →
  fd_info_map w !! fd = Some info → inode_ok w (fd_inode info) →
  let inode := fd_inode info in
  let w' := state_after (fsync path datasync fd) w in
  let failed := negb (forallb BlockManager.bio_success (new_log w w')) in
  outcome_of (fsync path datasync fd) w
    = Returned (if failed || owed w fd inode then - EIO else 0) ∧
  owed w' fd inode = false ∧
  (∀ m' l, minode_map w' !! inode = Some m' →
           l ∈ PyDict.values (MemInode.offset_to_page m') → is_clean w' l) ∧
  (failed = true →
   ∀ fd', fd' ∈ default ∅ (inode_to_open_fds_map w !! inode) → fd' ≠ fd →
          owed w' fd' inode = true).
Proof.
  intros Hcls Hfd Hok inode w' failed.
  destruct (inode_ok_minode _ _ Hok) as (m & Hm & _). fold inode in Hm.
  destruct (generic_on_fsync_spec w fd inode inode m Hok Hm)
    as (w1 & w2 & msgs & _ & Hlog & Hok1 & Hfr & Hclean & Hsd & Hrun & Hfail).
  assert (Hfs : fsync path datasync fd w = GenericFsync.on_fsync fd inode inode w).
  { rewrite (fsync_runs_policy w path datasync fd info Hfd) by (fold inode; eauto).
    rewrite on_fsync_dispatch. by destruct Hcls as [-> | ->]. }
  assert (Hw' : w' = w2).
  { subst w'. unfold state_after. by rewrite Hfs, Hrun. }
  assert (Hmsgs : new_log w w' = msgs).
  { apply new_log_app. rewrite Hw'. destruct Hsd as (_ & _ & -> & _). exact Hlog. }
  subst failed. rewrite Hmsgs. unfold outcome_of. rewrite Hfs, Hrun. rewrite Hw'.
  clear Hw' Hmsgs Hfs Hrun. simpl.
  destruct (forallb BlockManager.bio_success msgs) eqn:Hall; simpl in *.
  - (* every block write went through *)
    assert (Ho : owed (set_failed_inodes_fd_map (failed_inodes_fd_map w) w) fd inode
                 = owed w fd inode) by done.
    rewrite Ho in *. split; [done|]. split.
    + destruct (owed w fd inode) eqn:Hofd.
      * apply (not_owed_after_mark w w2 fd inode); [exact Hfail|exact Hofd].
      * rewrite <- Hofd. by apply owed_ext.
    + split; [|done]. intros m' l Hm' Hl.
      destruct Hsd as (Hp & Hmm & _). rewrite Hmm in Hm'.
      pose proof (sf_minode _ _ _ Hfr) as Hmin. rewrite Hm, Hm' in Hmin.
      inversion Hmin as [? ? (_&_&_&_&_&_&Hotp)|]; subst.
      rewrite Hotp in Hl. destruct (Hclean l Hl) as (pg & Hpg & Hd).
      exists pg. by rewrite Hp.
  - (* a block write failed *)
    set (s := default ∅ (failed_inodes_fd_map w !! inode)
              ∪ default ∅ (inode_to_open_fds_map w !! inode)) in *.
    set (wo := set_failed_inodes_fd_map (<[inode := s]> (failed_inodes_fd_map w)) w) in *.
    assert (Hs : failed_inodes_fd_map wo !! inode = Some s)
      by (subst wo; simpl; by rewrite lookup_insert_eq).
    split; [by destruct (owed wo fd inode)|]. split.
    + destruct (owed wo fd inode) eqn:Hofd.
      * apply (not_owed_after_mark wo w2 fd inode); [exact Hfail|exact Hofd].
      * rewrite <- Hofd. by apply owed_ext.
    + split.
      * intros m' l Hm' Hl.
        destruct Hsd as (Hp & Hmm & _). rewrite Hmm in Hm'.
        pose proof (sf_minode _ _ _ Hfr) as Hmin. rewrite Hm, Hm' in Hmin.
        inversion Hmin as [? ? (_&_&_&_&_&_&Hotp)|]; subst.
        rewrite Hotp in Hl. destruct (Hclean l Hl) as (pg & Hpg & Hd).
        exists pg. by rewrite Hp.
      * intros _ fd' Hin Hne.
        apply (owed_other_after_mark wo w2 fd fd' inode s Hs); [set_solver|done|].
        rewrite Hfail. simpl. rewrite lookup_insert_eq. done.
Qed.

Lemma ordered_fsync_reports_witness :
  outcome_of (fsync "/f" 0 4) (overwritten Ext4Ordered) = Returned (- EIO) ∧
  owed (state_after (fsync "/f" 0 4) (overwritten Ext4Ordered)) 4 7 = false.
Proof.
  destruct (ordered_fsync_reports (overwritten Ext4Ordered) "/f" 0 4
              {| fd_inode := 7; fd_path := "/root/f" |}) as (H1 & H2 & _).
  - left. vm_compute; reflexivity.
  - vm_compute; reflexivity.
  - decide_by_compute.
  - split; [|exact H2]. rewrite H1. vm_compute; reflexivity.
Defined.

(** ** The late report of ext4 in data mode *)

Lemma all_clean_filter w ps :
  (∀ l, l ∈ ps → is_clean w l) → List.filter (dirtyb w) ps = [].
Proof.
  induction ps as [|l ps IH]; intros H; [done|]. simpl.
  destruct (H l ltac:(left)) as (pg & Hpg & Hd). unfold dirtyb at 1. rewrite Hpg, Hd.
  apply IH. intros l' Hl'. apply H. by right.
Qed.

(** After the pages of an inode were synced, none of them is dirty, under
    whatever came of the block writes. *)
Lemma synced_pages_clean w w1 w' minode m r :
  inode_ok w minode → minode_map w !! minode = Some m →
  GenericFsync.sync_pages minode
    (List.filter (dirtyb w) (PyDict.values (MemInode.offset_to_page m))) w
    = (w1, Returned r) →
  same_data w1 w' →
  ∃ m', minode_map w' !! minode = Some m' ∧
        List.filter (dirtyb w') (PyDict.values (MemInode.offset_to_page m')) = [].
Proof.
  intros Hok Hm Hrun Hsd.
  destruct (generic_on_fsync_spec w 0 minode minode m Hok Hm)
    as (w1' & wz & msgs & Hrun' & _ & Hok1 & Hfr & Hclean & _).
  rewrite Hrun in Hrun'. injection Hrun' as <- _.
  destruct (inode_ok_minode _ _ Hok1) as (m1 & Hm1 & _).
  destruct Hsd as (Hp & Hmm & _). exists m1. split; [by rewrite Hmm|].
  pose proof (sf_minode _ _ _ Hfr) as Hmin. rewrite Hm, Hm1 in Hmin.
  inversion Hmin as [? ? (_&_&_&_&_&_&Hotp)|]; subst.
  apply all_clean_filter. intros l Hl. rewrite Hotp in Hl.
  destruct (Hclean l Hl) as (pg & Hpg & Hd). exists pg. by rewrite Hp.
Qed.

(** X17: ext4 in data mode reports a failed write one [fsync] late, and
    never writes the data again.  Through a descriptor that is open on a
    cached file in a state fit for I/O ([inode_ok]: every page holds
    [PAGE_SZ] bytes) and that is owed nothing, [fsync] returns 0 whatever
    came of its block writes.  When one of them failed, the next [fsync]
    through the descriptor returns [-EIO] and the one after that returns 0,
    and neither of the two touches the block manager: the backing file
    stays as the failed call left it. *)
Theorem ext4data_fsync_defers_error w path datasync fd info :
  fsync_cls w = Ext4Data →
  fd_info_map w !! fd = Some info → inode_ok w (fd_inode info) →
  owed w fd (fd_inode info) = false →
  fd ∈ default ∅ (inode_to_open_fds_map w !! fd_inode info) →
  let call := fsync path datasync fd in
  let w1 := state_after call w in
  let w2 := state_after call w1 in
  let w3 := state_after call w2 in
  outcome_of call w = Returned 0 ∧
  (forallb BlockManager.bio_success (new_log w w1) = false →
   outcome_of call w1 = Returned (- EIO) ∧ block_manager w2 = block_manager w1 ∧
   outcome_of call w2 = Returned 0 ∧ block_manager w3 = block_manager w2).
Proof.
  intros Hcls Hfd Hok Ho Hopen call w1 w2 w3.
  set (i := fd_inode info) in *.
  destruct (inode_ok_minode _ _ Hok) as (m & Hm & _).
  assert (Hdisp : ∀ wx, fsync_cls wx = Ext4Data → fd_info_map wx !! fd = Some info →
                        inode_ok wx i → call wx = Ext4Data.on_fsync fd i i wx).
  { intros wx Hc Hf Hk. destruct (inode_ok_minode _ _ Hk) as (mx & Hmx & _).
    subst call. cbv beta.
    rewrite (fsync_runs_policy wx path datasync fd info Hf) by (fold i; eauto).
    by rewrite on_fsync_dispatch, Hc. }
  (* the first call *)
  destruct (ext4data_on_fsync_not_owed w fd i i m Hok Hm Ho)
    as (wa & wb & msgs & Hsp & Hlog & Hoka & Hfr & Hsd & Hrun & Hfail).
  assert (Hw1 : w1 = wb).
  { subst w1. unfold state_after. by rewrite (Hdisp w Hcls Hfd Hok), Hrun. }
  split; [unfold outcome_of; by rewrite (Hdisp w Hcls Hfd Hok), Hrun|].
  assert (Hmsgs : new_log w w1 = msgs).
  { apply new_log_app. rewrite Hw1. destruct Hsd as (_ & _ & -> & _). exact Hlog. }
  rewrite Hmsgs. intros Hall. rewrite Hall in Hfail.
  assert (Hcls1 : fsync_cls w1 = Ext4Data).
  { rewrite Hw1. destruct Hsd as (_&_&_&_&->&_). by rewrite (sf_cls _ _ _ Hfr). }
  assert (Hfd1 : fd_info_map w1 !! fd = Some info).
  { rewrite Hw1. destruct Hsd as (_&_&_&_&_&->). by rewrite (sf_fd_info _ _ _ Hfr). }
  assert (Hok1 : inode_ok w1 i) by (rewrite Hw1; by eapply inode_ok_same_data).
  assert (Ho1 : owed w1 fd i = true).
  { unfold owed. rewrite Hw1, Hfail, lookup_insert_eq.
    rewrite bool_decide_eq_true_2 by set_solver. by rewrite orb_true_r. }
  (* the second call *)
  destruct (ext4data_on_fsync_owed w1 fd i i Ho1) as (wc & Hrun2 & Hsd2 & _ & Hfail2).
  assert (Hw2 : w2 = wc).
  { subst w2. unfold state_after. by rewrite (Hdisp w1 Hcls1 Hfd1 Hok1), Hrun2. }
  split; [unfold outcome_of; by rewrite (Hdisp w1 Hcls1 Hfd1 Hok1), Hrun2|].
  split; [rewrite Hw2; by destruct Hsd2 as (_ & _ & -> & _)|].
  assert (Hcls2 : fsync_cls w2 = Ext4Data).
  { rewrite Hw2. destruct Hsd2 as (_&_&_&_&->&_). exact Hcls1. }
  assert (Hfd2 : fd_info_map w2 !! fd = Some info).
  { rewrite Hw2. destruct Hsd2 as (_&_&_&_&_&->). exact Hfd1. }
  assert (Hok2 : inode_ok w2 i) by (rewrite Hw2; by eapply inode_ok_same_data).
  assert (Ho2 : owed w2 fd i = false).
  { rewrite Hw2. by apply (not_owed_after_mark w1 wc fd i). }
  (* the third call *)
  destruct (synced_pages_clean w wa w2 i m _ Hok Hm Hsp) as (m2 & Hm2 & Hnone).
  { rewrite Hw2. eapply same_data_trans; [exact Hsd|]. rewrite <- Hw1. exact Hsd2. }
  destruct (ext4data_on_fsync_not_owed w2 fd i i m2 Hok2 Hm2 Ho2)
    as (wd & we & msgs3 & Hsp3 & _ & _ & _ & Hsd3 & Hrun3 & _).
  rewrite Hnone in Hsp3. injection Hsp3 as <- _.
  split; [unfold outcome_of; by rewrite (Hdisp w2 Hcls2 Hfd2 Hok2), Hrun3|].
  subst w3. unfold state_after. rewrite (Hdisp w2 Hcls2 Hfd2 Hok2), Hrun3. simpl.
  by destruct Hsd3 as (_ & _ & -> & _).
Qed.

Lemma ext4data_fsync_defers_error_witness :
  outcome_of (fsync "/f" 0 4) (overwritten Ext4Data) = Returned 0 ∧
  outcome_of (fsync "/f" 0 4) (state_after (fsync "/f" 0 4) (overwritten Ext4Data))
  = Returned (- EIO).
Proof.
  destruct (ext4data_fsync_defers_error (overwritten Ext4Data) "/f" 0 4
              {| fd_inode := 7; fd_path := "/root/f" |}) as (H1 & H2).
  - vm_compute; reflexivity.
  - vm_compute; reflexivity.
  - decide_by_compute.
  - vm_compute; reflexivity.
  - vm_compute. set_solver.
  - split; [exact H1|]. apply H2. vm_compute; reflexivity.
Defined.

(** ** The fd tables *)

Lemma bind_ret {S A B} (a : A) (k : A → M S B) (s : S) :
  (let! x := ret a in k x) s = k a s.
Proof. reflexivity. Qed.

Lemma set_minode_map_id w : set_minode_map (minode_map w) w = w.
Proof. by destruct w. Qed.

(** X18: [open] hands out a descriptor never used before.  When the flags
    have neither [O_DIRECT] nor [O_NOFOLLOW], the file exists in the
    underlying file system and the fd tables agree, [open] returns
    [_last_fd_alloced + 1], a descriptor that is in no table; afterwards the
    descriptor names the inode and the real path of the file, it is in
    [sync_fds] exactly when the flags have [O_SYNC] or [O_DSYNC], the inode
    is in the page cache, the tables agree again, and the block manager, the
    pages, the underlying files and the other inodes are as before. *)
Theorem open_allocates_fd w path fi p f :
  O_DIRECT fi = false → O_NOFOLLOW fi = false →
  realpath path w = (w, Returned p) → host w !! p = Some f →
  fd_tables_ok w →
  let fd := last_fd_alloced w + 1 in
  ∃ w', open path fi w = (w', Returned fd) ∧
        fd_info_map w !! fd = None ∧
        fd_info_map w' = <[fd := {| fd_inode := Host.st_ino f; fd_path := p |}]>
                           (fd_info_map w) ∧
        (fd ∈ sync_fds w' ↔ has_sync_enabled fi = true) ∧
        is_Some (minode_map w' !! Host.st_ino f) ∧
        (∀ i, i ≠ Host.st_ino f ∨ is_Some (minode_map w !! i) →
              minode_map w' !! i = minode_map w !! i) ∧
        fd_tables_ok w' ∧
        block_manager w' = block_manager w ∧ pages w' = pages w ∧ host w' = host w ∧
        failed_inodes_fd_map w' = failed_inodes_fd_map w.
Proof.
  intros Hd Hn Hp Hf (Hinfo & Hopen & Hsync) fd.
  assert (Hfresh : fd_info_map w !! fd = None).
  { destruct (fd_info_map w !! fd) as [info|] eqn:E; [|done].
    destruct (Hinfo fd info E) as [Hle _]. subst fd. lia. }
  unfold open. rewrite Hd, Hn. simpl. rewrite !bind_ret.
  rewrite (bind_returned _ _ _ _ _ Hp).
  unfold bind at 1. unfold stat_ino at 1. rewrite Hf.
  rewrite (bind_returned _ _ _ _ _ (page_cache_contains_spec w _)).
  set (ino := Host.st_ino f).
  set (m0 := {| MemInode.inode := ino; MemInode.path := path; MemInode.realpath := p;
                MemInode.offset_to_block := Meta.offset_to_block (Host.text f);
                MemInode.atime := Meta.atime (Host.text f);
                MemInode.mtime := Meta.mtime (Host.text f);
                MemInode.size := Meta.size (Host.text f);
                MemInode.offset_to_page := [] |}).
  set (mm' := if bool_decide (is_Some (minode_map w !! ino))
              then minode_map w else <[ino := m0]> (minode_map w)).
  assert (Hwhen :
    when (negb (bool_decide (is_Some (minode_map w !! ino))))
      (let! minode := MemInode_init ino path p in page_cache_put ino minode) w
    = (set_minode_map mm' w, Returned tt)).
  { subst mm'. destruct (bool_decide (is_Some (minode_map w !! ino))); simpl.
    - by rewrite set_minode_map_id.
    - unfold MemInode_init, bind, read_meta. by rewrite Hf. }
  rewrite (bind_returned _ _ _ _ _ Hwhen).
  unfold _alloc_fd, bind, gets, assert, modify, ret. simpl. rewrite Hf. simpl.
  fold fd.
  assert (Htables : ∀ sf,
    (sf = sync_fds w ∨ sf = sync_fds w ∪ {[fd]}) →
    fd_tables_ok
      (set_sync_fds sf
         (set_inode_to_open_fds_map
            (<[ino := default ∅ (inode_to_open_fds_map w !! ino) ∪ {[fd]}]>
               (inode_to_open_fds_map w))
            (set_fd_info_map
               (<[fd := {| fd_inode := ino; fd_path := p |}]> (fd_info_map w))
               (set_last_fd_alloced fd (set_minode_map mm' w)))))).
  { intros sf Hsf. split; [|split]; simpl.
    - intros fd' info' [[<- <-] | [Hne Hl]]%lookup_insert_Some; simpl.
      + rewrite lookup_insert_eq. simpl. split; [lia|set_solver].
      + destruct (Hinfo fd' info' Hl) as [Hle Hin]. split; [subst fd; lia|].
        destruct (decide (fd_inode info' = ino)) as [Heq|Hi].
        * rewrite Heq in Hin |- *. rewrite lookup_insert_eq. simpl.
          by apply elem_of_union_l.
        * by rewrite lookup_insert_ne.
    - intros i s' [[<- <-] | [Hne Hl]]%lookup_insert_Some.
      + split; [set_solver|]. intros x Hx.
        destruct (decide (x = fd)) as [->|Hxfd]; [by rewrite lookup_insert_eq|].
        rewrite lookup_insert_ne by done.
        destruct (inode_to_open_fds_map w !! ino) as [s0|] eqn:E; simpl in Hx.
        * destruct (Hopen ino s0 E) as [_ Hall]. apply Hall. set_solver.
        * set_solver.
      + destruct (Hopen i s' Hl) as [Hne' Hall]. split; [done|]. intros x Hx.
        destruct (decide (x = fd)) as [->|Hxfd].
        * specialize (Hall fd Hx). simpl in Hall. by rewrite Hfresh in Hall.
        * rewrite lookup_insert_ne by done. by apply Hall.
    - intros x Hx. destruct (decide (x = fd)) as [->|Hxfd];
        [by rewrite lookup_insert_eq|].
      rewrite lookup_insert_ne by done. apply Hsync.
      destruct Hsf as [-> | ->]; set_solver. }
  assert (Hcached : is_Some (mm' !! ino)).
  { subst mm'. destruct (bool_decide (is_Some (minode_map w !! ino))) eqn:E.
    - by apply bool_decide_eq_true in E.
    - rewrite lookup_insert_eq. eauto. }
  assert (Hothers : ∀ i, i ≠ ino ∨ is_Some (minode_map w !! i) →
                         mm' !! i = minode_map w !! i).
  { intros i Hi. subst mm'.
    destruct (bool_decide (is_Some (minode_map w !! ino))) eqn:E; [done|].
    apply bool_decide_eq_false in E.
    destruct (decide (i = ino)) as [->|Hne]; [|by rewrite lookup_insert_ne].
    destruct Hi as [Hi|Hi]; done. }
  assert (Hnotsync : fd ∉ sync_fds w).
  { intros Hin. destruct (Hsync fd Hin) as [x Hx]. by rewrite Hfresh in Hx. }
  destruct (has_sync_enabled fi) eqn:Hs; simpl; eexists; (split; [reflexivity|]); simpl.
  - split; [done|]. split; [done|]. split; [split; [done|set_solver]|].
    split; [done|]. split; [done|]. split; [|done].
    apply (Htables (sync_fds w ∪ {[fd]})). by right.
  - split; [done|]. split; [done|]. split; [split; [done|discriminate]|].
    split; [done|]. split; [done|]. split; [|done].
    pose proof (Htables (sync_fds w) ltac:(by left)) as H.
    destruct H as (H1 & H2 & H3). split; [|split]; done.
Qed.

Lemma open_allocates_fd_witness :
  ∃ w', open "/f" with_O_SYNC (mounted XFS) = (w', Returned 4) ∧
        fd_info_map w' !! 4 = Some {| fd_inode := 7; fd_path := "/root/f" |} ∧
        4 ∈ sync_fds w'.
Proof.
  destruct (open_allocates_fd (mounted XFS) "/f" with_O_SYNC "/root/f"
              {| Host.st_ino := 7;
                 Host.text := {| Meta.offset_to_block := []; Meta.size := 0;
                                 Meta.atime := 100; Meta.mtime := 100 |} |})
    as (w' & Hrun & _ & Hmap & Hsync & _).
  - reflexivity.
  - reflexivity.
  - vm_compute; reflexivity.
  - vm_compute; reflexivity.
  - decide_by_compute.
  - exists w'. split; [exact Hrun|]. split.
    + rewrite Hmap. apply lookup_insert_eq.
    + apply Hsync. reflexivity.
Defined.

Lemma realpath_root w w' x p :
  realpath x w = (w, Returned p) → root w' = root w → realpath x w' = (w', Returned p).
Proof.
  unfold realpath, bind, gets, ret. simpl. intros [= Hp] Hr. by rewrite Hr, Hp.
Qed.

(** [release] up to the point where the descriptor is out of the tables. *)
Lemma release_steps w path fd info s :
  fd_info_map w !! fd = Some info →
  realpath path w = (w, Returned (fd_path info)) →
  inode_to_open_fds_map w !! fd_inode info = Some s → fd ∈ s →
  release path fd w =
  (if negb (size (s ∖ {[fd]}) =? 0)%nat then ret tt
   else
     modify (λ w, set_inode_to_open_fds_map
                    (delete (fd_inode info) (inode_to_open_fds_map w)) w) ;;;
     let! tbd := gets to_be_deleted in
     if negb (String.eqb (parent (fd_path info)) tbd) then ret tt
     else
       let! cached := page_cache_get (fd_inode info) in
       let! otb :=
         match cached with
         | Some minode =>
             let! m := get_minode minode in ret (MemInode.offset_to_block m)
         | None =>
             let! m := MemInode_init (fd_inode info) path (fd_path info) in
             ret (MemInode.offset_to_block m)
         end in
       dealloc_all (PyDict.values otb) ;;;
       (raise NameError : M World unit) ;;;
       os_unlink (fd_path info))
    (released w fd info s).
Proof.
  intros Hfd Hp Hs Hin.
  set (i := fd_inode info) in *.
  unfold release. unfold bind at 1. unfold gets at 1. rewrite Hfd.
  unfold bind at 1. unfold modify at 1.
  rewrite (bind_returned _ _ _ _ _
             (realpath_root w (set_sync_fds (sync_fds w ∖ {[fd]}) w) path _ Hp eq_refl)).
  rewrite String.eqb_refl. unfold assert at 1. rewrite bind_ret.
  unfold bind at 1. unfold modify at 1.
  unfold bind at 1. unfold on_close_fd, GenericFsync.on_close_fd. unfold modify at 1.
  cbn [failed_inodes_fd_map set_fd_info_map set_sync_fds].
  set (w1 := set_fd_info_map _ _).
  set (w2 := match failed_inodes_fd_map w !! fd_inode info with
             | Some failed_fds => _ | None => w1 end).
  assert (Hw2 : w2 = set_failed_inodes_fd_map
                       (alter (λ s, s ∖ {[fd]}) i (failed_inodes_fd_map w)) w1).
  { subst w2. fold i. destruct (failed_inodes_fd_map w !! i) as [s0|] eqn:E.
    - f_equal. apply map_eq. intros j. destruct (decide (j = i)) as [->|Hne].
      + by rewrite lookup_insert_eq, lookup_alter_eq, E.
      + by rewrite lookup_insert_ne, lookup_alter_ne.
    - assert (Ha : alter (λ s, s ∖ {[fd]}) i (failed_inodes_fd_map w)
                   = failed_inodes_fd_map w1).
      { apply map_eq. intros j. destruct (decide (j = i)) as [->|Hne].
        - by rewrite lookup_alter_eq, E.
        - by rewrite lookup_alter_ne. }
      rewrite Ha. by destruct w1. }
  rewrite Hw2. clear Hw2 w2.
  unfold bind at 1. unfold gets at 1.
  cbn [inode_to_open_fds_map set_failed_inodes_fd_map set_fd_info_map set_sync_fds w1].
  fold i. rewrite Hs. rewrite bool_decide_eq_true_2 by done.
  unfold bind at 1. unfold modify at 1. reflexivity.
Qed.

(** X19: [release] closes a descriptor.  When the fd tables agree, [fd] is
    open, [path] is the path it is known by, and the file is not one that
    waits in the to-be-deleted folder for its last descriptor, [release]
    returns; the descriptor is gone from [fd_info_map], from [sync_fds], from
    the set of its inode and from the set of descriptors owed a notification
    for the inode, the tables agree again, and the descriptor counter, the
    page cache, the pages, the block manager and the underlying files are
    untouched. *)
Theorem release_closes_fd w path fd info :
  fd_tables_ok w → fd_info_map w !! fd = Some info →
  realpath path w = (w, Returned (fd_path info)) →
  (default ∅ (inode_to_open_fds_map w !! fd_inode info) = {[fd]} →
   parent (fd_path info) ≠ to_be_deleted w) →
  ∃ w', release path fd w = (w', Returned tt) ∧
        fd_info_map w' = delete fd (fd_info_map w) ∧
        sync_fds w' = sync_fds w ∖ {[fd]} ∧
        (∀ i, default ∅ (inode_to_open_fds_map w' !! i)
              = if decide (i = fd_inode info)
                then default ∅ (inode_to_open_fds_map w !! i) ∖ {[fd]}
                else default ∅ (inode_to_open_fds_map w !! i)) ∧
        failed_inodes_fd_map w'
        = alter (λ s, s ∖ {[fd]}) (fd_inode info) (failed_inodes_fd_map w) ∧
        fd_tables_ok w' ∧
        last_fd_alloced w' = last_fd_alloced w ∧ minode_map w' = minode_map w ∧
        pages w' = pages w ∧ block_manager w' = block_manager w ∧ host w' = host w.
Proof.
  intros (Hinfo & Hopen & Hsync) Hfd Hp Hlast.
  set (i := fd_inode info) in *.
  destruct (Hinfo fd info Hfd) as [_ Hin]. fold i in Hin.
  destruct (inode_to_open_fds_map w !! i) as [s|] eqn:Hs;
    [|by apply elem_of_empty in Hin].
  simpl in Hin, Hlast.
  rewrite (release_steps w path fd info s Hfd Hp Hs Hin).
  assert (Hgen : ∀ om,
    (∀ j s', om !! j = Some s' →
             s' ≠ ∅ ∧ if decide (j = i) then s' = s ∖ {[fd]}
                      else inode_to_open_fds_map w !! j = Some s') →
    (∀ j, default ∅ (om !! j)
          = if decide (j = i) then s ∖ {[fd]}
            else default ∅ (inode_to_open_fds_map w !! j)) →
    fd_tables_ok (set_inode_to_open_fds_map om (released w fd info s))).
  { intros om Hom Hdef. split; [|split]; simpl.
    - intros fd' info' [Hne Hl]%lookup_delete_Some.
      destruct (Hinfo fd' info' Hl) as [Hle Hin']. split; [done|].
      rewrite Hdef. destruct (decide (fd_inode info' = i)) as [Heq|Hi]; [|done].
      rewrite Heq, Hs in Hin'. simpl in Hin'. clear -Hin' Hne. set_solver.
    - intros j s' Hl. destruct (Hom j s' Hl) as [Hne Hcase]. split; [done|].
      intros x Hx. destruct (decide (j = i)) as [->|Hji].
      + subst s'. destruct (Hopen i s Hs) as [_ Hall].
        rewrite lookup_delete_ne by (clear -Hx; set_solver).
        apply Hall. clear -Hx. set_solver.
      + destruct (Hopen j s' Hcase) as [_ Hall]. specialize (Hall x Hx).
        simpl in Hall. destruct (decide (x = fd)) as [->|Hxfd].
        * rewrite Hfd in Hall. simpl in Hall. by injection Hall as <-.
        * by rewrite lookup_delete_ne.
    - intros x Hx. rewrite lookup_delete_ne by (clear -Hx; set_solver).
      apply Hsync. clear -Hx. set_solver. }
  destruct (size (s ∖ {[fd]}) =? 0)%nat eqn:Hsz; simpl.
  - apply size_zero_iff in Hsz.
    assert (Hone : s = {[fd]}).
    { apply leibniz_equiv. intros x. rewrite elem_of_singleton. split; [|by intros ->].
      intros Hx. destruct (decide (x = fd)) as [|Hxfd]; [done|].
      assert (Hd : x ∈ s ∖ {[fd]})
        by (apply elem_of_difference; by rewrite elem_of_singleton).
      rewrite Hsz in Hd. by apply elem_of_empty in Hd. }
    specialize (Hlast Hone).
    unfold bind at 1. unfold modify at 1. unfold bind at 1. unfold gets at 1.
    cbn [to_be_deleted set_inode_to_open_fds_map released set_failed_inodes_fd_map
         set_fd_info_map set_sync_fds].
    destruct (String.eqb_spec (parent (fd_path info)) (to_be_deleted w)) as [|_];
      [done|]. simpl.
    eexists. split; [reflexivity|]. simpl. split; [done|]. split; [done|].
    assert (Hdef : ∀ j, default ∅ (delete i (<[i := s ∖ {[fd]}]>
                                      (inode_to_open_fds_map w)) !! j)
                        = if decide (j = i) then s ∖ {[fd]}
                          else default ∅ (inode_to_open_fds_map w !! j)).
    { intros j. destruct (decide (j = i)) as [->|Hji].
      - rewrite lookup_delete_eq. simpl. by rewrite Hsz.
      - by rewrite lookup_delete_ne, lookup_insert_ne. }
    split.
    { intros j. rewrite Hdef. destruct (decide (j = i)) as [->|]; [|done].
      by rewrite Hs. }
    split; [done|]. split; [|done].
    apply (Hgen (delete i (<[i := s ∖ {[fd]}]> (inode_to_open_fds_map w)))); [|done].
    intros j s' [Hji Hl]%lookup_delete_Some. rewrite lookup_insert_ne in Hl by done.
    destruct (Hopen j s' Hl) as [Hne _]. split; [done|].
    by destruct (decide (j = i)).
  - eexists. split; [reflexivity|]. simpl. split; [done|]. split; [done|].
    assert (Hdef : ∀ j, default ∅ (<[i := s ∖ {[fd]}]> (inode_to_open_fds_map w) !! j)
                        = if decide (j = i) then s ∖ {[fd]}
                          else default ∅ (inode_to_open_fds_map w !! j)).
    { intros j. destruct (decide (j = i)) as [->|Hji].
      - by rewrite lookup_insert_eq.
      - by rewrite lookup_insert_ne. }
    split.
    { intros j. rewrite Hdef. destruct (decide (j = i)) as [->|]; [|done].
      by rewrite Hs. }
    split; [done|]. split; [|done].
    apply (Hgen (<[i := s ∖ {[fd]}]> (inode_to_open_fds_map w))); [|done].
    intros j s' [[<- <-] | [Hji Hl]]%lookup_insert_Some.
    + rewrite decide_True by done. split; [|done].
      intros He. rewrite He in Hsz. by rewrite size_empty in Hsz.
    + rewrite decide_False by done. destruct (Hopen j s' Hl) as [Hne _]. done.
Qed.

Lemma release_closes_fd_witness :
  ∃ w', release "/f" 4 (three_pages XFS) = (w', Returned tt) ∧
        fd_info_map w' = delete 4 (fd_info_map (three_pages XFS)) ∧
        fd_tables_ok w'.
Proof.
  destruct (release_closes_fd (three_pages XFS) "/f" 4
              {| fd_inode := 7; fd_path := "/root/f" |})
    as (w' & Hrun & Hmap & _ & _ & _ & Hok & _).
  - decide_by_compute.
  - vm_compute; reflexivity.
  - vm_compute; reflexivity.
  - intros _ H. vm_compute in H. discriminate.
  - exists w'. split; [exact Hrun|]. split; [exact Hmap|exact Hok].
Defined.

(** ** Unlinking *)

Lemma lookup_set_fd_infos (info : FDInfo) (m : gmap Z FDInfo) (s : gset Z) (x : Z) :
  foldr (λ fd m, <[fd := info]> m) m (elements s) !! x
  = if decide (x ∈ s) then Some info else m !! x.
Proof.
  assert (H : ∀ l, foldr (λ fd m, <[fd := info]> m) m l !! x
                   = if decide (x ∈ l) then Some info else m !! x).
  { induction l as [|y l IH].
    - simpl. destruct (decide (x ∈ [])) as [Hin|_]; [by apply elem_of_nil in Hin|done].
    - cbn [foldr]. destruct (decide (x = y)) as [->|Hne].
      + rewrite lookup_insert_eq. destruct (decide (y ∈ y :: l)) as [_|Hn]; [done|].
        exfalso. apply Hn. by left.
      + rewrite lookup_insert_ne by done. rewrite IH.
        destruct (decide (x ∈ l)) as [Hin|Hnin];
          destruct (decide (x ∈ y :: l)) as [Hin'|Hnin']; try done.
        * exfalso. apply Hnin'. by right.
        * by apply elem_of_cons in Hin' as [?|?]. }
  rewrite H. destruct (decide (x ∈ s)) as [Hin|Hnin];
    destruct (decide (x ∈ elements s)) as [Hin'|Hnin']; try done.
  - exfalso. apply Hnin'. by apply elem_of_elements.
  - by apply elem_of_elements in Hin'.
Qed.

(** X20: [unlink] of a file that is open moves it out of the way and leaves
    it readable.  When the file exists, descriptors are open on its inode,
    the inode is in the page cache and the fd tables agree, [unlink] returns
    0; the metadata file is renamed to [file_<timestamp>] in the
    to-be-deleted folder; the open descriptors of the inode, and no others,
    are told the new path, and so is the inode in the page cache; the file
    reads as before at every offset, and nothing else changes: no block is
    freed, no page is dropped. *)
Theorem unlink_open_file_moves_it w path ts p f s m :
  realpath path w = (w, Returned p) → host w !! p = Some f →
  inode_to_open_fds_map w !! Host.st_ino f = Some s →
  minode_map w !! Host.st_ino f = Some m →
  fd_tables_ok w →
  let ino := Host.st_ino f in
  let newpath := (to_be_deleted w ++ "/file_" ++ ts)%string in
  ∃ w', unlink path ts w = (w', Returned (Some 0)) ∧
        host w' = <[newpath := f]> (delete p (host w)) ∧
        (∀ fd, fd_info_map w' !! fd
               = if decide (fd ∈ s) then Some {| fd_inode := ino; fd_path := newpath |}
                 else fd_info_map w !! fd) ∧
        minode_map w' = <[ino := MemInode.set_realpath newpath m]> (minode_map w) ∧
        (∀ o, file_byte w' ino o = file_byte w ino o) ∧
        fd_tables_ok w' ∧
        block_manager w' = block_manager w ∧ pages w' = pages w ∧
        inode_to_open_fds_map w' = inode_to_open_fds_map w ∧
        sync_fds w' = sync_fds w ∧ last_fd_alloced w' = last_fd_alloced w ∧
        failed_inodes_fd_map w' = failed_inodes_fd_map w.
Proof.
  intros Hp Hf Hs Hm (Hinfo & Hopen & Hsync) ino newpath.
  unfold unlink. rewrite (bind_returned _ _ _ _ _ Hp).
  unfold bind at 1. unfold stat_ino at 1. rewrite Hf.
  unfold bind at 1. unfold gets at 1. rewrite Hs.
  rewrite bool_decide_eq_true_2 by eauto.
  unfold _unlink_open_file, os_rename, bind, gets, modify, stat_ino, assert, ret,
    set_fd_infos, page_cache_get, update_minode.
  simpl. rewrite Hf. simpl. rewrite lookup_insert_eq. rewrite Z.eqb_refl.
  cbn [inode_to_open_fds_map set_host]. rewrite Hs.
  cbv beta. cbn [minode_map set_fd_info_map set_host]. rewrite Hm. unfold modify. simpl.
  eexists. split; [reflexivity|]. simpl.
  assert (Hlk : ∀ fd,
    foldr (λ fd m0, <[fd := {| fd_inode := ino; fd_path := newpath |}]> m0)
      (fd_info_map w) (elements s) !! fd
    = if decide (fd ∈ s) then Some {| fd_inode := ino; fd_path := newpath |}
      else fd_info_map w !! fd) by (intros fd; apply lookup_set_fd_infos).
  split; [done|]. split; [exact Hlk|]. split.
  { apply map_eq. intros j. unfold ino. destruct (decide (j = Host.st_ino f)) as [->|Hne].
    - by rewrite lookup_alter_eq, lookup_insert_eq, Hm.
    - by rewrite lookup_alter_ne, lookup_insert_ne. }
  split.
  { intros o. unfold file_byte, byte_at, page_for. simpl.
    unfold ino. rewrite lookup_alter_eq, Hm. simpl. done. }
  split; [|done].
  split; [|split]; simpl.
  - intros fd info'. rewrite Hlk. destruct (decide (fd ∈ s)) as [Hin|Hnin].
    + intros [= <-]. simpl. fold ino in Hs. rewrite Hs. simpl. split; [|done].
      destruct (Hopen _ _ Hs) as [_ Hall]. specialize (Hall fd Hin). simpl in Hall.
      destruct (fd_info_map w !! fd) as [info0|] eqn:E; [|done].
      by destruct (Hinfo fd info0 E).
    + apply Hinfo.
  - intros i s' Hs'. destruct (Hopen i s' Hs') as [Hne Hall]. split; [done|].
    intros x Hx. rewrite Hlk. specialize (Hall x Hx). simpl in Hall.
    destruct (decide (x ∈ s)) as [Hin|Hnin]; [|done]. simpl.
    destruct (Hopen _ _ Hs) as [_ Hall']. specialize (Hall' x Hin). simpl in Hall'.
    unfold ino. congruence.
  - intros x Hx. rewrite Hlk. destruct (decide (x ∈ s)); [eauto|]. by apply Hsync.
Qed.

Lemma unlink_open_file_moves_it_witness :
  ∃ w', unlink "/f" "20240101T000000" (three_pages XFS) = (w', Returned (Some 0)) ∧
        host w' !! "/root/f"%string = None ∧
        fd_info_map w' !! 4
        = Some {| fd_inode := 7;
                  fd_path := "/meta/to_be_deleted/file_20240101T000000" |}.
Proof.
  set (w := three_pages XFS).
  assert (Hp : realpath "/f" w = (w, Returned "/root/f"%string)) by (vm_compute; reflexivity).
  destruct (host w !! "/root/f"%string) as [f|] eqn:Hf;
    [|exfalso; revert Hf; vm_compute; discriminate].
  assert (Hino : Host.st_ino f = 7).
  { revert Hf. vm_compute. by intros [= <-]. }
  assert (Hs : inode_to_open_fds_map w !! Host.st_ino f = Some {[4]}).
  { rewrite Hino. vm_compute; reflexivity. }
  destruct (minode_map w !! Host.st_ino f) as [m|] eqn:Hm;
    [|exfalso; revert Hm; rewrite Hino; vm_compute; discriminate].
  destruct (unlink_open_file_moves_it w "/f" "20240101T000000" "/root/f" f {[4]} m
              Hp Hf Hs Hm ltac:(decide_by_compute))
    as (w' & Hrun & Hhost & Hfds & _).
  exists w'. split; [exact Hrun|]. split.
  - rewrite Hhost. rewrite lookup_insert_ne by (vm_compute; discriminate).
    apply lookup_delete_eq.
  - rewrite Hfds. rewrite decide_True by (by apply elem_of_singleton).
    by rewrite Hino.
Defined.

(** X21: a file that was unlinked while open is never removed.  Take the
    last descriptor of an inode whose metadata file waits in the
    to-be-deleted folder, the inode being in the page cache.  [release] of
    it does not return: under the path the descriptor is known by it raises
    [NameError] at [self.page_cache.remove(inode)], after the descriptor has
    left the tables and the blocks of the file have gone to the free list;
    under any other path it raises [AssertionError] and the descriptor stays
    in [fd_info_map].  Either way the file stays in the to-be-deleted folder
    and the inode, with its block map, in the page cache. *)
Theorem release_of_unlinked_never_returns w path fd info m p :
  fd_info_map w !! fd = Some info →
  inode_to_open_fds_map w !! fd_inode info = Some {[fd]} →
  minode_map w !! fd_inode info = Some m →
  parent (fd_path info) = to_be_deleted w →
  realpath path w = (w, Returned p) →
  let w' := state_after (release path fd) w in
  outcome_of (release path fd) w
    = Raised (if String.eqb p (fd_path info) then NameError else AssertionError) ∧
  host w' = host w ∧ minode_map w' = minode_map w ∧
  (p = fd_path info →
   fd_info_map w' = delete fd (fd_info_map w) ∧
   inode_to_open_fds_map w' = delete (fd_inode info) (inode_to_open_fds_map w) ∧
   BlockManager.free_list (block_manager w')
   = BlockManager.free_list (block_manager w)
       ++ PyDict.values (MemInode.offset_to_block m)) ∧
  (p ≠ fd_path info → fd_info_map w' = fd_info_map w).
Proof.
  intros Hfd Hs Hm Hpar Hp w'.
  assert (Hrun : ∃ wr,
    release path fd w
    = (wr, Raised (if String.eqb p (fd_path info) then NameError else AssertionError)) ∧
    host wr = host w ∧ minode_map wr = minode_map w ∧
    (p = fd_path info →
     fd_info_map wr = delete fd (fd_info_map w) ∧
     inode_to_open_fds_map wr = delete (fd_inode info) (inode_to_open_fds_map w) ∧
     BlockManager.free_list (block_manager wr)
     = BlockManager.free_list (block_manager w)
         ++ PyDict.values (MemInode.offset_to_block m)) ∧
    (p ≠ fd_path info → fd_info_map wr = fd_info_map w)).
  { destruct (String.eqb_spec p (fd_path info)) as [->|Hne].
    - rewrite (release_steps w path fd info {[fd]} Hfd Hp Hs)
        by (by apply elem_of_singleton).
      assert (Hsz : (size (({[fd]} : gset Z) ∖ {[fd]}) =? 0)%nat = true).
      { apply size_zero_iff. set_solver. }
      rewrite Hsz. simpl.
      unfold bind at 1. unfold modify at 1. unfold bind at 1. unfold gets at 1.
      cbn [to_be_deleted set_inode_to_open_fds_map released set_failed_inodes_fd_map
           set_fd_info_map set_sync_fds].
      rewrite Hpar, String.eqb_refl. simpl.
      unfold bind at 1. unfold page_cache_get at 1. unfold bind at 1. unfold gets at 1.
      cbn [minode_map set_inode_to_open_fds_map set_failed_inodes_fd_map
           set_fd_info_map set_sync_fds released]. rewrite Hm. unfold ret at 1.
      unfold bind at 1. unfold bind at 1. unfold get_minode at 1.
      cbn [minode_map set_inode_to_open_fds_map set_failed_inodes_fd_map
           set_fd_info_map set_sync_fds released]. rewrite Hm. unfold ret at 1.
      unfold bind at 1. rewrite dealloc_all_spec. simpl.
      eexists. split; [reflexivity|]. simpl.
      split; [done|]. split; [done|]. split; [|done].
      intros _. split; [done|]. split; [|done].
      apply map_eq. intros j. destruct (decide (j = fd_inode info)) as [->|Hj].
      + by rewrite !lookup_delete_eq.
      + by rewrite !lookup_delete_ne, lookup_insert_ne.
    - unfold release. unfold bind at 1. unfold gets at 1. rewrite Hfd.
      unfold bind at 1. unfold modify at 1.
      rewrite (bind_returned _ _ _ _ _
                 (realpath_root w (set_sync_fds (sync_fds w ∖ {[fd]}) w) path _ Hp eq_refl)).
      destruct (String.eqb_spec p (fd_path info)) as [|_]; [done|]. simpl.
      eexists. split; [reflexivity|]. simpl. done. }
  destruct Hrun as (wr & Hrun & Hrest).
  subst w'. unfold outcome_of, state_after. rewrite Hrun. simpl.
  split; [done|]. exact Hrest.
Qed.

Lemma release_of_unlinked_never_returns_witness :
  outcome_of (release "/f" 4)
    (state_after (unlink "/f" "20240101T000000") (three_pages XFS))
  = Raised AssertionError ∧
  host (state_after (release "/f" 4)
          (state_after (unlink "/f" "20240101T000000") (three_pages XFS)))
  = host (state_after (unlink "/f" "20240101T000000") (three_pages XFS)).
Proof.
  set (w := state_after (unlink "/f" "20240101T000000") (three_pages XFS)).
  destruct (minode_map w !! 7) as [m|] eqn:Hm;
    [|exfalso; revert Hm; vm_compute; discriminate].
  destruct (release_of_unlinked_never_returns w "/f" 4
              {| fd_inode := 7; fd_path := "/meta/to_be_deleted/file_20240101T000000" |}
              m "/root/f") as (Hrun & Hhost & _).
  - vm_compute; reflexivity.
  - vm_compute; reflexivity.
  - exact Hm.
  - vm_compute; reflexivity.
  - vm_compute; reflexivity.
  - split; [exact Hrun|exact Hhost].
Defined.

(** [unlink] of a file no descriptor is open on, as a state transformer. *)
Lemma unlink_closed_run w path ts p f :
  realpath path w = (w, Returned p) → host w !! p = Some f →
  inode_to_open_fds_map w !! Host.st_ino f = None →
  unlink path ts w
  = (set_host (delete p (host w))
       (set_minode_map (delete (Host.st_ino f) (minode_map w))
          (set_block_manager
             (BlockManager.set_free_list
                (BlockManager.free_list (block_manager w)
                   ++ PyDict.values
                        (match minode_map w !! Host.st_ino f with
                         | Some m => MemInode.offset_to_block m
                         | None => Meta.offset_to_block (Host.text f)
                         end))
                (block_manager w)) w)), Returned None).
Proof.
  intros Hp Hf Hs. set (ino := Host.st_ino f) in *.
  unfold unlink. rewrite (bind_returned _ _ _ _ _ Hp).
  unfold bind at 1. unfold stat_ino at 1. rewrite Hf.
  unfold bind at 1. unfold gets at 1. fold ino. rewrite Hs.
  rewrite bool_decide_eq_false_2 by (by intros [? ?]).
  unfold bind at 1. unfold page_cache_get at 1. unfold bind at 1. unfold gets at 1.
  unfold ret at 1.
  destruct (minode_map w !! ino) as [m|] eqn:Hm.
  - unfold bind at 1. unfold bind at 1. unfold get_minode at 1. rewrite Hm.
    unfold ret at 1. unfold bind at 1. rewrite dealloc_all_spec.
    unfold os_unlink, page_cache_remove, bind, modify, gets, ret. simpl.
    by rewrite Hf.
  - unfold bind at 1. unfold bind at 1. unfold MemInode_init at 1.
    unfold bind at 1. unfold read_meta at 1. rewrite Hf. unfold ret at 1.
    unfold ret at 1. unfold bind at 1. rewrite dealloc_all_spec.
    unfold os_unlink, page_cache_remove, bind, modify, gets, ret. simpl.
    by rewrite Hf.
Qed.

(** X22: [unlink] of a file no descriptor is open on.  The call returns
    (with the [None] of [os.unlink]); the metadata file is gone from the
    underlying file system and the inode from the page cache, dirty pages
    included; the blocks of the file go to the end of the free list, those
    of the block map in memory when the inode was cached and those of the
    metadata file otherwise; the backing file, the pages and the fd tables
    are untouched.  When the inode was cached and no block had two owners,
    no block has two owners afterwards. *)
Theorem unlink_closed_file w path ts p f :
  realpath path w = (w, Returned p) → host w !! p = Some f →
  inode_to_open_fds_map w !! Host.st_ino f = None →
  let ino := Host.st_ino f in
  let blocks :=
    PyDict.values (match minode_map w !! ino with
                   | Some m => MemInode.offset_to_block m
                   | None => Meta.offset_to_block (Host.text f)
                   end) in
  ∃ w', unlink path ts w = (w', Returned None) ∧
        host w' = delete p (host w) ∧
        minode_map w' = delete ino (minode_map w) ∧
        BlockManager.free_list (block_manager w')
        = BlockManager.free_list (block_manager w) ++ blocks ∧
        BlockManager.fp (block_manager w') = BlockManager.fp (block_manager w) ∧
        pages w' = pages w ∧ fd_info_map w' = fd_info_map w ∧
        inode_to_open_fds_map w' = inode_to_open_fds_map w ∧
        (is_Some (minode_map w !! ino) → blocks_owned_once w → blocks_owned_once w').
Proof.
  intros Hp Hf Hs ino blocks.
  pose proof (unlink_closed_run w path ts p f Hp Hf Hs) as Hrun. fold ino in Hrun.
  eexists. split; [exact Hrun|]. simpl.
  split; [done|]. split; [done|]. split; [done|]. split; [done|].
  split; [done|]. split; [done|]. split; [done|].
  intros [m Hm] (Hex & Hnd & Hinodes). subst blocks. rewrite Hm.
  destruct (Hinodes ino m Hm) as [Hndm Hdisj].
  split; [|split].
  - intros j m' Hl. simpl in Hl. apply lookup_delete_Some in Hl as [Hne Hm']. simpl.
    apply Forall_forall. intros b Hb [Hin|Hin]%elem_of_app.
    + specialize (Hex j m' Hm'). simpl in Hex. rewrite Forall_forall in Hex.
      by apply (Hex b).
    + destruct (Hinodes j m' Hm') as [_ Hd]. destruct (Hd ino m Hm) as [Heq|Hd'].
      * by subst j.
      * rewrite Forall_forall in Hd'. by apply (Hd' b).
  - simpl. apply NoDup_app. split; [done|]. split; [|done].
    intros b Hfree Hb. specialize (Hex ino m Hm). simpl in Hex.
    rewrite Forall_forall in Hex. by apply (Hex b).
  - intros j m' Hl. simpl in Hl. apply lookup_delete_Some in Hl as [Hne Hm'].
    destruct (Hinodes j m' Hm') as [Hndj Hd]. split; [done|].
    intros k m'' Hl. simpl in Hl. apply lookup_delete_Some in Hl as [Hnek Hm''].
    by apply Hd.
Qed.

Lemma unlink_closed_file_witness :
  ∃ w', unlink "/f" "20240101T000000" (state_after (release "/f" 4) (three_pages XFS))
        = (w', Returned None) ∧
        host w' !! "/root/f"%string = None ∧
        minode_map w' !! 7 = None ∧
        blocks_owned_once w'.
Proof.
  set (w := state_after (release "/f" 4) (three_pages XFS)).
  assert (Hp : realpath "/f" w = (w, Returned "/root/f"%string)) by (vm_compute; reflexivity).
  destruct (host w !! "/root/f"%string) as [f|] eqn:Hf;
    [|exfalso; revert Hf; vm_compute; discriminate].
  assert (Hino : Host.st_ino f = 7).
  { revert Hf. vm_compute. by intros [= <-]. }
  assert (Hs : inode_to_open_fds_map w !! Host.st_ino f = None).
  { rewrite Hino. vm_compute; reflexivity. }
  destruct (unlink_closed_file w "/f" "20240101T000000" "/root/f" f Hp Hf Hs)
    as (w' & Hrun & Hhost & Hmm & _ & _ & _ & _ & _ & Hown).
  exists w'. split; [exact Hrun|]. split; [|split].
  - rewrite Hhost. apply lookup_delete_eq.
  - rewrite Hmm, Hino. apply lookup_delete_eq.
  - apply Hown.
    + rewrite Hino. vm_compute. eauto.
    + decide_by_compute.
Defined.

(** ** Renaming *)

(** X23: [rename] to a name that is free.  When [old] exists, [new] does
    not and the fd tables agree, [rename] returns; the metadata file is
    under the new name, with its inode number; a cached inode has the new
    real path and keeps the [path] it was loaded under, the one the block
    manager looks faults up by; the descriptors open on a cached inode, and
    no others, are told the new path; the file reads as before at every
    offset, the fd tables agree again, and the block manager, the pages and
    the other inodes are untouched. *)
Theorem rename_moves_file w old new ts p_old p_new f :
  realpath old w = (w, Returned p_old) → realpath new w = (w, Returned p_new) →
  host w !! p_old = Some f → host w !! p_new = None →
  fd_tables_ok w →
  let ino := Host.st_ino f in
  let fds := if bool_decide (is_Some (minode_map w !! ino))
             then default ∅ (inode_to_open_fds_map w !! ino) else ∅ in
  ∃ w', rename old new ts w = (w', Returned tt) ∧
        host w' = <[p_new := f]> (delete p_old (host w)) ∧
        minode_map w' = alter (MemInode.set_realpath p_new) ino (minode_map w) ∧
        (∀ fd, fd_info_map w' !! fd
               = if decide (fd ∈ fds) then Some {| fd_inode := ino; fd_path := p_new |}
                 else fd_info_map w !! fd) ∧
        (∀ o, file_byte w' ino o = file_byte w ino o) ∧
        fd_tables_ok w' ∧
        block_manager w' = block_manager w ∧ pages w' = pages w ∧
        inode_to_open_fds_map w' = inode_to_open_fds_map w ∧
        sync_fds w' = sync_fds w ∧ last_fd_alloced w' = last_fd_alloced w ∧
        failed_inodes_fd_map w' = failed_inodes_fd_map w.
Proof.
  intros Hold Hnew Hf Hn (Hinfo & Hopen & Hsync) ino fds.
  unfold rename. rewrite (bind_returned _ _ _ _ _ Hold).
  rewrite (bind_returned _ _ _ _ _ Hnew).
  unfold bind at 1. unfold stat_ino at 1. rewrite Hf.
  unfold bind at 1. unfold gets at 1. rewrite Hn.
  rewrite bool_decide_eq_false_2 by (by intros [? ?]).
  unfold when at 1. rewrite bind_ret.
  rewrite (bind_returned _ _ _ _ _ (page_cache_contains_spec w _)). fold ino.
  assert (Hlk : ∀ fd,
    foldr (λ fd m0, <[fd := {| fd_inode := ino; fd_path := p_new |}]> m0)
      (fd_info_map w) (elements (default ∅ (inode_to_open_fds_map w !! ino))) !! fd
    = if decide (fd ∈ default ∅ (inode_to_open_fds_map w !! ino))
      then Some {| fd_inode := ino; fd_path := p_new |}
      else fd_info_map w !! fd) by (intros fd; apply lookup_set_fd_infos).
  assert (Htables : ∀ fim : gmap Z FDInfo,
    (∀ fd, fim !! fd
           = if decide (fd ∈ default ∅ (inode_to_open_fds_map w !! ino))
             then Some {| fd_inode := ino; fd_path := p_new |}
             else fd_info_map w !! fd) →
    map_Forall (λ fd info, fd ≤ last_fd_alloced w ∧
                  fd ∈ default ∅ (inode_to_open_fds_map w !! fd_inode info)) fim ∧
    map_Forall (λ inode s, s ≠ ∅ ∧
                  set_Forall (λ fd, fd_inode <$> fim !! fd = Some inode) s)
      (inode_to_open_fds_map w) ∧
    set_Forall (λ fd, is_Some (fim !! fd)) (sync_fds w)).
  { intros fim Hfim. split; [|split].
    - intros fd info'. rewrite Hfim.
      destruct (decide (fd ∈ default ∅ (inode_to_open_fds_map w !! ino))) as [Hin|Hnin].
      + intros [= <-]. simpl. split; [|done].
        destruct (inode_to_open_fds_map w !! ino) as [s|] eqn:Hs;
          [|by apply elem_of_empty in Hin].
        destruct (Hopen _ _ Hs) as [_ Hall]. specialize (Hall fd Hin). simpl in Hall.
        destruct (fd_info_map w !! fd) as [info0|] eqn:E; [|done].
        by destruct (Hinfo fd info0 E).
      + apply Hinfo.
    - intros i s' Hs'. destruct (Hopen i s' Hs') as [Hne Hall]. split; [done|].
      intros x Hx. rewrite Hfim. specialize (Hall x Hx). simpl in Hall.
      destruct (decide (x ∈ default ∅ (inode_to_open_fds_map w !! ino)))
        as [Hin|Hnin]; [|done]. simpl.
      destruct (inode_to_open_fds_map w !! ino) as [s|] eqn:Hs;
        [|by apply elem_of_empty in Hin].
      destruct (Hopen _ _ Hs) as [_ Hall']. specialize (Hall' x Hin). simpl in Hall'.
      congruence.
    - intros x Hx. rewrite Hfim.
      destruct (decide (x ∈ default ∅ (inode_to_open_fds_map w !! ino))); [eauto|].
      by apply Hsync. }
  subst fds.
  destruct (minode_map w !! ino) as [m|] eqn:Hm.
  - rewrite bool_decide_eq_true_2 by eauto. simpl.
    unfold bind at 1. unfold page_cache_get at 1. unfold bind at 1. unfold gets at 1.
    rewrite Hm. unfold ret at 1.
    unfold update_minode, set_fd_infos, os_rename, bind, modify, gets. simpl.
    rewrite Hf. simpl. eexists. split; [reflexivity|]. simpl.
    split; [done|]. split; [done|]. split; [exact Hlk|]. split.
    { intros o. unfold file_byte, byte_at, page_for. simpl.
      rewrite lookup_alter_eq, Hm. simpl. done. }
    split; [|done]. apply (Htables _ Hlk).
  - rewrite bool_decide_eq_false_2 by (by intros [? ?]). simpl.
    unfold os_rename, bind, modify, gets. simpl. rewrite Hf. simpl.
    eexists. split; [reflexivity|]. simpl. split; [done|]. split.
    { apply map_eq. intros j. destruct (decide (j = ino)) as [->|Hne].
      - by rewrite lookup_alter_eq, Hm.
      - by rewrite lookup_alter_ne. }
    split.
    { intros fd. destruct (decide (fd ∈ ∅)) as [Hin|_]; [|done].
      by apply elem_of_empty in Hin. }
    split; [done|]. split; [|done].
    split; [|split]; simpl; done.
Qed.

Lemma rename_moves_file_witness :
  ∃ w', rename "/f" "/g" "20240101T000000" (three_pages Ext4Ordered) = (w', Returned tt) ∧
        host w' !! "/root/f"%string = None ∧
        fd_info_map w' !! 4 = Some {| fd_inode := 7; fd_path := "/root/g" |} ∧
        MemInode.path <$> minode_map w' !! 7 = Some "/f"%string.
Proof.
  set (w := three_pages Ext4Ordered).
  assert (Hold : realpath "/f" w = (w, Returned "/root/f"%string))
    by (vm_compute; reflexivity).
  assert (Hnew : realpath "/g" w = (w, Returned "/root/g"%string))
    by (vm_compute; reflexivity).
  destruct (host w !! "/root/f"%string) as [f|] eqn:Hf;
    [|exfalso; revert Hf; vm_compute; discriminate].
  assert (Hino : Host.st_ino f = 7).
  { revert Hf. vm_compute. by intros [= <-]. }
  assert (Hn : host w !! "/root/g"%string = None) by (vm_compute; reflexivity).
  destruct (rename_moves_file w "/f" "/g" "20240101T000000" "/root/f" "/root/g" f
              Hold Hnew Hf Hn ltac:(decide_by_compute))
    as (w' & Hrun & Hhost & Hmm & Hfds & _).
  exists w'. split; [exact Hrun|]. split; [|split].
  - rewrite Hhost. rewrite lookup_insert_ne by (vm_compute; discriminate).
    apply lookup_delete_eq.
  - rewrite Hfds, Hino. vm_compute. reflexivity.
  - rewrite Hmm, Hino, lookup_alter_eq. vm_compute. reflexivity.
Defined.

(** X24: [rename] of a file onto itself destroys it.  When [old] and [new]
    resolve to the same existing file and no descriptor is open on it,
    [rename] first unlinks the target, which is the file itself, and then
    finds nothing to rename: it raises [FileNotFoundError]; the metadata
    file is gone, the inode is out of the page cache, and the blocks of the
    file are in the free list. *)
Theorem rename_onto_itself_destroys w old new ts p f :
  realpath old w = (w, Returned p) → realpath new w = (w, Returned p) →
  host w !! p = Some f → inode_to_open_fds_map w !! Host.st_ino f = None →
  let ino := Host.st_ino f in
  let w' := state_after (rename old new ts) w in
  outcome_of (rename old new ts) w = Raised FileNotFoundError ∧
  host w' = delete p (host w) ∧
  minode_map w' = delete ino (minode_map w) ∧
  BlockManager.free_list (block_manager w')
  = BlockManager.free_list (block_manager w)
      ++ PyDict.values (match minode_map w !! ino with
                        | Some m => MemInode.offset_to_block m
                        | None => Meta.offset_to_block (Host.text f)
                        end).
Proof.
  intros Hold Hnew Hf Hs ino w'.
  pose proof (unlink_closed_run w new ts p f Hnew Hf Hs) as Hun. fold ino in Hun.
  assert (Hrun : ∃ wr, rename old new ts w = (wr, Raised FileNotFoundError) ∧
                       wr = (unlink new ts w).1).
  { unfold rename. rewrite (bind_returned _ _ _ _ _ Hold).
    rewrite (bind_returned _ _ _ _ _ Hnew).
    unfold bind at 1. unfold stat_ino at 1. rewrite Hf.
    unfold bind at 1. unfold gets at 1. rewrite Hf.
    rewrite bool_decide_eq_true_2 by eauto.
    unfold when at 1. unfold bind at 1. unfold bind at 1. rewrite Hun.
    unfold ret at 1.
    rewrite (bind_returned _ _ _ _ _ (page_cache_contains_spec _ _)).
    cbn [minode_map set_host set_minode_map]. fold ino. rewrite lookup_delete_eq.
    rewrite bool_decide_eq_false_2 by (by intros [? ?]). simpl.
    unfold os_rename, bind, gets. simpl. rewrite lookup_delete_eq.
    eexists. split; reflexivity. }
  destruct Hrun as (wr & Hrun & ->).
  subst w'. unfold outcome_of, state_after. rewrite Hrun, Hun. simpl. done.
Qed.

Lemma rename_onto_itself_destroys_witness :
  outcome_of (rename "/f" "/f" "20240101T000000")
    (state_after (release "/f" 4) (three_pages XFS)) = Raised FileNotFoundError ∧
  host (state_after (rename "/f" "/f" "20240101T000000")
          (state_after (release "/f" 4) (three_pages XFS))) !! "/root/f"%string = None.
Proof.
  set (w := state_after (release "/f" 4) (three_pages XFS)).
  assert (Hp : realpath "/f" w = (w, Returned "/root/f"%string)) by (vm_compute; reflexivity).
  destruct (host w !! "/root/f"%string) as [f|] eqn:Hf;
    [|exfalso; revert Hf; vm_compute; discriminate].
  assert (Hino : Host.st_ino f = 7).
  { revert Hf. vm_compute. by intros [= <-]. }
  assert (Hs : inode_to_open_fds_map w !! Host.st_ino f = None).
  { rewrite Hino. vm_compute; reflexivity. }
  destruct (rename_onto_itself_destroys w "/f" "/f" "20240101T000000" "/root/f" f
              Hp Hp Hf Hs) as (Hrun & Hhost & _).
  split; [exact Hrun|]. rewrite Hhost. apply lookup_delete_eq.
Defined.

(** ** Evicting the clean pages *)

Lemma clean_offsets_spec w items :
  Forall (λ l, is_Some (pages w !! l)) (PyDict.values items) →
  clean_offsets items w = (w, Returned (clean_keys w items)).
Proof.
  unfold clean_keys, PyDict.values.
  induction items as [|[o l] items IH]; intros H; [done|].
  apply Forall_cons in H as [[pg Hpg] H]. simpl in Hpg.
  cbn [clean_offsets]. unfold bind at 1. unfold get_page at 1. rewrite Hpg.
  rewrite (bind_returned _ _ _ _ _ (IH H)). unfold ret. cbn [List.filter].
  assert (Hd : dirtyb w (o, l).2 = Page.flag_dirty pg)
    by (unfold dirtyb; simpl; by rewrite Hpg).
  rewrite Hd. by destruct (Page.flag_dirty pg).
Qed.

Lemma set_minode_map_twice a b w :
  set_minode_map a (set_minode_map b w) = set_minode_map a w.
Proof. done. Qed.

Lemma evict_each_spec w : ∀ inodes mm,
  NoDup inodes → pages_exist w →
  (∀ i, i ∈ inodes → mm !! i = minode_map w !! i ∧ is_Some (minode_map w !! i)) →
  ∃ mm', evict_each inodes (set_minode_map mm w) = (set_minode_map mm' w, Returned tt) ∧
         ∀ i, mm' !! i = if decide (i ∈ inodes) then evicted w <$> minode_map w !! i
                         else mm !! i.
Proof.
  induction inodes as [|i inodes IH]; intros mm Hnd Hex Hsame.
  - exists mm. split; [done|]. intros i.
    destruct (decide (i ∈ [])) as [Hin|_]; [by apply elem_of_nil in Hin|done].
  - apply NoDup_cons in Hnd as [Hni Hnd].
    destruct (Hsame i ltac:(left)) as [Hi [m Hm]]. rewrite Hm in Hi.
    assert (Hone : evict_minode i (set_minode_map mm w)
                   = (set_minode_map (<[i := evicted w m]> mm) w, Returned tt)).
    { unfold evict_minode. unfold bind at 1. unfold get_minode at 1.
      cbn [minode_map set_minode_map]. rewrite Hi.
      rewrite (bind_returned _ _ _ _ _
                 (clean_offsets_spec (set_minode_map mm w) _ (Hex i m Hm))).
      unfold update_minode, modify. cbn [minode_map set_minode_map].
      rewrite set_minode_map_twice. do 2 f_equal.
      apply map_eq. intros j. destruct (decide (j = i)) as [->|Hne].
      - by rewrite lookup_alter_eq, lookup_insert_eq, Hi.
      - by rewrite lookup_alter_ne, lookup_insert_ne. }
    destruct (IH (<[i := evicted w m]> mm) Hnd Hex) as (mm' & Hrun & Hmm').
    { intros j Hj. rewrite lookup_insert_ne by (intros ->; done).
      apply Hsame. by right. }
    exists mm'. split.
    + cbn [evict_each]. by rewrite (bind_returned _ _ _ _ _ Hone).
    + intros j. rewrite Hmm'.
      destruct (decide (j ∈ inodes)) as [Hin|Hnin].
      * rewrite decide_True; [done|by right].
      * destruct (decide (j = i)) as [->|Hne].
        -- rewrite decide_True by (by left). by rewrite lookup_insert_eq, Hm.
        -- rewrite decide_False; [by rewrite lookup_insert_ne|].
           by intros [?|?]%elem_of_cons.
Qed.

Lemma dict_get_elem_of {V} (d : PyDict.t V) k v :
  PyDict.get k d = Some v → (k, v) ∈ d.
Proof.
  induction d as [|[k' v'] d IH]; simpl; [done|].
  destruct (Z.eqb_spec k k') as [->|Hne].
  - intros [= ->]. by left.
  - intros H. right. by apply IH.
Qed.

Lemma dict_elem_of_get {V} (d : PyDict.t V) k v :
  keys_once d → (k, v) ∈ d → PyDict.get k d = Some v.
Proof.
  unfold keys_once, PyDict.keys.
  induction d as [|[k' v'] d IH]; simpl; [by intros _ ?%elem_of_nil|].
  intros [Hnotin Hnd]%NoDup_cons [Heq|Hin]%elem_of_cons.
  - injection Heq as -> ->. by rewrite Z.eqb_refl.
  - destruct (Z.eqb_spec k k') as [->|Hne]; [|by apply IH].
    exfalso. apply Hnotin. apply list_elem_of_In, in_map_iff.
    exists (k', v). split; [done|]. by apply list_elem_of_In.
Qed.

(** What is left of a page map once the clean pages are popped. *)
Lemma get_evicted w (d : PyDict.t loc) o :
  keys_once d →
  PyDict.get o (pop_all (clean_keys w d) d)
  = match PyDict.get o d with
    | Some l => if dirtyb w l then Some l else None
    | None => None
    end.
Proof.
  intros Hk. rewrite dict_get_pop_all.
  destruct (decide (o ∈ clean_keys w d)) as [Hin|Hnin].
  - unfold clean_keys in Hin.
    apply list_elem_of_fmap in Hin as ([o' l] & -> & Hin). simpl.
    apply list_elem_of_In, filter_In in Hin as [Hin Hd]. simpl in Hd.
    rewrite (dict_elem_of_get d o' l Hk) by (by apply list_elem_of_In).
    by destruct (dirtyb w l).
  - destruct (PyDict.get o d) as [l|] eqn:Hg; [|done].
    destruct (dirtyb w l) eqn:Hd; [done|]. exfalso. apply Hnin.
    unfold clean_keys. apply list_elem_of_fmap. exists (o, l). split; [done|].
    apply list_elem_of_In, filter_In. split.
    + by apply list_elem_of_In, dict_get_elem_of.
    + simpl. by rewrite Hd.
Qed.

(** [_command_evict_clean_pages] as a state transformer. *)
Lemma evict_clean_pages_run w :
  pages_exist w →
  _command_evict_clean_pages w
  = (set_minode_map (evicted w <$> minode_map w) w, Returned tt).
Proof.
  intros Hex. unfold _command_evict_clean_pages. unfold bind at 1. unfold gets at 1.
  destruct (evict_each_spec w (map_to_list (minode_map w)).*1 (minode_map w))
    as (mm' & Hrun & Hmm').
  - apply NoDup_fst_map_to_list.
  - exact Hex.
  - intros i Hi. split; [done|].
    apply list_elem_of_fmap in Hi as ([i' m] & -> & Hi). simpl.
    apply elem_of_map_to_list in Hi. eauto.
  - assert (Hw : set_minode_map (minode_map w) w = w) by (by destruct w).
    rewrite Hw in Hrun. rewrite Hrun. do 2 f_equal.
    apply map_eq. intros i. rewrite Hmm', lookup_fmap.
    destruct (decide (i ∈ (map_to_list (minode_map w)).*1)) as [|Hnin]; [done|].
    destruct (minode_map w !! i) as [m|] eqn:Hm; [|done].
    exfalso. apply Hnin. apply list_elem_of_fmap. exists (i, m). split; [done|].
    by apply elem_of_map_to_list.
Qed.

(** The bytes of a file once its clean pages are evicted. *)
Lemma evicted_file_byte w i m o :
  pages_exist w → minode_map w !! i = Some m →
  keys_once (MemInode.offset_to_page m) →
  file_byte (set_minode_map (evicted w <$> minode_map w) w) i o
  = match page_for w i o with
    | Some pg => if Page.flag_dirty pg then byte_at w i o else disk_byte w m o
    | None => disk_byte w m o
    end.
Proof.
  intros Hex Hm Hk. unfold file_byte, byte_at, page_for.
  cbn [minode_map set_minode_map pages]. rewrite lookup_fmap, Hm. simpl.
  rewrite get_evicted by done.
  destruct (PyDict.get (o / PAGE_SZ * PAGE_SZ) (MemInode.offset_to_page m))
    as [l|] eqn:Hg; simpl; [|done].
  specialize (Hex i m Hm). simpl in Hex. rewrite Forall_forall in Hex.
  destruct (Hex l) as [pg Hpg].
  { apply list_elem_of_In, in_map_iff. exists (o / PAGE_SZ * PAGE_SZ, l).
    split; [done|]. by apply list_elem_of_In, dict_get_elem_of. }
  unfold dirtyb. rewrite Hpg. simpl.
  destruct (Page.flag_dirty pg); [|done]. simpl. by rewrite Hpg.
Qed.

(** X25: what evicting the clean pages does to what a file reads.  When
    the references of the page maps name pages, [evict-clean-pages]
    returns and changes nothing but the page maps of the cached inodes.  Of
    every cached inode the dirty pages stay and the clean ones go: a byte
    whose page was dirty reads as before, and every other byte of the file
    reads as the backing file has it, the byte of the mapped block or zero
    where no block is mapped, whatever the evicted page held. *)
Theorem evict_clean_pages_reads w :
  pages_exist w →
  ∃ w', _command_evict_clean_pages w = (w', Returned tt) ∧
        w' = set_minode_map (minode_map w') w ∧
        ∀ i m, minode_map w !! i = Some m →
          ∃ m', minode_map w' !! i = Some m' ∧
                m' = MemInode.set_offset_to_page (MemInode.offset_to_page m') m ∧
                (keys_once (MemInode.offset_to_page m) →
                 ∀ o, file_byte w' i o
                      = match page_for w i o with
                        | Some pg => if Page.flag_dirty pg then byte_at w i o
                                     else disk_byte w m o
                        | None => disk_byte w m o
                        end).
Proof.
  intros Hex. eexists. split; [by apply evict_clean_pages_run|].
  split; [done|]. intros i m Hm. exists (evicted w m).
  cbn [minode_map set_minode_map]. rewrite lookup_fmap, Hm. simpl.
  split; [done|]. split; [done|].
  intros Hk o. by apply evicted_file_byte.
Qed.

Lemma evict_clean_pages_reads_witness :
  ∃ w', _command_evict_clean_pages
          (state_after (fsync "/f" 0 4) (overwritten Ext4Ordered)) = (w', Returned tt) ∧
        file_byte (state_after (fsync "/f" 0 4) (overwritten Ext4Ordered)) 7 4096
        = Some "x"%byte ∧
        file_byte w' 7 4096 = Some "b"%byte.
Proof.
  set (w := state_after (fsync "/f" 0 4) (overwritten Ext4Ordered)).
  destruct (evict_clean_pages_reads w ltac:(decide_by_compute))
    as (w' & Hrun & _ & Hfile).
  destruct (minode_map w !! 7) as [m|] eqn:Hm;
    [|exfalso; revert Hm; vm_compute; discriminate].
  destruct (Hfile 7 m Hm) as (m' & _ & _ & Hbytes).
  exists w'. split; [exact Hrun|]. split; [vm_compute; reflexivity|].
  pose proof Hm as Hm2. vm_compute in Hm2. injection Hm2 as <-.
  rewrite Hbytes.
  - vm_compute; reflexivity.
  - decide_by_compute.
Defined.

(** ** What a successful [fsync] makes durable *)

Lemma pread_lookup (file : bytes) (n off : Z) (k : nat) :
  0 ≤ off → (Z.of_nat k < n) →
  BlockManager.pread file n off !! k = file !! (Z.to_nat off + k)%nat.
Proof.
  intros Hoff Hk. unfold BlockManager.pread.
  rewrite lookup_take_lt by lia. by rewrite lookup_drop.
Qed.

Lemma pread_length_le (file : bytes) (n off : Z) :
  0 ≤ n → Z.of_nat (length (BlockManager.pread file n off)) ≤ n.
Proof. intros Hn. unfold BlockManager.pread. rewrite length_take. lia. Qed.

Lemma pwrite_lookup (file data : bytes) (off : Z) (j : nat) :
  0 ≤ off →
  BlockManager.pwrite file data off !! j =
  if decide (Z.of_nat j < off)
  then (file ++ zeros (off - Z.of_nat (length file))) !! j
  else if decide (Z.of_nat j < off + Z.of_nat (length data))
       then data !! (j - Z.to_nat off)%nat
       else file !! j.
Proof.
  intros Hoff. unfold BlockManager.pwrite.
  assert (Hlen : length (take (Z.to_nat off)
                           (file ++ zeros (off - Z.of_nat (length file))))
                 = Z.to_nat off).
  { rewrite length_take, length_app. unfold zeros. rewrite repeat_length. lia. }
  destruct (decide (Z.of_nat j < off)) as [Hlt|Hge].
  - rewrite lookup_app_l by lia. by rewrite lookup_take_lt by lia.
  - rewrite lookup_app_r by lia. rewrite Hlen.
    destruct (decide (Z.of_nat j < off + Z.of_nat (length data))) as [Hin|Hout].
    + by rewrite lookup_app_l by lia.
    + rewrite lookup_app_r by lia. rewrite lookup_drop. f_equal. lia.
Qed.

(** A write of a whole block leaves the other blocks of the file alone. *)
Lemma pread_pwrite_other (file data : bytes) (bn b : Z) :
  Z.of_nat (length data) = PAGE_SZ → 0 ≤ bn → 0 ≤ b → b ≠ bn →
  (b + 1) * PAGE_SZ ≤ Z.of_nat (length file) →
  BlockManager.pread (BlockManager.pwrite file data (bn * PAGE_SZ)) PAGE_SZ (b * PAGE_SZ)
  = BlockManager.pread file PAGE_SZ (b * PAGE_SZ).
Proof.
  intros Hlen Hbn Hb Hne Hfile. unfold PAGE_SZ in *.
  apply list_eq. intros k.
  destruct (decide (Z.of_nat k < 4096)) as [Hk|Hk].
  - rewrite !pread_lookup by lia. rewrite pwrite_lookup by lia.
    destruct (decide (Z.of_nat (Z.to_nat (b * 4096) + k) < bn * 4096)) as [Hlt|Hge].
    + by rewrite lookup_app_l by lia.
    + rewrite decide_False; [done|]. lia.
  - unfold BlockManager.pread. rewrite !lookup_take_ge by lia. done.
Qed.

Lemma pwrite_length (file data : bytes) (off : Z) :
  0 ≤ off →
  Z.of_nat (length (BlockManager.pwrite file data off))
  = Z.max (Z.of_nat (length file)) (off + Z.of_nat (length data)).
Proof.
  intros Hoff. unfold BlockManager.pwrite.
  rewrite !length_app, length_take, length_drop, length_app.
  unfold zeros. rewrite repeat_length. lia.
Qed.

(** [alloc_block] on a free list in order: the block it hands out was not
    in use, and the blocks in use stay in use. *)
Lemma alloc_block_in_use b :
  free_list_ok b → 0 ≤ BlockManager.largest_block_num b →
  ∃ b' block,
    BlockManager.alloc_block b = (b', Returned block) ∧
    ¬ in_use b block ∧ in_use b' block ∧
    (∀ x, in_use b x → in_use b' x) ∧
    free_list_ok b' ∧
    BlockManager.fp b' = BlockManager.fp b ∧ BlockManager.size b' = BlockManager.size b.
Proof.
  intros [Hnd Hbound] Hlarge. unfold in_use, free_list_ok.
  destruct (BlockManager.free_list b) as [|x fl _] eqn:Hfl using rev_ind.
  - exists (BlockManager.set_largest_block_num (BlockManager.largest_block_num b + 1) b),
      (BlockManager.largest_block_num b).
    split.
    { unfold BlockManager.alloc_block, bind, gets, modify, ret. simpl. by rewrite Hfl. }
    simpl. rewrite Hfl.
    split; [lia|]. split; [split; [lia|apply not_elem_of_nil]|].
    split; [intros y [Hr Hn]; split; [lia|apply not_elem_of_nil]|].
    split; [split; [apply NoDup_nil_2|done]|done].
  - exists (BlockManager.set_free_list fl b), x.
    split; [by apply alloc_block_pop|]. simpl.
    apply NoDup_app in Hnd as (Hndfl & Hdisj & _).
    apply Forall_app in Hbound as [Hbfl Hbx]. apply Forall_inv in Hbx.
    assert (Hx : x ∉ fl).
    { intros Hin. apply (Hdisj x Hin). apply list_elem_of_here. }
    split; [intros [_ Hn]; apply Hn; apply elem_of_app; right; apply list_elem_of_here|].
    split; [done|].
    split; [intros y [Hr Hn]; split; [done|]; intros Hy; apply Hn, elem_of_app; by left|].
    done.
Qed.

(** The first half of a round of [sync_pages]: the page gets its block,
    the one it had or one that no offset of the inode has. *)
Lemma sync_page_prepare_blocks w i l pg m :
  inode_ok w i → pages w !! l = Some pg → minode_map w !! i = Some m →
  blocks_private w i →
  ∃ w1 block m1,
    GenericFsync.sync_page_prepare i l w = (w1, Returned block) ∧
    minode_map w1 !! i = Some m1 ∧
    pages w1 = alter (Page.set_flag_dirty false) l (pages w) ∧
    MemInode.offset_to_page m1 = MemInode.offset_to_page m ∧
    MemInode.path m1 = MemInode.path m ∧
    PyDict.get (Page.offset pg) (MemInode.offset_to_block m1) = Some block ∧
    (∀ o, o ≠ Page.offset pg →
          PyDict.get o (MemInode.offset_to_block m1)
          = PyDict.get o (MemInode.offset_to_block m)) ∧
    (∀ b, b ∈ PyDict.values (MemInode.offset_to_block m1) →
          b = block ∨ b ∈ PyDict.values (MemInode.offset_to_block m)) ∧
    BlockManager.fp (block_manager w1) = BlockManager.fp (block_manager w) ∧
    BlockManager.size (block_manager w1) = BlockManager.size (block_manager w) ∧
    blocks_private w1 i.
Proof.
  intros Hok Hpg Hm Hbp.
  pose proof Hbp as [Hfl Hblocks]. rewrite Hm in Hblocks. destruct Hblocks as [Hnd Huse].
  unfold GenericFsync.sync_page_prepare.
  unfold bind at 1. unfold get_page at 1. rewrite Hpg.
  unfold bind at 1. unfold get_minode at 1. rewrite Hm.
  destruct (PyDict.get (Page.offset pg) (MemInode.offset_to_block m)) as [b|] eqn:Hg.
  - exists (set_pages (alter (Page.set_flag_dirty false) l (pages w)) w), b, m.
    split; [done|]. split; [done|]. split; [done|]. split; [done|]. split; [done|].
    split; [done|]. split; [done|]. split; [by right|]. split; [done|]. split; [done|].
    split; [done|]. cbn [minode_map set_pages]. rewrite Hm. done.
  - destruct Hok as (_ & _ & _ & Hlarge & _).
    destruct (alloc_block_in_use (block_manager w) Hfl Hlarge)
      as (b' & block & Halloc & Hfresh & Hnow & Hkeep & Hfl' & Hfp & Hsz).
    set (m1 := MemInode.set_offset_to_block
                 (PyDict.set (Page.offset pg) block (MemInode.offset_to_block m)) m).
    exists (set_pages (alter (Page.set_flag_dirty false) l (pages w))
              (set_minode_map (<[i := m1]> (minode_map w)) (set_block_manager b' w))),
      block, m1.
    assert (Hvals : PyDict.values (MemInode.offset_to_block m1)
                    = PyDict.values (MemInode.offset_to_block m) ++ [block])
      by (by apply dict_values_set_None).
    split.
    { unfold bind at 1. unfold bind at 1. unfold on_block_manager at 1. rewrite Halloc.
      unfold update_minode, update_page, bind, modify, ret. simpl. do 3 f_equal.
      apply map_eq. intros j. destruct (decide (j = i)) as [->|Hne].
      - by rewrite lookup_alter_eq, lookup_insert_eq, Hm.
      - by rewrite lookup_alter_ne, lookup_insert_ne. }
    cbn [minode_map set_pages set_minode_map block_manager set_block_manager pages].
    split; [by rewrite lookup_insert_eq|]. split; [done|]. split; [done|].
    split; [done|]. split; [apply dict_get_set_eq|].
    split; [intros o Ho; by apply dict_get_set_ne|].
    split.
    { intros b. rewrite Hvals. intros [Hin|Hin]%elem_of_app; [by right|].
      left. by apply list_elem_of_singleton in Hin. }
    split; [done|]. split; [done|].
    split; [done|]. cbn [minode_map set_pages set_minode_map block_manager
                          set_block_manager].
    rewrite lookup_insert_eq, Hvals. split.
    + apply NoDup_app. split; [done|]. split; [|apply NoDup_singleton].
      intros x Hx ->%list_elem_of_singleton. apply Hfresh.
      rewrite Forall_forall in Huse. by apply Huse.
    + apply Forall_app. split; [|by apply Forall_singleton].
      eapply Forall_impl; [exact Huse|]. intros x Hx. by apply Hkeep.
Qed.

(** [bwrite] moves the end of the data to the end of the block it wrote,
    and a write none of whose sectors failed puts the page in the block. *)
Lemma bwrite_size_fp b bnum data path logical_offset :
  Z.of_nat (length data) = PAGE_SZ → 0 ≤ bnum → seqs_ok b →
  let success := forallb (λ i, negb (sector_fails b path logical_offset i))
                   (BlockManager.range (PAGE_SZ / SECTOR_SZ)) in
  ∃ b',
    BlockManager.bwrite bnum data (path, logical_offset) b = (b', Returned success) ∧
    BlockManager.size b' = Z.max (BlockManager.size b) ((bnum + 1) * PAGE_SZ) ∧
    (success = true →
     BlockManager.fp b' = BlockManager.pwrite (BlockManager.fp b) data (bnum * PAGE_SZ)).
Proof.
  intros Hlen Hb Hok0 success.
  pose proof (proj1 (seqs_ok_iff b) Hok0) as Hok.
  destruct (bwrite_loop_spec path data bnum logical_offset 8 0 b true Hb (Hok path))
    as (b1 & Hrun & Hsz & Hfl & Hlg & Hlog & Hfp & Hseq).
  change (sectors_from 0 8) with (BlockManager.range (PAGE_SZ / SECTOR_SZ)) in *.
  replace (bnum * PAGE_SZ + Z.of_nat 0 * 512) with (bnum * PAGE_SZ) in Hrun by lia.
  replace (logical_offset + Z.of_nat 0 * 512) with logical_offset in Hrun by lia.
  rewrite andb_true_l in Hrun. fold success in Hrun.
  replace (bnum * PAGE_SZ + Z.of_nat (0 + 8) * 512) with ((bnum + 1) * PAGE_SZ) in Hrun
    by (unfold PAGE_SZ; lia).
  assert (Hwhole : success = true →
            BlockManager.fp b1 = BlockManager.pwrite (BlockManager.fp b) data (bnum * PAGE_SZ)).
  { intros Hs. rewrite Hfp. apply write_sectors_whole; [done|done|].
    intros i Hi. subst success. rewrite forallb_forall in Hs.
    apply negb_true_iff, Hs.
    change (BlockManager.range (PAGE_SZ / SECTOR_SZ)) with (sectors_from 0 8).
    apply list_elem_of_In, elem_of_sectors_from. exists (Z.to_nat i).
    change (PAGE_SZ / SECTOR_SZ) with 8 in Hi. split; lia. }
  unfold BlockManager.bwrite.
  assert (Ha : (Z.of_nat (length data) =? PAGE_SZ) = true) by by apply Z.eqb_eq.
  rewrite Ha. unfold assert, bind at 1, ret at 1.
  rewrite (bind_returned _ _ _ _ _ Hrun).
  unfold bind, modify, gets, when, ret. simpl.
  destruct ((bnum + 1) * PAGE_SZ >=? BlockManager.size b1) eqn:E;
    rewrite Z.geb_leb in E; [apply Z.leb_le in E|apply Z.leb_gt in E];
    (eexists; split; [reflexivity|]); simpl; (split; [lia|done]).
Qed.

(** The second half of a round of [sync_pages]: the block write. *)
Lemma sync_page_bwrite_disk w i l pg m block :
  inode_ok w i → pages w !! l = Some pg → minode_map w !! i = Some m → 0 ≤ block →
  ∃ b' bsuccess,
    GenericFsync.sync_page_bwrite i l block w
      = (set_block_manager b' w, Returned bsuccess) ∧
    inode_ok (set_block_manager b' w) i ∧
    BlockManager.log b' = BlockManager.log (block_manager w) ++
      [{| BlockManager.msg_block := block; BlockManager.msg_path := MemInode.path m;
          BlockManager.msg_offset := Page.offset pg;
          BlockManager.bio_success := bsuccess |}] ∧
    BlockManager.free_list b' = BlockManager.free_list (block_manager w) ∧
    BlockManager.largest_block_num b'
      = BlockManager.largest_block_num (block_manager w) ∧
    BlockManager.size b'
      = Z.max (BlockManager.size (block_manager w)) ((block + 1) * PAGE_SZ) ∧
    (bsuccess = true →
     BlockManager.fp b'
     = BlockManager.pwrite (BlockManager.fp (block_manager w)) (Page.content pg)
         (block * PAGE_SZ)).
Proof.
  intros Hok Hpg Hm Hb.
  destruct (sync_page_bwrite_spec w i l pg m block Hok Hpg Hm Hb)
    as (b' & bsuccess & Hrun & Hok' & _ & Hlog).
  pose proof Hok as (_ & Hlen & _ & _ & Hseq).
  specialize (Hlen l pg Hpg). simpl in Hlen.
  destruct (bwrite_spec (block_manager w) block (Page.content pg) (MemInode.path m)
              (Page.offset pg) Hlen Hb Hseq)
    as (b1 & Hrun1 & _ & _ & Hfl & Hlg & _ & _).
  destruct (bwrite_size_fp (block_manager w) block (Page.content pg) (MemInode.path m)
              (Page.offset pg) Hlen Hb Hseq) as (b2 & Hrun2 & Hsz & Hfp).
  set (succ := forallb (λ i0, negb (sector_fails (block_manager w) (MemInode.path m)
                                      (Page.offset pg) i0))
                  (BlockManager.range (PAGE_SZ / SECTOR_SZ))) in *.
  assert (Hb12 : b2 = b1) by congruence. subst b2.
  assert (Hsame : GenericFsync.sync_page_bwrite i l block w
                  = (set_block_manager b1 w, Returned succ)).
  { unfold GenericFsync.sync_page_bwrite. unfold bind at 1. unfold get_page at 1.
    rewrite Hpg. unfold bind at 1. unfold get_minode at 1. rewrite Hm.
    unfold on_block_manager. by rewrite Hrun1. }
  rewrite Hsame in Hrun.
  assert (Hbb : b' = b1).
  { assert (H := f_equal (λ x, block_manager x.1) Hrun). by simpl in H. }
  assert (Hsucc : bsuccess = succ) by congruence.
  subst b' bsuccess. exists b1, succ.
  split; [done|]. split; [done|]. split; [done|].
  split; [done|]. split; [done|]. split; [done|]. exact Hfp.
Qed.

Lemma sync_page_prepare_step w i l pg m :
  inode_ok w i → pages w !! l = Some pg → minode_map w !! i = Some m →
  blocks_private w i →
  ∃ w1 block m1,
    GenericFsync.sync_page_prepare i l w = (w1, Returned block) ∧
    0 ≤ block ∧ inode_ok w1 i ∧
    BlockManager.log (block_manager w1) = BlockManager.log (block_manager w) ∧
    minode_map w1 !! i = Some m1 ∧
    pages w1 = alter (Page.set_flag_dirty false) l (pages w) ∧
    MemInode.offset_to_page m1 = MemInode.offset_to_page m ∧
    MemInode.path m1 = MemInode.path m ∧
    PyDict.get (Page.offset pg) (MemInode.offset_to_block m1) = Some block ∧
    (∀ o, o ≠ Page.offset pg →
          PyDict.get o (MemInode.offset_to_block m1)
          = PyDict.get o (MemInode.offset_to_block m)) ∧
    (∀ b, b ∈ PyDict.values (MemInode.offset_to_block m1) →
          b = block ∨ b ∈ PyDict.values (MemInode.offset_to_block m)) ∧
    BlockManager.fp (block_manager w1) = BlockManager.fp (block_manager w) ∧
    BlockManager.size (block_manager w1) = BlockManager.size (block_manager w) ∧
    blocks_private w1 i.
Proof.
  intros Hok Hpg Hm Hbp.
  destruct (sync_page_prepare_spec w i l pg Hok Hpg)
    as (w1s & blocks & Hruns & Hnn & Hok1 & _ & _ & Hlogs).
  destruct (sync_page_prepare_blocks w i l pg m Hok Hpg Hm Hbp)
    as (w1 & block & m1 & Hrun & Hrest).
  assert (Hw : w1s = w1) by congruence. assert (Hb : blocks = block) by congruence.
  subst w1s blocks. exists w1, block, m1. done.
Qed.

Lemma blocks_private_ext w w' i :
  BlockManager.free_list (block_manager w') = BlockManager.free_list (block_manager w) →
  BlockManager.largest_block_num (block_manager w')
    = BlockManager.largest_block_num (block_manager w) →
  minode_map w' !! i = minode_map w !! i →
  blocks_private w i → blocks_private w' i.
Proof.
  unfold blocks_private, free_list_ok, in_use. intros -> -> ->. done.
Qed.

Lemma disk_page_ext w w' m m' o :
  BlockManager.fp (block_manager w') = BlockManager.fp (block_manager w) →
  PyDict.get o (MemInode.offset_to_block m') = PyDict.get o (MemInode.offset_to_block m) →
  disk_page w' m' o = disk_page w m o.
Proof. unfold disk_page. by intros -> ->. Qed.

(** The loop of [sync_pages] when every block write goes through: each
    page of the list is in its block afterwards, and what the backing file
    has for the other offsets of the inode is as before. *)
Lemma sync_pages_loop_disk i : ∀ ps w r m w' r' msgs,
  inode_ok w i → minode_map w !! i = Some m →
  blocks_private w i → blocks_on_file w i →
  NoDup ps →
  (∀ l, l ∈ ps → ∃ pg, pages w !! l = Some pg ∧ Page.flag_dirty pg = true) →
  (∀ l l' pg pg', l ∈ ps → l' ∈ ps → pages w !! l = Some pg → pages w !! l' = Some pg' →
                  Page.offset pg = Page.offset pg' → l = l') →
  GenericFsync.sync_pages_loop i ps r w = (w', Returned r') →
  BlockManager.log (block_manager w') = BlockManager.log (block_manager w) ++ msgs →
  forallb BlockManager.bio_success msgs = true →
  ∃ m', minode_map w' !! i = Some m' ∧
        blocks_private w' i ∧ blocks_on_file w' i ∧
        (∀ l pg, l ∈ ps → pages w !! l = Some pg →
                 disk_page w' m' (Page.offset pg) = Page.content pg) ∧
        (∀ o, (∀ l pg, l ∈ ps → pages w !! l = Some pg → Page.offset pg ≠ o) →
              disk_page w' m' o = disk_page w m o).
Proof.
  induction ps as [|l rest IH];
    intros w r m w' r' msgs Hok Hm Hbp Hbf Hnd Hdirty Hinj Hrun Hlog Hall.
  - simpl in Hrun. injection Hrun as <- _. exists m.
    split; [done|]. split; [done|]. split; [done|].
    split; [by intros l pg ?%elem_of_nil|done].
  - apply NoDup_cons in Hnd as [Hnotin Hnd].
    destruct (Hdirty l ltac:(left)) as (pg & Hpg & Hd).
    destruct (sync_page_prepare_step w i l pg m Hok Hpg Hm Hbp)
      as (w1 & block & m1 & Hrun1 & Hnn & Hok1 & Hlog1 & Hm1 & Hpages1 & Hotp1 & Hpath1
          & Hget & Hothers & Hvals & Hfp1 & Hsz1 & Hbp1).
    assert (Hpg1 : pages w1 !! l = Some (Page.set_flag_dirty false pg))
      by (by rewrite Hpages1, lookup_alter_eq, Hpg).
    destruct (sync_page_bwrite_disk w1 i l _ m1 block Hok1 Hpg1 Hm1 Hnn)
      as (b2 & bs & Hrun2 & Hok2 & Hlog2 & Hfl2 & Hlg2 & Hsz2 & Hfp2).
    set (w2 := set_block_manager b2 w1) in *.
    cbn [GenericFsync.sync_pages_loop] in Hrun.
    unfold bind at 1 in Hrun. unfold get_page at 1 in Hrun. rewrite Hpg, Hd in Hrun.
    cbn [negb] in Hrun. cbv iota in Hrun.
    rewrite (bind_returned _ _ _ _ _ Hrun1) in Hrun.
    rewrite (bind_returned _ _ _ _ _ Hrun2) in Hrun.
    (* the pages of the rest of the list are as they were *)
    assert (Hrestpages : ∀ l', l' ∈ rest → pages w2 !! l' = pages w !! l').
    { intros l' Hl'. unfold w2. cbn [pages set_block_manager]. rewrite Hpages1.
      apply lookup_alter_ne. by intros ->. }
    (* the lines logged by the rest of the loop *)
    destruct (sync_pages_loop_spec i rest w2 (if negb bs then - EIO else r) m1 Hok2 Hm1)
      as (w'' & msgs' & Hrun' & _ & _ & Hlog' & _).
    { apply Forall_forall. intros l' Hl'. rewrite Hrestpages by done.
      destruct (Hdirty l' ltac:(by right)) as (pg' & -> & _). eauto. }
    rewrite Hrun in Hrun'. assert (Hw : w'' = w') by congruence. subst w''.
    assert (Hmsgs : msgs = {| BlockManager.msg_block := block;
                              BlockManager.msg_path := MemInode.path m1;
                              BlockManager.msg_offset := Page.offset pg;
                              BlockManager.bio_success := bs |} :: msgs').
    { unfold w2 in Hlog'. cbn [block_manager set_block_manager] in Hlog'.
      rewrite Hlog2, Hlog1, <- app_assoc in Hlog'. rewrite Hlog in Hlog'.
      by apply app_inv_head in Hlog'. }
    rewrite Hmsgs in Hall. cbn [forallb BlockManager.bio_success] in Hall.
    apply andb_true_iff in Hall as [Hbs Hall']. specialize (Hfp2 Hbs).
    cbn [Page.content Page.set_flag_dirty] in Hfp2.
    pose proof Hok as (_ & Hlen & _). specialize (Hlen l pg Hpg). simpl in Hlen.
    assert (Hblocks_nn : Forall (λ b, 0 ≤ b) (PyDict.values (MemInode.offset_to_block m))).
    { destruct Hok as (Hmo & _). rewrite Hm in Hmo. apply Hmo. }
    assert (Hbf_m : Forall (λ b, b * PAGE_SZ < BlockManager.size (block_manager w) ∧
                                 (b + 1) * PAGE_SZ
                                 ≤ Z.of_nat (length (BlockManager.fp (block_manager w))))
                      (PyDict.values (MemInode.offset_to_block m))).
    { unfold blocks_on_file in Hbf. by rewrite Hm in Hbf. }
    assert (Hbp2 : blocks_private w2 i).
    { apply (blocks_private_ext w1); [exact Hfl2|exact Hlg2|done|exact Hbp1]. }
    assert (Hbf2 : blocks_on_file w2 i).
    { unfold blocks_on_file. unfold w2. cbn [minode_map block_manager set_block_manager].
      rewrite Hm1. apply Forall_forall. intros b Hb. rewrite Hsz2, Hfp2, Hsz1, Hfp1.
      rewrite pwrite_length by (unfold PAGE_SZ; lia). rewrite Hlen.
      destruct (Hvals b Hb) as [->|Hin].
      - unfold PAGE_SZ. lia.
      - rewrite Forall_forall in Hbf_m. destruct (Hbf_m b Hin). unfold PAGE_SZ in *. lia. }
    destruct (IH w2 (if negb bs then - EIO else r) m1 w' r' msgs' Hok2 Hm1 Hbp2 Hbf2 Hnd)
      as (m' & Hm' & Hbp' & Hbf' & Hwritten & Hkept); [| |done|done|done|].
    { intros l' Hl'. rewrite Hrestpages by done. apply Hdirty. by right. }
    { intros l1 l2 pg1 pg2 Hl1 Hl2. rewrite !Hrestpages by done.
      intros H1 H2. apply (Hinj l1 l2 pg1 pg2); by try right. }
    (* what the backing file has after the write of this round *)
    assert (Hthis : disk_page w2 m1 (Page.offset pg) = Page.content pg).
    { unfold disk_page. rewrite Hget. unfold w2. cbn [block_manager set_block_manager].
      rewrite Hfp2, <- Hlen. apply pread_pwrite. unfold PAGE_SZ. lia. }
    assert (Hthat : ∀ o, o ≠ Page.offset pg → disk_page w2 m1 o = disk_page w m o).
    { intros o Ho. unfold disk_page. rewrite (Hothers o Ho).
      destruct (PyDict.get o (MemInode.offset_to_block m)) as [b|] eqn:Hgo; [|done].
      unfold w2. cbn [block_manager set_block_manager]. rewrite Hfp2, Hfp1.
      apply pread_pwrite_other; [done|done| | |].
      - by apply (dict_values_get_Forall _ _ _ _ Hblocks_nn Hgo).
      - intros ->. apply Ho.
        destruct Hbp1 as [_ Hbp1]. rewrite Hm1 in Hbp1. destruct Hbp1 as [Hnd1 _].
        apply (dict_get_NoDup (MemInode.offset_to_block m1) o (Page.offset pg) block Hnd1);
          [|exact Hget].
        by rewrite (Hothers o Ho).
      - by destruct (dict_values_get_Forall _ _ _ _ Hbf_m Hgo). }
    exists m'. split; [done|]. split; [done|]. split; [done|]. split.
    + intros l' pg' [->|Hl']%elem_of_cons Hpg'.
      * rewrite Hpg in Hpg'. injection Hpg' as <-.
        rewrite Hkept; [done|].
        intros l2 pg2 Hl2 Hpg2 Heq. rewrite Hrestpages in Hpg2 by done.
        apply Hnotin. rewrite (Hinj l l2 pg pg2); try done; [by left|by right].
      * apply (Hwritten l'); [done|]. by rewrite Hrestpages.
    + intros o Ho. rewrite Hkept.
      * apply Hthat. intros ->. apply (Ho l pg); [by left|done|done].
      * intros l2 pg2 Hl2 Hpg2. rewrite Hrestpages in Hpg2 by done.
        apply (Ho l2 pg2); [by right|done].
Qed.

(** A byte of the backing file, by its page. *)
Lemma disk_byte_page w m o :
  Forall (λ b, 0 ≤ b) (PyDict.values (MemInode.offset_to_block m)) →
  disk_byte w m o = disk_page w m (o / PAGE_SZ * PAGE_SZ) !! Z.to_nat (o mod PAGE_SZ).
Proof.
  intros Hnn. unfold disk_byte, disk_page.
  destruct (page_split o) as [_ Hmod].
  destruct (PyDict.get (o / PAGE_SZ * PAGE_SZ) (MemInode.offset_to_block m))
    as [b|] eqn:Hg.
  - pose proof (dict_values_get_Forall _ _ _ _ Hnn Hg) as Hb. simpl in Hb.
    rewrite pread_lookup by (unfold PAGE_SZ in *; lia). f_equal.
    unfold PAGE_SZ in *. lia.
  - unfold zeros. symmetry. apply lookup_repeat_lt. unfold PAGE_SZ in *. lia.
Qed.

(** The pages of a page map, by their keys. *)
Lemma page_map_ok_get w i m key l :
  page_map_ok w i → minode_map w !! i = Some m →
  PyDict.get key (MemInode.offset_to_page m) = Some l →
  key mod PAGE_SZ = 0 ∧ ∃ pg, pages w !! l = Some pg ∧ Page.offset pg = key.
Proof.
  unfold page_map_ok. intros H Hm Hg. rewrite Hm in H. destruct H as [_ H].
  rewrite Forall_forall in H. destruct (H (key, l)) as [Hal Hoff].
  { by apply dict_get_elem_of. }
  simpl in *. split; [done|].
  destruct (pages w !! l) as [pg|]; [|done]. simpl in Hoff. injection Hoff as Hoff.
  eauto.
Qed.

Lemma page_map_ok_key w i m l pg :
  page_map_ok w i → minode_map w !! i = Some m →
  l ∈ PyDict.values (MemInode.offset_to_page m) → pages w !! l = Some pg →
  PyDict.get (Page.offset pg) (MemInode.offset_to_page m) = Some l.
Proof.
  unfold page_map_ok. intros H Hm Hl Hpg. rewrite Hm in H. destruct H as [Hk H].
  apply list_elem_of_In, in_map_iff in Hl as ([key l'] & Heq & Hin). simpl in Heq. subst l'.
  apply list_elem_of_In in Hin.
  rewrite Forall_forall in H. destruct (H (key, l) Hin) as [_ Hoff]. simpl in Hoff.
  rewrite Hpg in Hoff. simpl in Hoff. injection Hoff as ->.
  by apply dict_elem_of_get.
Qed.

Lemma NoDup_list_filter {A} (f : A → bool) (l : list A) :
  NoDup l → NoDup (List.filter f l).
Proof.
  induction l as [|x l IH]; simpl; [done|].
  intros [Hx Hnd]%NoDup_cons. destruct (f x); [|by apply IH].
  apply NoDup_cons. split; [|by apply IH].
  intros Hin. apply Hx. by apply list_elem_of_In, filter_In in Hin as [?%list_elem_of_In _].
Qed.

(** What the backing file has for a file once an [fsync] of the ordered
    policies went through: the cached pages, and for the offsets without a
    page what it had. *)
Lemma synced_on_disk w i m wa r msgs :
  file_ok w i → page_map_ok w i → blocks_private w i → clean_pages_on_disk w i →
  minode_map w !! i = Some m →
  GenericFsync.sync_pages i
    (List.filter (dirtyb w) (PyDict.values (MemInode.offset_to_page m))) w
    = (wa, Returned r) →
  BlockManager.log (block_manager wa) = BlockManager.log (block_manager w) ++ msgs →
  forallb BlockManager.bio_success msgs = true →
  ∃ m', minode_map wa !! i = Some m' ∧
    (∀ key l pg, PyDict.get key (MemInode.offset_to_page m) = Some l →
                 pages w !! l = Some pg → disk_page wa m' key = Page.content pg) ∧
    (∀ key, PyDict.get key (MemInode.offset_to_page m) = None →
            disk_page wa m' key = disk_page w m key).
Proof.
  intros (Hok & Hbf & Hpd) Hpm Hbp Hcl Hm Hrun Hlog Hall.
  set (ps := List.filter (dirtyb w) (PyDict.values (MemInode.offset_to_page m))) in *.
  assert (Hps : ∀ l, l ∈ ps → l ∈ PyDict.values (MemInode.offset_to_page m) ∧
                     ∃ pg, pages w !! l = Some pg ∧ Page.flag_dirty pg = true).
  { intros l [Hl Hd]%elem_of_dirty_filter. split; [done|]. unfold dirtyb in Hd.
    destruct (pages w !! l) as [pg|]; [eauto|done]. }
  destruct (sync_pages_loop_disk i ps w 0 m wa r msgs Hok Hm Hbp Hbf)
    as (m' & Hm' & _ & _ & Hwritten & Hkept); [| | |exact Hrun|exact Hlog|exact Hall|].
  { unfold pages_distinct in Hpd. rewrite Hm in Hpd. subst ps. by apply NoDup_list_filter. }
  { intros l Hl. by destruct (Hps l Hl). }
  { intros l l' pg pg' Hl Hl' Hpg Hpg' Heq.
    destruct (Hps l Hl) as [Hin _]. destruct (Hps l' Hl') as [Hin' _].
    pose proof (page_map_ok_key w i m l pg Hpm Hm Hin Hpg) as H1.
    pose proof (page_map_ok_key w i m l' pg' Hpm Hm Hin' Hpg') as H2.
    rewrite Heq in H1. congruence. }
  exists m'. split; [done|]. split.
  - intros key l pg Hg Hpg.
    destruct (page_map_ok_get w i m key l Hpm Hm Hg) as (_ & pg0 & Hpg0 & Hoff).
    rewrite Hpg in Hpg0. injection Hpg0 as <-.
    destruct (Page.flag_dirty pg) eqn:Hd.
    + rewrite <- Hoff. apply (Hwritten l); [|done].
      apply elem_of_dirty_filter. split; [by apply (dict_get_values key)|].
      unfold dirtyb. by rewrite Hpg.
    + rewrite Hkept.
      * unfold clean_pages_on_disk in Hcl. rewrite Hm in Hcl.
        rewrite Forall_forall in Hcl. specialize (Hcl (key, l) (dict_get_elem_of _ _ _ Hg)).
        simpl in Hcl. rewrite Hpg in Hcl. destruct Hcl as [Hcl|Hcl]; [congruence|done].
      * intros l' pg' Hl' Hpg' Heq. destruct (Hps l' Hl') as (Hin' & pg2 & Hpg2 & Hd2).
        rewrite Hpg' in Hpg2. injection Hpg2 as <-.
        pose proof (page_map_ok_key w i m l' pg' Hpm Hm Hin' Hpg') as H1.
        rewrite Heq, Hg in H1. injection H1 as <-. congruence.
  - intros key Hg. apply Hkept.
    intros l' pg' Hl' Hpg' Heq. destruct (Hps l' Hl') as (Hin' & _).
    pose proof (page_map_ok_key w i m l' pg' Hpm Hm Hin' Hpg') as H1.
    rewrite Heq, Hg in H1. done.
Qed.

(** X26: what a successful [fsync] makes durable.  Under the ordered
    policies, take a descriptor of a cached file in a well-formed state: the
    page map is as [_get_page_for_offset] builds it, the blocks of the inode
    are its own, and every clean page holds what the backing file has for
    it.  When no block write of the [fsync] fails, the file reads as before
    the call at every offset, and it still does once [evict-clean-pages] has
    emptied the page cache of the file: every byte written before the
    [fsync] is then read back from the backing file. *)
Theorem fsync_then_evict_keeps_data w path datasync fd info :
  fsync_cls w = Ext4Ordered ∨ fsync_cls w = XFS →
  fd_info_map w !! fd = Some info →
  let i := fd_inode info in
  file_ok w i → page_map_ok w i → blocks_private w i → clean_pages_on_disk w i →
  pages_exist w →
  let w1 := state_after (fsync path datasync fd) w in
  forallb BlockManager.bio_success (new_log w w1) = true →
  let w2 := state_after _command_evict_clean_pages w1 in
  outcome_of _command_evict_clean_pages w1 = Returned tt ∧
  (∀ o, file_byte w1 i o = file_byte w i o) ∧
  (∀ o, byte_at w2 i o = None) ∧
  (∀ o, file_byte w2 i o = file_byte w i o).
Proof.
  intros Hcls Hfd i Hfile Hpm Hbp Hcl Hex w1 Hall w2.
  pose proof Hfile as (Hok & _ & _).
  destruct (inode_ok_minode _ _ Hok) as (m & Hm & Hpages_m).
  destruct (generic_on_fsync_spec w fd i i m Hok Hm)
    as (wa & wb & msgs & Hsp & Hlog & Hoka & Hfr & Hclean & Hsd & Hrun & _).
  assert (Hfs : fsync path datasync fd w = GenericFsync.on_fsync fd i i w).
  { rewrite (fsync_runs_policy w path datasync fd info Hfd) by (fold i; eauto).
    rewrite on_fsync_dispatch. by destruct Hcls as [-> | ->]. }
  assert (Hw1 : w1 = wb).
  { subst w1. unfold state_after. by rewrite Hfs, Hrun. }
  assert (Hmsgs : new_log w w1 = msgs).
  { apply new_log_app. rewrite Hw1. destruct Hsd as (_ & _ & -> & _). exact Hlog. }
  rewrite Hmsgs in Hall. clearbody w1. subst w1.
  destruct (synced_on_disk w i m wa _ msgs Hfile Hpm Hbp Hcl Hm Hsp Hlog Hall)
    as (m' & Hm' & Hcached & Huncached).
  destruct Hsd as (Hp & Hmm & Hbm & _).
  assert (Hmb : minode_map wb !! i = Some m') by (by rewrite Hmm).
  assert (Hotp : MemInode.offset_to_page m' = MemInode.offset_to_page m).
  { pose proof (sf_minode _ _ _ Hfr) as Hmin. rewrite Hm, Hm' in Hmin.
    by inversion Hmin as [? ? (_&_&_&_&_&_&Hotp)|]; subst. }
  assert (Hdisk : ∀ o, disk_page wb m' o = disk_page wa m' o)
    by (intros o; apply disk_page_ext; [by rewrite Hbm|done]).
  assert (Hnn : Forall (λ b, 0 ≤ b) (PyDict.values (MemInode.offset_to_block m))).
  { destruct Hok as (Hmo & _). rewrite Hm in Hmo. apply Hmo. }
  assert (Hnn' : Forall (λ b, 0 ≤ b) (PyDict.values (MemInode.offset_to_block m'))).
  { destruct Hoka as (Hmo & _). rewrite Hm' in Hmo. apply Hmo. }
  (* the pages after the call: same content, all clean *)
  assert (Hpage : ∀ l pg, l ∈ PyDict.values (MemInode.offset_to_page m) →
                          pages w !! l = Some pg →
                          ∃ pg', pages wb !! l = Some pg' ∧
                                 Page.content pg' = Page.content pg ∧
                                 Page.flag_dirty pg' = false).
  { intros l pg Hl Hpg. destruct (Hclean l Hl) as (pg' & Hpg' & Hd').
    exists pg'. rewrite Hp. split; [done|]. split; [|done].
    pose proof (sf_pages _ _ _ Hfr l) as Hl2. rewrite Hpg, Hpg' in Hl2.
    by inversion Hl2 as [? ? (_&_&Hc&_)|]; subst. }
  (* every byte of the file is in the backing file *)
  assert (Hbyte : ∀ o, disk_byte wb m' o = file_byte w i o).
  { intros o. rewrite (disk_byte_page wb m' o Hnn'), Hdisk.
    unfold file_byte, byte_at, page_for. rewrite Hm. simpl.
    destruct (PyDict.get (o / PAGE_SZ * PAGE_SZ) (MemInode.offset_to_page m))
      as [l|] eqn:Hg; simpl.
    - destruct (page_map_ok_get w i m _ l Hpm Hm Hg) as (_ & pg & Hpg & _).
      rewrite Hpg. simpl. by rewrite (Hcached _ l pg Hg Hpg).
    - rewrite (Huncached _ Hg). symmetry. by apply disk_byte_page. }
  assert (Hexb : pages_exist wb).
  { intros j mj Hj. simpl. rewrite Hmm in Hj. apply Forall_forall. intros l Hl.
    rewrite Hp. apply (sync_frame_is_Some i w wa l Hfr).
    destruct (decide (j = i)) as [->|Hne].
    - rewrite Hm' in Hj. injection Hj as <-. rewrite Hotp in Hl.
      rewrite Forall_forall in Hpages_m. by apply Hpages_m.
    - rewrite (sf_others _ _ _ Hfr j Hne) in Hj. specialize (Hex j mj Hj). simpl in Hex.
      rewrite Forall_forall in Hex. by apply Hex. }
  assert (Hk : keys_once (MemInode.offset_to_page m')).
  { rewrite Hotp. unfold page_map_ok in Hpm. rewrite Hm in Hpm. apply Hpm. }
  subst w2. unfold outcome_of, state_after. rewrite (evict_clean_pages_run wb Hexb).
  cbn [fst snd]. split; [done|]. split; [|split].
  - intros o. unfold file_byte at 1. rewrite Hmb, Hotp.
    destruct (PyDict.get (o / PAGE_SZ * PAGE_SZ) (MemInode.offset_to_page m))
      as [l|] eqn:Hg.
    + unfold file_byte, byte_at, page_for. rewrite Hm, Hmb. simpl.
      rewrite Hotp, Hg. simpl.
      destruct (page_map_ok_get w i m _ l Hpm Hm Hg) as (_ & pg & Hpg & _).
      destruct (Hpage l pg (dict_get_values _ _ _ Hg) Hpg) as (pg' & Hpg' & Hc & _).
      rewrite Hpg, Hpg'. simpl. by rewrite Hc.
    + apply Hbyte.
  - intros o. unfold byte_at, page_for. cbn [minode_map set_minode_map pages].
    rewrite lookup_fmap, Hmb. simpl. rewrite get_evicted by done. rewrite Hotp.
    destruct (PyDict.get (o / PAGE_SZ * PAGE_SZ) (MemInode.offset_to_page m))
      as [l|] eqn:Hg; [|done].
    destruct (page_map_ok_get w i m _ l Hpm Hm Hg) as (_ & pg & Hpg & _).
    destruct (Hpage l pg (dict_get_values _ _ _ Hg) Hpg) as (pg' & Hpg' & _ & Hd').
    unfold dirtyb. by rewrite Hpg', Hd'.
  - intros o. rewrite (evicted_file_byte wb i m' o Hexb Hmb Hk).
    destruct (page_for wb i o) as [pg'|] eqn:Hpf; [|apply Hbyte].
    assert (Hd : Page.flag_dirty pg' = false).
    { unfold page_for in Hpf. rewrite Hmb in Hpf. simpl in Hpf. rewrite Hotp in Hpf.
      destruct (PyDict.get (o / PAGE_SZ * PAGE_SZ) (MemInode.offset_to_page m))
        as [l|] eqn:Hg; [|done]. simpl in Hpf.
      destruct (page_map_ok_get w i m _ l Hpm Hm Hg) as (_ & pg & Hpg & _).
      destruct (Hpage l pg (dict_get_values _ _ _ Hg) Hpg) as (pg2 & Hpg2 & _ & Hd2).
      congruence. }
    rewrite Hd. apply Hbyte.
Qed.

Lemma fsync_then_evict_keeps_data_witness :
  outcome_of _command_evict_clean_pages
    (state_after (fsync "/f" 0 4)
       (state_after (write "/f" (page_of "x") 4096 4 104) (three_pages Ext4Ordered)))
  = Returned tt ∧
  file_byte
    (state_after _command_evict_clean_pages
       (state_after (fsync "/f" 0 4)
          (state_after (write "/f" (page_of "x") 4096 4 104) (three_pages Ext4Ordered))))
    7 4096
  = Some "x"%byte.
Proof.
  set (w := state_after (write "/f" (page_of "x") 4096 4 104) (three_pages Ext4Ordered)).
  destruct (fsync_then_evict_keeps_data w "/f" 0 4
              {| fd_inode := 7; fd_path := "/root/f" |})
    as (Hrun & _ & _ & Hbytes).
  - left. vm_compute; reflexivity.
  - vm_compute; reflexivity.
  - decide_by_compute.
  - decide_by_compute.
  - decide_by_compute.
  - decide_by_compute.
  - decide_by_compute.
  - vm_compute; reflexivity.
  - split; [exact Hrun|]. etransitivity; [exact (Hbytes 4096)|]. vm_compute; reflexivity.
Defined.

(** ** States the calls reach in which a page is short *)

(** A [bwrite] whose sectors all fail writes nothing and still moves
    [size] past the block.  When the block lies past the end of the backing
    file it stays mapped under the ordered policies, and once the page is
    evicted, [bread] passes its assertion and reads no byte: the page the
    next [write] builds holds only the bytes written into it. *)
Lemma failed_append_leaves_short_block :
  let w := failed_append Ext4Ordered in
  outcome_of fail_append (mounted_with_fault Ext4Ordered "xW" 3) = Returned tt ∧
  BlockManager.size (block_manager w) = 4 * PAGE_SZ ∧
  length (BlockManager.fp (block_manager w)) = Z.to_nat (3 * PAGE_SZ) ∧
  MemInode.offset_to_block <$> minode_map w !! 7
    = Some [(0, 0); (4096, 1); (8192, 2); (12288, 3)] ∧
  MemInode.offset_to_page <$> minode_map w !! 7 = Some [] ∧
  outcome_of (on_block_manager (BlockManager.bread 3)) w = Returned [] ∧
  inode_ok w 7 ∧ ¬ file_ok w 7.
Proof.
  split; [vm_compute; reflexivity|]. split; [vm_compute; reflexivity|].
  split; [vm_compute; reflexivity|]. split; [vm_compute; reflexivity|].
  split; [vm_compute; reflexivity|]. split; [vm_compute; reflexivity|].
  split; [decide_by_compute|].
  apply (@bool_decide_eq_false_1 _ (file_ok_dec _ _)). vm_compute. reflexivity.
Qed.


(** X27: after a failed append a [write] is not read back.  The file
    system is mounted with the fault [xW] on the fourth block of the path;
    the file of the test suite is written and synced, a page is appended,
    the [fsync] of it fails and the clean pages are evicted.  Under
    ext4-ordered, XFS and ext4 in data mode the block of the failed append
    stays mapped, past the end of the backing file; after the eviction the
    byte written at 12388 goes into the empty page that block gives, at its
    start: the call returns 1, and the [read] of that byte at the same
    offset through the same descriptor finds no byte at position 100 of the
    page and loops for ever, while a [read] at the start of the page
    returns the byte.  No [fsync] came between the two calls.  Under btrfs
    the failed [fsync] took the block out of the block map again, and the
    byte is read back. *)
Theorem read_after_write_on_short_page cls :
  let w := failed_append cls in
  let w1 := state_after (write "/f" ["e"%byte] 12388 4 106) w in
  outcome_of fail_append (mounted_with_fault cls "xW" 3) = Returned tt ∧
  fd_info_map w !! 4 = Some {| fd_inode := 7; fd_path := "/root/f" |} ∧
  outcome_of (write "/f" ["e"%byte] 12388 4 106) w = Returned 1 ∧
  match cls with
  | Btrfs =>
      file_ok w 7 ∧ outcome_of (read "/f" 1 12388 4) w1 = Returned ["e"%byte]
  | _ =>
      ¬ file_ok w 7 ∧
      outcome_of (on_block_manager (BlockManager.bread 3)) w = Returned [] ∧
      outcome_of (read "/f" 1 12388 4) w1 = Diverged ∧
      outcome_of (read "/f" 1 12288 4) w1 = Returned ["e"%byte]
  end.
Proof.
  destruct cls; (split; [vm_compute; reflexivity|]);
    (split; [vm_compute; reflexivity|]); (split; [vm_compute; reflexivity|]);
    try (split; [decide_by_compute|vm_compute; reflexivity]);
    (split; [apply (@bool_decide_eq_false_1 _ (file_ok_dec _ _)); vm_compute; reflexivity|]);
    (split; [vm_compute; reflexivity|]); split; vm_compute; reflexivity.
Qed.

(** ** A failure with no descriptor open *)

(** C5, on the code.  The file system is mounted with the fault [wxW] on
    the second block of the path.  The file is written and synced, written
    again and closed with the dirty page, and no descriptor is open when a
    checkpoint writes the page and the write fails.  Under ext4-ordered, XFS and btrfs the failing [on_fsync] is
    itself the first caller that finds the empty set of the inode: the
    pseudo-descriptor [-1] is told and the entry is dropped.  The next
    descriptor opened on the file gets 0 from its first [fsync] (and from
    the second): the failure is never reported.  Under ext4 in data mode
    the entry stays, empty, and the first [fsync] of the next descriptor
    returns [-EIO], the second 0. *)
Theorem checkpoint_failure_is_not_reported cls :
  let w := closed_dirty cls in
  let w1 := state_after fs_checkpoint w in
  let w2 := state_after (open "/f" plain) w1 in
  let w3 := state_after (fsync "/f" 0 5) w2 in
  outcome_of close_dirty (mounted_with_fault cls "wxW" 1) = Returned tt ∧
  inode_to_open_fds_map w !! 7 = None ∧ fd_info_map w = ∅ ∧
  failed_inodes_fd_map w !! 7 = None ∧ is_dirty w 2 ∧
  outcome_of fs_checkpoint w = Returned tt ∧
  forallb BlockManager.bio_success (new_log w w1) = false ∧
  outcome_of (open "/f" plain) w1 = Returned 5 ∧
  forallb BlockManager.bio_success (new_log w2 w3) = true ∧
  match cls with
  | Ext4Data =>
      failed_inodes_fd_map w1 !! 7 = Some ∅ ∧
      outcome_of (fsync "/f" 0 5) w2 = Returned (- EIO) ∧
      outcome_of (fsync "/f" 0 5) w3 = Returned 0
  | _ =>
      failed_inodes_fd_map w1 !! 7 = None ∧
      outcome_of (fsync "/f" 0 5) w2 = Returned 0 ∧
      outcome_of (fsync "/f" 0 5) w3 = Returned 0
  end.
Proof.
  destruct cls; (split; [vm_compute; reflexivity|]); (split; [vm_compute; reflexivity|]);
    (split; [vm_compute; reflexivity|]); (split; [vm_compute; reflexivity|]);
    (split; [eexists; split; [vm_compute; reflexivity|reflexivity]|]);
    (split; [vm_compute; reflexivity|]); (split; [vm_compute; reflexivity|]);
    (split; [vm_compute; reflexivity|]); (split; [vm_compute; reflexivity|]);
    (split; [vm_compute; reflexivity|]); split; vm_compute; reflexivity.
Qed.

(** Under the ordered policies this is so in every state fit for I/O: an
    [on_fsync] during which a block write fails, for an inode with no
    descriptor open and no failure pending, returns [-EIO] to its caller,
    whoever that is, and leaves no entry for the inode. *)
Lemma failure_without_descriptor_is_dropped w fd inode minode :
  fsync_cls w = Ext4Ordered ∨ fsync_cls w = XFS →
  inode_ok w minode →
  failed_inodes_fd_map w !! inode = None →
  default ∅ (inode_to_open_fds_map w !! inode) = ∅ →
  let w' := state_after (on_fsync fd inode minode) w in
  forallb BlockManager.bio_success (new_log w w') = false →
  outcome_of (on_fsync fd inode minode) w = Returned (- EIO) ∧
  failed_inodes_fd_map w' !! inode = None.
Proof.
  intros Hcls Hok Hnone Hopen w' Hfailed.
  destruct (inode_ok_minode _ _ Hok) as (m & Hm & _).
  destruct (generic_on_fsync_spec w fd inode minode m Hok Hm)
    as (w1 & w2 & msgs & _ & Hlog & _ & _ & _ & Hsd & Hrun & Hfail).
  assert (Hfs : on_fsync fd inode minode w = GenericFsync.on_fsync fd inode minode w).
  { rewrite on_fsync_dispatch. by destruct Hcls as [-> | ->]. }
  assert (Hw' : w' = w2).
  { subst w'. unfold state_after. by rewrite Hfs, Hrun. }
  assert (Hmsgs : new_log w w' = msgs).
  { apply new_log_app. rewrite Hw'. destruct Hsd as (_ & _ & -> & _). exact Hlog. }
  rewrite Hmsgs in Hfailed. unfold outcome_of. rewrite Hfs, Hrun, Hw'.
  clear Hw' Hmsgs Hfs Hrun. simpl in *. rewrite Hfailed in *. simpl in *.
  rewrite Hnone, Hopen in *. simpl in *.
  assert (Ho : owed (set_failed_inodes_fd_map
                       (<[inode := ∅ ∪ ∅]> (failed_inodes_fd_map w)) w) fd inode = true).
  { unfold owed. simpl. rewrite lookup_insert_eq.
    replace (∅ ∪ ∅ : gset Z) with (∅ : gset Z) by set_solver. by rewrite size_empty. }
  rewrite Ho in *. split; [done|].
  rewrite Hfail, lookup_insert_eq.
  replace ((∅ ∪ ∅) ∖ {[fd]} : gset Z) with (∅ : gset Z) by set_solver.
  rewrite size_empty. simpl. by rewrite lookup_delete_eq.
Qed.

(** ** A failure with other descriptors open *)

(** X28: the notification that does reach the next opener.  Under the
    ordered policies, in a state fit for I/O with no failure pending for
    the inode, an [on_fsync] during which a block write fails, made while
    descriptors other than the caller are open on the inode, returns [-EIO]
    and leaves exactly those descriptors owed a notification.  When they
    all close without having been told, the entry of the inode stays,
    empty; whatever then leaves the entry alone (a new descriptor is
    opened), the first [on_fsync] on the inode, by whichever descriptor,
    returns [-EIO], and a second one by the same descriptor during which
    no block write fails returns 0. *)
Theorem failed_fsync_reaches_next_opener w fd inode minode closed w3 fd' :
  fsync_cls w = Ext4Ordered ∨ fsync_cls w = XFS →
  inode_ok w minode →
  failed_inodes_fd_map w !! inode = None →
  let others := default ∅ (inode_to_open_fds_map w !! inode) ∖ {[fd]} in
  others ≠ ∅ →
  let w1 := state_after (on_fsync fd inode minode) w in
  forallb BlockManager.bio_success (new_log w w1) = false →
  (∀ f, f ∈ others → f ∈ closed) →
  let w2 := state_after (close_all closed inode) w1 in
  failed_inodes_fd_map w3 !! inode = failed_inodes_fd_map w2 !! inode →
  inode_ok w3 minode →
  outcome_of (on_fsync fd inode minode) w = Returned (- EIO) ∧
  failed_inodes_fd_map w1 !! inode = Some others ∧
  failed_inodes_fd_map w2 !! inode = Some ∅ ∧
  ∃ w4, on_fsync fd' inode minode w3 = (w4, Returned (- EIO)) ∧
    ((∀ msg, msg ∈ new_log w4 (state_after (on_fsync fd' inode minode) w4) →
        BlockManager.bio_success msg = true) →
     outcome_of (on_fsync fd' inode minode) w4 = Returned 0).
Proof.
  intros Hcls Hok Hnone others Hothers w1 Hfailed Hclosed w2 Hsame Hok3.
  destruct (inode_ok_minode _ _ Hok) as (m & Hm & _).
  destruct (generic_on_fsync_spec w fd inode minode m Hok Hm)
    as (wa & wb & msgs & _ & Hlog & _ & _ & _ & Hsd & Hrun & Hfail).
  assert (Hfs : on_fsync fd inode minode w = GenericFsync.on_fsync fd inode minode w).
  { rewrite on_fsync_dispatch. by destruct Hcls as [-> | ->]. }
  assert (Hw1 : w1 = wb).
  { subst w1. unfold state_after. by rewrite Hfs, Hrun. }
  assert (Hmsgs : new_log w w1 = msgs).
  { apply new_log_app. rewrite Hw1. destruct Hsd as (_ & _ & -> & _). exact Hlog. }
  rewrite Hmsgs in Hfailed.
  assert (Hentry : failed_inodes_fd_map w1 !! inode = Some others).
  { rewrite Hw1, Hfail. clear Hrun Hfail. simpl. rewrite Hfailed. simpl.
    rewrite Hnone. simpl.
    set (open_fds := default ∅ (inode_to_open_fds_map w !! inode)) in *.
    assert (Hu : (∅ ∪ open_fds : gset Z) = open_fds) by (clear; set_solver).
    rewrite Hu. unfold owed. simpl. rewrite !lookup_insert_eq.
    destruct (size open_fds =? 0)%nat eqn:Hsz.
    { apply size_zero_iff in Hsz. exfalso. apply Hothers. subst others.
      rewrite Hsz. clear. set_solver. }
    simpl. destruct (decide (fd ∈ open_fds)) as [Hin|Hnin].
    - rewrite bool_decide_eq_true_2 by done.
      destruct (size (open_fds ∖ {[fd]}) =? 0)%nat eqn:Hsz'.
      + apply size_zero_iff in Hsz'. by destruct Hothers.
      + by rewrite lookup_insert_eq.
    - rewrite bool_decide_eq_false_2 by done. rewrite lookup_insert_eq. f_equal.
      subst others. clear -Hnin. set_solver. }
  assert (Hempty : failed_inodes_fd_map w2 !! inode = Some ∅)
    by exact (entry_after_close_all w1 inode closed others Hentry Hclosed).
  split.
  { unfold outcome_of. rewrite Hfs, Hrun. simpl. rewrite Hfailed. simpl.
    match goal with |- Returned (if ?b then _ else _) = _ => by destruct b end. }
  split; [exact Hentry|]. split; [exact Hempty|].
  apply empty_entry_notifies_once; [by rewrite Hsame|done].
Qed.

Lemma failed_fsync_reaches_next_opener_witness :
  let w := state_after (open "/f" plain) (overwritten Ext4Ordered) in
  let w1 := state_after (on_fsync 4 7 7) w in
  let w2 := state_after (close_all [5] 7) w1 in
  let w3 := state_after (open "/f" plain) w2 in
  outcome_of (on_fsync 4 7 7) w = Returned (- EIO) ∧
  failed_inodes_fd_map w1 !! 7 = Some {[5]} ∧
  outcome_of (open "/f" plain) w2 = Returned 6 ∧
  ∃ w4, on_fsync 6 7 7 w3 = (w4, Returned (- EIO)).
Proof.
  set (w := state_after (open "/f" plain) (overwritten Ext4Ordered)).
  set (w1 := state_after (on_fsync 4 7 7) w).
  set (w2 := state_after (close_all [5] 7) w1).
  set (w3 := state_after (open "/f" plain) w2).
  assert (Hothers : default ∅ (inode_to_open_fds_map w !! 7) ∖ {[4]} = ({[5]} : gset Z))
    by (vm_compute; reflexivity).
  destruct (failed_fsync_reaches_next_opener w 4 7 7 [5] w3 6)
    as (H1 & H2 & _ & w4 & H4 & _).
  - left. vm_compute; reflexivity.
  - decide_by_compute.
  - vm_compute; reflexivity.
  - rewrite Hothers. intros H. assert (5 ∈ (∅ : gset Z)) as []%not_elem_of_empty.
    rewrite <- H. by apply elem_of_singleton.
  - vm_compute; reflexivity.
  - rewrite Hothers. intros f Hf%elem_of_singleton. subst f. apply list_elem_of_here.
  - vm_compute; reflexivity.
  - decide_by_compute.
  - split; [exact H1|]. split; [by rewrite H2, Hothers|].
    split; [vm_compute; reflexivity|]. exists w4. exact H4.
Defined.
